(** * Widget interaction and picking (windowmanager/intern/wm_widgets.c)

    A shallow embedding of the widget map of [wm_widgets.c]: the 3D picking
    resolution over the select buffer, the per-pass regeneration of widgets
    with its visible-widget hash, and the highlight / selection / activation
    bookkeeping of the interaction context. *)

From Stdlib Require Import ZArith QArith Qround Qabs Lia Lqa.
From stdpp Require Import gmap strings list fin_maps.

Local Open Scope Z_scope.

(** ** Machine integers *)

(** [GLuint] is an unsigned 32-bit integer, [int] a signed one, [short] a
    signed 16-bit one, [unsigned char] an unsigned 8-bit one. *)
Definition to_GLuint (z : Z) : Z := z mod 2 ^ 32.
Definition to_int (z : Z) : Z := (z + 2 ^ 31) mod 2 ^ 32 - 2 ^ 31.
Definition to_short (z : Z) : Z := (z + 2 ^ 15) mod 2 ^ 16 - 2 ^ 15.
Definition to_uchar (z : Z) : Z := z mod 2 ^ 8.

Definition is_GLuint (z : Z) : Prop := 0 <= z < 2 ^ 32.

(** ** The 3D picking resolution *)

Module Picking.

(** The select buffer [GLuint buffer[64]]: four words per hit record, the
    minimum depth in word 1 and the id in word 3. *)
Definition buffer_at (buffer : list Z) (i : Z) : Z :=
  nth (Z.to_nat i) buffer 0.

(** The scan of lines 1035-1043: [n] iterations are left, [a] is the loop
    counter. [minval == -1] compares the [GLuint] with [(GLuint)-1]. *)
Fixpoint scan_hits (buffer : list Z) (n : nat) (a mindep minval : Z) : Z :=
  match n with
  | O => minval
  | S n' =>
      let dep := buffer_at buffer (4 * a + 1) in
      let val := buffer_at buffer (4 * a + 3) in
      if (minval =? to_GLuint (-1)) || (dep <? mindep)
      then scan_hits buffer n' (a + 1) dep val
      else scan_hits buffer n' (a + 1) mindep minval
  end.

(** Lines 1024-1048 of [wm_widget_find_highlighted_3D_intern]: what the
    function returns for the buffer and the number of hits that the select
    session left. The function returns [int]. *)
Definition resolve_hits (buffer : list Z) (hits : Z) : Z :=
  if hits =? 1 then to_int (buffer_at buffer 3)
  else if 1 <? hits then
    to_int (scan_hits buffer (Z.to_nat hits) 0 0 (to_GLuint (-1)))
  else -1.

(** A hit record as the select session reports it. *)
Record hit := Hit { hit_depth : Z; hit_id : Z }.

(** The buffer holds the records [l], in this order. *)
Definition buffer_holds (buffer : list Z) (l : list hit) : Prop :=
  forall (a : nat) (h : hit), l !! a = Some h ->
    buffer_at buffer (4 * Z.of_nat a + 1) = hit_depth h /\
    buffer_at buffer (4 * Z.of_nat a + 3) = hit_id h.

(** The buffer a select session writes for the records [l]:
    name count, minimum depth, maximum depth, name. *)
Definition buffer_of (l : list hit) : list Z :=
  flat_map (fun h => [1; hit_depth h; hit_depth h; hit_id h]) l.

(** The scan over the records themselves, without the buffer. *)
Fixpoint scan_records (l : list hit) (mindep minval : Z) : Z :=
  match l with
  | [] => minval
  | h :: t =>
      if (minval =? to_GLuint (-1)) || (hit_depth h <? mindep)
      then scan_records t (hit_depth h) (hit_id h)
      else scan_records t mindep minval
  end.

(** [h], at position [i] of [l], is the first record of minimum depth. *)
Definition first_nearest (l : list hit) (i : nat) (h : hit) : Prop :=
  l !! i = Some h /\
  (forall (j : nat) (h' : hit), l !! j = Some h' -> hit_depth h <= hit_depth h') /\
  (forall (j : nat) (h' : hit), (j < i)%nat -> l !! j = Some h' ->
     hit_depth h < hit_depth h').

(** The value of [-1] as a [GLuint]: the "nothing found yet" mark of the scan. *)
Definition no_hit_mark : Z := to_GLuint (-1).

(** Depth and id of a record are [GLuint] words of the buffer. *)
Definition valid_hit (h : hit) : Prop :=
  is_GLuint (hit_depth h) /\ is_GLuint (hit_id h).

(** Two records: the nearer one carries the id [0xFFFFFFFF]. *)
Definition hits_with_mark : list hit := [Hit 1 4294967295; Hit 5 7].

(** Two coincident handles at depths 4 and 6, reported far one first. *)
Definition hits_two_handles : list hit := [Hit 6 256; Hit 4 513].

(** *** Single-precision arithmetic *)

(** A [float] is kept as the rational it stands for. The operations round
    to the nearest [binary32] value, ties to even; values stay in the
    normal range here (no overflow, no subnormal results but zero). *)
Definition float := Q.

Definition pow2 (e : Z) : Q :=
  if 0 <=? e then inject_Z (2 ^ e) else 1 # (2 ^ Z.to_pos (- e))%positive.

(** The exponent of a positive rational: [2 ^ e <= q < 2 ^ (e + 1)]. *)
Definition ilog2 (q : Q) : Z :=
  let e0 := Z.log2 (Qnum q) - Z.log2 (Zpos (Qden q)) in
  if Qle_bool (pow2 e0) q then e0 else e0 - 1.

Definition round_half_even (y : Q) : Z :=
  let f := Qfloor y in
  match (2 * (y - inject_Z f) ?= 1)%Q with
  | Lt => f
  | Gt => f + 1
  | Eq => if Z.even f then f else f + 1
  end.

(** 24 bits of significand: the unit in the last place of [q] is
    [2 ^ (e - 23)]. *)
Definition f32_round_pos (q : Q) : Q :=
  let u := pow2 (ilog2 q) in
  (inject_Z (round_half_even (q * inject_Z (2 ^ 23) / u)) * u / inject_Z (2 ^ 23))%Q.

Definition f32_round (q : Q) : float :=
  Qred match (0 ?= q)%Q with
       | Lt => f32_round_pos q
       | Gt => - f32_round_pos (- q)
       | Eq => 0
       end.

Definition f32_of_int (z : Z) : float := f32_round (inject_Z z).
Definition f32_add (a b : float) : float := f32_round (a + b).
Definition f32_sub (a b : float) : float := f32_round (a - b).
Definition f32_mul (a b : float) : float := f32_round (a * b).

(** *** The two passes *)

Record rctf := Rctf { xmin : float; xmax : float; ymin : float; ymax : float }.

Inductive select_mode :=
  | GPU_SELECT_ALL
  | GPU_SELECT_NEAREST_FIRST_PASS
  | GPU_SELECT_NEAREST_SECOND_PASS.

(** One select session, from [GPU_select_begin] to [GPU_select_end]: the
    rectangle, the mode, the hits of the pass before, and the widgets drawn
    with their selection ids. *)
Record session := Session {
  s_rect : rctf;
  s_mode : select_mode;
  s_oldhits : Z;
  s_draws : list (positive * Z);
}.

(** The select module: [query_check_active] is the result of
    [GPU_select_query_check_active], [select_end s] the buffer that the
    session [s] leaves and what [GPU_select_end] returns for it. *)
Record gpu := Gpu {
  query_check_active : bool;
  select_end : session -> list Z * Z;
}.

(** The event's [mval]. *)
Record cursor := Cursor { mval_x : Z; mval_y : Z }.

(** [widget_find_active_3D_loop], lines 967-979: every widget is drawn with
    its position in the list, shifted by 8 bits, as selection id. *)
Definition widget_find_active_3D_loop (visible_widgets : list positive)
  : list (positive * Z) :=
  imap (fun i widget => (widget, to_int (Z.shiftl (Z.of_nat i) 8))) visible_widgets.

(** Lines 996-999. *)
Definition pick_rect (ev : cursor) (hotspot : float) : rctf :=
  Rctf (f32_sub (f32_of_int (mval_x ev)) hotspot)
       (f32_add (f32_of_int (mval_x ev)) hotspot)
       (f32_sub (f32_of_int (mval_y ev)) hotspot)
       (f32_add (f32_of_int (mval_y ev)) hotspot).

(** [wm_widget_find_highlighted_3D_intern], lines 981-1049: the value
    returned and the select sessions run, in order. *)
Definition wm_widget_find_highlighted_3D_intern (G : gpu)
    (visible_widgets : list positive) (ev : cursor) (hotspot : float)
  : Z * list session :=
  let selrect := pick_rect ev hotspot in
  let draws := widget_find_active_3D_loop visible_widgets in
  if query_check_active G then
    let s1 := Session selrect GPU_SELECT_NEAREST_FIRST_PASS 0 draws in
    let hits := to_short (select_end G s1).2 in
    let s2 := Session selrect GPU_SELECT_NEAREST_SECOND_PASS hits draws in
    (resolve_hits (select_end G s2).1 hits, [s1; s2])
  else
    let s1 := Session selrect GPU_SELECT_ALL 0 draws in
    let hits := to_short (select_end G s1).2 in
    (resolve_hits (select_end G s1).1 hits, [s1]).

(** [const float hotspot = 14.0f], and the two radii [0.5f * hotspot] and
    [0.2f * hotspot] of lines 1079 and 1084. *)
Definition hotspot : float := 14 # 1.
Definition hotspot_first : float := f32_mul (f32_round (1 # 2)) hotspot.
Definition hotspot_second : float := f32_mul (f32_round (1 # 5)) hotspot.

(** [BLI_findlink] followed by [link->data]: no result for a number that
    is not a position of the list. *)
Definition findlink_data (visible_widgets : list positive) (number : Z)
  : option positive :=
  if number <? 0 then None else visible_widgets !! Z.to_nat number.

(** The widget and sub-part that the id [ret] stands for, lines 1089-1091. *)
Definition decode_hit (visible_widgets : list positive) (ret : Z)
  : option (option positive * Z) :=
  match findlink_data visible_widgets (Z.shiftr ret 8) with
  | Some widget => Some (Some widget, to_uchar (Z.land ret 255))
  | None => None
  end.

(** [wm_widget_find_highlighted_3D], lines 1066-1097, on the list that
    [wm_prepare_visible_widgets_3D] built: the widget found with its
    sub-part ([None] when the function has no defined result), and the
    select sessions run. *)
Definition wm_widget_find_highlighted_3D (G : gpu)
    (visible_widgets : list positive) (ev : cursor)
  : option (option positive * Z) * list session :=
  let first := wm_widget_find_highlighted_3D_intern G visible_widgets ev hotspot_first in
  if first.1 =? -1 then (Some (None, 0), first.2)
  else
    let second := wm_widget_find_highlighted_3D_intern G visible_widgets ev hotspot_second in
    let ret := if second.1 =? -1 then first.1 else second.1 in
    (decode_hit visible_widgets ret, first.2 ++ second.2).

(** [x] is [y] up to [tol]. *)
Definition about (tol x y : Q) : Prop := (Qabs (x - y) <= tol)%Q.

(** The rectangle reaches about [h] from the cursor to each side. *)
Definition extends (tol : Q) (r : rctf) (ev : cursor) (h : Q) : Prop :=
  about tol (inject_Z (mval_x ev) - xmin r) h /\
  about tol (xmax r - inject_Z (mval_x ev)) h /\
  about tol (inject_Z (mval_y ev) - ymin r) h /\
  about tol (ymax r - inject_Z (mval_y ev)) h.

(** A select module that reports one hit, with id 0, whatever is drawn. *)
Definition one_hit : gpu := Gpu false (fun _ => ([1; 0; 0; 0], 1)).

End Picking.

(** ** The widget map *)

Module WM.

(** Addresses of heap-allocated widgets and groups; identities of the
    function pointers a widget or a group type carries. *)
Definition ptr := positive.
Definition callback := nat.

(** *** Flags *)

(** The header with the enum of the [wmWidget->flag] bits is not among the
    sources. The spec lists the state flags as independent and combinable,
    so each is one bit of its own; the functions below use these four. *)

(** Modelled from the spec: the missing enum value of the state flag
    "highlighted". *)
Definition WM_WIDGET_HIGHLIGHT : Z := 2 ^ 0.
(** Modelled from the spec: the missing enum value of the state flag
    "active". *)
Definition WM_WIDGET_ACTIVE : Z := 2 ^ 1.
(** Modelled from the spec: the missing enum value of the state flag
    "selected". *)
Definition WM_WIDGET_SELECTED : Z := 2 ^ 2.
(** Modelled from the spec: the missing enum value of the state flag
    "hidden". *)
Definition WM_WIDGET_HIDDEN : Z := 2 ^ 7.

(** [(flag & mask) != 0], [flag |= mask], [flag &= ~mask]. *)
Definition has_flag (flag mask : Z) : bool := negb (Z.land flag mask =? 0).
Definition flag_enable (flag mask : Z) : Z := Z.lor flag mask.
Definition flag_disable (flag mask : Z) : Z := Z.land flag (Z.lnot mask).

(** *** Data *)

Record wmOperatorType := OperatorType { ot_idname : string }.

(** The fields of [wmWidget] that the functions below read or write (the
    header that declares the struct is not among the sources).
    [opptr] is [opptr.data], the parameter block of the bound operator;
    [scale] is a [float], kept as the rational it stands for. *)
Record wmWidget := Widget {
  idname : string;
  wgroup : ptr;
  flag : Z;
  highlighted_part : Z;
  scale : Q;
  opname : option string;
  opptr : option Z;
  interaction_data : option Z;
  invoke : option callback;
  handler : option callback;
  select : option callback;
  get_cursor : option callback;
  render_3d_intersection : option callback;
}.

Definition set_flag (f : Z) (w : wmWidget) : wmWidget :=
  Widget (idname w) (wgroup w) f (highlighted_part w) (scale w) (opname w)
    (opptr w) (interaction_data w) (invoke w) (handler w) (select w)
    (get_cursor w) (render_3d_intersection w).
Definition set_highlighted_part (part : Z) (w : wmWidget) : wmWidget :=
  Widget (idname w) (wgroup w) (flag w) part (scale w) (opname w)
    (opptr w) (interaction_data w) (invoke w) (handler w) (select w)
    (get_cursor w) (render_3d_intersection w).
Definition set_scale (sc : Q) (w : wmWidget) : wmWidget :=
  Widget (idname w) (wgroup w) (flag w) (highlighted_part w) sc (opname w)
    (opptr w) (interaction_data w) (invoke w) (handler w) (select w)
    (get_cursor w) (render_3d_intersection w).
Definition set_interaction_data (d : option Z) (w : wmWidget) : wmWidget :=
  Widget (idname w) (wgroup w) (flag w) (highlighted_part w) (scale w) (opname w)
    (opptr w) d (invoke w) (handler w) (select w)
    (get_cursor w) (render_3d_intersection w).
Definition set_opptr (o : option Z) (w : wmWidget) : wmWidget :=
  Widget (idname w) (wgroup w) (flag w) (highlighted_part w) (scale w) (opname w)
    o (interaction_data w) (invoke w) (handler w) (select w)
    (get_cursor w) (render_3d_intersection w).
Definition set_wgroup (g : ptr) (w : wmWidget) : wmWidget :=
  Widget (idname w) g (flag w) (highlighted_part w) (scale w) (opname w)
    (opptr w) (interaction_data w) (invoke w) (handler w) (select w)
    (get_cursor w) (render_3d_intersection w).

Record wmWidgetGroupType := GroupType {
  gt_idname : string;
  gt_poll : option callback;
  gt_create : option callback;
}.

(** A group and its list of widgets ([wgroup->widgets], first to last). *)
Record wmWidgetGroup := Group {
  wg_addr : ptr;
  wg_type : wmWidgetGroupType;
  wg_widgets : list ptr;
}.

(** The widget map with its interaction context [wmap_context], the heap of
    widgets, and the file's static hash [draw_widgets]. [selected_widgets]
    is the allocated array ([None] when the pointer is NULL); a slot that
    holds NULL or was never written is [None]. *)
Record wm_state := State {
  heap : gmap ptr wmWidget;
  widgetgroups : list wmWidgetGroup;
  highlighted_widget : option ptr;
  active_widget : option ptr;
  selected_widgets : option (list (option ptr));
  tot_selected : Z;
  activegroup : option ptr;
  draw_widgets : option (gmap string ptr);
}.

Definition set_heap (h : gmap ptr wmWidget) (s : wm_state) : wm_state :=
  State h (widgetgroups s) (highlighted_widget s) (active_widget s)
    (selected_widgets s) (tot_selected s) (activegroup s) (draw_widgets s).
Definition set_widgetgroups (gs : list wmWidgetGroup) (s : wm_state) : wm_state :=
  State (heap s) gs (highlighted_widget s) (active_widget s)
    (selected_widgets s) (tot_selected s) (activegroup s) (draw_widgets s).
Definition set_highlighted_widget (p : option ptr) (s : wm_state) : wm_state :=
  State (heap s) (widgetgroups s) p (active_widget s)
    (selected_widgets s) (tot_selected s) (activegroup s) (draw_widgets s).
Definition set_active_widget (p : option ptr) (s : wm_state) : wm_state :=
  State (heap s) (widgetgroups s) (highlighted_widget s) p
    (selected_widgets s) (tot_selected s) (activegroup s) (draw_widgets s).
Definition set_selected_widgets (a : option (list (option ptr))) (s : wm_state) : wm_state :=
  State (heap s) (widgetgroups s) (highlighted_widget s) (active_widget s)
    a (tot_selected s) (activegroup s) (draw_widgets s).
Definition set_tot_selected (n : Z) (s : wm_state) : wm_state :=
  State (heap s) (widgetgroups s) (highlighted_widget s) (active_widget s)
    (selected_widgets s) n (activegroup s) (draw_widgets s).
Definition set_activegroup (g : option ptr) (s : wm_state) : wm_state :=
  State (heap s) (widgetgroups s) (highlighted_widget s) (active_widget s)
    (selected_widgets s) (tot_selected s) g (draw_widgets s).
Definition set_draw_widgets (d : option (gmap string ptr)) (s : wm_state) : wm_state :=
  State (heap s) (widgetgroups s) (highlighted_widget s) (active_widget s)
    (selected_widgets s) (tot_selected s) (activegroup s) d.

(** *** Calls that leave the file *)

(** What the run of a function does besides changing the state: the memory
    it frees and the calls it makes into other modules, in order.
    [EvFreeWidget p] is the free of the widget [p] itself, [EvFreeData p]
    the free of its arrays [props] and [ptr], [EvFreeInteraction p] the
    free of its interaction data. *)
Inductive event :=
  | EvFreeWidget (p : ptr)
  | EvFreeData (p : ptr)
  | EvFreeInteraction (p : ptr)
  | EvInvoke (p : ptr)
  | EvSelect (p : ptr)
  | EvOperatorCall (ot : wmOperatorType) (params : option Z)
  | EvCursorSet (cursor : Z)
  | EvCursorStd
  | EvTagRedraw
  | EvAddMousemove
  | EvPrint.

(** The callbacks and the functions of other modules, for one context [C]:
    - [poll_cb c t]: the result of [type->poll(C, type)];
    - [create_cb c g]: the widgets that [type->create(C, wgroup)] registers
      with [wm_widget_register], in order;
    - [scale_of w]: the value [widget_calculate_scale] assigns;
    - [operatortype_find]: [WM_operatortype_find];
    - [operator_call ot p]: what [WM_operator_name_call_ptr] with the
      parameter block of widget [p] does to the widget map;
    - [invoke_cb], [select_cb]: what [widget->invoke] and [widget->select]
      do to the widget map;
    - [get_cursor_cb c w]: the result of [widget->get_cursor(widget)]. *)
Record externals := Externals {
  poll_cb : callback -> wmWidgetGroupType -> bool;
  create_cb : callback -> wmWidgetGroup -> list wmWidget;
  scale_of : wmWidget -> Q;
  operatortype_find : string -> option wmOperatorType;
  operator_call : wmOperatorType -> ptr -> wm_state -> wm_state;
  invoke_cb : callback -> ptr -> wm_state -> wm_state;
  select_cb : callback -> ptr -> wm_state -> wm_state;
  get_cursor_cb : callback -> wmWidget -> Z;
}.

(** *** State, trace and failure *)

Record world := World { st : wm_state; trace : list event }.

(** A run changes the world and returns a value, or has no defined result
    (a NULL or dangling pointer is dereferenced, an array is read outside
    its block). *)
Definition M (A : Type) : Type := world -> option (A * world).

Definition ret {A} (a : A) : M A := fun w => Some (a, w).
Definition bind {A B} (m : M A) (k : A -> M B) : M B :=
  fun w => match m w with Some (a, w') => k a w' | None => None end.
Definition fail {A} : M A := fun _ => None.
Definition gets {A} (f : wm_state -> A) : M A := fun w => Some (f (st w), w).
Definition modify (f : wm_state -> wm_state) : M unit :=
  fun w => Some (tt, World (f (st w)) (trace w)).
Definition emit (e : event) : M unit :=
  fun w => Some (tt, World (st w) (trace w ++ [e])).

Notation "'do' x <- c ; k" := (bind c (fun x => k))
  (at level 10, x name, c at level 100, k at level 200).
Notation "c ;; k" := (bind c (fun _ => k))
  (at level 100, k at level 200, right associativity).

Definition when (b : bool) (m : M unit) : M unit := if b then m else ret tt.

(** [*p] for reading and for writing: [p] must be a live widget. *)
Definition load (p : ptr) : M wmWidget :=
  fun w => match heap (st w) !! p with Some x => Some (x, w) | None => None end.
Definition store (p : ptr) (x : wmWidget) : M unit :=
  fun w => match heap (st w) !! p with
           | Some _ => Some (tt, World (set_heap (<[p := x]> (heap (st w))) (st w)) (trace w))
           | None => None
           end.

(** [MEM_freeN(widget)] *)
Definition free_widget (p : ptr) : M unit :=
  fun w => match heap (st w) !! p with
           | Some _ => Some (tt, World (set_heap (delete p (heap (st w))) (st w))
                                       (trace w ++ [EvFreeWidget p]))
           | None => None
           end.

(** [MEM_callocN(sizeof(wmWidget))] followed by the initialisation [x]. *)
Definition alloc_widget (x : wmWidget) : M ptr :=
  fun w => let p := fresh (dom (heap (st w))) in
           Some (p, World (set_heap (<[p := x]> (heap (st w))) (st w)) (trace w)).


(** A [for] loop over a list, with and without a loop-carried value. *)
Fixpoint for_each {A S} (f : A -> S -> M S) (l : list A) (s : S) : M S :=
  match l with
  | [] => ret s
  | a :: l' => do s' <- f a s; for_each f l' s'
  end.
Fixpoint for_each_ {A} (f : A -> M unit) (l : list A) : M unit :=
  match l with
  | [] => ret tt
  | a :: l' => f a ;; for_each_ f l'
  end.

(** [BLI_remlink]: the list without the link [p]. *)
Definition remlink (p : ptr) (l : list ptr) : list ptr :=
  filter (fun q => q <> p) l.

(** [BLI_ghash_lookup] and [BLI_ghash_reinsert] on [draw_widgets]; the hash
    must have been created. *)
Definition ghash_lookup (name : string) : M (option ptr) :=
  do d <- gets draw_widgets;
  match d with
  | Some h => ret (h !! name)
  | None => fail
  end.
Definition ghash_reinsert (name : string) (p : ptr) : M unit :=
  do d <- gets draw_widgets;
  match d with
  | Some h => modify (set_draw_widgets (Some (<[name := p]> h)))
  | None => fail
  end.

Section Functions.
Context (E : externals).

(** [widget_calculate_scale], lines 178-196. *)
Definition widget_calculate_scale (p : ptr) : M unit :=
  do w <- load p;
  store p (set_scale (scale_of E w) w).

(** What [wm_widget_data_free] leaves of a widget: the operator properties
    are freed when there are some, after which [opptr.data] is NULL
    ([WM_operator_properties_free] is not among the sources). *)
Definition data_freed (w : wmWidget) : wmWidget := set_opptr None w.

(** [wm_widget_data_free], lines 155-163: the operator properties and the
    arrays [props] and [ptr] are freed in place, the widget stays
    allocated. The arrays are not fields of the model, their free shows as
    the event [EvFreeData]; the model does not tell a second call for one
    widget, which would free the arrays twice, from the first. *)
Definition wm_widget_data_free (p : ptr) : M unit :=
  do w <- load p;
  store p (data_freed w) ;;
  emit (EvFreeData p).

(** [wm_widget_delete], lines 169-175; the caller unlinks the widget from
    the list it passes. *)
Definition wm_widget_delete (p : ptr) : M unit :=
  wm_widget_data_free p ;;
  free_widget p.

(** [widget_highlight_update], lines 218-223. *)
Definition widget_highlight_update (old_ new_ : ptr) : M unit :=
  do wn <- load new_;
  store new_ (set_flag (flag_enable (flag wn) WM_WIDGET_HIGHLIGHT) wn) ;;
  modify (set_highlighted_widget (Some new_)) ;;
  do wo <- load old_;
  do wn' <- load new_;
  store new_ (set_highlighted_part (highlighted_part wo) wn').

(** [!wgroup->type->poll || wgroup->type->poll(C, wgroup->type)] *)
Definition group_poll (g : wmWidgetGroup) : bool :=
  match gt_poll (wg_type g) with
  | None => true
  | Some c => poll_cb E c (wg_type g)
  end.

(** Lines 248-266: one widget of the group's old list. The loop carries the
    group's list and the local [highlighted]. *)
Definition regen_discard (p : ptr) (acc : list ptr * option ptr)
  : M (list ptr * option ptr) :=
  do w <- load p;
  if has_flag (flag w) WM_WIDGET_SELECTED then
    ret (remlink p acc.1, acc.2)
  else if has_flag (flag w) WM_WIDGET_HIGHLIGHT then
    ret (remlink p acc.1, Some p)
  else
    wm_widget_delete p ;;
    ret (remlink p acc.1, acc.2).

(** [wm_widget_register], lines 468-493, for a widget the factory made:
    the widget is allocated, gets its group and goes to the list's tail.
    Its [idname] is the one [widget_unique_idname_set] has given it; the
    property arrays and drawing defaults are not part of the model. *)
Definition wm_widget_register (g : wmWidgetGroup) (x : wmWidget)
    (lst : list ptr) : M (list ptr) :=
  do p <- alloc_widget (set_wgroup (wg_addr g) x);
  ret (lst ++ [p]).

(** Lines 268-270: [wgroup->type->create(C, wgroup)]. *)
Definition create_widgets (g : wmWidgetGroup) (lst : list ptr) : M (list ptr) :=
  match gt_create (wg_type g) with
  | Some c =>
      for_each (wm_widget_register g)
        (create_cb E c (Group (wg_addr g) (wg_type g) lst)) lst
  | None => ret lst
  end.

(** Lines 272-279: one widget of the group's new list. *)
Definition cache_widget (p : ptr) : M unit :=
  do w <- load p;
  if has_flag (flag w) WM_WIDGET_HIDDEN then ret tt
  else
    widget_calculate_scale p ;;
    ghash_reinsert (idname w) p.

(** Lines 246-283: one group. *)
Definition regen_group (g : wmWidgetGroup) (highlighted : option ptr)
  : M (wmWidgetGroup * option ptr) :=
  if group_poll g then
    do r <- for_each regen_discard (wg_widgets g) (wg_widgets g, highlighted);
    do lst <- create_widgets g r.1;
    for_each_ cache_widget lst ;;
    ret (Group (wg_addr g) (wg_type g) lst, r.2)
  else ret (g, highlighted).

(** Lines 245-284: the loop over the groups. Each group's list is rewritten
    in place; the model hands the rewritten groups back and the caller
    stores them, as nothing in between reads the map's groups. *)
Fixpoint regen_groups (gs : list wmWidgetGroup) (highlighted : option ptr)
  : M (list wmWidgetGroup * option ptr) :=
  match gs with
  | [] => ret ([], highlighted)
  | g :: gs' =>
      do r <- regen_group g highlighted;
      do r' <- regen_groups gs' r.2;
      ret (r.1 :: r'.1, r'.2)
  end.

(** Lines 286-298. *)
Definition reconcile_highlighted (highlighted : option ptr) : M unit :=
  match highlighted with
  | None => ret tt
  | Some h =>
      do w <- load h;
      do found <- ghash_lookup (idname w);
      match found with
      | Some highlighted_new =>
          widget_highlight_update h highlighted_new ;;
          wm_widget_delete h
      | None =>
          free_widget h ;;
          modify (set_highlighted_widget None)
      end
  end.

(** Lines 301-320: iteration [i] of the loop over the selected widgets. *)
Definition reconcile_selected (i : nat) : M unit :=
  do sel <- gets selected_widgets;
  match sel with
  | Some arr =>
      match arr !! i with
      | Some (Some sel_old) =>
          do wo <- load sel_old;
          do found <- ghash_lookup (idname wo);
          match found with
          | None => ret tt
          | Some sel_new =>
              when (has_flag (flag wo) WM_WIDGET_HIGHLIGHT)
                (widget_highlight_update sel_old sel_new) ;;
              wm_widget_data_free sel_old ;;
              do wn <- load sel_new;
              store sel_new (set_flag (flag_enable (flag wn) WM_WIDGET_SELECTED) wn) ;;
              modify (set_selected_widgets (Some (<[i := Some sel_new]> arr)))
          end
      | _ => fail
      end
  | None => fail
  end.

(** [WM_widgetmap_widgets_update], lines 225-323. *)
Definition WM_widgetmap_widgets_update : M unit :=
  do widget <- gets active_widget;
  do d <- gets draw_widgets;
  match d with
  | None => modify (set_draw_widgets (Some ∅))
  | Some _ => ret tt
  end ;;
  match widget with
  | Some p =>
      do w <- load p;
      when (negb (has_flag (flag w) WM_WIDGET_HIDDEN))
        (widget_calculate_scale p ;;
         ghash_reinsert (idname w) p)
  | None =>
      do gs <- gets widgetgroups;
      match gs with
      | [] => ret tt
      | _ :: _ =>
          do r <- regen_groups gs None;
          modify (set_widgetgroups r.1) ;;
          reconcile_highlighted r.2 ;;
          do sel <- gets selected_widgets;
          match sel with
          | Some _ =>
              do tot <- gets tot_selected;
              for_each_ reconcile_selected (seq 0 (Z.to_nat tot))
          | None => ret tt
          end
      end
  end.

(** [widget_compare], lines 213-216: both widgets are read. *)
Definition widget_compare (a b : ptr) : M bool :=
  do wa <- load a;
  do wb <- load b;
  ret (String.eqb (idname wa) (idname wb)).

(** [MEM_reallocN] of the selection array to [n] slots: the first [n] slots of the old
    block, new slots unwritten. A size that is not positive has no model. *)
Definition realloc_selected (n : Z) : M unit :=
  if n <=? 0 then fail
  else
    do sel <- gets selected_widgets;
    modify (set_selected_widgets
              (Some (resize (Z.to_nat n) None (default [] sel)))).

(** Slot [i] of the selection array, for reading a widget pointer, for
    reading the slot as it is, and for writing. *)
Definition selected_at (i : Z) : M ptr :=
  do sel <- gets selected_widgets;
  match sel with
  | Some arr =>
      if i <? 0 then fail
      else match arr !! Z.to_nat i with
           | Some (Some p) => ret p
           | _ => fail
           end
  | None => fail
  end.
Definition selected_slot (i : Z) : M (option ptr) :=
  do sel <- gets selected_widgets;
  match sel with
  | Some arr =>
      if i <? 0 then fail
      else match arr !! Z.to_nat i with
           | Some x => ret x
           | None => fail
           end
  | None => fail
  end.
Definition selected_write (i : Z) (x : option ptr) : M unit :=
  do sel <- gets selected_widgets;
  match sel with
  | Some arr =>
      if (i <? 0) || (Z.of_nat (length arr) <=? i) then fail
      else modify (set_selected_widgets (Some (<[Z.to_nat i := x]> arr)))
  | None => fail
  end.

(** Lines 705-707: [for (j = i; j < tot - 1; j++) sel[j] = sel[j + 1]],
    with [n] iterations left. *)
Fixpoint deselect_shift (n : nat) (j : Z) : M unit :=
  match n with
  | O => ret tt
  | S n' =>
      do x <- selected_slot (j + 1);
      selected_write j x ;;
      deselect_shift n' (j + 1)
  end.

(** Lines 703-710: the search for the widget's slot, with [n] iterations
    left, and the shift once it is found. *)
Fixpoint deselect_find (widget : ptr) (tot : Z) (n : nat) (i : Z) : M unit :=
  match n with
  | O => ret tt
  | S n' =>
      do q <- selected_at i;
      do same <- widget_compare q widget;
      if same then deselect_shift (Z.to_nat (tot - 1 - i)) i
      else deselect_find widget tot n' (i + 1)
  end.

(** [wm_widgetmap_set_highlighted_widget], lines 1130-1164. [C] tells
    whether the context pointer is non-NULL. *)
Definition wm_widgetmap_set_highlighted_widget (C : bool)
    (widget : option ptr) (part : Z) : M unit :=
  do hl <- gets highlighted_widget;
  do changed <-
    (if bool_decide (widget <> hl) then ret true
     else match widget with
          | Some p => do w <- load p; ret (negb (part =? highlighted_part w))
          | None => ret false
          end);
  if changed : bool then
    match hl with
    | Some h =>
        do wh <- load h;
        store h (set_flag (flag_disable (flag wh) WM_WIDGET_HIGHLIGHT) wh) ;;
        do wh' <- load h;
        store h (set_highlighted_part 0 wh')
    | None => ret tt
    end ;;
    modify (set_highlighted_widget widget) ;;
    match widget with
    | Some p =>
        do w <- load p;
        store p (set_highlighted_part part
                   (set_flag (flag_enable (flag w) WM_WIDGET_HIGHLIGHT) w)) ;;
        modify (set_activegroup (Some (wgroup w))) ;;
        match get_cursor w with
        | Some c => when C (emit (EvCursorSet (get_cursor_cb E c
                       (set_highlighted_part part
                          (set_flag (flag_enable (flag w) WM_WIDGET_HIGHLIGHT) w)))))
        | None => ret tt
        end
    | None =>
        modify (set_activegroup None) ;;
        when C (emit EvCursorStd)
    end ;;
    when C (emit EvTagRedraw)
  else ret tt.

(** [wm_widget_deselect], lines 694-725 (without the [BLI_assert], which a
    release build drops). *)
Definition wm_widget_deselect (widget : ptr) : M unit :=
  do tot <- gets tot_selected;
  deselect_find widget tot (Z.to_nat tot) 0 ;;
  (if tot <=? 1 then
     modify (set_selected_widgets None) ;;
     modify (set_tot_selected 0)
   else
     realloc_selected tot ;;
     modify (set_tot_selected (to_int (tot - 1)))) ;;
  do w <- load widget;
  store widget (set_flag (flag_disable (flag w) WM_WIDGET_SELECTED) w) ;;
  emit EvTagRedraw.

(** [wm_widget_select], lines 731-751. *)
Definition wm_widget_select (widget : option ptr) : M unit :=
  match widget with
  | None => ret tt
  | Some p =>
      do w <- load p;
      if has_flag (flag w) WM_WIDGET_SELECTED then ret tt
      else
        do tot <- gets tot_selected;
        modify (set_tot_selected (to_int (tot + 1))) ;;
        realloc_selected (to_int (tot + 1)) ;;
        selected_write (to_int (tot + 1) - 1) (Some p) ;;
        store p (set_flag (flag_enable (flag w) WM_WIDGET_SELECTED) w) ;;
        match select w with
        | Some c => emit (EvSelect p) ;; modify (select_cb E c p)
        | None => ret tt
        end ;;
        do w' <- load p;
        wm_widgetmap_set_highlighted_widget true (Some p) (highlighted_part w') ;;
        emit EvTagRedraw
  end.

(** Lines 1191-1196 and 1219-1224: the widget stops being active. *)
Definition widget_deactivate (p : ptr) : M unit :=
  do w <- load p;
  store p (set_flag (flag_disable (flag w) WM_WIDGET_ACTIVE) w) ;;
  do w' <- load p;
  match interaction_data w' with
  | Some _ =>
      emit (EvFreeInteraction p) ;;
      store p (set_interaction_data None w')
  | None => ret tt
  end.

(** Lines 1181-1184 and 1207-1209: the widget's own activation. *)
Definition widget_invoke (p : ptr) (c : callback) : M unit :=
  do w <- load p;
  store p (set_flag (flag_enable (flag w) WM_WIDGET_ACTIVE) w) ;;
  emit (EvInvoke p) ;;
  modify (invoke_cb E c p).

(** [wm_widgetmap_set_active_widget], lines 1171-1231. *)
Definition wm_widgetmap_set_active_widget (widget : option ptr) : M unit :=
  match widget with
  | Some p =>
      do w <- load p;
      match opname w with
      | Some name =>
          match operatortype_find E name with
          | Some ot =>
              match invoke w, handler w with
              | Some c, Some _ => widget_invoke p c
              | _, _ => ret tt
              end ;;
              modify (set_active_widget (Some p)) ;;
              do w1 <- load p;
              emit (EvOperatorCall ot (opptr w1)) ;;
              modify (operator_call E ot p) ;;
              do a <- gets active_widget;
              match a with
              | None => widget_deactivate p
              | Some _ => ret tt
              end
          | None =>
              emit EvPrint ;;
              modify (set_active_widget None)
          end
      | None =>
          match invoke w, handler w with
          | Some c, Some _ =>
              widget_invoke p c ;;
              modify (set_active_widget (Some p))
          | _, _ => ret tt
          end
      end
  | None =>
      do a <- gets active_widget;
      match a with
      | Some p => widget_deactivate p
      | None => ret tt
      end ;;
      modify (set_active_widget None) ;;
      emit EvTagRedraw ;;
      emit EvAddMousemove
  end.

End Functions.

(** *** Well-formed states and frames *)

Definition selection (s : wm_state) : list (option ptr) :=
  take (Z.to_nat (tot_selected s)) (default [] (selected_widgets s)).

Definition selection_wf (s : wm_state) : Prop :=
  0 <= tot_selected s < 2 ^ 31 /\
  (Z.to_nat (tot_selected s) <= length (default [] (selected_widgets s)))%nat /\
  (forall q, q ∈ selection s -> exists p, q = Some p /\ is_Some (heap s !! p)).

Definition highlight_wf (s : wm_state) : Prop :=
  forall h, highlighted_widget s = Some h -> is_Some (heap s !! h).

Definition selection_inv (s : wm_state) : Prop :=
  selection_wf s /\ NoDup (selection s) /\
  (forall p x, heap s !! p = Some x ->
     (Some p ∈ selection s <-> has_flag (flag x) WM_WIDGET_SELECTED = true)).

Definition heap_frame (h h' : gmap ptr wmWidget) : Prop :=
  (forall q, h !! q = None -> h' !! q = None) /\
  (forall q x, h !! q = Some x ->
     exists x', h' !! q = Some x' /\ idname x' = idname x /\
       has_flag (flag x') WM_WIDGET_SELECTED = has_flag (flag x) WM_WIDGET_SELECTED).

Definition sel_frame (s s' : wm_state) : Prop :=
  selected_widgets s' = selected_widgets s /\
  tot_selected s' = tot_selected s /\
  heap_frame (heap s) (heap s').

Definition select_cb_frame (E : externals) : Prop :=
  forall c p s, sel_frame s (select_cb E c p s) /\
    highlighted_widget (select_cb E c p s) = highlighted_widget s.

Definition has_pair (x : wmWidget) : bool :=
  match invoke x, handler x with Some _, Some _ => true | _, _ => false end.

Definition dispatcher_entry (E : externals) (p : ptr) (x : wmWidget) (s : wm_state) : wm_state :=
  set_active_widget (Some p)
    match invoke x, handler x with
    | Some c, Some _ =>
        invoke_cb E c p
          (set_heap (<[p := set_flag (flag_enable (flag x) WM_WIDGET_ACTIVE) x]> (heap s)) s)
    | _, _ => s
    end.

Definition dispatcher_exit (E : externals) (ot : wmOperatorType) (p : ptr)
    (x : wmWidget) (s : wm_state) : wm_state :=
  operator_call E ot p (dispatcher_entry E p x s).
Definition select_heap_rel (p : ptr) (h h' : gmap ptr wmWidget) : Prop :=
  (forall q, h !! q = None -> h' !! q = None) /\
  (forall q y, h !! q = Some y ->
     exists y', h' !! q = Some y' /\ idname y' = idname y /\
       has_flag (flag y') WM_WIDGET_SELECTED =
       if decide (q = p) then true else has_flag (flag y) WM_WIDGET_SELECTED).


(** *** What an update pass starts from *)

(** The widgets on the groups' lists, and those of the groups whose
    predicate holds (the groups the pass regenerates). *)
Definition listed_widgets (gs : list wmWidgetGroup) : list ptr :=
  concat (wg_widgets <$> gs).
Definition polled_groups (E : externals) (gs : list wmWidgetGroup)
  : list wmWidgetGroup :=
  filter (fun g => group_poll E g = true) gs.
Definition polled_widgets (E : externals) (gs : list wmWidgetGroup) : list ptr :=
  listed_widgets (polled_groups E gs).

(** A widget is on one list only, and the lists hold live widgets. *)
Definition groups_wf (s : wm_state) : Prop :=
  NoDup (listed_widgets (widgetgroups s)) /\
  forall p, p ∈ listed_widgets (widgetgroups s) -> is_Some (heap s !! p).

(** The widgets of the selection array carry the selected flag. *)
Definition selected_flagged (s : wm_state) : Prop :=
  forall q, q ∈ selection s ->
    exists p x, q = Some p /\ heap s !! p = Some x /\
      has_flag (flag x) WM_WIDGET_SELECTED = true.

(** The hash is empty: [WM_widgetmap_widgets_draw] freed it, or no pass
    has filled it yet. *)
Definition cache_empty (s : wm_state) : Prop :=
  default ∅ (draw_widgets s) = ∅.

Definition update_wf (s : wm_state) : Prop :=
  groups_wf s /\ selection_wf s /\ NoDup (selection s) /\ selected_flagged s /\
  (forall a, active_widget s = Some a -> is_Some (heap s !! a)) /\
  cache_empty s.

(** Neither selected nor highlighted: the widget a pass deletes. *)
Definition flagless (x : wmWidget) : bool :=
  negb (has_flag (flag x) WM_WIDGET_SELECTED) &&
  negb (has_flag (flag x) WM_WIDGET_HIGHLIGHT).

(** The value of the local [highlighted] after the old widgets [ps] have
    been visited, as their flags in the heap [h] decide it. *)
Definition kept_highlighted (h : gmap ptr wmWidget) (ps : list ptr)
    (init : option ptr) : option ptr :=
  foldl (fun acc p =>
           match h !! p with
           | Some x =>
               if has_flag (flag x) WM_WIDGET_SELECTED then acc
               else if has_flag (flag x) WM_WIDGET_HIGHLIGHT then Some p
               else acc
           | None => acc
           end) init ps.

(** The events of [w'] that [w] does not have yet. *)
Definition new_events (w w' : world) : list event :=
  drop (length (trace w)) (trace w').

Definition is_free_of (p : ptr) (e : event) : bool :=
  match e with
  | EvFreeWidget q => bool_decide (q = p)
  | _ => false
  end.

(** How often the widget [p] is freed by the events [evs]. *)
Definition times_freed (p : ptr) (evs : list event) : nat :=
  length (filter (fun e => is_free_of p e = true) evs).

Definition is_data_free_of (p : ptr) (e : event) : bool :=
  match e with
  | EvFreeData q => bool_decide (q = p)
  | _ => false
  end.

(** How often the data of the widget [p] is freed by the events [evs]. *)
Definition times_data_freed (p : ptr) (evs : list event) : nat :=
  length (filter (fun e => is_data_free_of p e = true) evs).

(** *** The invariant of the regeneration loop *)

(** With [h0] the heap the loop starts from and [P] the old widgets of the
    polled groups: an old widget is intact as long as it is still to be
    visited (on [U]) or is one the pass keeps. *)
Definition intact (P U : list ptr) (p : ptr) (x : wmWidget) : Prop :=
  p ∈ U \/ ~ (p ∈ P /\ flagless x = true).

Definition same_context (s0 s : wm_state) : Prop :=
  widgetgroups s = widgetgroups s0 /\
  highlighted_widget s = highlighted_widget s0 /\
  active_widget s = active_widget s0 /\
  selected_widgets s = selected_widgets s0 /\
  tot_selected s = tot_selected s0 /\
  activegroup s = activegroup s0.

(** [reg] are the widgets registered so far by the factories. *)
Record regen_inv (s0 : wm_state) (t0 : list event) (P U reg : list ptr)
    (w : world) : Prop := RegenInv {
  ri_intact : forall p x, heap s0 !! p = Some x -> intact P U p x ->
    heap (st w) !! p = Some x;
  ri_reg : forall n, n ∈ reg ->
    is_Some (heap (st w) !! n) /\
    forall x, heap s0 !! n = Some x -> ~ intact P U n x;
  ri_cache : exists c, draw_widgets (st w) = Some c /\
    forall name n, c !! name = Some n ->
      exists y, heap (st w) !! n = Some y /\ idname y = name /\
        has_flag (flag y) WM_WIDGET_HIDDEN = false /\ n ∈ reg;
  ri_trace : exists evs, trace w = t0 ++ evs /\
    forall p, EvFreeWidget p ∈ evs \/ EvFreeData p ∈ evs ->
      exists x, heap s0 !! p = Some x /\ p ∈ P /\ flagless x = true;
  ri_context : same_context s0 (st w);
}.

(** The old widgets of a group that the pass visits. *)
Definition group_old (E : externals) (g : wmWidgetGroup) : list ptr :=
  if group_poll E g then wg_widgets g else [].

(** What the pass keeps of a group: its address and type, and the whole
    group when its predicate fails. *)
Definition group_kept (E : externals) (g g' : wmWidgetGroup) : Prop :=
  wg_addr g' = wg_addr g /\ wg_type g' = wg_type g /\
  (group_poll E g = false -> g' = g).

(** *** The invariant of the reconciliation *)

(** With [s0] the state the pass starts from, [c] the hash the
    regeneration built and [reg] the widgets it registered. *)
Record recon_inv (s0 : wm_state) (c : gmap string ptr) (reg : list ptr)
    (w : world) : Prop := ReconInv {
  rc_selected : forall p x, heap s0 !! p = Some x ->
    has_flag (flag x) WM_WIDGET_SELECTED = true ->
    heap (st w) !! p = Some x \/ heap (st w) !! p = Some (data_freed x);
  rc_reg : forall n, n ∈ reg ->
    is_Some (heap (st w) !! n) /\
    forall x, heap s0 !! n = Some x -> flagless x = true;
  rc_cache : draw_widgets (st w) = Some c /\
    forall name n, c !! name = Some n ->
      exists y, heap (st w) !! n = Some y /\ idname y = name /\
        has_flag (flag y) WM_WIDGET_HIDDEN = false /\ n ∈ reg;
}.

(** No widget of the selection array is highlighted. *)
Definition selection_unlit (s : wm_state) : Prop :=
  forall p x, Some p ∈ selection s -> heap s !! p = Some x ->
    has_flag (flag x) WM_WIDGET_HIGHLIGHT = false.

(** What the reconciliation of the selection may do to the heap: widgets
    stay, names and the hidden flag stay, a highlight flag is not taken
    away; the sub-part code stays unless a highlight is handed over. *)
Definition recon_heap_rel (unlit : Prop) (h h' : gmap ptr wmWidget) : Prop :=
  (forall q, h !! q = None -> h' !! q = None) /\
  (forall q y, h !! q = Some y ->
     exists y', h' !! q = Some y' /\ idname y' = idname y /\
       has_flag (flag y') WM_WIDGET_HIDDEN = has_flag (flag y) WM_WIDGET_HIDDEN /\
       (has_flag (flag y) WM_WIDGET_HIGHLIGHT = true ->
        has_flag (flag y') WM_WIDGET_HIGHLIGHT = true) /\
       (unlit -> highlighted_part y' = highlighted_part y)).

(** The fields the reconciliation of the selection leaves alone. *)
Definition recon_frame (s s' : wm_state) : Prop :=
  widgetgroups s' = widgetgroups s /\
  active_widget s' = active_widget s /\
  tot_selected s' = tot_selected s /\
  activegroup s' = activegroup s /\
  draw_widgets s' = draw_widgets s.

(** Among the slots [i], ..., [i + n - 1] of the selection array of [s0]
    there is one that holds [q] and that the pass hands to a new instance:
    the hash [c] has a widget of the name of [q]. *)
Definition replaced_in (s0 : wm_state) (c : gmap string ptr) (i n : nat)
    (q : ptr) : Prop :=
  exists (j : nat) x, (i <= j < i + n)%nat /\
    default [] (selected_widgets s0) !! j = Some (Some q) /\
    heap s0 !! q = Some x /\ is_Some (c !! idname x).

(** The events [evs] free no widget. *)
Definition frees_nothing (evs : list event) : Prop :=
  forall p, EvFreeWidget p ∉ evs.

End WM.


(** ** Operators on the selection *)

Module Operators.
Import WM.

(** The return flags of an operator callback. The header that gives them
    their values is not among the sources, so the values are parameters. *)
Record retcodes := Retcodes {
  OPERATOR_RUNNING_MODAL : Z;
  OPERATOR_CANCELLED : Z;
  OPERATOR_FINISHED : Z;
  OPERATOR_PASS_THROUGH : Z;
}.

(** Lines 609-612: slot [i] of the loop of [wm_widgetmap_deselect_all]. *)
Definition deselect_slot (i : nat) : M unit :=
  do p <- selected_at (Z.of_nat i);
  do w <- load p;
  store p (set_flag (flag_disable (flag w) WM_WIDGET_SELECTED) w) ;;
  selected_write (Z.of_nat i) None.

(** [wm_widgetmap_deselect_all], lines 602-617: tells whether the selection
    has changed. *)
Definition wm_widgetmap_deselect_all : M bool :=
  do sel <- gets selected_widgets;
  do tot <- gets tot_selected;
  match sel with
  | None => ret false
  | Some _ =>
      if tot =? 0 then ret false
      else
        for_each_ deselect_slot (seq 0 (Z.to_nat tot)) ;;
        modify (set_selected_widgets None) ;;
        modify (set_tot_selected 0) ;;
        ret true
  end.

Section Functions.
Context (E : externals) (K : retcodes).

(** [widget_select_invoke], lines 753-797, for the first widget map of the
    region: the body of the loop, which returns in its first round.
    [extend], [deselect] and [toggle] are the operator's properties. The
    two assertions are left out, as a release build drops them. *)
Definition widget_select_invoke_map (extend deselect toggle : bool) : M Z :=
  do highlighted <- gets highlighted_widget;
  (if negb extend && negb deselect && negb toggle
   then do _changed <- wm_widgetmap_deselect_all; ret tt
   else ret tt) ;;
  match highlighted with
  | Some h =>
      do wh <- load h;
      let is_selected := has_flag (flag wh) WM_WIDGET_SELECTED in
      let deselect := if toggle then is_selected else deselect in
      (if deselect
       then when is_selected (wm_widget_deselect h)
       else wm_widget_select E (Some h)) ;;
      ret (OPERATOR_FINISHED K)
  | None =>
      ret (Z.lor (OPERATOR_CANCELLED K) (OPERATOR_PASS_THROUGH K))
  end.

(** [widget_select_invoke] on the widget maps of the region, which share
    the trace: the value returned, the maps and the trace afterwards. *)
Definition widget_select_invoke (extend deselect toggle : bool)
    (widgetmaps : list wm_state) (t : list event)
  : option (Z * list wm_state * list event) :=
  match widgetmaps with
  | [] => Some (OPERATOR_PASS_THROUGH K, [], t)
  | wmap :: rest =>
      match widget_select_invoke_map extend deselect toggle (World wmap t) with
      | Some (r, w') => Some (r, st w' :: rest, trace w')
      | None => None
      end
  end.

End Functions.

(** *** What the selection operators keep *)

(** The heap [h'] is [h] with the selected flag cleared on the widgets of
    [ps]. *)
Definition unselected (ps : list ptr) (h h' : gmap ptr wmWidget) : Prop :=
  forall q, h' !! q =
    (fun y => if bool_decide (q ∈ ps)
              then set_flag (flag_disable (flag y) WM_WIDGET_SELECTED) y
              else y) <$> h !! q.

(** What [wm_widgetmap_set_highlighted_widget] does to the widget that
    loses the highlight and to the one that gets it, and to the heap when
    the highlight goes from [old] to [new]. *)
Definition highlight_off (y : wmWidget) : wmWidget :=
  set_highlighted_part 0 (set_flag (flag_disable (flag y) WM_WIDGET_HIGHLIGHT) y).
Definition highlight_on (part : Z) (y : wmWidget) : wmWidget :=
  set_highlighted_part part (set_flag (flag_enable (flag y) WM_WIDGET_HIGHLIGHT) y).
Definition highlight_moved (old new : option ptr) (part : Z)
    (h : gmap ptr wmWidget) : gmap ptr wmWidget :=
  let h1 := match old with Some o => alter highlight_off o h | None => h end in
  match new with Some n => alter (highlight_on part) n h1 | None => h1 end.

(** The call changes something: the widget is not the highlighted one, or
    its sub-part code is not [part]. *)
Definition highlight_changes (s : wm_state) (widget : option ptr) (part : Z) : Prop :=
  widget <> highlighted_widget s \/
  exists p x, widget = Some p /\ heap s !! p = Some x /\ highlighted_part x <> part.

(** The highlighted widget, and no other, carries the highlight flag. *)
Definition highlight_inv (s : wm_state) : Prop :=
  forall p x, heap s !! p = Some x ->
    (has_flag (flag x) WM_WIDGET_HIGHLIGHT = true <-> highlighted_widget s = Some p).

(** No two widgets of the map carry one name. *)
Definition names_unique (s : wm_state) : Prop :=
  forall p q x y, heap s !! p = Some x -> heap s !! q = Some y ->
    idname x = idname y -> p = q.

(** The interaction context is consistent: the selection array and the
    selected flags agree, the highlighted widget is allocated, names are
    unique. *)
Definition context_inv (s : wm_state) : Prop :=
  selection_inv s /\ highlight_wf s /\ names_unique s.

(** [s'] has the groups, the highlighted and the active widget, the active
    group and the hash of [s]. *)
Definition selection_frame (s s' : wm_state) : Prop :=
  widgetgroups s' = widgetgroups s /\
  highlighted_widget s' = highlighted_widget s /\
  active_widget s' = active_widget s /\
  activegroup s' = activegroup s /\
  draw_widgets s' = draw_widgets s.

(** The widgets of the selection array. *)
Definition selected_ptrs (s : wm_state) : list ptr :=
  omap id (selection s).

(** No two widgets of the selection carry one name. *)
Definition selection_names_differ (s : wm_state) : Prop :=
  forall (i j : nat) p q x y,
    selection s !! i = Some (Some p) -> selection s !! j = Some (Some q) ->
    heap s !! p = Some x -> heap s !! q = Some y ->
    idname x = idname y -> i = j.

End Operators.

(** ** Finding the widget under the cursor *)

Module Finding.
Import WM.
Import Picking.

(** Lines 1058-1060: the widget goes to the head of the list when it has a
    render callback and is not hidden. *)
Definition visible_add (h : gmap ptr wmWidget) (acc : option (list ptr))
    (p : ptr) : option (list ptr) :=
  match acc, h !! p with
  | Some l, Some w =>
      if bool_decide (render_3d_intersection w <> None) &&
         negb (has_flag (flag w) WM_WIDGET_HIDDEN)
      then Some (p :: l) else Some l
  | _, _ => None
  end.

(** [wm_prepare_visible_widgets_3D], lines 1051-1064: the list it builds;
    no list when a group's list holds a freed widget. *)
Definition wm_prepare_visible_widgets_3D (E : externals) (s : wm_state)
  : option (list ptr) :=
  foldl (fun acc g =>
           if group_poll E g then foldl (visible_add (heap s)) acc (wg_widgets g)
           else acc)
        (Some []) (widgetgroups s).

(** [wm_widget_find_highlighted_3D], lines 1066-1097, with the list built
    from the map. *)
Definition wm_widget_find_highlighted_3D_map (E : externals) (G : gpu)
    (s : wm_state) (ev : cursor) : option (option ptr * Z) * list session :=
  match wm_prepare_visible_widgets_3D E s with
  | Some visible_widgets => wm_widget_find_highlighted_3D G visible_widgets ev
  | None => (None, [])
  end.

(** A widget that the 3D pass draws: allocated, with a render callback,
    not hidden. *)
Definition pickable (h : gmap ptr wmWidget) (p : ptr) : bool :=
  match h !! p with
  | Some w =>
      bool_decide (render_3d_intersection w <> None) &&
      negb (has_flag (flag w) WM_WIDGET_HIDDEN)
  | None => false
  end.

(** The inner loop of [wm_widget_find_highlighted], lines 1105-1110.
    [intersect p] is [None] when [widget->intersect] is NULL and the value
    of [widget->intersect(C, event, widget)] otherwise. The result is the
    widget returned, or none when the loop ran to its end, with the value
    of [*part]. *)
Fixpoint find_in_widgets (h : gmap ptr wmWidget) (intersect : ptr -> option Z)
    (ws : list ptr) (part : Z) : option (option ptr * Z) :=
  match ws with
  | [] => Some (None, part)
  | p :: ws' =>
      match h !! p with
      | Some _ =>
          match intersect p with
          | Some r =>
              if to_uchar r =? 0 then find_in_widgets h intersect ws' (to_uchar r)
              else Some (Some p, to_uchar r)
          | None => find_in_widgets h intersect ws' part
          end
      | None => None
      end
  end.

(** The loop over the groups, lines 1103-1112. *)
Fixpoint find_in_groups (E : externals) (h : gmap ptr wmWidget)
    (intersect : ptr -> option Z) (gs : list wmWidgetGroup) (part : Z)
  : option (option ptr * Z) :=
  match gs with
  | [] => Some (None, part)
  | g :: gs' =>
      if group_poll E g then
        match find_in_widgets h intersect (wg_widgets g) part with
        | Some (None, part') => find_in_groups E h intersect gs' part'
        | r => r
        end
      else find_in_groups E h intersect gs' part
  end.

(** [wm_widget_find_highlighted], lines 1099-1115; [part] is the value of
    [*part] at the call. *)
Definition wm_widget_find_highlighted (E : externals)
    (intersect : ptr -> option Z) (s : wm_state) (part : Z)
  : option (option ptr * Z) :=
  find_in_groups E (heap s) intersect (widgetgroups s) part.

(** The widget [p] is hit with sub-part [part], or missed. *)
Definition hit_2d (intersect : ptr -> option Z) (p : ptr) (part : Z) : Prop :=
  exists r, intersect p = Some r /\ part = to_uchar r /\ part <> 0.
Definition missed_2d (intersect : ptr -> option Z) (p : ptr) : Prop :=
  intersect p = None \/ exists r, intersect p = Some r /\ to_uchar r = 0.

(** [WM_widgetmap_cursor_set], lines 1117-1128, on the chain of maps that
    starts at [wmap]: the result and the trace afterwards. *)
Fixpoint WM_widgetmap_cursor_set (E : externals) (wmaps : list wm_state)
    (t : list event) : option (bool * list event) :=
  match wmaps with
  | [] => Some (false, t)
  | wmap :: rest =>
      match highlighted_widget wmap with
      | Some p =>
          match heap wmap !! p with
          | Some x =>
              match get_cursor x with
              | Some c => Some (true, t ++ [EvCursorSet (get_cursor_cb E c x)])
              | None => WM_widgetmap_cursor_set E rest t
              end
          | None => None
          end
      | None => WM_widgetmap_cursor_set E rest t
      end
  end.

(** The cursor that the highlighted widget of the map asks for, if the map
    has a highlighted widget and that widget a cursor callback. *)
Definition map_cursor (E : externals) (wmap : wm_state) : option Z :=
  p ← highlighted_widget wmap;
  x ← heap wmap !! p;
  c ← get_cursor x;
  Some (get_cursor_cb E c x).

End Finding.

(** ** Freeing groups and maps *)

Module Lifecycle.
Import WM.

Section Functions.
Context (E : externals).

(** Lines 1327-1337: one widget of the group that is freed. *)
Definition group_free_widget (C : bool) (p : ptr) : M unit :=
  do w <- load p;
  when (has_flag (flag w) WM_WIDGET_HIGHLIGHT)
    (wm_widgetmap_set_highlighted_widget E C None 0) ;;
  do w1 <- load p;
  when (has_flag (flag w1) WM_WIDGET_ACTIVE)
    (wm_widgetmap_set_active_widget E None) ;;
  wm_widget_delete p.

(** [wm_widgetgroup_free], lines 1325-1354: the widgets of the group are
    freed and the group leaves the map. The group's reports and its Python
    instance are not part of the model; the group's own list is not
    written back, as the group is gone afterwards. *)
Definition wm_widgetgroup_free (C : bool) (g : wmWidgetGroup) : M unit :=
  for_each_ (group_free_widget C) (wg_widgets g) ;;
  modify (fun s =>
            set_widgetgroups
              (filter (fun g' => wg_addr g' <> wg_addr g) (widgetgroups s)) s).

End Functions.

(** [WM_widgetmap_delete], lines 1305-1323, for a map that is not NULL: the
    widgets on the groups' lists are freed, then the groups and the
    selection array. The free of the map itself is not part of the model:
    the state returned shows what is left of the heap. *)
Definition WM_widgetmap_delete : M unit :=
  do gs <- gets widgetgroups;
  for_each_ (fun g => for_each_ wm_widget_delete (wg_widgets g)) gs ;;
  modify (set_widgetgroups []) ;;
  modify (set_selected_widgets None).

(** The active widget is allocated, and it and no other widget carries the
    active flag. *)
Definition active_wf (s : wm_state) : Prop :=
  forall a, active_widget s = Some a -> is_Some (heap s !! a).
Definition active_inv (s : wm_state) : Prop :=
  forall p x, heap s !! p = Some x ->
    (has_flag (flag x) WM_WIDGET_ACTIVE = true <-> active_widget s = Some p).

(** Both slots agree with the flags. *)
Definition slots_consistent (s : wm_state) : Prop :=
  highlight_wf s /\ Operators.highlight_inv s /\ active_wf s /\ active_inv s.

(** The slot [slot] once the widgets [ps] are gone. *)
Definition slot_without (ps : list ptr) (slot : option ptr) : option ptr :=
  match slot with
  | Some p => if bool_decide (p ∈ ps) then None else Some p
  | None => None
  end.

End Lifecycle.

(** ** The tweak operator and the modal update *)

Module Tweak.
Import WM.
Import Operators.

(** [WidgetTweakData], lines 813-819, for the one widget map [wmap]. *)
Record WidgetTweakData := TweakData {
  tw_active : option ptr;
  tw_init_event : Z;
  tw_flag : Z;
}.

(** The fields of [wmEvent] that the operator reads or writes. *)
Record wmEvent := Event { ev_type : Z; ev_val : Z }.

(** Lines 821-826. *)
Definition TWEAK_MODAL_CANCEL : Z := 1.
Definition TWEAK_MODAL_CONFIRM : Z := 2.
Definition TWEAK_MODAL_PRECISION_ON : Z := 3.
Definition TWEAK_MODAL_PRECISION_OFF : Z := 4.

(** Event codes and the tweak flag. The headers that give them their values
    are not among the sources, so the values are parameters. *)
Record evcodes := Evcodes {
  KM_RELEASE : Z;
  EVT_MODAL_MAP : Z;
  EVT_WIDGET_UPDATE : Z;
  WM_WIDGET_TWEAK_PRECISE : Z;
}.

(** The callbacks of a widget that the operator calls, for one context:
    - [cancel_cb p]: [None] when [widget->cancel] is NULL, otherwise what
      [widget->cancel(C, widget)] does to the widget map;
    - [handler_cb c p event flag]: what [widget->handler(C, event, widget,
      flag)] does to the widget map;
    - [ot_modal ot]: whether [ot->modal] is set. *)
Record callbacks := Callbacks {
  cancel_cb : ptr -> option (wm_state -> wm_state);
  handler_cb : callback -> ptr -> wmEvent -> Z -> wm_state -> wm_state;
  ot_modal : wmOperatorType -> bool;
}.

Section Functions.
Context (E : externals) (K : retcodes) (V : evcodes) (B : callbacks).

(** [widget_tweak_finish], lines 829-834: the map's widget is deactivated
    and the tweak data freed. *)
Definition widget_tweak_finish : M unit :=
  wm_widgetmap_set_active_widget E None.

(** [widget_tweak_cancel], lines 836-843. *)
Definition widget_tweak_cancel (wtweak : WidgetTweakData) : M unit :=
  match tw_active wtweak with
  | Some active =>
      do _w <- load active;
      match cancel_cb B active with
      | Some cancel => modify cancel
      | None => ret tt
      end ;;
      widget_tweak_finish
  | None => fail
  end.

(** Lines 876-879 and 881-886: the widget's handler gets the event, and the
    event is retyped. *)
Definition tweak_handle (widget : ptr) (wtweak : WidgetTweakData)
    (event : wmEvent) : M (Z * option WidgetTweakData * wmEvent) :=
  do w <- load widget;
  match handler w with
  | Some c => modify (handler_cb B c widget event (tw_flag wtweak))
  | None => ret tt
  end ;;
  ret (OPERATOR_PASS_THROUGH K, Some wtweak,
       Event (EVT_WIDGET_UPDATE V) (ev_val event)).

(** [widget_tweak_modal], lines 845-889: the value returned, the tweak data
    ([None] once it is freed) and the event as the function leaves it. The
    assertion of line 850 is left out, as a release build drops it. *)
Definition widget_tweak_modal (wtweak : WidgetTweakData) (event : wmEvent)
  : M (Z * option WidgetTweakData * wmEvent) :=
  match tw_active wtweak with
  | None =>
      ret (Z.lor (OPERATOR_CANCELLED K) (OPERATOR_PASS_THROUGH K), Some wtweak, event)
  | Some widget =>
      if (ev_type event =? tw_init_event wtweak) && (ev_val event =? KM_RELEASE V) then
        widget_tweak_finish ;;
        ret (OPERATOR_FINISHED K, None, event)
      else if ev_type event =? EVT_MODAL_MAP V then
        if ev_val event =? TWEAK_MODAL_CANCEL then
          widget_tweak_cancel wtweak ;;
          ret (OPERATOR_CANCELLED K, None, event)
        else if ev_val event =? TWEAK_MODAL_CONFIRM then
          widget_tweak_finish ;;
          ret (OPERATOR_FINISHED K, None, event)
        else if ev_val event =? TWEAK_MODAL_PRECISION_ON then
          tweak_handle widget
            (TweakData (tw_active wtweak) (tw_init_event wtweak)
               (Z.lor (tw_flag wtweak) (WM_WIDGET_TWEAK_PRECISE V))) event
        else if ev_val event =? TWEAK_MODAL_PRECISION_OFF then
          tweak_handle widget
            (TweakData (tw_active wtweak) (tw_init_event wtweak)
               (Z.land (tw_flag wtweak) (Z.lnot (WM_WIDGET_TWEAK_PRECISE V)))) event
        else tweak_handle widget wtweak event
      else tweak_handle widget wtweak event
  end.

(** Lines 897-899: the first map of the region with a highlighted widget:
    its position, and the widget. Without any map the local [widget] is
    never written. *)
Fixpoint tweak_find_map (widgetmaps : list wm_state) (i : nat)
  : option (nat * option ptr) :=
  match widgetmaps with
  | [] => None
  | wmap :: rest =>
      match highlighted_widget wmap with
      | Some widget => Some (i, Some widget)
      | None =>
          match rest with
          | [] => Some (S i, None)
          | _ :: _ => tweak_find_map rest (S i)
          end
      end
  end.

(** Lines 909-931 of [widget_tweak_invoke], on the map that was found;
    the registration of the modal handler is not part of the model. *)
Definition tweak_activate (widget : ptr) (event : wmEvent)
  : M (Z * option WidgetTweakData) :=
  wm_widgetmap_set_active_widget E (Some widget) ;;
  do w <- load widget;
  do stop <-
    match opname w with
    | Some name =>
        match operatortype_find E name with
        | Some ot => ret (ot_modal B ot)
        | None => fail
        end
    | None => ret false
    end;
  if stop : bool then ret (OPERATOR_FINISHED K, None)
  else
    do highlighted <- gets highlighted_widget;
    ret (OPERATOR_RUNNING_MODAL K,
         Some (TweakData highlighted (ev_type event) 0)).

(** [widget_tweak_invoke], lines 891-933, on the widget maps of the region,
    which share the trace: the value returned, the tweak data that the
    operator keeps, the maps and the trace. The assertion of line 903 is
    left out, as a release build drops it. *)
Definition widget_tweak_invoke (event : wmEvent) (widgetmaps : list wm_state)
    (t : list WM.event)
  : option (Z * option WidgetTweakData * list wm_state * list WM.event) :=
  match tweak_find_map widgetmaps 0 with
  | Some (i, Some widget) =>
      match widgetmaps !! i with
      | Some wmap =>
          match tweak_activate widget event (World wmap t) with
          | Some ((r, data), w') =>
              Some (r, data, <[i := st w']> widgetmaps, trace w')
          | None => None
          end
      | None => None
      end
  | Some (_, None) =>
      Some (Z.lor (OPERATOR_CANCELLED K) (OPERATOR_PASS_THROUGH K), None, widgetmaps, t)
  | None => None
  end.

(** One round of the loop of [wm_widget_handler_modal_update], lines
    1273-1296, on one map. [op] is the name of the handler's operator, or
    none when the operator no longer runs. Setting the context's area and
    region is not part of the model. *)
Definition modal_update_map (op : option string) (event : wmEvent) : M unit :=
  do widget <- gets active_widget;
  match widget with
  | None => ret tt
  | Some p =>
      match op with
      | Some op_idname =>
          do w <- load p;
          match handler w, opname w with
          | Some c, Some name =>
              if String.eqb name op_idname
              then modify (handler_cb B c p event 0)
              else ret tt
          | _, _ => ret tt
          end
      | None => wm_widgetmap_set_active_widget E None
      end
  end.

(** The loop over the maps of the region, which share the trace. *)
Fixpoint modal_update_maps (op : option string) (event : wmEvent)
    (widgetmaps : list wm_state) (t : list WM.event)
  : option (list wm_state * list WM.event) :=
  match widgetmaps with
  | [] => Some ([], t)
  | wmap :: rest =>
      match modal_update_map op event (World wmap t) with
      | Some (_, w') =>
          match modal_update_maps op event rest (trace w') with
          | Some (rest', t') => Some (st w' :: rest', t')
          | None => None
          end
      | None => None
      end
  end.

(** [wm_widget_handler_modal_update], lines 1267-1298. [op_region] is the
    list of the maps of [handler->op_region], or none when that is NULL. *)
Definition wm_widget_handler_modal_update (op : option string) (event : wmEvent)
    (op_region : option (list wm_state)) (t : list WM.event)
  : option (option (list wm_state) * list WM.event) :=
  match op_region with
  | None => Some (None, t)
  | Some widgetmaps =>
      match modal_update_maps op event widgetmaps t with
      | Some (maps', t') => Some (Some maps', t')
      | None => None
      end
  end.

End Functions.

End Tweak.

(** ** Selecting and deselecting all widgets of a map *)

Module SelectAll.
Import WM.
Import Operators.

(** Constants of headers that are not among the sources, as parameters:
    the flag bit [WM_WIDGET_SELECTABLE] and the actions [SEL_SELECT] and
    [SEL_DESELECT]. [ghash_iter] is the order in which a [GHashIterator]
    visits the entries of a hash that was filled in the given order. *)
Record selenv := SelEnv {
  WM_WIDGET_SELECTABLE : Z;
  SEL_SELECT : Z;
  SEL_DESELECT : Z;
  ghash_iter : list (string * ptr) -> list (string * ptr);
}.

(** Lines 123-127: one widget of a group's list. The hash is the list of
    its entries in the order of insertion; [BLI_ghash_insert] adds the
    entry whether or not the key is there (its assertion is dropped by a
    release build). [poll] is none when the function pointer is NULL. *)
Definition hash_add (h : gmap ptr wmWidget) (poll : option (wmWidget -> bool))
    (include_hidden : bool) (acc : option (list (string * ptr))) (p : ptr)
  : option (list (string * ptr)) :=
  match acc, h !! p with
  | Some l, Some x =>
      if (include_hidden || negb (has_flag (flag x) WM_WIDGET_HIDDEN)) &&
         match poll with Some f => f x | None => true end
      then Some (l ++ [(idname x, p)]) else Some l
  | _, _ => None
  end.

(** [wm_widgetmap_widget_hash_new], lines 114-135: the entries of the hash
    it returns; none when a group's list holds a freed widget. *)
Definition wm_widgetmap_widget_hash_new (E : externals) (s : wm_state)
    (poll : option (wmWidget -> bool)) (include_hidden : bool)
  : option (list (string * ptr)) :=
  foldl (fun acc g =>
           if group_poll E g
           then foldl (hash_add (heap s) poll include_hidden) acc (wg_widgets g)
           else acc)
        (Some []) (widgetgroups s).

Section Functions.
Context (E : externals) (S : selenv).

(** [widget_selectable_poll], lines 619-622. *)
Definition widget_selectable_poll (x : wmWidget) : bool :=
  has_flag (flag x) (WM_WIDGET_SELECTABLE S).

(** Lines 643-655: the body of the loop over the entries of the hash, for
    the entry with index [i] and value [p]; [changed] is carried along. *)
Definition select_all_slot (ip : nat * ptr) (changed : bool) : M bool :=
  do w <- load ip.2;
  store ip.2 (set_flag (flag_enable (flag w) WM_WIDGET_SELECTED) w) ;;
  match select w with
  | Some c => emit (EvSelect ip.2) ;; modify (select_cb E c ip.2)
  | None => ret tt
  end ;;
  selected_write (Z.of_nat ip.1) (Some ip.2) ;;
  ret (changed || negb (has_flag (flag w) WM_WIDGET_SELECTED)).

(** [wm_widgetmap_select_all_intern], lines 628-660. Its only caller hands
    it the action [SEL_SELECT], which is what [select_cb] stands for. *)
Definition wm_widgetmap_select_all_intern : M bool :=
  do s <- gets id;
  match wm_widgetmap_widget_hash_new E s (Some widget_selectable_poll) true with
  | None => fail
  | Some hash =>
      let tot := to_int (Z.of_nat (length hash)) in
      modify (set_tot_selected tot) ;;
      realloc_selected tot ;;
      let entries := ghash_iter S hash in
      do changed <- for_each select_all_slot
                      (zip (seq 0 (length entries)) entries.*2) false;
      do first <- selected_at 0;
      do w <- load first;
      wm_widgetmap_set_highlighted_widget E true (Some first) (highlighted_part w) ;;
      ret changed
  end.

(** [WM_widgetmap_select_all], lines 668-688 (the assertion of the default
    case is dropped by a release build). *)
Definition WM_widgetmap_select_all (action : Z) : M bool :=
  do changed <-
    (if action =? SEL_SELECT S then wm_widgetmap_select_all_intern
     else if action =? SEL_DESELECT S then wm_widgetmap_deselect_all
     else ret false);
  when changed (emit EvAddMousemove) ;;
  ret changed.

End Functions.

(** The widget is allocated and carries the selectable flag. *)
Definition selectable (S : selenv) (h : gmap ptr wmWidget) (p : ptr) : bool :=
  match h !! p with
  | Some x => widget_selectable_poll S x
  | None => false
  end.

(** The widgets select-all collects: the selectable ones on the lists of
    the groups whose predicate holds, in the order of the lists. *)
Definition selectable_widgets (E : externals) (S : selenv) (s : wm_state)
  : list ptr :=
  filter (fun p => selectable S (heap s) p = true)
         (polled_widgets E (widgetgroups s)).

(** The widgets of [ps] carry the selected flag in [h'], the others have
    the flag they have in [h]; names are kept and no widget is allocated
    or freed. *)
Definition selected_more (ps : list ptr) (h h' : gmap ptr wmWidget) : Prop :=
  (forall q, h !! q = None -> h' !! q = None) /\
  (forall q x, h !! q = Some x ->
     exists x', h' !! q = Some x' /\ idname x' = idname x /\
       has_flag (flag x') WM_WIDGET_SELECTED =
         has_flag (flag x) WM_WIDGET_SELECTED || bool_decide (q ∈ ps)).

End SelectAll.
(** ** Scenarios *)

Module Scenarios.
Import WM.

(** A widget with a name, flags and a sub-part code, no callbacks. *)
Definition widget (name : string) (fl part : Z) : wmWidget :=
  Widget name 10%positive fl part 1%Q None None None None None None None None.

(** A widget bound to the operator ["op"], with or without the
    invoke/handler pair, with flags and interaction data. *)
Definition operator_widget (pair : bool) (fl : Z) (data : option Z) : wmWidget :=
  Widget "arrow" 10%positive fl 0 1%Q (Some "op") (Some 5) data
    (if pair then Some 0%nat else None) (if pair then Some 0%nat else None)
    None None None.

(** Externals whose callbacks leave the widget map alone: every operator is
    found and keeps running, every predicate holds, the factory [0] makes
    nothing, the factory [1] makes one widget ["X"]. *)
Definition quiet : externals :=
  Externals (fun _ _ => true)
    (fun c _ => match c with O => [] | S _ => [widget "X" 0 0] end)
    (fun _ => 1%Q)
    (fun name => Some (OperatorType name))
    (fun _ _ s => s) (fun _ _ s => s) (fun _ _ s => s) (fun _ _ => 0).

(** As [quiet], but no predicate holds. *)
Definition unpolled : externals :=
  Externals (fun _ _ => false) (create_cb quiet) (scale_of quiet)
    (operatortype_find quiet) (operator_call quiet) (invoke_cb quiet)
    (select_cb quiet) (get_cursor_cb quiet).

(** As [quiet], but no operator is found. *)
Definition unregistered : externals :=
  Externals (poll_cb quiet) (create_cb quiet) (scale_of quiet)
    (fun _ => None) (operator_call quiet) (invoke_cb quiet)
    (select_cb quiet) (get_cursor_cb quiet).

(** As [quiet], but the operator ends at once: the dispatcher leaves the
    active slot empty. *)
Definition cancelling : externals :=
  Externals (poll_cb quiet) (create_cb quiet) (scale_of quiet)
    (operatortype_find quiet) (fun _ _ s => set_active_widget None s)
    (invoke_cb quiet) (select_cb quiet) (get_cursor_cb quiet).

(** As [cancelling], and the widget's invoke allocates interaction data
    for it. *)
Definition cancelling_after_invoke : externals :=
  Externals (poll_cb quiet) (create_cb quiet) (scale_of quiet)
    (operatortype_find quiet) (operator_call cancelling)
    (fun _ p s => set_heap (alter (set_interaction_data (Some 7)) p (heap s)) s)
    (select_cb quiet) (get_cursor_cb quiet).

Definition group_of (poll create : option callback) (ws : list ptr) : wmWidgetGroup :=
  Group 10%positive (GroupType "g" poll create) ws.

(** One group whose factory makes nothing; its widget ["X"] is selected. *)
Definition selected_unmatched : world :=
  World (State {[ 1%positive := widget "X" 4 0 ]}
           [group_of None (Some 0%nat) [1%positive]]
           None None (Some [Some 1%positive]) 1 None None) [].

(** One group whose predicate fails; its widget is the active one. *)
Definition active_unpolled : world :=
  World (State {[ 1%positive := widget "X" 0 0 ]}
           [group_of (Some 0%nat) None [1%positive]]
           None (Some 1%positive) None 0 None None) [].

(** One group whose factory makes ["X"] again; the old ["X"] is highlighted
    with sub-part 3. *)
Definition highlighted_plain : world :=
  World (State {[ 1%positive := widget "X" 1 3 ]}
           [group_of None (Some 1%nat) [1%positive]]
           (Some 1%positive) None None 0 (Some 10%positive) None) [].


(** A widget bound to an operator, not active. *)
Definition operator_idle (pair : bool) : world :=
  World (State {[ 1%positive := operator_widget pair 0 None ]} []
           None None None 0 None None) [].

(** A widget bound to an operator that is the active widget already: the
    slot points to it, its active flag is set and it has interaction
    data. *)
Definition operator_active : world :=
  World (State {[ 1%positive := operator_widget true 2 (Some 7) ]} []
           None (Some 1%positive) None 0 None None) [].

(** Two widgets, the first one selected; they have different names, or the
    same name. *)
Definition one_selected (other : string) : world :=
  World (State (<[ 1%positive := widget "X" 4 0 ]> {[ 2%positive := widget other 0 0 ]}) []
           None None (Some [Some 1%positive]) 1 None None) [].

(** The world a run ends in; the given world when the run has no result. *)
Definition outcome (w : world) (r : option (unit * world)) : world :=
  match r with Some (_, w') => w' | None => w end.

End Scenarios.

(** ** The claims as the specification words them, where the code differs *)

Module Stated.
Import WM.
Import Picking.

(** A selected widget without replacement leaves the selection: the count
    goes down and the array no longer holds the widget. *)
Definition unmatched_selection_dropped : Prop :=
  forall (E : externals) (w w' : world) (c : gmap string ptr) (i : nat)
         (p : ptr) (x : wmWidget),
    update_wf (st w) ->
    WM_widgetmap_widgets_update E w = Some (tt, w') ->
    draw_widgets (st w') = Some c ->
    (i < Z.to_nat (tot_selected (st w)))%nat ->
    default [] (selected_widgets (st w)) !! i = Some (Some p) ->
    heap (st w) !! p = Some x -> c !! idname x = None ->
    tot_selected (st w') = tot_selected (st w) - 1 /\
    Some p ∉ selection (st w').

(** Every cached widget is unhidden and on the list of a group whose
    predicate holds. *)
Definition cache_only_polled : Prop :=
  forall (E : externals) (w w' : world) (c : gmap string ptr) (name : string)
         (n : ptr),
    update_wf (st w) ->
    WM_widgetmap_widgets_update E w = Some (tt, w') ->
    draw_widgets (st w') = Some c -> c !! name = Some n ->
    exists y, heap (st w') !! n = Some y /\
      has_flag (flag y) WM_WIDGET_HIDDEN = false /\
      exists g, g ∈ widgetgroups (st w') /\ group_poll E g = true /\
        n ∈ wg_widgets g.


(** The active slot is set only for a widget with the invoke/handler pair. *)
Definition active_needs_pair : Prop :=
  forall (E : externals) (w w' : world) (p : ptr) (x : wmWidget)
         (name : string) (ot : wmOperatorType),
    active_widget (st w) = None ->
    heap (st w) !! p = Some x -> opname x = Some name ->
    operatortype_find E name = Some ot ->
    wm_widgetmap_set_active_widget E (Some p) w = Some (tt, w') ->
    active_widget (st w') = Some p -> has_pair x = true.

(** Select, then deselect, restores count and membership. *)
Definition roundtrip_restores : Prop :=
  forall (E : externals) (w w1 w2 : world) (p : ptr) (x : wmWidget),
    select_cb_frame E -> selection_wf (st w) -> highlight_wf (st w) ->
    tot_selected (st w) < 2 ^ 31 - 1 ->
    heap (st w) !! p = Some x ->
    has_flag (flag x) WM_WIDGET_SELECTED = false ->
    wm_widget_select E (Some p) w = Some (tt, w1) ->
    wm_widget_deselect p w1 = Some (tt, w2) ->
    tot_selected (st w2) = tot_selected (st w) /\
    selection (st w2) = selection (st w).

(** The refinement pass reaches about 1.4 px from the cursor. *)
Definition refinement_reaches_1_4 : Prop :=
  forall (G : gpu) (visible_widgets : list positive) (ev : cursor) (s : session),
    (- 16384 <= mval_x ev <= 16384) -> (- 16384 <= mval_y ev <= 16384) ->
    (wm_widget_find_highlighted_3D_intern G visible_widgets ev hotspot_first).1 <> -1 ->
    s ∈ drop (length (wm_widget_find_highlighted_3D_intern G visible_widgets ev
                        hotspot_first).2)
             (wm_widget_find_highlighted_3D G visible_widgets ev).2 ->
    extends (1 # 10) (s_rect s) ev (7 # 5).

End Stated.


(** ** More scenarios *)

Module Cases.
Import WM.
Import Scenarios.

(** A widget without a bound operator, with or without the invoke/handler
    pair. *)
Definition direct_widget (pair : bool) : wmWidget :=
  Widget "dial" 10%positive 0 0 1%Q None None None
    (if pair then Some 0%nat else None) (if pair then Some 0%nat else None)
    None None None.

Definition direct_idle (pair : bool) : world :=
  World (State {[ 1%positive := direct_widget pair ]} []
           None None None 0 None None) [].

(** Values for the operator return flags, the event codes and the
    selection parameters, and callbacks that leave the map alone. The hash
    iterator visits the entries in the reverse of the order of insertion. *)
Definition ret_codes : Operators.retcodes := Operators.Retcodes 1 2 4 8.
Definition event_codes : Tweak.evcodes := Tweak.Evcodes 2 20 21 1.
Definition still : Tweak.callbacks :=
  Tweak.Callbacks (fun _ => None) (fun _ _ _ _ s => s) (fun _ => true).
Definition sels : SelectAll.selenv := SelectAll.SelEnv (2 ^ 8) 1 2 reverse.

(** One group with two widgets: ["X"] is selected, ["Y"] is highlighted
    with sub-part 3. *)
Definition picked : wm_state :=
  State (<[ 1%positive := widget "X" 4 0 ]> {[ 2%positive := widget "Y" 1 3 ]})
    [group_of None None [1%positive; 2%positive]]
    (Some 2%positive) None (Some [Some 1%positive]) 1 (Some 10%positive) None.

(** A widget that the 3D pass can draw, with a cursor callback. *)
Definition render_widget (name : string) (fl : Z) : wmWidget :=
  Widget name 10%positive fl 0 1%Q None None None None None None
    (Some 0%nat) (Some 0%nat).

(** One group with a widget that is drawn and one that is not; the first
    is highlighted. *)
Definition scene : wm_state :=
  State (<[ 1%positive := render_widget "X" 1 ]> {[ 2%positive := widget "Y" 0 0 ]})
    [group_of None None [1%positive; 2%positive]]
    (Some 1%positive) None None 0 (Some 10%positive) None.

(** The cursor test of ["Y"] hits sub-part 5, that of ["X"] misses. *)
Definition hits_second (p : ptr) : option Z :=
  if (p =? 2)%positive then Some 5 else Some 0.

(** One group with three widgets: ["X"] and ["Z"] are selectable, and
    ["Z"] carries the selected flag. *)
Definition selectables : wm_state :=
  State (<[ 1%positive := widget "X" 256 0 ]>
           (<[ 2%positive := widget "Y" 0 0 ]> {[ 3%positive := widget "Z" 260 0 ]}))
    [group_of None None [1%positive; 2%positive; 3%positive]]
    None None None 0 None None.

(** One group whose factory makes ["X"] again; the old ["X"] is selected
    and has operator properties. *)
Definition selected_matched : world :=
  World (State {[ 1%positive := set_opptr (Some 9) (widget "X" 4 0) ]}
           [group_of None (Some 1%nat) [1%positive]]
           None None (Some [Some 1%positive]) 1 None None) [].

(** A map without widgets, and the map of [direct_idle] with its widget
    highlighted. *)
Definition empty_map : wm_state := State ∅ [] None None None 0 None None.
Definition direct_highlighted : wm_state :=
  State {[ 1%positive := direct_widget true ]} []
    (Some 1%positive) None None 0 None None.

(** The tweak data of a tweak of widget 1 that a press of button 7 began,
    the release of that button, and a mouse move. *)
Definition tweaking : Tweak.WidgetTweakData := Tweak.TweakData (Some 1%positive) 7 0.
Definition release : Tweak.wmEvent := Tweak.Event 7 2.
Definition mousemove : Tweak.wmEvent := Tweak.Event 4 0.

End Cases.
(** * Properties *)

(** ** Picking resolution *)

Module PickingFacts.
Import Picking.

Lemma scan_hits_records (buffer : list Z) (l pre : list hit) (md mv : Z) :
  buffer_holds buffer (pre ++ l) ->
  scan_hits buffer (length l) (Z.of_nat (length pre)) md mv = scan_records l md mv.
Proof.
  revert pre md mv. induction l as [|h t IH]; intros pre md mv Hb; [done|].
  destruct (Hb (length pre) h) as [Hd Hv].
  { by rewrite lookup_app_r, Nat.sub_diag by lia. }
  cbn [length scan_hits scan_records]. rewrite Hd, Hv.
  replace (Z.of_nat (length pre) + 1) with (Z.of_nat (length (pre ++ [h])))
    by (rewrite length_app; simpl; lia).
  destruct ((mv =? to_GLuint (-1)) || (hit_depth h <? md));
    apply IH; by rewrite <- app_assoc.
Qed.

Lemma scan_records_spec (l : list hit) (md mv : Z) :
  mv <> no_hit_mark ->
  (forall h, h ∈ l -> hit_id h <> no_hit_mark) ->
  (scan_records l md mv = mv /\ forall h, h ∈ l -> md <= hit_depth h) \/
  (exists i h, first_nearest l i h /\ hit_depth h < md /\
               scan_records l md mv = hit_id h).
Proof.
  revert md mv. induction l as [|h t IH]; intros md mv Hmv Hids.
  { left. split; [done|]. intros h Hh. by apply elem_of_nil in Hh. }
  cbn [scan_records]. fold no_hit_mark.
  destruct (Z.eqb_spec mv no_hit_mark) as [|_]; [done|]. cbn [orb].
  assert (Ht : forall h', h' ∈ t -> hit_id h' <> no_hit_mark).
  { intros h' Hh'. apply Hids. by apply elem_of_cons; right. }
  destruct (Z.ltb_spec (hit_depth h) md) as [Hlt|Hge].
  - right. destruct (IH (hit_depth h) (hit_id h)) as [[Hr Hall]|(i & h' & (Hi & Hmin & Hfst) & Hlt' & Hr)].
    + apply Hids. by apply elem_of_cons; left.
    + done.
    + exists 0%nat, h. split; [|done]. split; [done|]. split; [|intros; lia].
      intros [|j] h' Hj; simpl in Hj; [by inversion Hj; lia|].
      apply Hall. by eapply list_elem_of_lookup_2.
    + exists (S i), h'. split; [|split; [lia|done]].
      split; [done|]. split.
      * intros [|j] h'' Hj; simpl in Hj; [inversion Hj; subst; lia|by eapply Hmin].
      * intros [|j] h'' Hji Hj; simpl in Hj; [inversion Hj; subst; lia|].
        eapply Hfst; [|done]. lia.
  - destruct (IH md mv Hmv Ht) as [[Hr Hall]|(i & h' & (Hi & Hmin & Hfst) & Hlt' & Hr)].
    + left. split; [done|]. intros h' [->|Hh']%elem_of_cons; [lia|by apply Hall].
    + right. exists (S i), h'. split; [|done].
      split; [done|]. split.
      * intros [|j] h'' Hj; simpl in Hj; [inversion Hj; subst; lia|by eapply Hmin].
      * intros [|j] h'' Hji Hj; simpl in Hj; [inversion Hj; subst; lia|].
        eapply Hfst; [|done]. lia.
Qed.

Lemma buffer_holds_buffer_of (l : list hit) : buffer_holds (buffer_of l) l.
Proof.
  induction l as [|h t IH]; intros a h' Ha; [done|].
  destruct a as [|a]; simpl in Ha.
  - by inversion Ha; subst.
  - destruct (IH a h' Ha) as [Hd Hv]. unfold buffer_at in *.
    replace (Z.to_nat (4 * Z.of_nat (S a) + 1)) with (4 + Z.to_nat (4 * Z.of_nat a + 1))%nat by lia.
    replace (Z.to_nat (4 * Z.of_nat (S a) + 3)) with (4 + Z.to_nat (4 * Z.of_nat a + 3))%nat by lia.
    done.
Qed.

Lemma resolve_hits_first_nearest (buffer : list Z) (l : list hit) :
  (2 <= length l)%nat ->
  (forall h, h ∈ l -> hit_id h <> no_hit_mark) ->
  buffer_holds buffer l ->
  exists i h, first_nearest l i h /\
    resolve_hits buffer (Z.of_nat (length l)) = to_int (hit_id h).
Proof.
  intros Hlen Hids Hb. unfold resolve_hits.
  destruct (Z.eqb_spec (Z.of_nat (length l)) 1) as [|_]; [lia|].
  destruct (Z.ltb_spec 1 (Z.of_nat (length l))) as [_|]; [|lia].
  rewrite Nat2Z.id. rewrite (scan_hits_records buffer l [] 0 _ Hb).
  destruct l as [|h t]; [simpl in Hlen; lia|].
  cbn [scan_records]. rewrite Z.eqb_refl. cbn [orb].
  assert (Hh : hit_id h <> no_hit_mark) by (apply Hids; by apply elem_of_cons; left).
  assert (Ht : forall h', h' ∈ t -> hit_id h' <> no_hit_mark).
  { intros h' Hh'. apply Hids. by apply elem_of_cons; right. }
  destruct (scan_records_spec t (hit_depth h) (hit_id h) Hh Ht)
    as [[Hr Hall]|(i & h' & (Hi & Hmin & Hfst) & Hlt & Hr)].
  - exists 0%nat, h. rewrite Hr. split; [|done].
    split; [done|]. split; [|intros; lia].
    intros [|j] h' Hj; simpl in Hj; [by inversion Hj; lia|].
    apply Hall. by eapply list_elem_of_lookup_2.
  - exists (S i), h'. rewrite Hr. split; [|done].
    split; [done|]. split.
    + intros [|j] h'' Hj; simpl in Hj; [inversion Hj; subst; lia|by eapply Hmin].
    + intros [|j] h'' Hji Hj; simpl in Hj; [inversion Hj; subst; lia|].
      eapply Hfst; [|done]. lia.
Qed.

(** C1 (as amended): for hit records whose ids differ from the mark
    [0xFFFFFFFF], two or more of them, the resolution returns (as an [int])
    the id of the first record of minimum depth; and when equal depths carry
    equal ids, the result is the same for every order of the records. *)
Theorem resolve_hits_nearest (buffer : list Z) (l : list hit) :
  (2 <= length l)%nat ->
  (forall h, h ∈ l -> hit_id h <> no_hit_mark) ->
  buffer_holds buffer l ->
  (exists i h, first_nearest l i h /\
     resolve_hits buffer (Z.of_nat (length l)) = to_int (hit_id h)) /\
  (forall (buffer' : list Z) (l' : list hit),
     l ≡ₚ l' ->
     (forall h1 h2, h1 ∈ l -> h2 ∈ l ->
        hit_depth h1 = hit_depth h2 -> hit_id h1 = hit_id h2) ->
     buffer_holds buffer' l' ->
     resolve_hits buffer' (Z.of_nat (length l')) =
     resolve_hits buffer (Z.of_nat (length l))).
Proof.
  intros Hlen Hids Hb. split; [by apply resolve_hits_first_nearest|].
  intros buffer' l' Hp Hfun Hb'.
  destruct (resolve_hits_first_nearest buffer l Hlen Hids Hb)
    as (i & h & (Hi & Hmin & _) & ->).
  destruct (resolve_hits_first_nearest buffer' l') as (i' & h' & (Hi' & Hmin' & _) & ->).
  { by rewrite <- Hp. }
  { intros h0 Hh0. apply Hids. by rewrite Hp. }
  { done. }
  assert (Hin : h ∈ l) by (by eapply list_elem_of_lookup_2).
  assert (Hin' : h' ∈ l) by (rewrite Hp; by eapply list_elem_of_lookup_2).
  f_equal. symmetry. apply Hfun; [done..|].
  apply Z.le_antisymm.
  - apply list_elem_of_lookup_1 in Hin' as [j Hj]. by eapply Hmin.
  - rewrite Hp in Hin. apply list_elem_of_lookup_1 in Hin as [j Hj]. by eapply Hmin'.
Qed.

Lemma resolve_hits_nearest_witness :
  exists i h, first_nearest hits_two_handles i h /\
    resolve_hits (buffer_of hits_two_handles) 2 = to_int (hit_id h).
Proof.
  apply (resolve_hits_nearest (buffer_of hits_two_handles) hits_two_handles).
  - simpl. lia.
  - intros h Hh. unfold hits_two_handles in Hh.
    repeat (apply elem_of_cons in Hh as [->|Hh]); [discriminate..|].
    by apply elem_of_nil in Hh.
  - apply buffer_holds_buffer_of.
Defined.

(** C1 (as stated) fails when the nearest record carries the id
    [0xFFFFFFFF]: the scan takes it for "nothing found yet" and lets the
    next record, the farther one, replace it. *)
Lemma resolve_hits_mark_overwritten :
  ~ (forall (buffer : list Z) (l : list hit),
       (2 <= length l)%nat -> Forall valid_hit l -> buffer_holds buffer l ->
       exists i h, first_nearest l i h /\
         resolve_hits buffer (Z.of_nat (length l)) = to_int (hit_id h)).
Proof.
  intros H.
  destruct (H (buffer_of hits_with_mark) hits_with_mark) as (i & h & (Hi & Hmin & _) & Hr).
  - simpl. lia.
  - unfold hits_with_mark, valid_hit, is_GLuint.
    repeat constructor; simpl; lia.
  - apply buffer_holds_buffer_of.
  - assert (Hc : resolve_hits (buffer_of hits_with_mark)
                   (Z.of_nat (length hits_with_mark)) = 7) by (by vm_compute).
    rewrite Hc in Hr.
    destruct i as [|[|i]]; simpl in Hi; inversion Hi; subst.
    + vm_compute in Hr. discriminate.
    + specialize (Hmin 0%nat (Hit 1 4294967295) eq_refl). simpl in Hmin. lia.
Qed.

(** *** The two passes and their rectangles *)



Local Open Scope Q_scope.

Lemma round_half_even_close (y : Q) :
  Qabs (inject_Z (round_half_even y) - y) <= 1 # 2.
Proof.
  unfold round_half_even.
  pose proof (Qfloor_le y) as Hlo. pose proof (Qlt_floor y) as Hhi.
  rewrite inject_Z_plus in Hhi. change (inject_Z 1) with 1 in Hhi.
  apply Qabs_Qle_condition.
  destruct (2 * (y - inject_Z (Qfloor y)) ?= 1) eqn:Hc.
  - apply Qeq_alt in Hc.
    destruct (Z.even (Qfloor y)); rewrite ?inject_Z_plus;
      change (inject_Z 1) with 1; split; lra.
  - apply Qlt_alt in Hc. split; lra.
  - apply Qgt_alt in Hc. rewrite inject_Z_plus. change (inject_Z 1) with 1.
    split; lra.
Qed.

Lemma pow2_pos (e : Z) : 0 < pow2 e.
Proof.
  unfold pow2. destruct (Z.leb_spec 0 e) as [He|He]; [|done].
  rewrite <- (Zlt_Qlt 0). by apply Z.pow_pos_nonneg.
Qed.

Lemma ilog2_le (q : Q) : 0 < q -> pow2 (ilog2 q) <= q.
Proof.
  intros Hq. unfold ilog2.
  destruct (Qle_bool _ q) eqn:Hb; [by apply Qle_bool_iff|]. clear Hb.
  destruct q as [n d]. unfold Qlt in Hq. cbn [Qnum Qden] in *.
  assert (Hn : (0 < n)%Z) by lia.
  destruct (Z.log2_spec n Hn) as [Hn1 _].
  destruct (Z.log2_spec (Z.pos d) (Pos2Z.is_pos d)) as [_ Hd2].
  pose proof (Z.log2_nonneg n) as Ha. pose proof (Z.log2_nonneg (Z.pos d)) as Hb.
  set (a := Z.log2 n) in *. set (b := Z.log2 (Z.pos d)) in *.
  unfold pow2. destruct (Z.leb_spec 0 (a - b - 1)) as [He|He].
  - unfold Qle. cbn [Qnum Qden inject_Z]. rewrite Z.mul_1_r.
    assert (Hp : (2 ^ a = 2 ^ (a - b - 1) * 2 ^ Z.succ b)%Z).
    { rewrite <- Z.pow_add_r by lia. f_equal. lia. }
    assert (0 < 2 ^ (a - b - 1))%Z by (apply Z.pow_pos_nonneg; lia).
    nia.
  - unfold Qle. cbn [Qnum Qden]. rewrite Z.mul_1_l.
    rewrite Pos2Z.inj_pow, Z2Pos.id by lia.
    assert (Hp : (2 ^ Z.succ b = 2 ^ a * 2 ^ (- (a - b - 1)))%Z).
    { rewrite <- Z.pow_add_r by lia. f_equal. lia. }
    assert (0 < 2 ^ (- (a - b - 1)))%Z by (apply Z.pow_pos_nonneg; lia).
    nia.
Qed.

Lemma f32_round_pos_close (q : Q) :
  0 < q -> Qabs (f32_round_pos q - q) <= q / (16777216 # 1).
Proof.
  intros Hq. unfold f32_round_pos.
  pose proof (pow2_pos (ilog2 q)) as Hu. pose proof (ilog2_le q Hq) as Hle.
  set (u := pow2 (ilog2 q)) in *.
  change (inject_Z (2 ^ 23)) with (8388608 # 1).
  pose proof (round_half_even_close (q * (8388608 # 1) / u)) as Hm.
  set (m := inject_Z (round_half_even (q * (8388608 # 1) / u))) in *.
  apply Qabs_Qle_condition in Hm. apply Qabs_Qle_condition.
  assert (Heq : m * u / (8388608 # 1) - q ==
                (m - q * (8388608 # 1) / u) * u / (8388608 # 1)).
  { field. lra. }
  rewrite Heq. set (a := m - q * (8388608 # 1) / u) in *.
  assert (H1 : 0 <= ((1 # 2) - a) * u) by (apply Qmult_le_0_compat; lra).
  assert (H2 : 0 <= (a + (1 # 2)) * u) by (apply Qmult_le_0_compat; lra).
  assert (H1' : ((1 # 2) - a) * u == (1 # 2) * u - a * u) by ring.
  assert (H2' : (a + (1 # 2)) * u == a * u + (1 # 2) * u) by ring.
  rewrite H1' in H1. rewrite H2' in H2.
  assert (H3 : a * u / (8388608 # 1) == (a * u) * (1 # 8388608)) by (field; lra).
  assert (H4 : q / (16777216 # 1) == q * (1 # 16777216)) by (field; lra).
  rewrite H3, H4. set (z := a * u) in *.
  split; lra.
Qed.

(** Rounding moves a value by at most [2 ^ -24] of its size. *)
Lemma f32_round_close (q : Q) :
  Qabs (f32_round q - q) <= Qabs q * (1 # 16777216).
Proof.
  unfold f32_round. rewrite Qred_correct.
  destruct (0 ?= q) eqn:Hc.
  - apply Qeq_alt in Hc. rewrite <- Hc. by vm_compute.
  - apply Qlt_alt in Hc. pose proof (f32_round_pos_close q Hc) as H.
    assert (H4 : q / (16777216 # 1) == q * (1 # 16777216)) by (field; lra).
    rewrite H4 in H. rewrite (Qabs_pos q) by lra. exact H.
  - apply Qgt_alt in Hc.
    assert (Hn : 0 < - q) by lra.
    pose proof (f32_round_pos_close (- q) Hn) as H.
    assert (H4 : - q / (16777216 # 1) == - q * (1 # 16777216)) by (field; lra).
    rewrite H4 in H. rewrite (Qabs_neg q) by lra.
    assert (H5 : - f32_round_pos (- q) - q == - (f32_round_pos (- q) - - q)) by ring.
    rewrite H5, Qabs_opp. exact H.
Qed.

(** The edges of the pick rectangle, for a cursor on any screen and a
    radius of a few pixels. *)
Lemma pick_edge_close (z : Z) (h : Q) :
  (- 16384 <= z <= 16384)%Z -> 0 <= h <= 8 ->
  about (1 # 510) (inject_Z z - f32_sub (f32_of_int z) h) h /\
  about (1 # 510) (f32_add (f32_of_int z) h - inject_Z z) h.
Proof.
  intros [Hz1 Hz2] Hh. unfold about, f32_sub, f32_add, f32_of_int.
  rewrite Zle_Qle in Hz1, Hz2.
  change (inject_Z (-16384)) with (-16384 # 1) in Hz1.
  change (inject_Z 16384) with (16384 # 1) in Hz2.
  set (x := inject_Z z) in *.
  pose proof (f32_round_close x) as H1.
  set (fx := f32_round x) in *.
  pose proof (f32_round_close (fx - h)) as H2.
  pose proof (f32_round_close (fx + h)) as H3.
  set (lo := f32_round (fx - h)) in *. set (hi := f32_round (fx + h)) in *.
  assert (Hx : Qabs x <= 16384 # 1) by (apply Qabs_Qle_condition; split; lra).
  assert (Hfx : Qabs (fx - x) <= 1 # 1024) by lra.
  apply Qabs_Qle_condition in Hfx.
  assert (Hlo : Qabs (fx - h) <= 16393 # 1) by (apply Qabs_Qle_condition; split; lra).
  assert (Hhi : Qabs (fx + h) <= 16393 # 1) by (apply Qabs_Qle_condition; split; lra).
  assert (H2' : Qabs (lo - (fx - h)) <= 16393 # 16777216) by lra.
  assert (H3' : Qabs (hi - (fx + h)) <= 16393 # 16777216) by lra.
  apply Qabs_Qle_condition in H2', H3'.
  split; apply Qabs_Qle_condition; split; lra.
Qed.

Lemma hotspot_first_value : hotspot_first = 7 # 1.
Proof. by vm_compute. Qed.

Lemma hotspot_second_value : hotspot_second = 11744051 # 4194304.
Proof. by vm_compute. Qed.

Lemma pick_rect_extends (ev : cursor) (h h' : Q) :
  (- 16384 <= mval_x ev <= 16384)%Z -> (- 16384 <= mval_y ev <= 16384)%Z ->
  0 <= h <= 8 -> about (1 # 1000000) h h' ->
  extends (1 # 500) (pick_rect ev h) ev h'.
Proof.
  intros Hx Hy Hh Hhh. unfold extends, pick_rect. cbn [xmin xmax ymin ymax].
  destruct (pick_edge_close (mval_x ev) h Hx Hh) as [X1 X2].
  destruct (pick_edge_close (mval_y ev) h Hy Hh) as [Y1 Y2].
  unfold about in *. apply Qabs_Qle_condition in X1, X2, Y1, Y2, Hhh.
  repeat split; apply Qabs_Qle_condition; split; lra.
Qed.



Lemma intern_sessions (G : gpu) (visible_widgets : list positive) (ev : cursor)
    (h : float) :
  (wm_widget_find_highlighted_3D_intern G visible_widgets ev h).2 <> [] /\
  forall s, s ∈ (wm_widget_find_highlighted_3D_intern G visible_widgets ev h).2 ->
    s_rect s = pick_rect ev h.
Proof.
  unfold wm_widget_find_highlighted_3D_intern.
  destruct (query_check_active G); cbn [fst snd]; (split; [done|]); intros s Hs.
  - apply elem_of_cons in Hs as [->|Hs]; [done|].
    by apply list_elem_of_singleton in Hs as ->.
  - by apply list_elem_of_singleton in Hs as ->.
Qed.

(** C5 (as amended): the first pass uses a rectangle that reaches about
    7 px from the cursor to each side; the refinement pass runs only when
    the first pass returned a hit and uses a rectangle that reaches about
    2.8 px; the result is the refined hit whenever there is one. *)
Theorem find_highlighted_3D_passes (G : gpu) (visible_widgets : list positive)
    (ev : cursor) :
  let first := wm_widget_find_highlighted_3D_intern G visible_widgets ev hotspot_first in
  let second := wm_widget_find_highlighted_3D_intern G visible_widgets ev hotspot_second in
  let r := wm_widget_find_highlighted_3D G visible_widgets ev in
  r.2 = first.2 ++ (if (first.1 =? -1)%Z then [] else second.2) /\
  first.2 <> [] /\ second.2 <> [] /\
  (forall s, s ∈ first.2 -> s_rect s = pick_rect ev hotspot_first) /\
  (forall s, s ∈ second.2 -> s_rect s = pick_rect ev hotspot_second) /\
  r.1 = (if (first.1 =? -1)%Z then Some (None, 0%Z)
         else decode_hit visible_widgets
                (if (second.1 =? -1)%Z then first.1 else second.1)) /\
  ((- 16384 <= mval_x ev <= 16384)%Z -> (- 16384 <= mval_y ev <= 16384)%Z ->
   extends (1 # 500) (pick_rect ev hotspot_first) ev (7 # 1) /\
   extends (1 # 500) (pick_rect ev hotspot_second) ev (14 # 5)).
Proof.
  intros first second r.
  destruct (intern_sessions G visible_widgets ev hotspot_first) as [F1 F2].
  destruct (intern_sessions G visible_widgets ev hotspot_second) as [S1 S2].
  split; [|split; [done|split; [done|split; [done|split; [done|split]]]]].
  - subst r. unfold wm_widget_find_highlighted_3D. fold first. fold second.
    destruct (first.1 =? -1)%Z; [by rewrite app_nil_r|done].
  - subst r. unfold wm_widget_find_highlighted_3D. fold first. fold second.
    by destruct (first.1 =? -1)%Z.
  - intros Hx Hy. split.
    + apply pick_rect_extends; [done|done| |].
      * rewrite hotspot_first_value. split; lra.
      * rewrite hotspot_first_value. unfold about. by vm_compute.
    + apply pick_rect_extends; [done|done| |].
      * rewrite hotspot_second_value. split; lra.
      * rewrite hotspot_second_value. unfold about. by vm_compute.
Qed.

Lemma find_highlighted_3D_passes_witness :
  extends (1 # 500) (pick_rect (Cursor 100 100) hotspot_first) (Cursor 100 100) (7 # 1) /\
  extends (1 # 500) (pick_rect (Cursor 100 100) hotspot_second) (Cursor 100 100) (14 # 5).
Proof.
  apply (find_highlighted_3D_passes one_hit [1%positive] (Cursor 100 100)).
  - simpl. lia.
  - simpl. lia.
Defined.

(** C5 (as stated) fails: the rectangle of the refinement pass reaches
    2.8 px from the cursor, twice the 1.4 px of the wording. *)
Lemma refinement_reaches_2_8 : ~ Stated.refinement_reaches_1_4.
Proof.
  intros H.
  destruct (H one_hit [1%positive] (Cursor 100 100)
              (Session (pick_rect (Cursor 100 100) hotspot_second)
                 GPU_SELECT_ALL 0 [(1%positive, 0%Z)])) as (Hx & _).
  - simpl. lia.
  - simpl. lia.
  - by vm_compute.
  - assert (Heq : drop
        (length (wm_widget_find_highlighted_3D_intern one_hit [1%positive]
                   (Cursor 100 100) hotspot_first).2)
        (wm_widget_find_highlighted_3D one_hit [1%positive] (Cursor 100 100)).2
        = [Session (pick_rect (Cursor 100 100) hotspot_second)
             GPU_SELECT_ALL 0 [(1%positive, 0%Z)]]) by (by vm_compute).
    rewrite Heq. by apply list_elem_of_singleton.
  - unfold about in Hx. vm_compute in Hx. by apply Hx.
Qed.

End PickingFacts.
(** ** The widget map *)

Module WMFacts.
Import WM.


Lemma bind_eq {A B} (m : M A) (k : A -> M B) w a w1 :
  m w = Some (a, w1) -> bind m k w = k a w1.
Proof. unfold bind. by intros ->. Qed.

Lemma bind_assoc {A B C} (m : M A) (k : A -> M B) (k' : B -> M C) w :
  bind (bind m k) k' w = bind m (fun a => bind (k a) k') w.
Proof. unfold bind. by destruct (m w) as [[a w1]|]. Qed.

Lemma load_Some w p x : heap (st w) !! p = Some x -> load p w = Some (x, w).
Proof. unfold load. by intros ->. Qed.

Lemma store_Some w p x y :
  heap (st w) !! p = Some x ->
  store p y w = Some (tt, World (set_heap (<[p:=y]> (heap (st w))) (st w)) (trace w)).
Proof. unfold store. by intros ->. Qed.

Lemma data_freed_idemp x : data_freed (data_freed x) = data_freed x.
Proof. done. Qed.

Lemma wm_widget_data_free_Some (w : world) (p : ptr) (x : wmWidget) :
  heap (st w) !! p = Some x ->
  wm_widget_data_free p w =
  Some (tt, World (set_heap (<[p := data_freed x]> (heap (st w))) (st w))
                  (trace w ++ [EvFreeData p])).
Proof.
  intros Hx. unfold wm_widget_data_free.
  erewrite bind_eq by (by apply load_Some).
  erewrite bind_eq by (by eapply store_Some). done.
Qed.

Lemma wm_widget_delete_spec (w : world) (p : ptr) (x : wmWidget) :
  heap (st w) !! p = Some x ->
  wm_widget_delete p w =
  Some (tt, World (set_heap (delete p (heap (st w))) (st w))
                  (trace w ++ [EvFreeData p; EvFreeWidget p])).
Proof.
  intros Hx. destruct w as [s t]. cbn [st trace] in *.
  unfold wm_widget_delete.
  erewrite bind_eq by (by apply wm_widget_data_free_Some). cbn [st trace].
  unfold free_widget. cbn [st trace heap set_heap].
  rewrite lookup_insert_eq, delete_insert_eq, <- app_assoc. done.
Qed.

Lemma Zland_pow2_eqb (f : Z) (k : Z) :
  0 <= k -> (Z.land f (2 ^ k) =? 0) = negb (Z.testbit f k).
Proof.
  intros Hk. destruct (Z.testbit f k) eqn:Hb; simpl.
  - apply Z.eqb_neq. intros H0.
    assert (Z.testbit (Z.land f (2 ^ k)) k = true).
    { rewrite Z.land_spec, Hb, Z.pow2_bits_true; done. }
    rewrite H0, Z.bits_0 in H. discriminate.
  - apply Z.eqb_eq. apply Z.bits_inj'. intros n Hn.
    rewrite Z.land_spec, Z.bits_0.
    destruct (Z.eq_dec n k) as [->|Hne].
    + by rewrite Hb.
    + rewrite Z.pow2_bits_false by lia. apply andb_false_r.
Qed.

Lemma has_flag_testbit (f k : Z) : 0 <= k -> has_flag f (2 ^ k) = Z.testbit f k.
Proof. intros Hk. unfold has_flag. rewrite Zland_pow2_eqb by done. apply negb_involutive. Qed.

Lemma has_flag_enable (f k j : Z) :
  0 <= k -> 0 <= j ->
  has_flag (flag_enable f (2 ^ k)) (2 ^ j) = has_flag f (2 ^ j) || bool_decide (j = k).
Proof.
  intros Hk Hj. rewrite !has_flag_testbit by done. unfold flag_enable.
  rewrite Z.lor_spec. f_equal. case_bool_decide as Hd.
  - subst. by apply Z.pow2_bits_true.
  - apply Z.pow2_bits_false. lia.
Qed.

Lemma has_flag_disable (f k j : Z) :
  0 <= k -> 0 <= j ->
  has_flag (flag_disable f (2 ^ k)) (2 ^ j) = has_flag f (2 ^ j) && negb (bool_decide (j = k)).
Proof.
  intros Hk Hj. rewrite !has_flag_testbit by done. unfold flag_disable.
  rewrite Z.land_spec, Z.lnot_spec by done. f_equal. f_equal. case_bool_decide as Hd.
  - subst. by apply Z.pow2_bits_true.
  - apply Z.pow2_bits_false. lia.
Qed.

Ltac flag_simpl :=
  unfold WM_WIDGET_HIGHLIGHT, WM_WIDGET_ACTIVE, WM_WIDGET_SELECTED, WM_WIDGET_HIDDEN in *;
  repeat first
    [ rewrite has_flag_enable by lia
    | rewrite has_flag_disable by lia ];
  repeat match goal with
    | |- context [bool_decide (?a = ?b)] =>
        first [ rewrite (bool_decide_eq_true_2 (a = b)) by lia
              | rewrite (bool_decide_eq_false_2 (a = b)) by lia ]
    end;
  rewrite ?orb_false_r, ?orb_true_r, ?andb_true_r, ?andb_false_r; simpl negb;
  rewrite ?andb_true_r, ?andb_false_r.

Lemma heap_frame_refl h : heap_frame h h.
Proof. split; eauto. Qed.

Lemma heap_frame_trans h1 h2 h3 : heap_frame h1 h2 -> heap_frame h2 h3 -> heap_frame h1 h3.
Proof.
  intros (Hc & Hd) (Hc' & Hd'). split; [eauto|].
  intros q x Hq. destruct (Hd q x Hq) as (x' & Hx' & Hn & Hf).
  destruct (Hd' q x' Hx') as (x'' & Hx'' & Hn' & Hf').
  exists x''. split; [done|]. split; congruence.
Qed.

Lemma heap_frame_insert h p x y :
  h !! p = Some x -> idname y = idname x ->
  has_flag (flag y) WM_WIDGET_SELECTED = has_flag (flag x) WM_WIDGET_SELECTED ->
  heap_frame h (<[p := y]> h).
Proof.
  intros Hp Hn Hf. split.
  - intros q Hq. rewrite lookup_insert_ne; [done|]. intros ->. congruence.
  - intros q x0 Hq. destruct (decide (p = q)) as [->|Hne].
    + rewrite lookup_insert_eq. exists y. split; [done|]. split; congruence.
    + rewrite lookup_insert_ne by done. eauto.
Qed.

Lemma sel_frame_refl s : sel_frame s s.
Proof. repeat split; eauto. Qed.

Lemma sel_frame_trans s1 s2 s3 : sel_frame s1 s2 -> sel_frame s2 s3 -> sel_frame s1 s3.
Proof.
  intros (Ha & Hb & Hc) (Ha' & Hb' & Hc').
  split; [congruence|]. split; [congruence|]. by eapply heap_frame_trans.
Qed.

Section Facts.
Context (E : externals).

Lemma set_highlighted_spec (C : bool) (w : world) (widget : option ptr) (part : Z) :
  highlight_wf (st w) ->
  (forall p, widget = Some p -> is_Some (heap (st w) !! p)) ->
  exists w', wm_widgetmap_set_highlighted_widget E C widget part w = Some (tt, w') /\
    sel_frame (st w) (st w').
Proof.
  destruct w as [s t]. simpl. intros Hwf Hlive.
  unfold wm_widgetmap_set_highlighted_widget.
  erewrite bind_eq by reflexivity. cbn [st trace].
  assert (Hch : exists b, (if bool_decide (widget <> highlighted_widget s) then ret true
     else match widget with
          | Some p => do w <- load p; ret (negb (part =? highlighted_part w))
          | None => ret false
          end) (World s t) = Some (b, World s t)).
  { case_bool_decide; [by eexists|]. destruct widget as [p|]; [|by eexists].
    destruct (Hlive p eq_refl) as [x Hx].
    erewrite bind_eq by (by apply load_Some). by eexists. }
  destruct Hch as [b Hch]. erewrite bind_eq by exact Hch.
  destruct b; [|exists (World s t); split; [done|apply sel_frame_refl]].
  (* clear the old highlight *)
  assert (Hold : exists s1, match highlighted_widget s with
     | Some h => do wh <- load h;
        store h (set_flag (flag_disable (flag wh) WM_WIDGET_HIGHLIGHT) wh) ;;
        do wh' <- load h; store h (set_highlighted_part 0 wh')
     | None => ret tt end (World s t) = Some (tt, World s1 t) /\ sel_frame s s1 /\
     highlighted_widget s1 = highlighted_widget s).
  { destruct (highlighted_widget s) as [h|] eqn:Hh; [|exists s; split; [done|split; [apply sel_frame_refl|done]]].
    destruct (Hwf h Hh) as [xh Hxh].
    erewrite bind_eq by (by apply load_Some).
    erewrite bind_eq by (by eapply store_Some).
    erewrite bind_eq by (apply load_Some; simpl; apply lookup_insert_eq).
    erewrite store_Some by (simpl; apply lookup_insert_eq).
    eexists. split; [done|]. simpl. split; [|done].
    split; [done|]. split; [done|]. simpl. rewrite insert_insert_eq.
    eapply heap_frame_insert; [done|done|]. simpl. by flag_simpl. }
  destruct Hold as (s1 & Hold & Hfr1 & Hhl1).
  erewrite bind_eq by exact Hold.
  erewrite bind_eq by reflexivity. cbn [st trace].
  destruct widget as [p|].
  - destruct (Hlive p eq_refl) as [x Hx].
    destruct Hfr1 as (Hs1 & Ht1 & Hn1 & Hl1).
    assert (Hfr1 : sel_frame s s1) by done.
    rewrite bind_assoc.
    destruct (Hl1 p x Hx) as (x1 & Hx1 & Hnm & Hfl).
    erewrite bind_eq by (apply load_Some; simpl; exact Hx1).
    rewrite bind_assoc.
    erewrite bind_eq by (eapply store_Some; simpl; exact Hx1).
    rewrite bind_assoc.
    erewrite bind_eq by reflexivity. cbn [st trace].
    assert (Hfin : sel_frame s (set_activegroup (Some (wgroup x1))
              (set_heap (<[p := set_highlighted_part part
                 (set_flag (flag_enable (flag x1) WM_WIDGET_HIGHLIGHT) x1)]>
                 (heap (set_highlighted_widget (Some p) s1))) (set_highlighted_widget (Some p) s1)))).
    { eapply sel_frame_trans with (s2 := s1); [done|].
      split; [done|]. split; [done|]. simpl.
      eapply heap_frame_insert; [done|done|]. simpl. by flag_simpl. }
    destruct (get_cursor x1) as [c|]; destruct C; cbn [when bind emit ret st trace];
      eexists; (split; [reflexivity|exact Hfin]).

  - rewrite bind_assoc. erewrite bind_eq by reflexivity. cbn [st trace].
    assert (Hfin : sel_frame s (set_activegroup None (set_highlighted_widget None s1))).
    { eapply sel_frame_trans with (s2 := s1); [done|].
      split; [done|]. split; [done|]. apply heap_frame_refl. }
    destruct C; cbn [when bind emit ret st trace];
      eexists; (split; [reflexivity|exact Hfin]).
Qed.

Lemma to_int_small z : - 2 ^ 31 <= z < 2 ^ 31 -> to_int z = z.
Proof. intros. unfold to_int. rewrite Z.mod_small; lia. Qed.

Lemma realloc_selected_Some n w :
  0 < n ->
  realloc_selected n w =
  Some (tt, World (set_selected_widgets
                     (Some (resize (Z.to_nat n) None (default [] (selected_widgets (st w)))))
                     (st w)) (trace w)).
Proof.
  intros Hn. unfold realloc_selected.
  destruct (Z.leb_spec n 0) as [|_]; [lia|]. done.
Qed.

Lemma selected_write_Some i x arr w :
  selected_widgets (st w) = Some arr -> 0 <= i < Z.of_nat (length arr) ->
  selected_write i x w =
  Some (tt, World (set_selected_widgets (Some (<[Z.to_nat i := x]> arr)) (st w)) (trace w)).
Proof.
  intros Hs Hi. unfold selected_write. erewrite bind_eq by reflexivity.
  rewrite Hs. destruct (Z.ltb_spec i 0) as [|_]; [lia|].
  destruct (Z.leb_spec (Z.of_nat (length arr)) i) as [|_]; [lia|]. done.
Qed.

Lemma select_spec w p x :
  select_cb_frame E -> selection_wf (st w) -> tot_selected (st w) < 2 ^ 31 - 1 ->
  highlight_wf (st w) ->
  heap (st w) !! p = Some x -> has_flag (flag x) WM_WIDGET_SELECTED = false ->
  exists w', wm_widget_select E (Some p) w = Some (tt, w') /\
    tot_selected (st w') = tot_selected (st w) + 1 /\
    selected_widgets (st w') =
      Some (<[Z.to_nat (tot_selected (st w)) := Some p]>
              (resize (S (Z.to_nat (tot_selected (st w)))) None
                 (default [] (selected_widgets (st w))))) /\
    select_heap_rel p (heap (st w)) (heap (st w')).
Proof.
  destruct w as [s t]. cbn [st trace].
  intros Hcb (Htot & Hlen & Hlive) Hmax Hhl Hx Hf. unfold wm_widget_select.
  erewrite bind_eq by (by apply load_Some). rewrite Hf.
  erewrite bind_eq by reflexivity. cbn [st trace].
  erewrite bind_eq by reflexivity. cbn [st trace].
  rewrite to_int_small by lia.
  erewrite bind_eq by (apply realloc_selected_Some; lia). cbn [st trace].
  replace (Z.to_nat (tot_selected s + 1)) with (S (Z.to_nat (tot_selected s))) by lia.
  simpl selected_widgets.
  erewrite bind_eq by (eapply selected_write_Some; [reflexivity|rewrite length_resize; lia]).
  cbn [st trace]. replace (tot_selected s + 1 - 1) with (tot_selected s) by lia.
  set (arr := <[Z.to_nat (tot_selected s):=Some p]> _).
  erewrite bind_eq by (eapply store_Some; simpl; exact Hx). cbn [st trace]. simpl heap.
  set (x2 := set_flag _ x).
  set (s2 := set_heap _ _).
  assert (Hcall : exists s3 t3, match select x with
     | Some c => emit (EvSelect p);; modify (select_cb E c p)
     | None => ret tt end (World s2 t) = Some (tt, World s3 t3) /\ sel_frame s2 s3 /\
     highlighted_widget s3 = highlighted_widget s2).
  { destruct (select x) as [c|].
    - eexists _, _. split; [reflexivity|]. apply Hcb.
    - exists s2, t. split; [done|]. split; [apply sel_frame_refl|done]. }
  destruct Hcall as (s3 & t3 & Hcall & Hfr3 & Hhl3).
  erewrite bind_eq by exact Hcall.
  assert (Hp2 : heap s2 !! p = Some x2) by (subst s2; simpl; apply lookup_insert_eq).
  destruct Hfr3 as (Hsel3 & Htot3 & Hh3).
  destruct (proj2 Hh3 p x2 Hp2) as (x3 & Hx3 & Hn3 & Hf3).
  erewrite bind_eq by (by apply load_Some).
  destruct (set_highlighted_spec true (World s3 t3) (Some p) (highlighted_part x3))
    as (w4 & Hrun & Hsel4 & Htot4 & Hh4).
  { intros h Hh. cbn [st] in *. rewrite Hhl3 in Hh. subst s2. simpl in Hh.
    destruct (Hhl h Hh) as [xh Hxh].
    destruct (decide (h = p)) as [->|Hne]; [by eexists|].
    destruct (proj2 Hh3 h xh) as (? & ? & _); [|by eexists].
    simpl. by rewrite lookup_insert_ne. }
  { intros ? [= <-]. by eexists. }
  erewrite bind_eq by exact Hrun. cbn [emit st trace].
  eexists. split; [reflexivity|]. cbn [st trace] in *.
  split; [by rewrite Htot4, Htot3|]. split; [by rewrite Hsel4, Hsel3|].
  assert (Hfr : heap_frame (heap s2) (heap (st w4))) by (by eapply heap_frame_trans).
  destruct Hfr as [Hnone Hsome]. split.
  - intros q Hq. apply Hnone. subst s2. simpl. rewrite lookup_insert_ne; [done|].
    intros ->. congruence.
  - intros q y Hq. destruct (decide (q = p)) as [->|Hne].
    + destruct (Hsome p x2 Hp2) as (y' & Hy' & Hn' & Hf').
      exists y'. split; [done|]. assert (y = x) by congruence. subst y.
      split; [done|]. rewrite Hf'. subst x2. simpl. by flag_simpl.
    + apply Hsome. subst s2. simpl. by rewrite lookup_insert_ne.
Qed.

Lemma insert_resize_S {A} (l : list A) (n : nat) (d v : A) :
  (n <= length l)%nat -> <[n := v]> (resize (S n) d l) = take n l ++ [v].
Proof.
  intros Hn. apply list_eq. intros i.
  destruct (lt_eq_lt_dec i n) as [[Hlt| ->]|Hgt].
  - rewrite list_lookup_insert_ne by lia.
    rewrite lookup_resize by lia.
    rewrite lookup_app_l by (rewrite length_take; lia).
    by rewrite lookup_take_lt by lia.
  - rewrite list_lookup_insert_eq by (rewrite length_resize; lia).
    rewrite lookup_app_r by (rewrite length_take; lia).
    rewrite length_take. by replace (n - n `min` length l)%nat with 0%nat by lia.
  - rewrite list_lookup_insert_ne by lia.
    rewrite lookup_resize_old by lia. symmetry. apply lookup_ge_None_2.
    rewrite length_app, length_take. simpl. lia.
Qed.

Lemma selection_after_select s s' p :
  (Z.to_nat (tot_selected s) <= length (default [] (selected_widgets s)))%nat ->
  0 <= tot_selected s ->
  tot_selected s' = tot_selected s + 1 ->
  selected_widgets s' =
    Some (<[Z.to_nat (tot_selected s) := Some p]>
            (resize (S (Z.to_nat (tot_selected s))) None (default [] (selected_widgets s)))) ->
  selection s' = selection s ++ [Some p].
Proof.
  intros Hlen H0 Htot Hsel. unfold selection. rewrite Hsel, Htot. simpl.
  rewrite insert_resize_S by done.
  apply take_ge. rewrite length_app, length_take. simpl. lia.
Qed.

(** C10: [wm_widget_select] with a null widget, or with a widget whose
    selected flag is set, returns with the state and the trace as they
    were: no growth of the array, no change of the count, no callback, no
    flag written.  And a call with any live widget keeps the invariant of
    the selection: the array holds no widget twice, and a live widget is in
    it exactly when its selected flag is set (for a select callback that
    leaves the selection alone, and a count below [INT_MAX]). *)
Theorem select_guard_keeps_selection (w : world) :
  wm_widget_select E None w = Some (tt, w) /\
  (forall p x, heap (st w) !! p = Some x ->
     has_flag (flag x) WM_WIDGET_SELECTED = true ->
     wm_widget_select E (Some p) w = Some (tt, w)) /\
  (select_cb_frame E -> selection_inv (st w) -> highlight_wf (st w) ->
   tot_selected (st w) < 2 ^ 31 - 1 ->
   forall p, is_Some (heap (st w) !! p) ->
     exists w', wm_widget_select E (Some p) w = Some (tt, w') /\
       selection_inv (st w')).
Proof.
  split; [done|]. split.
  { intros p x Hx Hf. unfold wm_widget_select.
    erewrite bind_eq by (by apply load_Some). by rewrite Hf. }
  intros Hcb (Hwf & Hnd & Hiff) Hhl Hmax p [x Hx].
  destruct (has_flag (flag x) WM_WIDGET_SELECTED) eqn:Hf.
  { exists w. split; [|done]. unfold wm_widget_select.
    erewrite bind_eq by (by apply load_Some). by rewrite Hf. }
  destruct (select_spec w p x Hcb Hwf Hmax Hhl Hx Hf) as (w' & Hrun & Htot & Hsel & Hnone & Hsome).
  exists w'. split; [done|].
  destruct Hwf as (Hrange & Hlen & Hlive).
  assert (Hs' : selection (st w') = selection (st w) ++ [Some p])
    by (apply selection_after_select; [done|lia|done|done]).
  split; [|split].
  - split; [lia|]. split.
    + rewrite Hsel. simpl. rewrite length_insert, length_resize. lia.
    + rewrite Hs'. intros q Hq. apply elem_of_app in Hq as [Hq|Hq];
        [|apply list_elem_of_singleton in Hq as ->].
      * destruct (Hlive q Hq) as (q' & -> & [y Hy]). exists q'. split; [done|].
        destruct (Hsome q' y Hy) as (y' & Hy' & _). by eexists.
      * exists p. split; [done|]. destruct (Hsome p x Hx) as (y' & Hy' & _). by eexists.
  - rewrite Hs'. apply NoDup_app. split; [done|]. split; [|apply NoDup_singleton].
    intros q Hq Hq'. apply list_elem_of_singleton in Hq' as ->.
    apply (Hiff p x Hx) in Hq. congruence.
  - intros q y' Hq. rewrite Hs'.
    destruct (heap (st w) !! q) as [y|] eqn:Hy; [|rewrite (Hnone q Hy) in Hq; done].
    destruct (Hsome q y Hy) as (y'' & Hy'' & _ & Hfl).
    assert (y'' = y') by congruence. subst y''. rewrite Hfl.
    destruct (decide (q = p)) as [->|Hne].
    + split; [done|]. intros _. apply elem_of_app. right. by apply list_elem_of_singleton.
    + rewrite <- (Hiff q y Hy). rewrite elem_of_app, list_elem_of_singleton.
      split; [intros [?|[= ?]]; done|by left].
Qed.

Lemma selected_at_Some i arr p w :
  selected_widgets (st w) = Some arr -> 0 <= i ->
  arr !! Z.to_nat i = Some (Some p) ->
  selected_at i w = Some (p, w).
Proof.
  intros Hs Hi Hp. unfold selected_at. erewrite bind_eq by reflexivity.
  rewrite Hs. destruct (Z.ltb_spec i 0) as [|_]; [lia|]. by rewrite Hp.
Qed.

Lemma widget_compare_Some a b xa xb w :
  heap (st w) !! a = Some xa -> heap (st w) !! b = Some xb ->
  widget_compare a b w = Some (String.eqb (idname xa) (idname xb), w).
Proof.
  intros Ha Hb. unfold widget_compare.
  erewrite bind_eq by (by apply load_Some).
  erewrite bind_eq by (by apply load_Some). done.
Qed.

(** The search of [wm_widget_deselect] when the widget sits in slot [k] and
    no earlier slot holds a widget of its name: nothing moves when [k] is
    the last slot in use. *)
Lemma deselect_find_last widget xw tot arr w (k : nat) :
  selected_widgets (st w) = Some arr ->
  heap (st w) !! widget = Some xw ->
  arr !! k = Some (Some widget) ->
  (forall (j : nat) q, (j < k)%nat -> arr !! j = Some q ->
     exists q' y, q = Some q' /\ heap (st w) !! q' = Some y /\ idname y <> idname xw) ->
  tot - 1 - Z.of_nat k <= 0 ->
  forall (n i : nat), (i <= k < i + n)%nat ->
    deselect_find widget tot n (Z.of_nat i) w = Some (tt, w).
Proof.
  intros Hs Hw Hk Hpre Htot n. induction n as [|n IH]; intros i Hi; [lia|].
  cbn [deselect_find].
  destruct (decide (i = k)) as [->|Hne].
  - erewrite bind_eq by (eapply selected_at_Some; [done|lia|by rewrite Nat2Z.id]).
    erewrite bind_eq by (by eapply widget_compare_Some).
    rewrite String.eqb_refl.
    replace (Z.to_nat (tot - 1 - Z.of_nat k)) with 0%nat by lia. done.
  - assert (Hlt : (i < k)%nat) by lia.
    destruct (lookup_lt_is_Some_2 arr i) as [q Hq].
    { apply lookup_lt_Some in Hk. lia. }
    destruct (Hpre i q Hlt Hq) as (q' & y & -> & Hy & Hny).
    erewrite bind_eq by (eapply selected_at_Some; [done|lia|by rewrite Nat2Z.id]).
    erewrite bind_eq by (by eapply widget_compare_Some).
    apply String.eqb_neq in Hny. rewrite Hny.
    replace (Z.of_nat i + 1) with (Z.of_nat (S i)) by lia. apply IH. lia.
Qed.

(** C8 (as amended): for a widget that is not selected and whose name no
    widget of the selection carries, [wm_widget_select] followed by
    [wm_widget_deselect] on the same widget gives back the count and the
    members of the selection as they were before, and the selected flag of
    the widget is clear. *)
Theorem select_deselect_roundtrip (w : world) (p : ptr) (x : wmWidget) :
  select_cb_frame E -> selection_wf (st w) -> highlight_wf (st w) ->
  tot_selected (st w) < 2 ^ 31 - 1 ->
  heap (st w) !! p = Some x ->
  has_flag (flag x) WM_WIDGET_SELECTED = false ->
  (forall q y, Some q ∈ selection (st w) -> heap (st w) !! q = Some y ->
     idname y <> idname x) ->
  exists w1 w2,
    wm_widget_select E (Some p) w = Some (tt, w1) /\
    wm_widget_deselect p w1 = Some (tt, w2) /\
    tot_selected (st w2) = tot_selected (st w) /\
    selection (st w2) = selection (st w) /\
    exists x2, heap (st w2) !! p = Some x2 /\
      has_flag (flag x2) WM_WIDGET_SELECTED = false.
Proof.
  intros Hcb Hwf Hhl Hmax Hx Hf Hnames.
  destruct (select_spec w p x Hcb Hwf Hmax Hhl Hx Hf) as (w1 & Hrun & Htot & Hsel & Hnone & Hsome).
  exists w1. destruct Hwf as (Hrange & Hlen & Hlive).
  set (k := Z.to_nat (tot_selected (st w))) in *.
  set (arr0 := default [] (selected_widgets (st w))) in *.
  rewrite insert_resize_S in Hsel by done.
  destruct (Hsome p x Hx) as (x1 & Hx1 & Hn1 & _).
  destruct w1 as [s1 t1]. cbn [st trace] in *.
  unfold wm_widget_deselect.
  erewrite bind_eq by reflexivity. cbn [st trace]. rewrite Htot.
  erewrite bind_eq; cycle 1.
  { replace 0 with (Z.of_nat 0) by done.
    eapply (deselect_find_last p x1 _ _ _ k); cbn [st]; [done|done| | |lia|lia].
    - rewrite lookup_app_r by (rewrite length_take; lia).
      rewrite length_take. by replace (k - k `min` length arr0)%nat with 0%nat by lia.
    - intros j q Hj Hq. rewrite lookup_app_l in Hq by (rewrite length_take; lia).
      assert (Hin : q ∈ selection (st w)) by (by eapply list_elem_of_lookup_2).
      destruct (Hlive q Hin) as (q' & -> & [y Hy]).
      destruct (Hsome q' y Hy) as (y' & Hy' & Hny & _).
      exists q', y'. split; [done|]. split; [done|].
      rewrite Hny, Hn1. by eapply Hnames. }
  destruct (Z.leb_spec (tot_selected (st w) + 1) 1) as [Hle|Hgt].
  - assert (H0 : tot_selected (st w) = 0) by lia.
    rewrite bind_assoc. erewrite bind_eq by reflexivity.
    erewrite bind_eq by reflexivity. cbn [st trace].
    erewrite bind_eq by (apply load_Some; simpl; exact Hx1).
    erewrite bind_eq by (eapply store_Some; simpl; exact Hx1).
    eexists. split; [exact Hrun|]. split; [reflexivity|]. cbn [st trace]. simpl.
    split; [done|]. split.
    + unfold selection. simpl. rewrite H0. by rewrite !take_0.
    + eexists. rewrite lookup_insert_eq. split; [done|]. simpl. by flag_simpl.
  - rewrite bind_assoc.
    erewrite bind_eq by (apply realloc_selected_Some; lia).
    erewrite bind_eq by reflexivity. cbn [st trace].
    erewrite bind_eq by (apply load_Some; simpl; exact Hx1).
    erewrite bind_eq by (eapply store_Some; simpl; exact Hx1).
    eexists. split; [exact Hrun|]. split; [reflexivity|]. cbn [st trace]. simpl.
    rewrite to_int_small by lia.
    split; [lia|]. split.
    + unfold selection. simpl. rewrite Hsel. simpl.
      replace (tot_selected (st w) + 1 - 1) with (tot_selected (st w)) by lia.
      fold k. rewrite take_resize_le by lia.
      rewrite resize_le by (rewrite length_app, length_take; simpl; lia).
      rewrite take_app_le by (rewrite length_take; lia).
      rewrite take_take. f_equal. lia.
    + eexists. rewrite lookup_insert_eq. split; [done|]. simpl. by flag_simpl.
Qed.

Lemma widget_deactivate_Some p x w :
  heap (st w) !! p = Some x ->
  exists w', widget_deactivate p w = Some (tt, w') /\
    active_widget (st w') = active_widget (st w) /\
    (exists x', heap (st w') !! p = Some x' /\
       has_flag (flag x') WM_WIDGET_ACTIVE = false /\ interaction_data x' = None) /\
    trace w' = trace w ++
      (if interaction_data x is Some _ then [EvFreeInteraction p] else []).
Proof.
  destruct w as [s t]. cbn [st trace]. intros Hx. unfold widget_deactivate.
  erewrite bind_eq by (by apply load_Some).
  erewrite bind_eq by (by eapply store_Some).
  erewrite bind_eq by (apply load_Some; simpl; apply lookup_insert_eq).
  cbn [interaction_data set_flag].
  destruct (interaction_data x) as [d|] eqn:Hd.
  - erewrite bind_eq by reflexivity. cbn [st trace].
    erewrite store_Some by (simpl; apply lookup_insert_eq).
    eexists. split; [reflexivity|]. cbn [st trace]. simpl. split; [done|].
    split; [|done]. eexists. rewrite lookup_insert_eq. split; [done|]. simpl.
    split; [by flag_simpl|done].
  - eexists. split; [reflexivity|]. cbn [st trace]. simpl. split; [done|].
    split; [|by rewrite app_nil_r]. eexists. rewrite lookup_insert_eq.
    split; [done|]. simpl. split; [by flag_simpl|done].
Qed.

Lemma set_active_operator_run (w : world) (p : ptr) (x : wmWidget)
    (name : string) (ot : wmOperatorType) :
  heap (st w) !! p = Some x -> opname x = Some name ->
  operatortype_find E name = Some ot ->
  is_Some (heap (dispatcher_entry E p x (st w)) !! p) ->
  (active_widget (dispatcher_exit E ot p x (st w)) = None ->
   is_Some (heap (dispatcher_exit E ot p x (st w)) !! p)) ->
  exists w' x1 tail,
    wm_widgetmap_set_active_widget E (Some p) w = Some (tt, w') /\
    heap (dispatcher_entry E p x (st w)) !! p = Some x1 /\
    trace w' = trace w ++ (if has_pair x then [EvInvoke p] else []) ++
               [EvOperatorCall ot (opptr x1)] ++ tail /\
    active_widget (st w') = active_widget (dispatcher_exit E ot p x (st w)) /\
    (active_widget (dispatcher_exit E ot p x (st w)) = None ->
     exists x2 x', heap (dispatcher_exit E ot p x (st w)) !! p = Some x2 /\
       tail = (if interaction_data x2 is Some _ then [EvFreeInteraction p] else []) /\
       heap (st w') !! p = Some x' /\
       has_flag (flag x') WM_WIDGET_ACTIVE = false /\ interaction_data x' = None).
Proof.
  destruct w as [s t]. cbn [st trace].
  intros Hx Hop Hot [x1 Hx1] Hexit. unfold wm_widgetmap_set_active_widget.
  erewrite bind_eq by (by apply load_Some). rewrite Hop, Hot.
  assert (Hpre : exists s1, match invoke x, handler x with
     | Some c, Some _ => widget_invoke E p c
     | _, _ => ret tt end (World s t) =
     Some (tt, World s1 (t ++ (if has_pair x then [EvInvoke p] else []))) /\
     dispatcher_entry E p x s = set_active_widget (Some p) s1).
  { unfold dispatcher_entry, has_pair.
    destruct (invoke x) as [c|]; [destruct (handler x) as [c'|]|].
    - unfold widget_invoke. erewrite bind_eq by (by apply load_Some).
      erewrite bind_eq by (by eapply store_Some).
      erewrite bind_eq by reflexivity. cbn [st trace].
      eexists. split; [reflexivity|done].
    - exists s. by rewrite app_nil_r.
    - exists s. by rewrite app_nil_r. }
  destruct Hpre as (s1 & Hpre & Hentry).
  erewrite bind_eq by exact Hpre.
  erewrite bind_eq by reflexivity. cbn [st trace].
  rewrite <- Hentry.
  erewrite bind_eq by (by apply load_Some).
  erewrite bind_eq by reflexivity. cbn [st trace].
  erewrite bind_eq by reflexivity. cbn [st trace].
  erewrite bind_eq by reflexivity. cbn [st trace].
  fold (dispatcher_exit E ot p x s) in *.
  destruct (active_widget (dispatcher_exit E ot p x s)) as [a|] eqn:Ha.
  - eexists _, x1, []. split; [reflexivity|]. cbn [st trace].
    split; [done|]. split; [by rewrite <- !app_assoc|]. split; [done|]. done.
  - destruct (Hexit eq_refl) as [x2 Hx2].
    destruct (widget_deactivate_Some p x2
                (World (dispatcher_exit E ot p x s)
                   ((t ++ (if has_pair x then [EvInvoke p] else [])) ++
                    [EvOperatorCall ot (opptr x1)])) Hx2)
      as (w' & Hrun & Hact & Hx' & Htr).
    exists w', x1, (if interaction_data x2 is Some _ then [EvFreeInteraction p] else []).
    split; [exact Hrun|]. split; [done|]. cbn [st trace] in *.
    split; [by rewrite Htr, <- !app_assoc|]. split; [by rewrite Hact|].
    intros _. destruct Hx' as (x' & Hx' & Hfl & Hdata). by exists x2, x'.
Qed.

End Facts.

(** *** The regeneration loop *)


Lemma intact_dec P U p x : Decision (intact P U p x).
Proof. unfold intact. apply _. Qed.

Lemma intact_mono P U U' p x : U' ⊆ U -> intact P U' p x -> intact P U p x.
Proof. intros HU [H|H]; [left; by apply HU|by right]. Qed.

Section Regen.
Context (E : externals) (s0 : wm_state) (t0 : list event) (P : list ptr).
Hypothesis P_live : forall p, p ∈ P -> is_Some (heap s0 !! p).

Lemma regen_inv_shrink U U' reg w :
  U' ⊆ U -> regen_inv s0 t0 P U reg w -> regen_inv s0 t0 P U' reg w.
Proof.
  intros HU [H1 H2 H3 H4 H5]. split; [| |done..].
  - intros p x Hp Hi. apply H1; [done|]. by eapply intact_mono.
  - intros n Hn. destruct (H2 n Hn) as [Hl Hf]. split; [done|].
    intros x Hx Hi. apply (Hf x Hx). by eapply intact_mono.
Qed.

(** One old widget is visited. *)
Lemma regen_discard_spec p U reg acc w :
  regen_inv s0 t0 P (p :: U) reg w -> NoDup (p :: U) -> p ∈ P ->
  exists acc' w', regen_discard p acc w = Some (acc', w') /\
    regen_inv s0 t0 P U reg w' /\
    acc'.1 = remlink p acc.1 /\
    acc'.2 = kept_highlighted (heap s0) [p] acc.2.
Proof.
  intros Hinv Hnd HP. destruct (P_live p HP) as [x Hx].
  assert (Hpx : heap (st w) !! p = Some x).
  { apply (ri_intact _ _ _ _ _ _ Hinv); [done|]. left. by apply elem_of_cons; left. }
  assert (Hsub : U ⊆ p :: U) by (intros q Hq; by apply elem_of_cons; right).
  unfold regen_discard. erewrite bind_eq by (by apply load_Some).
  unfold kept_highlighted. simpl. rewrite Hx.
  destruct (has_flag (flag x) WM_WIDGET_SELECTED) eqn:Hsel.
  { eexists _, w. split; [reflexivity|]. split; [by eapply regen_inv_shrink|done]. }
  destruct (has_flag (flag x) WM_WIDGET_HIGHLIGHT) eqn:Hhl.
  { eexists _, w. split; [reflexivity|]. split; [by eapply regen_inv_shrink|done]. }
  assert (Hfl : flagless x = true) by (unfold flagless; by rewrite Hsel, Hhl).
  apply NoDup_cons in Hnd as [HpU _].
  destruct w as [s t]. cbn [st trace] in *.
  cbv iota. erewrite bind_eq by (by eapply wm_widget_delete_spec).
  cbn [st trace].
  eexists _, _. split; [reflexivity|]. split; [|done].
  destruct Hinv as [H1 H2 H3 H4 H5]. cbn [st trace] in *. split; cbn [st trace].
  - intros q y Hq Hi. simpl. rewrite lookup_delete_ne.
    + apply H1; [done|]. by eapply intact_mono.
    + intros <-. destruct Hi as [Hi|Hi]; [done|]. apply Hi.
      assert (y = x) by congruence. by subst.
  - intros n Hn. destruct (H2 n Hn) as [Hl Hf]. split.
    + simpl. rewrite lookup_delete_ne; [done|]. intros <-.
      apply (Hf x Hx). left. by apply elem_of_cons; left.
    + intros y Hy Hi. apply (Hf y Hy). by eapply intact_mono.
  - destruct H3 as (c & Hc & Hall). exists c. split; [done|].
    intros name n Hn. destruct (Hall name n Hn) as (y & Hy & Hrest).
    exists y. split; [|done]. simpl. rewrite lookup_delete_ne; [done|]. intros <-.
    destruct Hrest as (_ & _ & Hreg). destruct (H2 p Hreg) as [_ Hf].
    apply (Hf x Hx). left. by apply elem_of_cons; left.
  - destruct H4 as (evs & -> & Hev). exists (evs ++ [EvFreeData p; EvFreeWidget p]).
    split; [by rewrite <- !app_assoc|].
    assert (Hq' : forall q e, (e = EvFreeWidget q \/ e = EvFreeData q) ->
              e ∈ [EvFreeData p; EvFreeWidget p] -> q = p).
    { intros q e He Hin. apply elem_of_cons in Hin as [->|Hin].
      - destruct He as [He|He]; by inversion He.
      - apply list_elem_of_singleton in Hin as ->. destruct He as [He|He]; by inversion He. }
    intros q [Hq|Hq]; apply elem_of_app in Hq as [Hq|Hq];
      [apply Hev; by left|rewrite (Hq' q _ (or_introl eq_refl) Hq); eauto
      |apply Hev; by right|rewrite (Hq' q _ (or_intror eq_refl) Hq); eauto].
  - done.
Qed.

Lemma discard_loop_spec ws : forall U reg acc w,
  regen_inv s0 t0 P (ws ++ U) reg w -> NoDup (ws ++ U) ->
  (forall p, p ∈ ws -> p ∈ P) ->
  exists acc' w', for_each regen_discard ws acc w = Some (acc', w') /\
    regen_inv s0 t0 P U reg w' /\
    acc'.1 = foldl (fun l p => remlink p l) acc.1 ws /\
    acc'.2 = kept_highlighted (heap s0) ws acc.2.
Proof.
  induction ws as [|p ws IH]; intros U reg acc w Hinv Hnd HP.
  { eexists _, _. split; [reflexivity|]. done. }
  cbn [for_each].
  destruct (regen_discard_spec p (ws ++ U) reg acc w) as (acc1 & w1 & Hrun & Hinv1 & Ha1 & Ha2);
    [done|done|apply HP; by apply elem_of_cons; left|].
  erewrite bind_eq by exact Hrun.
  destruct (IH U reg acc1 w1) as (acc' & w' & Hrun' & Hinv' & Hb1 & Hb2).
  { done. } { by apply NoDup_cons in Hnd as [_ ?]. }
  { intros q Hq. apply HP. by apply elem_of_cons; right. }
  exists acc', w'. split; [done|]. split; [done|].
  simpl. rewrite Hb1, Hb2, Ha1, Ha2. done.
Qed.

Lemma foldl_remlink (ws l : list ptr) :
  foldl (fun l p => remlink p l) l ws = filter (fun q => q ∉ ws) l.
Proof.
  revert l. induction ws as [|p ws IH]; intros l; simpl.
  - induction l as [|a l IHl]; [done|].
    rewrite filter_cons_True by (by apply not_elem_of_nil). by f_equal.
  - rewrite IH. unfold remlink. rewrite list_filter_filter.
    apply list_filter_iff. intros q. rewrite not_elem_of_cons. tauto.
Qed.

Lemma foldl_remlink_self (ws : list ptr) :
  foldl (fun l p => remlink p l) ws ws = [].
Proof.
  rewrite foldl_remlink.
  assert (H : forall l : list ptr, l ⊆ ws -> filter (fun q => q ∉ ws) l = []).
  { induction l as [|a l IHl]; intros Hl; [done|].
    rewrite filter_cons_False.
    - apply IHl. intros q Hq. apply Hl. by apply elem_of_cons; right.
    - intros Ha. apply Ha, Hl. by apply elem_of_cons; left. }
  by apply H.
Qed.

Lemma alloc_widget_spec x U reg w :
  regen_inv s0 t0 P U reg w ->
  exists n w', alloc_widget x w = Some (n, w') /\
    regen_inv s0 t0 P U (reg ++ [n]) w'.
Proof.
  intros [H1 H2 H3 H4 H5]. destruct w as [s t]. cbn [st trace] in *.
  exists (fresh (dom (heap s))). eexists. split; [reflexivity|]. cbn [st trace].
  assert (Hn : heap s !! fresh (dom (heap s)) = None).
  { apply not_elem_of_dom. apply is_fresh. }
  set (n := fresh (dom (heap s))) in *. clearbody n.
  split; cbn [st trace].
  - intros p y Hp Hi. simpl. rewrite lookup_insert_ne; [by apply H1|].
    intros <-. specialize (H1 n y Hp Hi). congruence.
  - intros q Hq. apply elem_of_app in Hq as [Hq|Hq].
    + destruct (H2 q Hq) as [[y Hy] Hf]. split; [|done].
      simpl. rewrite lookup_insert_ne; [by eexists|]. intros <-. congruence.
    + apply list_elem_of_singleton in Hq as ->. split.
      * simpl. rewrite lookup_insert_eq. by eexists.
      * intros y Hy Hi. specialize (H1 n y Hy Hi). congruence.
  - destruct H3 as (c & Hc & Hall). exists c. split; [done|].
    intros name q Hq. destruct (Hall name q Hq) as (y & Hy & Hnm & Hh & Hr).
    exists y. split; [|split; [done|split; [done|by apply elem_of_app; left]]].
    simpl. rewrite lookup_insert_ne; [done|]. intros <-. congruence.
  - done.
  - done.
Qed.

Lemma register_loop_spec g xs : forall lst U reg w,
  regen_inv s0 t0 P U reg w ->
  exists news w', for_each (wm_widget_register g) xs lst w = Some (lst ++ news, w') /\
    regen_inv s0 t0 P U (reg ++ news) w'.
Proof.
  induction xs as [|x xs IH]; intros lst U reg w Hinv.
  { exists [], w. rewrite !app_nil_r. done. }
  cbn [for_each]. unfold wm_widget_register at 1. rewrite bind_assoc.
  destruct (alloc_widget_spec (set_wgroup (wg_addr g) x) U reg w Hinv) as (n & w1 & Hrun & Hinv1).
  erewrite bind_eq by exact Hrun.
  erewrite bind_eq by reflexivity.
  destruct (IH (lst ++ [n]) U (reg ++ [n]) w1 Hinv1) as (news & w' & Hrun' & Hinv').
  exists (n :: news), w'. rewrite <- !app_assoc in *. done.
Qed.

Lemma create_widgets_spec g lst U reg w :
  regen_inv s0 t0 P U reg w ->
  exists news w', create_widgets E g lst w = Some (lst ++ news, w') /\
    regen_inv s0 t0 P U (reg ++ news) w'.
Proof.
  intros Hinv. unfold create_widgets. destruct (gt_create (wg_type g)) as [c|].
  - by apply register_loop_spec.
  - exists [], w. rewrite !app_nil_r. done.
Qed.

Lemma cache_widget_spec p U reg w :
  regen_inv s0 t0 P U reg w -> p ∈ reg ->
  exists w', cache_widget E p w = Some (tt, w') /\ regen_inv s0 t0 P U reg w'.
Proof.
  intros Hinv Hp. pose proof Hinv as [H1 H2 H3 H4 H5].
  destruct (H2 p Hp) as [[y Hy] Hfresh].
  unfold cache_widget. erewrite bind_eq by (by apply load_Some).
  destruct (has_flag (flag y) WM_WIDGET_HIDDEN) eqn:Hhid; [by exists w|].
  destruct w as [s t]. cbn [st trace] in *.
  unfold widget_calculate_scale. rewrite !bind_assoc.
  erewrite bind_eq by (by apply load_Some).
  erewrite bind_eq by (by eapply store_Some). cbn [st trace].
  destruct H3 as (c & Hc & Hall).
  unfold ghash_reinsert. erewrite bind_eq by reflexivity.
  cbn [st trace draw_widgets set_heap]. rewrite Hc.
  eexists. split; [reflexivity|]. split; cbn [st trace]; simpl.
  - intros q x Hq Hi. rewrite lookup_insert_ne; [by apply H1|].
    intros <-. by apply (Hfresh x Hq).
  - intros n Hn. destruct (H2 n Hn) as [Hl Hf]. split; [|done].
    by apply lookup_insert_is_Some'; right.
  - eexists. split; [done|]. intros name n Hn.
    destruct (decide (idname y = name)) as [<-|Hne].
    + rewrite lookup_insert_eq in Hn. inversion Hn; subst n.
      eexists. rewrite lookup_insert_eq. split; [done|]. done.
    + rewrite lookup_insert_ne in Hn by done.
      destruct (Hall name n Hn) as (yn & Hyn & Hnm & Hh & Hr).
      destruct (decide (p = n)) as [->|Hpn].
      * eexists. rewrite lookup_insert_eq. split; [done|].
        assert (yn = y) by congruence. subst yn. done.
      * exists yn. by rewrite lookup_insert_ne.
  - done.
  - done.
Qed.

Lemma cache_loop_spec l : forall U reg w,
  regen_inv s0 t0 P U reg w -> l ⊆ reg ->
  exists w', for_each_ (cache_widget E) l w = Some (tt, w') /\
    regen_inv s0 t0 P U reg w'.
Proof.
  induction l as [|p l IH]; intros U reg w Hinv Hl; [by exists w|].
  cbn [for_each_].
  destruct (cache_widget_spec p U reg w Hinv) as (w1 & Hrun & Hinv1).
  { apply Hl. by apply elem_of_cons; left. }
  erewrite bind_eq by exact Hrun. apply IH; [done|].
  intros q Hq. apply Hl. by apply elem_of_cons; right.
Qed.

Lemma polled_widgets_cons g gs :
  polled_widgets E (g :: gs) = group_old E g ++ polled_widgets E gs.
Proof.
  unfold polled_widgets, polled_groups, listed_widgets, group_old.
  destruct (group_poll E g) eqn:Hg.
  - rewrite filter_cons_True by done. done.
  - rewrite filter_cons_False by (by rewrite Hg). done.
Qed.

Lemma kept_highlighted_app h l1 l2 init :
  kept_highlighted h (l1 ++ l2) init =
  kept_highlighted h l2 (kept_highlighted h l1 init).
Proof. unfold kept_highlighted. apply foldl_app. Qed.

Lemma regen_group_spec g hl U reg w :
  regen_inv s0 t0 P (group_old E g ++ U) reg w ->
  NoDup (group_old E g ++ U) ->
  (forall p, p ∈ group_old E g -> p ∈ P) ->
  exists g' hl' news w',
    regen_group E g hl w = Some ((g', hl'), w') /\
    regen_inv s0 t0 P U (reg ++ news) w' /\
    wg_addr g' = wg_addr g /\ wg_type g' = wg_type g /\
    (if group_poll E g then wg_widgets g' = news else g' = g /\ news = []) /\
    hl' = kept_highlighted (heap s0) (group_old E g) hl.
Proof.
  unfold regen_group, group_old. intros Hinv Hnd HP.
  destruct (group_poll E g) eqn:Hg.
  - destruct (discard_loop_spec (wg_widgets g) U reg (wg_widgets g, hl) w Hinv Hnd HP)
      as (acc & w1 & Hrun1 & Hinv1 & Ha1 & Ha2).
    erewrite bind_eq by exact Hrun1.
    simpl in Ha1, Ha2. rewrite foldl_remlink_self in Ha1. rewrite Ha1.
    destruct (create_widgets_spec g [] U reg w1 Hinv1) as (news & w2 & Hrun2 & Hinv2).
    erewrite bind_eq by exact Hrun2. simpl app.
    destruct (cache_loop_spec news U (reg ++ news) w2 Hinv2) as (w3 & Hrun3 & Hinv3).
    { intros q Hq. by apply elem_of_app; right. }
    erewrite bind_eq by exact Hrun3.
    eexists _, _, news, w3. split; [reflexivity|]. simpl. by rewrite Ha2.
  - exists g, hl, [], w. rewrite app_nil_r. done.
Qed.

Lemma group_poll_type g g' : wg_type g' = wg_type g -> group_poll E g' = group_poll E g.
Proof. unfold group_poll. by intros ->. Qed.

Lemma regen_groups_spec gs : forall hl reg w,
  regen_inv s0 t0 P (polled_widgets E gs) reg w ->
  NoDup (polled_widgets E gs) ->
  (forall p, p ∈ polled_widgets E gs -> p ∈ P) ->
  exists gs' hl' w',
    regen_groups E gs hl w = Some ((gs', hl'), w') /\
    regen_inv s0 t0 P [] (reg ++ polled_widgets E gs') w' /\
    Forall2 (group_kept E) gs gs' /\
    hl' = kept_highlighted (heap s0) (polled_widgets E gs) hl.
Proof.
  induction gs as [|g gs IH]; intros hl reg w Hinv Hnd HP.
  { exists [], hl, w. split; [done|]. split; [by rewrite app_nil_r|]. done. }
  rewrite polled_widgets_cons in Hinv, Hnd, HP. cbn [regen_groups].
  destruct (regen_group_spec g hl (polled_widgets E gs) reg w Hinv Hnd)
    as (g' & hl1 & news & w1 & Hrun1 & Hinv1 & Haddr & Htype & Hnews & Hhl1).
  { intros p Hp. apply HP. by apply elem_of_app; left. }
  erewrite bind_eq by exact Hrun1. cbn [fst snd].
  destruct (IH hl1 (reg ++ news) w1 Hinv1) as (gs' & hl' & w' & Hrun' & Hinv' & Hkept & Hhl').
  { by apply NoDup_app in Hnd as (_ & _ & ?). }
  { intros p Hp. apply HP. by apply elem_of_app; right. }
  erewrite bind_eq by exact Hrun'. cbn [fst snd].
  exists (g' :: gs'), hl', w'. split; [done|]. split; [|split].
  - rewrite polled_widgets_cons. unfold group_old.
    rewrite (group_poll_type g g' Htype).
    destruct (group_poll E g) eqn:Hg.
    + rewrite Hnews. by rewrite app_assoc.
    + destruct Hnews as [-> ->]. by rewrite app_nil_r in Hinv'.
  - constructor; [|done]. split; [done|]. split; [done|].
    intros Hg. rewrite Hg in Hnews. by destruct Hnews.
  - rewrite polled_widgets_cons, kept_highlighted_app. by rewrite <- Hhl1.
Qed.

End Regen.
(** *** The reconciliation of highlight and selection *)


Lemma recon_heap_rel_refl U h : recon_heap_rel U h h.
Proof. split; [done|]. intros q y Hq. exists y. done. Qed.

Lemma recon_heap_rel_trans U h1 h2 h3 :
  recon_heap_rel U h1 h2 -> recon_heap_rel U h2 h3 -> recon_heap_rel U h1 h3.
Proof.
  intros [Ha Hb] [Ha' Hb']. split; [eauto|].
  intros q y Hq. destruct (Hb q y Hq) as (y' & Hy' & H1 & H2 & H3 & H4).
  destruct (Hb' q y' Hy') as (y'' & Hy'' & H1' & H2' & H3' & H4').
  exists y''. split; [done|]. split; [congruence|]. split; [congruence|].
  split; [eauto|]. intros HU. rewrite H4', H4; done.
Qed.

Lemma recon_heap_rel_insert U h n y y' :
  h !! n = Some y -> idname y' = idname y ->
  has_flag (flag y') WM_WIDGET_HIDDEN = has_flag (flag y) WM_WIDGET_HIDDEN ->
  (has_flag (flag y) WM_WIDGET_HIGHLIGHT = true ->
   has_flag (flag y') WM_WIDGET_HIGHLIGHT = true) ->
  (U -> highlighted_part y' = highlighted_part y) ->
  recon_heap_rel U h (<[n := y']> h).
Proof.
  intros Hn H1 H2 H3 H4. split.
  - intros q Hq. rewrite lookup_insert_ne; [done|]. intros <-. congruence.
  - intros q yq Hq. destruct (decide (n = q)) as [<-|Hne].
    + rewrite lookup_insert_eq. exists y'. assert (yq = y) by congruence. by subst.
    + rewrite lookup_insert_ne by done. exists yq. done.
Qed.

Lemma recon_inv_insert s0 c reg s t n y y' :
  recon_inv s0 c reg (World s t) ->
  heap s !! n = Some y -> n ∈ reg -> idname y' = idname y ->
  has_flag (flag y') WM_WIDGET_HIDDEN = has_flag (flag y) WM_WIDGET_HIDDEN ->
  forall s' t', heap s' = <[n := y']> (heap s) -> draw_widgets s' = draw_widgets s ->
  recon_inv s0 c reg (World s' t').
Proof.
  intros [H1 H2 [H3 H4]] Hn Hreg Hid Hhid s' t' Hh Hd. cbn [st] in *.
  split; cbn [st]; rewrite ?Hh, ?Hd.
  - intros p x Hp Hsel. rewrite lookup_insert_ne; [by apply H1|].
    intros <-. destruct (H2 n Hreg) as [_ Hf]. specialize (Hf x Hp).
    unfold flagless in Hf. rewrite Hsel in Hf. done.
  - intros m Hm. destruct (H2 m Hm) as [Hl Hf]. split; [|done].
    by apply lookup_insert_is_Some'; right.
  - split; [done|]. intros name m Hm.
    destruct (H4 name m Hm) as (ym & Hym & Hnm & Hh' & Hr).
    destruct (decide (n = m)) as [<-|Hne].
    + exists y'. rewrite lookup_insert_eq. assert (ym = y) by congruence. subst.
      split; [done|]. split; [done|]. split; [congruence|done].
    + exists ym. by rewrite lookup_insert_ne.
Qed.

(** [widget_highlight_update] on an old widget and a registered one. *)
Lemma widget_highlight_update_spec s0 c reg s t o xo n y :
  recon_inv s0 c reg (World s t) ->
  heap s !! o = Some xo -> heap s !! n = Some y -> n ∈ reg -> o <> n ->
  exists s',
    widget_highlight_update o n (World s t) = Some (tt, World s' t) /\
    heap s' = <[n := set_highlighted_part (highlighted_part xo)
                        (set_flag (flag_enable (flag y) WM_WIDGET_HIGHLIGHT) y)]> (heap s) /\
    s' = set_highlighted_widget (Some n) (set_heap (heap s') s).
Proof.
  intros Hinv Ho Hn Hreg Hne. unfold widget_highlight_update.
  erewrite bind_eq by (by apply load_Some).
  erewrite bind_eq by (by eapply store_Some).
  erewrite bind_eq by reflexivity. cbn [st trace].
  erewrite bind_eq by (apply load_Some; simpl; by rewrite lookup_insert_ne).
  erewrite bind_eq by (apply load_Some; simpl; apply lookup_insert_eq).
  erewrite store_Some by (simpl; apply lookup_insert_eq).
  eexists. split; [reflexivity|]. simpl. rewrite insert_insert_eq. done.
Qed.



Lemma recon_frame_refl s : recon_frame s s.
Proof. done. Qed.

Lemma recon_frame_trans s1 s2 s3 :
  recon_frame s1 s2 -> recon_frame s2 s3 -> recon_frame s1 s3.
Proof.
  intros (A1 & A2 & A3 & A4 & A5) (B1 & B2 & B3 & B4 & B5).
  repeat split; congruence.
Qed.

Lemma times_data_freed_app p l1 l2 :
  times_data_freed p (l1 ++ l2) = (times_data_freed p l1 + times_data_freed p l2)%nat.
Proof. unfold times_data_freed. by rewrite filter_app, length_app. Qed.

Lemma times_data_freed_none p l : EvFreeData p ∉ l -> times_data_freed p l = 0%nat.
Proof.
  unfold times_data_freed. induction l as [|e l IH]; intros Hn; [done|].
  apply not_elem_of_cons in Hn as [Hne Hn].
  rewrite filter_cons_False; [by apply IH|].
  destruct e; simpl; try done. case_bool_decide; [|done]. congruence.
Qed.

Lemma times_data_freed_one p q :
  times_data_freed q [EvFreeData p] = if bool_decide (q = p) then 1%nat else 0%nat.
Proof.
  unfold times_data_freed. case_bool_decide as Hq.
  - subst q. rewrite filter_cons_True; [done|]. simpl. by rewrite bool_decide_eq_true_2.
  - rewrite filter_cons_False; [done|]. simpl. rewrite bool_decide_eq_false_2; [done|congruence].
Qed.

(** The data of an old widget is freed: the invariant stays. *)
Lemma recon_inv_data_freed s0 c reg s t p xc :
  recon_inv s0 c reg (World s t) ->
  heap s !! p = Some xc -> p ∉ reg ->
  forall s' t', heap s' = <[p := data_freed xc]> (heap s) ->
    draw_widgets s' = draw_widgets s ->
    recon_inv s0 c reg (World s' t').
Proof.
  intros [H1 H2 [H3 H4]] Hp Hreg s' t' Hh Hd. cbn [st] in *.
  split; cbn [st]; rewrite ?Hh, ?Hd.
  - intros q x Hq Hsel. destruct (decide (q = p)) as [->|Hne].
    + right. rewrite lookup_insert_eq. f_equal.
      destruct (H1 p x Hq Hsel) as [Hc|Hc]; rewrite Hp in Hc; by inversion Hc.
    + rewrite lookup_insert_ne by done. by apply H1.
  - intros m Hm. destruct (H2 m Hm) as [Hl Hf]. split; [|done].
    by apply lookup_insert_is_Some'; right.
  - split; [done|]. intros name m Hm.
    destruct (H4 name m Hm) as (ym & Hym & Hrest).
    exists ym. split; [|done]. rewrite lookup_insert_ne; [done|].
    intros <-. by destruct Hrest as (_ & _ & Hr).
Qed.

Section Recon.
Context (s0 : wm_state) (c : gmap string ptr) (reg : list ptr)
        (arr0 : list (option ptr)).
Hypothesis Harr0 : selected_widgets s0 = Some arr0.
Hypothesis Hflagged : selected_flagged s0.
Hypothesis Hlen0 : (Z.to_nat (tot_selected s0) <= length arr0)%nat.
Hypothesis Hnodup : NoDup (selection s0).

Lemma arr0_entry (i : nat) :
  (i < Z.to_nat (tot_selected s0))%nat ->
  exists p x, arr0 !! i = Some (Some p) /\ Some p ∈ selection s0 /\
    heap s0 !! p = Some x /\ has_flag (flag x) WM_WIDGET_SELECTED = true.
Proof.
  intros Hi. destruct (lookup_lt_is_Some_2 arr0 i) as [q Hq]; [lia|].
  assert (Hin : q ∈ selection s0).
  { unfold selection. rewrite Harr0. simpl. apply elem_of_take. eauto. }
  destruct (Hflagged q Hin) as (p & x & -> & Hx & Hs). eauto 10.
Qed.

(** A widget is in one slot of the selection only. *)
Lemma arr0_slot_unique (i j : nat) (q : ptr) :
  (i < Z.to_nat (tot_selected s0))%nat -> (j < Z.to_nat (tot_selected s0))%nat ->
  arr0 !! i = Some (Some q) -> arr0 !! j = Some (Some q) -> i = j.
Proof.
  intros Hi Hj Hqi Hqj. eapply NoDup_lookup; [exact Hnodup| |];
    unfold selection; rewrite Harr0; simpl; by rewrite lookup_take_lt.
Qed.

Lemma replaced_in_step (i n : nat) (p q : ptr) (x : wmWidget) :
  (i + S n <= Z.to_nat (tot_selected s0))%nat ->
  arr0 !! i = Some (Some p) -> heap s0 !! p = Some x ->
  (replaced_in s0 c i (S n) q <->
   (q = p /\ is_Some (c !! idname x)) \/ replaced_in s0 c (S i) n q) /\
  (q = p -> ~ replaced_in s0 c (S i) n q).
Proof.
  intros Hb Hp Hx. unfold replaced_in. rewrite Harr0. simpl. split; [split|].
  - intros (j & y & Hj & Hq & Hy & Hc). destruct (decide (j = i)) as [->|Hne].
    + left. assert (q = p) by congruence. subst q.
      assert (y = x) by congruence. by subst y.
    + right. exists j, y. split; [lia|done].
  - intros [[-> Hc]|(j & y & Hj & Hrest)].
    + exists i, x. split; [lia|done].
    + exists j, y. split; [lia|done].
  - intros -> (j & y & Hj & Hq & _). 
    assert (i = j) by (eapply arr0_slot_unique; [| |exact Hp|exact Hq]; lia). lia.
Qed.

Lemma reconcile_selected_spec (i : nat) w arr :
  recon_inv s0 c reg w ->
  selected_widgets (st w) = Some arr -> length arr = length arr0 ->
  arr !! i = arr0 !! i -> (i < Z.to_nat (tot_selected s0))%nat ->
  exists w' p x,
    reconcile_selected i w = Some (tt, w') /\
    recon_inv s0 c reg w' /\
    arr0 !! i = Some (Some p) /\ heap s0 !! p = Some x /\
    selected_widgets (st w') = Some (<[i := Some (default p (c !! idname x))]> arr) /\
    recon_heap_rel (selection_unlit s0) (heap (st w)) (heap (st w')) /\
    (selection_unlit s0 -> highlighted_widget (st w') = highlighted_widget (st w)) /\
    recon_frame (st w) (st w') /\
    (forall q, q ∉ reg ->
       heap (st w') !! q =
         if bool_decide (q = p /\ is_Some (c !! idname x))
         then data_freed <$> heap (st w) !! q else heap (st w) !! q) /\
    exists evs, trace w' = trace w ++ evs /\ frees_nothing evs /\
      evs = if c !! idname x is Some _ then [EvFreeData p] else [].
Proof.
  intros Hinv Hsel Hlen Hi Hlt.
  destruct (arr0_entry i Hlt) as (p & x & Hp & Hin & Hx & Hfl).
  destruct w as [s t]. cbn [st trace] in *.
  pose proof Hinv as [H1 H2 [H3 H4]]. cbn [st] in *.
  assert (Hcur : exists xc, heap s !! p = Some xc /\ idname xc = idname x /\
            flag xc = flag x /\ highlighted_part xc = highlighted_part x).
  { destruct (H1 p x Hx Hfl) as [Hc|Hc]; eexists; (split; [exact Hc|done]). }
  destruct Hcur as (xc & Hpx & Hcn & Hcf & Hcp).
  assert (Hpreg : p ∉ reg).
  { intros Hr. destruct (H2 p Hr) as [_ Hf]. specialize (Hf x Hx).
    unfold flagless in Hf. rewrite Hfl in Hf. done. }
  unfold reconcile_selected. erewrite bind_eq by reflexivity. cbn [st trace].
  rewrite Hsel, Hi, Hp.
  erewrite bind_eq by (by apply load_Some).
  unfold ghash_lookup. rewrite bind_assoc. erewrite bind_eq by reflexivity.
  cbn [st trace]. rewrite H3. erewrite bind_eq by reflexivity. rewrite Hcn, Hcf.
  destruct (c !! idname x) as [n|] eqn:Hc; cbn [default].
  2:{ exists (World s t), p, x. rewrite Hc. cbn [default].
      split; [done|]. split; [done|]. split; [done|].
      split; [done|]. split.
      { cbn [st]. rewrite Hsel. f_equal. symmetry. apply list_insert_id. by rewrite Hi. }
      split; [apply recon_heap_rel_refl|]. split; [done|]. split; [done|].
      split.
      { intros q _. rewrite bool_decide_eq_false_2; [done|].
        intros [_ [? ?]]. done. }
      exists []. split; [by rewrite app_nil_r|]. split; [|done].
      intros q Hq. by apply elem_of_nil in Hq. }
  destruct (H4 _ n Hc) as (y & Hy & Hnm & Hhid & Hreg).
  assert (Hne : p <> n) by (intros ->; done).
  (* the highlight, when the old widget carries it *)
  assert (Hhl : exists s1 y1,
    when (has_flag (flag x) WM_WIDGET_HIGHLIGHT) (widget_highlight_update p n) (World s t)
      = Some (tt, World s1 t) /\
    recon_inv s0 c reg (World s1 t) /\
    heap s1 = <[n := y1]> (heap s) /\ idname y1 = idname y /\
    has_flag (flag y1) WM_WIDGET_HIDDEN = has_flag (flag y) WM_WIDGET_HIDDEN /\
    (has_flag (flag y) WM_WIDGET_HIGHLIGHT = true ->
     has_flag (flag y1) WM_WIDGET_HIGHLIGHT = true) /\
    (selection_unlit s0 -> highlighted_part y1 = highlighted_part y) /\
    (selection_unlit s0 -> highlighted_widget s1 = highlighted_widget s) /\
    selected_widgets s1 = selected_widgets s /\
    recon_frame s s1).
  { destruct (has_flag (flag x) WM_WIDGET_HIGHLIGHT) eqn:Hxh; cbn [when].
    - destruct (widget_highlight_update_spec s0 c reg s t p xc n y Hinv Hpx Hy Hreg Hne)
        as (s1 & Hrun & Hheap & Hs1).
      exists s1, (set_highlighted_part (highlighted_part xc)
                    (set_flag (flag_enable (flag y) WM_WIDGET_HIGHLIGHT) y)).
      split; [done|]. split.
      { eapply recon_inv_insert; [exact Hinv|exact Hy|done| | |exact Hheap|by rewrite Hs1].
        - done.
        - simpl. by flag_simpl. }
      split; [done|]. split; [done|]. split; [simpl; by flag_simpl|].
      split; [intros _; simpl; by flag_simpl|].
      split; [intros Hu; specialize (Hu p x Hin Hx); congruence|].
      split; [intros Hu; specialize (Hu p x Hin Hx); congruence|].
      rewrite Hs1. done.
    - exists s, y. split; [done|]. split; [done|].
      split; [by rewrite insert_id|]. done. }
  destruct Hhl as (s1 & y1 & Hrun1 & Hinv1 & Hheap1 & Hid1 & Hhid1 & Hhl1 & Hpart1 & Hslot1 & Hsel1 & Hfr1).
  erewrite bind_eq by exact Hrun1.
  assert (Hp1 : heap s1 !! p = Some xc) by (rewrite Hheap1; by rewrite lookup_insert_ne).
  assert (Hn1 : heap s1 !! n = Some y1) by (rewrite Hheap1; apply lookup_insert_eq).
  erewrite bind_eq by (by apply wm_widget_data_free_Some). cbn [st trace].
  set (s2 := set_heap (<[p := data_freed xc]> (heap s1)) s1).
  assert (Hinv2 : recon_inv s0 c reg (World s2 (t ++ [EvFreeData p]))).
  { eapply recon_inv_data_freed; [exact Hinv1|exact Hp1|exact Hpreg|reflexivity|reflexivity]. }
  assert (Hn2 : heap s2 !! n = Some y1).
  { subst s2. cbn [heap set_heap]. by rewrite lookup_insert_ne. }
  erewrite bind_eq by (by apply load_Some).
  erewrite bind_eq by (by eapply store_Some). cbn [st trace].
  eexists _, p, x. rewrite Hc. cbn [default]. split; [reflexivity|].
  set (y2 := set_flag (flag_enable (flag y1) WM_WIDGET_SELECTED) y1).
  split.
  { eapply recon_inv_insert; [exact Hinv2|exact Hn2|done| | |reflexivity|reflexivity].
    - done.
    - subst y2. simpl. by flag_simpl. }
  split; [done|]. split; [done|]. cbn [st trace].
  split; [done|]. split.
  { subst s2. cbn [heap set_heap set_selected_widgets]. rewrite Hheap1.
    eapply recon_heap_rel_trans; [|eapply recon_heap_rel_trans].
    - eapply (recon_heap_rel_insert _ _ n y y1); [exact Hy|done|done|done|done].
    - eapply (recon_heap_rel_insert _ _ p xc (data_freed xc));
        [by rewrite lookup_insert_ne|done|done|done|done].
    - eapply (recon_heap_rel_insert _ _ n y1 y2).
      + rewrite lookup_insert_ne by done. apply lookup_insert_eq.
      + done.
      + subst y2. simpl. by flag_simpl.
      + intros Hh. subst y2. simpl. by flag_simpl.
      + done. }
  split; [simpl; done|]. split.
  { destruct Hfr1 as (A1 & A2 & A3 & A4 & A5). repeat split; simpl; done. }
  split.
  { intros q Hq. subst s2. cbn [heap set_heap set_selected_widgets]. rewrite Hheap1.
    assert (q <> n) by (intros ->; done).
    rewrite lookup_insert_ne by done.
    destruct (decide (q = p)) as [->|Hqp].
    - rewrite bool_decide_eq_true_2 by (split; [done|by eexists]).
      by rewrite lookup_insert_eq, Hpx.
    - rewrite bool_decide_eq_false_2 by (intros [? _]; done).
      by rewrite !lookup_insert_ne. }
  exists [EvFreeData p]. split; [done|]. split; [|done].
  intros q Hq. apply list_elem_of_singleton in Hq. discriminate.
Qed.

Lemma reconcile_loop_spec n : forall (i : nat) w arr,
  recon_inv s0 c reg w ->
  selected_widgets (st w) = Some arr -> length arr = length arr0 ->
  (forall j, (i <= j)%nat -> arr !! j = arr0 !! j) ->
  (i + n <= Z.to_nat (tot_selected s0))%nat ->
  exists w' arr',
    for_each_ reconcile_selected (seq i n) w = Some (tt, w') /\
    recon_inv s0 c reg w' /\
    selected_widgets (st w') = Some arr' /\ length arr' = length arr0 /\
    (forall j, (j < i \/ i + n <= j)%nat -> arr' !! j = arr !! j) /\
    (forall j p x, (i <= j < i + n)%nat -> arr0 !! j = Some (Some p) ->
       heap s0 !! p = Some x ->
       arr' !! j = Some (Some (default p (c !! idname x)))) /\
    recon_heap_rel (selection_unlit s0) (heap (st w)) (heap (st w')) /\
    (selection_unlit s0 -> highlighted_widget (st w') = highlighted_widget (st w)) /\
    recon_frame (st w) (st w') /\
    (forall q y, q ∉ reg -> heap (st w) !! q = Some y ->
       (replaced_in s0 c i n q -> heap (st w') !! q = Some (data_freed y)) /\
       (~ replaced_in s0 c i n q -> heap (st w') !! q = Some y)) /\
    exists evs, trace w' = trace w ++ evs /\ frees_nothing evs /\
      forall q, (replaced_in s0 c i n q -> times_data_freed q evs = 1%nat) /\
                (~ replaced_in s0 c i n q -> times_data_freed q evs = 0%nat).
Proof.
  induction n as [|n IH]; intros i w arr Hinv Hsel Hlen Hrest Hbound.
  { assert (Hno : forall q, ~ replaced_in s0 c i 0 q).
    { intros q (j & y & Hj & _). lia. }
    exists w, arr. split; [done|]. split; [done|]. split; [done|]. split; [done|].
    split; [done|]. split; [intros; lia|]. split; [apply recon_heap_rel_refl|].
    split; [done|]. split; [done|]. split.
    { intros q y _ Hy. split; [intros Hr; by destruct (Hno q)|done]. }
    exists []. split; [by rewrite app_nil_r|]. split.
    - intros q Hq. by apply elem_of_nil in Hq.
    - intros q. split; [intros Hr; by destruct (Hno q)|done]. }
  cbn [seq for_each_].
  destruct (reconcile_selected_spec i w arr Hinv Hsel Hlen) as
    (w1 & p & x & Hrun & Hinv1 & Hp & Hx & Hsel1 & Hrel1 & Hslot1 & Hfr1 & Hold1
       & evs1 & Htr1 & Hev1 & Hevs1);
    [apply Hrest; lia|lia|].
  erewrite bind_eq by exact Hrun.
  destruct (IH (S i) w1 (<[i := Some (default p (c !! idname x))]> arr) Hinv1 Hsel1)
    as (w' & arr' & Hrun' & Hinv' & Hsel' & Hlen' & Hout & Hin & Hrel' & Hslot' & Hfr'
          & Hold' & evs' & Htr' & Hev' & Hevs').
  { by rewrite length_insert. }
  { intros j Hj. rewrite list_lookup_insert_ne by lia. apply Hrest. lia. }
  { lia. }
  assert (Hstep : forall q,
    (replaced_in s0 c i (S n) q <->
     (q = p /\ is_Some (c !! idname x)) \/ replaced_in s0 c (S i) n q) /\
    (q = p -> ~ replaced_in s0 c (S i) n q)).
  { intros q. apply replaced_in_step; [lia|done|done]. }
  exists w', arr'. split; [done|]. split; [done|]. split; [done|]. split; [done|].
  split; [|split; [|split; [|split; [|split; [|split]]]]].
  - intros j Hj. rewrite Hout by lia. apply list_lookup_insert_ne. lia.
  - intros j q y Hj Hq Hy. destruct (decide (j = i)) as [->|Hne].
    + rewrite Hout by lia. rewrite list_lookup_insert_eq by lia.
      assert (q = p) by congruence. subst q. assert (y = x) by congruence. by subst y.
    + apply Hin; [lia|done|done].
  - by eapply recon_heap_rel_trans.
  - intros Hu. rewrite Hslot', Hslot1; done.
  - by eapply recon_frame_trans.
  - intros q y Hq Hy. destruct (Hstep q) as [Hiff Hexcl].
    pose proof (Hold1 q Hq) as H1. rewrite Hy in H1.
    case_bool_decide as Hd.
    + destruct Hd as [-> Hm]. simpl in H1.
      destruct (Hold' p (data_freed y) Hq H1) as [_ Hkeep].
      split; [intros _; apply Hkeep; by apply Hexcl|].
      intros Hn. exfalso. apply Hn, Hiff. by left.
    + destruct (Hold' q y Hq H1) as [Hyes Hno].
      split.
      * intros Hr. apply Hyes. apply Hiff in Hr as [Hr|Hr]; [done|exact Hr].
      * intros Hn. apply Hno. intros Hr. apply Hn, Hiff. by right.
  - exists (evs1 ++ evs'). split; [by rewrite Htr', Htr1, app_assoc|]. split.
    { intros q Hq. apply elem_of_app in Hq as [Hq|Hq]; [by apply (Hev1 q)|by apply (Hev' q)]. }
    intros q. destruct (Hstep q) as [Hiff Hexcl]. destruct (Hevs' q) as [Hyes Hno].
    rewrite times_data_freed_app.
    assert (H1 : times_data_freed q evs1 =
                 if bool_decide (q = p /\ is_Some (c !! idname x)) then 1%nat else 0%nat).
    { rewrite Hevs1. destruct (c !! idname x) as [m|].
      - rewrite times_data_freed_one. case_bool_decide as Hqp.
        + rewrite bool_decide_eq_true_2; [done|]. split; [done|by eexists].
        + rewrite bool_decide_eq_false_2; [done|]. intros [? _]. done.
      - rewrite bool_decide_eq_false_2; [done|]. intros [_ [? ?]]. done. }
    rewrite H1. case_bool_decide as Hd.
    + destruct Hd as [-> Hm]. rewrite Hno by (by apply Hexcl).
      split; [done|]. intros Hn. exfalso. apply Hn, Hiff. by left.
    + split.
      * intros Hr. apply Hiff in Hr as [Hr|Hr]; [done|]. by rewrite Hyes.
      * intros Hn. rewrite Hno; [done|]. intros Hr. apply Hn, Hiff. by right.
Qed.

End Recon.

Lemma times_freed_app p l1 l2 :
  times_freed p (l1 ++ l2) = (times_freed p l1 + times_freed p l2)%nat.
Proof. unfold times_freed. by rewrite filter_app, length_app. Qed.

Lemma times_freed_none p l : EvFreeWidget p ∉ l -> times_freed p l = 0%nat.
Proof.
  unfold times_freed. induction l as [|e l IH]; intros Hn; [done|].
  apply not_elem_of_cons in Hn as [Hne Hn].
  rewrite filter_cons_False; [by apply IH|].
  destruct e; simpl; try done. case_bool_decide; [|done]. congruence.
Qed.

Lemma reconcile_highlighted_spec s0 c reg w h x :
  recon_inv s0 c reg w ->
  heap s0 !! h = Some x -> heap (st w) !! h = Some x ->
  has_flag (flag x) WM_WIDGET_SELECTED = false ->
  has_flag (flag x) WM_WIDGET_HIGHLIGHT = true ->
  exists w',
    reconcile_highlighted (Some h) w = Some (tt, w') /\
    recon_inv s0 c reg w' /\
    heap (st w') !! h = None /\
    (exists evs, trace w' = trace w ++ evs /\ times_freed h evs = 1%nat /\
       forall q, q <> h -> times_data_freed q evs = 0%nat) /\
    match c !! idname x with
    | Some n =>
        highlighted_widget (st w') = Some n /\ n <> h /\
        exists y', heap (st w') !! n = Some y' /\
          has_flag (flag y') WM_WIDGET_HIGHLIGHT = true /\
          highlighted_part y' = highlighted_part x
    | None => highlighted_widget (st w') = None
    end /\
    selected_widgets (st w') = selected_widgets (st w) /\
    recon_frame (st w) (st w') /\
    (forall q, q <> h -> q ∉ reg -> heap (st w') !! q = heap (st w) !! q).
Proof.
  intros Hinv Hx0 Hx Hsel Hhl. destruct w as [s t]. cbn [st trace] in *.
  pose proof Hinv as [H1 H2 [H3 H4]]. cbn [st] in *.
  assert (Hnreg : forall n, n ∈ reg -> n <> h).
  { intros n Hn ->. destruct (H2 h Hn) as [_ Hf]. specialize (Hf x Hx0).
    unfold flagless in Hf. rewrite Hhl in Hf. by rewrite andb_false_r in Hf. }
  assert (Hdel : forall s1 t1, recon_inv s0 c reg (World s1 t1) ->
            forall s2 t2, heap s2 = delete h (heap s1) -> draw_widgets s2 = draw_widgets s1 ->
            recon_inv s0 c reg (World s2 t2)).
  { intros s1 t1 [A1 A2 [A3 A4]] s2 t2 Hh Hd. cbn [st] in *.
    split; cbn [st]; rewrite ?Hh, ?Hd.
    - intros p xp Hp Hs. rewrite !lookup_delete_ne; [by apply A1|..];
        intros <-; congruence.
    - intros n Hn. destruct (A2 n Hn) as [Hl Hf]. split; [|done].
      rewrite lookup_delete_ne; [done|]. intros <-. by apply (Hnreg h).
    - split; [done|]. intros name n Hn.
      destruct (A4 name n Hn) as (y & Hy & Hrest). exists y. split; [|done].
      rewrite lookup_delete_ne; [done|]. intros <-.
      destruct Hrest as (_ & _ & Hr). by apply (Hnreg h). }
  unfold reconcile_highlighted.
  erewrite bind_eq by (by apply load_Some).
  unfold ghash_lookup. rewrite bind_assoc. erewrite bind_eq by reflexivity.
  cbn [st trace]. rewrite H3. erewrite bind_eq by reflexivity.
  destruct (c !! idname x) as [n|] eqn:Hc.
  - destruct (H4 _ n Hc) as (y & Hy & Hnm & Hhid & Hreg).
    assert (Hne : h <> n) by (intros ->; by apply (Hnreg n)).
    destruct (widget_highlight_update_spec s0 c reg s t h x n y Hinv Hx Hy Hreg Hne)
      as (s1 & Hrun & Hheap & Hs1).
    erewrite bind_eq by exact Hrun.
    assert (Hinv1 : recon_inv s0 c reg (World s1 t)).
    { eapply recon_inv_insert; [exact Hinv|exact Hy|done| | |exact Hheap|by rewrite Hs1].
      - done.
      - simpl. by flag_simpl. }
    assert (Hh1 : heap s1 !! h = Some x) by (rewrite Hheap; by rewrite lookup_insert_ne).
    erewrite wm_widget_delete_spec by exact Hh1.
    eexists. split; [reflexivity|]. cbn [st trace].
    split; [by eapply (Hdel s1 t Hinv1)|].
    split; [simpl; apply lookup_delete_eq|].
    split.
    { exists [EvFreeData h; EvFreeWidget h]. split; [done|]. split.
      - unfold times_freed. simpl. rewrite filter_cons_False by done.
        rewrite filter_cons_True by (simpl; by rewrite bool_decide_eq_true_2). done.
      - intros q Hq. apply times_data_freed_none. intros Hin.
        apply elem_of_cons in Hin as [Hin|Hin]; [by inversion Hin|].
        apply list_elem_of_singleton in Hin. discriminate. }
    split.
    { simpl. split; [by rewrite Hs1|]. split; [done|].
      eexists. rewrite lookup_delete_ne by done. rewrite Hheap, lookup_insert_eq.
      split; [done|]. simpl. split; [by flag_simpl|done]. }
    split; [rewrite Hs1; done|]. split; [rewrite Hs1; done|].
    intros q Hqh Hqr. simpl. rewrite lookup_delete_ne by done.
    rewrite Hheap, lookup_insert_ne; [done|]. intros <-. done.
  - unfold free_widget at 1. unfold bind at 1. cbn [st trace]. rewrite Hx.
    eexists. split; [reflexivity|]. cbn [st trace].
    split; [by eapply (Hdel s t Hinv)|].
    split; [simpl; apply lookup_delete_eq|].
    split.
    { exists [EvFreeWidget h]. split; [done|]. split.
      - unfold times_freed. simpl.
        rewrite filter_cons_True by (simpl; by rewrite bool_decide_eq_true_2). done.
      - intros q Hq. apply times_data_freed_none. intros Hin.
        apply list_elem_of_singleton in Hin. discriminate. }
    split; [done|]. split; [done|]. split; [done|].
    intros q Hqh Hqr. simpl. by rewrite lookup_delete_ne.
Qed.
(** *** The update pass *)

Lemma kept_highlighted_Some h ps : forall init r,
  kept_highlighted h ps init = Some r ->
  init = Some r \/
  (r ∈ ps /\ exists x, h !! r = Some x /\
     has_flag (flag x) WM_WIDGET_SELECTED = false /\
     has_flag (flag x) WM_WIDGET_HIGHLIGHT = true).
Proof.
  induction ps as [|p ps IH]; intros init r Hk; [by left|].
  unfold kept_highlighted in Hk. simpl in Hk. fold (kept_highlighted h ps) in Hk.
  apply IH in Hk as [Hk|(Hin & x & Hx)].
  - destruct (h !! p) as [x|] eqn:Hp; [|by left].
    destruct (has_flag (flag x) WM_WIDGET_SELECTED) eqn:Hs; [by left|].
    destruct (has_flag (flag x) WM_WIDGET_HIGHLIGHT) eqn:Hh; [|by left].
    right. inversion Hk; subst. split; [by apply elem_of_cons; left|]. eauto.
  - right. split; [by apply elem_of_cons; right|]. eauto.
Qed.



Section Update.
Context (E : externals).

Lemma listed_widgets_cons g gs :
  listed_widgets (g :: gs) = wg_widgets g ++ listed_widgets gs.
Proof. done. Qed.

Lemma polled_widgets_listed gs p :
  p ∈ polled_widgets E gs -> p ∈ listed_widgets gs.
Proof.
  induction gs as [|g gs IH]; [done|].
  rewrite polled_widgets_cons, listed_widgets_cons, !elem_of_app.
  unfold group_old. destruct (group_poll E g).
  - intros [?|?]; [by left|right; by apply IH].
  - intros [Hp|?]; [by apply elem_of_nil in Hp|right; by apply IH].
Qed.

Lemma polled_widgets_NoDup gs :
  NoDup (listed_widgets gs) -> NoDup (polled_widgets E gs).
Proof.
  induction gs as [|g gs IH]; [done|].
  rewrite polled_widgets_cons, listed_widgets_cons, !NoDup_app.
  intros (H1 & H2 & H3). unfold group_old. destruct (group_poll E g).
  - split; [done|]. split; [|by apply IH].
    intros p Hp Hq. apply (H2 p Hp). by apply polled_widgets_listed.
  - split; [apply NoDup_nil_2|]. split; [|by apply IH].
    intros p Hp. by apply elem_of_nil in Hp.
Qed.

Lemma elem_of_polled_widgets gs p :
  p ∈ polled_widgets E gs ->
  exists g, g ∈ gs /\ group_poll E g = true /\ p ∈ wg_widgets g.
Proof.
  induction gs as [|g gs IH]; [intros Hp; by apply elem_of_nil in Hp|].
  rewrite polled_widgets_cons, elem_of_app. unfold group_old.
  intros [Hp|Hp].
  - destruct (group_poll E g) eqn:Hg; [|by apply elem_of_nil in Hp].
    exists g. split; [by apply elem_of_cons; left|done].
  - destruct (IH Hp) as (g' & Hg' & Hrest). exists g'.
    split; [by apply elem_of_cons; right|done].
Qed.

Lemma list_match_cons {A B} (l : list A) (a b : B) :
  l <> [] -> match l with [] => a | _ :: _ => b end = b.
Proof. by destruct l. Qed.

Lemma set_draw_widgets_id s d :
  draw_widgets s = Some d -> set_draw_widgets (Some d) s = s.
Proof. destruct s. simpl. by intros ->. Qed.

(** The pass when no widget is active and the map has groups. *)
Lemma update_regenerated_full (w : world) :
  update_wf (st w) -> active_widget (st w) = None ->
  widgetgroups (st w) <> [] ->
  exists w' c,
    WM_widgetmap_widgets_update E w = Some (tt, w') /\
    draw_widgets (st w') = Some c /\
    Forall2 (group_kept E) (widgetgroups (st w)) (widgetgroups (st w')) /\
    recon_inv (st w) c (polled_widgets E (widgetgroups (st w'))) w' /\
    tot_selected (st w') = tot_selected (st w) /\
    active_widget (st w') = None /\
    match selected_widgets (st w) with
    | Some arr0 =>
        exists arr', selected_widgets (st w') = Some arr' /\
          length arr' = length arr0 /\
          forall (j : nat) p x, (j < Z.to_nat (tot_selected (st w)))%nat ->
            arr0 !! j = Some (Some p) -> heap (st w) !! p = Some x ->
            arr' !! j = Some (Some (default p (c !! idname x)))
    | None => selected_widgets (st w') = None
    end /\
    match kept_highlighted (heap (st w))
            (polled_widgets E (widgetgroups (st w))) None with
    | Some h =>
        exists x, heap (st w) !! h = Some x /\
          heap (st w') !! h = None /\
          times_freed h (new_events w w') = 1%nat /\
          (selection_unlit (st w) ->
           match c !! idname x with
           | Some n =>
               highlighted_widget (st w') = Some n /\ n <> h /\
               exists y', heap (st w') !! n = Some y' /\
                 has_flag (flag y') WM_WIDGET_HIGHLIGHT = true /\
                 highlighted_part y' = highlighted_part x
           | None => highlighted_widget (st w') = None
           end)
    | None =>
        selection_unlit (st w) ->
        highlighted_widget (st w') = highlighted_widget (st w)
    end /\
    (forall p x, heap (st w) !! p = Some x ->
       has_flag (flag x) WM_WIDGET_SELECTED = true ->
       (Some p ∈ selection (st w) /\ is_Some (c !! idname x) ->
          heap (st w') !! p = Some (data_freed x) /\
          times_data_freed p (new_events w w') = 1%nat) /\
       (~ (Some p ∈ selection (st w) /\ is_Some (c !! idname x)) ->
          heap (st w') !! p = Some x /\
          times_data_freed p (new_events w w') = 0%nat)).
Proof.
  destruct w as [s t]. cbn [st trace].
  intros ((Hnd & Hlive) & (Hrange & Hlen & Hsel_live) & Hsnd & Hflagged & _ & Hce) Hact Hgs.
  remember (widgetgroups s) as gs eqn:Hgs_eq.
  remember (polled_widgets E gs) as P eqn:HP_eq.
  set (sc := set_draw_widgets (Some ∅) s).
  unfold WM_widgetmap_widgets_update.
  erewrite bind_eq by reflexivity. cbn [st trace]. rewrite Hact.
  erewrite bind_eq by reflexivity. cbn [st trace].
  assert (Hcache : match draw_widgets s with
     | None => modify (set_draw_widgets (Some ∅))
     | Some _ => ret tt end (World s t) = Some (tt, World sc t)).
  { unfold cache_empty in Hce. destruct (draw_widgets s) as [d|] eqn:Hd; [|done].
    simpl in Hce. subst d. subst sc. by rewrite set_draw_widgets_id. }
  erewrite bind_eq by exact Hcache.
  erewrite bind_eq by reflexivity. cbn [st trace].
  change (widgetgroups sc) with (widgetgroups s). rewrite <- Hgs_eq.
  rewrite list_match_cons by done.
  assert (HP_live : forall p, p ∈ P -> is_Some (heap sc !! p)).
  { intros p Hp. apply Hlive. subst P. by apply polled_widgets_listed. }
  destruct (regen_groups_spec E sc t P HP_live gs None [] (World sc t))
    as (gs1 & hl & w1 & Hrun1 & Hinv1 & Hkept & Hhl).
  { split; cbn [st trace].
    - done.
    - intros n Hn. by apply elem_of_nil in Hn.
    - exists ∅. split; [done|]. intros name n Hn. by rewrite lookup_empty in Hn.
    - exists []. split; [by rewrite app_nil_r|].
      intros p [Hp|Hp]; by apply elem_of_nil in Hp.
    - done. }
  { subst P. by apply polled_widgets_NoDup. }
  { by subst P. }
  rewrite <- HP_eq in Hhl.
  erewrite bind_eq by exact Hrun1. cbn [fst snd]. simpl app in Hinv1.
  erewrite bind_eq by reflexivity.
  destruct w1 as [s1 t1]. cbn [st trace] in *.
  set (reg := polled_widgets E gs1) in *.
  destruct Hinv1 as [I1 I2 (c & Hc & I3) (evs1 & Htr1 & I4) (C1 & C2 & C3 & C4 & C5 & C6)].
  cbn [st trace] in *. simpl in C1, C2, C3, C4, C5, C6.
  subst sc. cbn [heap set_draw_widgets] in *.
  set (s2 := set_widgetgroups gs1 s1).
  assert (Hinv2 : recon_inv s c reg (World s2 t1)).
  { split; cbn [st]; simpl.
    - intros p x Hp Hs. left. apply I1; [done|]. right. intros [_ Hf].
      unfold flagless in Hf. by rewrite Hs in Hf.
    - intros n Hn. destruct (I2 n Hn) as [Hl Hf]. split; [done|].
      intros x Hx. specialize (Hf x Hx).
      destruct (flagless x) eqn:Hfl; [done|]. exfalso. apply Hf. right.
      intros [_ ?]. congruence.
    - split; [done|]. done. }
  (* the highlighted widget *)
  assert (Hph2 : exists s3 evs2,
    reconcile_highlighted hl (World s2 t1) = Some (tt, World s3 (t1 ++ evs2)) /\
    recon_inv s c reg (World s3 (t1 ++ evs2)) /\
    selected_widgets s3 = selected_widgets s /\ recon_frame s2 s3 /\
    match hl with
    | Some h =>
        exists x, heap s !! h = Some x /\ heap s3 !! h = None /\
          times_freed h (evs1 ++ evs2) = 1%nat /\
          has_flag (flag x) WM_WIDGET_HIGHLIGHT = true /\
          match c !! idname x with
          | Some n =>
              highlighted_widget s3 = Some n /\ n <> h /\
              exists y', heap s3 !! n = Some y' /\
                has_flag (flag y') WM_WIDGET_HIGHLIGHT = true /\
                highlighted_part y' = highlighted_part x
          | None => highlighted_widget s3 = None
          end
    | None => highlighted_widget s3 = highlighted_widget s /\ evs2 = []
    end /\
    (forall q, hl <> Some q -> q ∉ reg -> heap s3 !! q = heap s2 !! q) /\
    (forall q, hl <> Some q -> times_data_freed q evs2 = 0%nat)).
  { destruct hl as [h|] eqn:Hhl'.
    - symmetry in Hhl. apply kept_highlighted_Some in Hhl as [?|(HhP & x & Hx & Hxs & Hxh)]; [done|].
      assert (Hx2 : heap (st (World s2 t1)) !! h = Some x).
      { cbn [st]. simpl. apply I1; [done|]. right. intros [_ Hf].
        unfold flagless in Hf. rewrite Hxh in Hf. by rewrite andb_false_r in Hf. }
      destruct (reconcile_highlighted_spec s c reg (World s2 t1) h x Hinv2 Hx Hx2 Hxs Hxh)
        as ([s3 t3] & Hrun & Hinv3 & Hgone & (evs2 & Htr & Hfreed & Hdata) & Hmatch
              & Hsel3 & Hfr3 & Hrest3).
      cbn [st trace] in *. subst t3.
      exists s3, evs2. split; [done|]. split; [done|].
      split; [by rewrite Hsel3|]. split; [done|].
      split; [|split; [intros q Hq; apply Hrest3; congruence
                      |intros q Hq; apply Hdata; congruence]].
      exists x. split; [done|]. split; [done|]. split; [|done].
      rewrite times_freed_app, Hfreed. rewrite times_freed_none; [done|].
      intros Hin. destruct (I4 h (or_introl Hin)) as (x' & Hx' & _ & Hf).
      simpl in Hx'. assert (x' = x) by congruence. subst.
      unfold flagless in Hf. rewrite Hxh in Hf. by rewrite andb_false_r in Hf.
    - exists s2, []. rewrite app_nil_r. split; [done|]. split; [done|].
      split; [done|]. split; [done|]. done. }
  destruct Hph2 as (s3 & evs2 & Hrun2 & Hinv3 & Hsel3 & Hfr3 & Hhl3 & Hrest3 & Hdata3).
  (* a selected widget up to here *)
  assert (Hkept3 : forall p x, heap s !! p = Some x ->
            has_flag (flag x) WM_WIDGET_SELECTED = true ->
            (p ∉ reg) /\ heap s3 !! p = Some x /\
            times_data_freed p (evs1 ++ evs2) = 0%nat).
  { intros p x Hp Hs.
    assert (Hnf : flagless x = false) by (unfold flagless; by rewrite Hs).
    assert (Hpr : p ∉ reg).
    { intros Hr. destruct (rc_reg _ _ _ _ Hinv2 p Hr) as [_ Hf].
      specialize (Hf x Hp). congruence. }
    assert (Hph : hl <> Some p).
    { intros ->. symmetry in Hhl.
      apply kept_highlighted_Some in Hhl as [?|(_ & x' & Hx' & Hxs & _)]; [done|].
      simpl in Hx'. congruence. }
    split; [done|]. split.
    - rewrite (Hrest3 p Hph Hpr). simpl. apply I1; [done|]. right. intros [_ ?]. congruence.
    - rewrite times_data_freed_app, (Hdata3 p Hph), times_data_freed_none; [done|].
      intros Hin. destruct (I4 p (or_intror Hin)) as (x' & Hx' & _ & Hf).
      simpl in Hx'. congruence. }
  erewrite bind_eq by exact Hrun2.
  erewrite bind_eq by reflexivity. cbn [st trace]. rewrite Hsel3.
  assert (Hnew : forall t', new_events (World s t) (World s3 t') = drop (length t) t').
  { done. }
  destruct Hfr3 as (F1 & F2 & F3 & F4 & F5). simpl in F1, F2, F3, F4, F5.
  destruct (selected_widgets s) as [arr0|] eqn:Harr0.
  - erewrite bind_eq by reflexivity. cbn [st trace]. rewrite F3, C5.
    simpl in Hlen.
    destruct (reconcile_loop_spec s c reg arr0 Harr0 Hflagged Hlen Hsnd
                (Z.to_nat (tot_selected s)) 0%nat (World s3 (t1 ++ evs2)) arr0 Hinv3)
      as ([s4 t4] & arr' & Hrun4 & Hinv4 & Hsel4 & Hlen4 & _ & Hin4 & Hrel4 & Hslot4 & Hfr4
            & Hold4 & evs3 & Htr4 & Hev4 & Hevs4);
      [done|done|done|lia|].
    cbn [st trace] in *.
    destruct Hfr4 as (G1 & G2 & G3 & G4 & G5).
    exists (World s4 t4), c. cbn [st trace]. split; [done|].
    split; [by rewrite G5, F5|]. split; [by rewrite G1, F1|].
    split; [by rewrite G1, F1|]. split; [by rewrite G3, F3|].
    split; [by rewrite G2, F2, C3|].
    split.
    { exists arr'. split; [done|]. split; [done|].
      intros j p x Hj Hp Hx. apply Hin4; [lia|done|done]. }
    split; [|intros p x Hp Hs;
             destruct (Hkept3 p x Hp Hs) as (Hpr & Hp3 & Hc0);
             destruct (Hold4 p x Hpr Hp3) as [Hrep Hnrep];
             destruct (Hevs4 p) as [Hrep1 Hrep0];
             assert (Hiff : replaced_in s c 0 (Z.to_nat (tot_selected s)) p <->
                            Some p ∈ selection s /\ is_Some (c !! idname x));
             [|assert (Hne : new_events (World s t) (World s4 t4) = (evs1 ++ evs2) ++ evs3)
                 by (unfold new_events; cbn [trace];
                     rewrite Htr4, Htr1, <- !app_assoc; by rewrite drop_app_length);
               rewrite Hne, times_data_freed_app, Hc0; split; intros HA;
               [apply Hiff in HA; split; [by apply Hrep|by rewrite Hrep1]
               |assert (HB : ~ replaced_in s c 0 (Z.to_nat (tot_selected s)) p)
                  by (intros HB; by apply Hiff in HB);
                split; [by apply Hnrep|by rewrite Hrep0]]]].
    2:{ unfold replaced_in, selection. rewrite Harr0. simpl. split.
        - intros (j & x' & Hj & Hjp & Hx' & Hcx). simpl in Hjp.
          assert (x' = x) by congruence. subst x'. split; [|done].
          apply list_elem_of_lookup. exists j. apply lookup_take_Some. split; [done|lia].
        - intros [Hin Hcx]. apply list_elem_of_lookup in Hin as [j Hj].
          apply lookup_take_Some in Hj as [Hj Hlt].
          exists j, x. simpl. split; [lia|]. done. }
    destruct hl as [h|].
    + rewrite <- Hhl. destruct Hhl3 as (x & Hx & Hgone & Hfreed & Hxh & Hmatch).
      exists x. split; [done|]. split.
      { destruct (heap s4 !! h) as [y|] eqn:Hy; [|done].
        destruct Hrel4 as [Hnone _]. by rewrite (Hnone h Hgone) in Hy. }
      split.
      { unfold new_events. cbn [trace]. rewrite Htr4, Htr1, <- !app_assoc.
        rewrite drop_app_length. rewrite app_assoc, times_freed_app, Hfreed.
        rewrite times_freed_none; [done|apply Hev4]. }
      intros Hu. destruct (c !! idname x) as [n|].
      * destruct Hmatch as (Hslot & Hne & y' & Hy' & Hyh & Hyp).
        split; [by rewrite Hslot4|]. split; [done|].
        destruct Hrel4 as [_ Hsome].
        destruct (Hsome n y' Hy') as (y'' & Hy'' & _ & _ & Hh'' & Hp'').
        exists y''. split; [done|]. split; [by apply Hh''|]. by rewrite Hp''.
      * by rewrite Hslot4.
    + rewrite <- Hhl. destruct Hhl3 as [Hslot _]. intros Hu. by rewrite Hslot4.
  - exists (World s3 (t1 ++ evs2)), c. cbn [st trace]. split; [done|].
    split; [by rewrite F5|]. split; [by rewrite F1|]. split; [by rewrite F1|].
    split; [by rewrite F3|]. split; [by rewrite F2, C3|]. split; [done|].
    split; [|intros p x Hp Hs;
             destruct (Hkept3 p x Hp Hs) as (Hpr & Hp3 & Hc0);
             assert (Hne : new_events (World s t) (World s3 (t1 ++ evs2)) = evs1 ++ evs2)
               by (unfold new_events; cbn [trace];
                   rewrite Htr1, <- !app_assoc; by rewrite drop_app_length);
             rewrite Hne; split; [|done];
             intros [Hin _]; unfold selection in Hin; rewrite Harr0 in Hin;
             simpl in Hin; rewrite take_nil in Hin; by apply elem_of_nil in Hin].
    destruct hl as [h|].
    + rewrite <- Hhl. destruct Hhl3 as (x & Hx & Hgone & Hfreed & Hxh & Hmatch).
      exists x. split; [done|]. split; [done|]. split; [|done].
      unfold new_events. cbn [trace]. rewrite Htr1, <- !app_assoc.
      by rewrite drop_app_length.
    + rewrite <- Hhl. by destruct Hhl3 as [Hslot _].
Qed.

(** The same pass, without the account of the data of the selected widgets. *)
Lemma update_regenerated (w : world) :
  update_wf (st w) -> active_widget (st w) = None ->
  widgetgroups (st w) <> [] ->
  exists w' c,
    WM_widgetmap_widgets_update E w = Some (tt, w') /\
    draw_widgets (st w') = Some c /\
    Forall2 (group_kept E) (widgetgroups (st w)) (widgetgroups (st w')) /\
    recon_inv (st w) c (polled_widgets E (widgetgroups (st w'))) w' /\
    tot_selected (st w') = tot_selected (st w) /\
    active_widget (st w') = None /\
    match selected_widgets (st w) with
    | Some arr0 =>
        exists arr', selected_widgets (st w') = Some arr' /\
          length arr' = length arr0 /\
          forall (j : nat) p x, (j < Z.to_nat (tot_selected (st w)))%nat ->
            arr0 !! j = Some (Some p) -> heap (st w) !! p = Some x ->
            arr' !! j = Some (Some (default p (c !! idname x)))
    | None => selected_widgets (st w') = None
    end /\
    match kept_highlighted (heap (st w))
            (polled_widgets E (widgetgroups (st w))) None with
    | Some h =>
        exists x, heap (st w) !! h = Some x /\
          heap (st w') !! h = None /\
          times_freed h (new_events w w') = 1%nat /\
          (selection_unlit (st w) ->
           match c !! idname x with
           | Some n =>
               highlighted_widget (st w') = Some n /\ n <> h /\
               exists y', heap (st w') !! n = Some y' /\
                 has_flag (flag y') WM_WIDGET_HIGHLIGHT = true /\
                 highlighted_part y' = highlighted_part x
           | None => highlighted_widget (st w') = None
           end)
    | None =>
        selection_unlit (st w) ->
        highlighted_widget (st w') = highlighted_widget (st w)
    end.
Proof.
  intros Hwf Hact Hgs.
  destruct (update_regenerated_full w Hwf Hact Hgs) as (w' & c & H).
  exists w', c. repeat (destruct H as [? H]). repeat (split; [done|]). done.
Qed.

(** The pass while a widget is active: the widget alone is cached. *)
Lemma update_active (w : world) (a : ptr) (x : wmWidget) :
  active_widget (st w) = Some a -> heap (st w) !! a = Some x ->
  cache_empty (st w) ->
  exists w' c,
    WM_widgetmap_widgets_update E w = Some (tt, w') /\
    draw_widgets (st w') = Some c /\
    (forall name n, c !! name = Some n ->
       n = a /\ has_flag (flag x) WM_WIDGET_HIDDEN = false) /\
    selected_widgets (st w') = selected_widgets (st w) /\
    tot_selected (st w') = tot_selected (st w) /\
    (forall p y, heap (st w) !! p = Some y ->
       exists y', heap (st w') !! p = Some y' /\ idname y' = idname y /\
         flag y' = flag y).
Proof.
  destruct w as [s t]. cbn [st trace]. intros Hact Hx Hce.
  unfold WM_widgetmap_widgets_update.
  erewrite bind_eq by reflexivity. cbn [st trace]. rewrite Hact.
  erewrite bind_eq by reflexivity. cbn [st trace].
  assert (Hcache : match draw_widgets s with
     | None => modify (set_draw_widgets (Some ∅))
     | Some _ => ret tt end (World s t)
     = Some (tt, World (set_draw_widgets (Some ∅) s) t)).
  { unfold cache_empty in Hce. destruct (draw_widgets s) as [d|] eqn:Hd; [|done].
    simpl in Hce. subst d. by rewrite set_draw_widgets_id. }
  erewrite bind_eq by exact Hcache.
  erewrite bind_eq by (by apply load_Some).
  destruct (has_flag (flag x) WM_WIDGET_HIDDEN) eqn:Hhid; cbn [negb when].
  - eexists _, ∅. split; [reflexivity|]. cbn [st]. split; [done|].
    split; [intros name n Hn; by rewrite lookup_empty in Hn|].
    split; [done|]. split; [done|]. intros p y Hp. by exists y.
  - unfold widget_calculate_scale. rewrite !bind_assoc.
    erewrite bind_eq by (by apply load_Some).
    erewrite bind_eq by (by eapply store_Some). cbn [st trace].
    unfold ghash_reinsert. erewrite bind_eq by reflexivity. cbn [st trace]. simpl.
    eexists _, _. split; [reflexivity|]. cbn [st]. simpl. split; [done|].
    split.
    { intros name n Hn. destruct (decide (idname x = name)) as [<-|Hne].
      - rewrite lookup_insert_eq in Hn. by inversion Hn.
      - rewrite lookup_insert_ne, lookup_empty in Hn; done. }
    split; [done|]. split; [done|].
    intros p y Hp. destruct (decide (a = p)) as [<-|Hne].
    + rewrite lookup_insert_eq. eexists. split; [done|].
      assert (y = x) by congruence. by subst.
    + rewrite lookup_insert_ne by done. by exists y.
Qed.

(** The pass on a map without groups, no widget being active. *)
Lemma update_idle (w : world) :
  active_widget (st w) = None -> widgetgroups (st w) = [] ->
  cache_empty (st w) ->
  WM_widgetmap_widgets_update E w =
  Some (tt, World (set_draw_widgets (Some ∅) (st w)) (trace w)).
Proof.
  destruct w as [s t]. cbn [st trace]. intros Hact Hgs Hce.
  unfold WM_widgetmap_widgets_update.
  erewrite bind_eq by reflexivity. cbn [st trace]. rewrite Hact.
  erewrite bind_eq by reflexivity. cbn [st trace].
  assert (Hcache : match draw_widgets s with
     | None => modify (set_draw_widgets (Some ∅))
     | Some _ => ret tt end (World s t)
     = Some (tt, World (set_draw_widgets (Some ∅) s) t)).
  { unfold cache_empty in Hce. destruct (draw_widgets s) as [d|] eqn:Hd; [|done].
    simpl in Hce. subst d. by rewrite set_draw_widgets_id. }
  erewrite bind_eq by exact Hcache.
  erewrite bind_eq by reflexivity. cbn [st trace]. simpl. by rewrite Hgs.
Qed.

(** C3 (as amended): a pass that starts with an empty hash ends with a hash
    whose widgets are all live and unhidden; with no widget active, each of
    them is on the list of a group whose predicate holds, and with a widget
    active the hash holds nothing but that widget, whatever the predicate of
    its group says. *)
Theorem update_cache_visible (w : world) :
  update_wf (st w) ->
  exists w' c,
    WM_widgetmap_widgets_update E w = Some (tt, w') /\
    draw_widgets (st w') = Some c /\
    forall name n, c !! name = Some n ->
      exists y, heap (st w') !! n = Some y /\
        has_flag (flag y) WM_WIDGET_HIDDEN = false /\
        match active_widget (st w) with
        | None =>
            exists g, g ∈ widgetgroups (st w') /\ group_poll E g = true /\
              n ∈ wg_widgets g
        | Some a => n = a
        end.
Proof.
  intros Hwf. pose proof Hwf as (_ & _ & _ & _ & Hal & Hce).
  destruct (active_widget (st w)) as [a|] eqn:Hact.
  - destruct (Hal a eq_refl) as [x Hx].
    destruct (update_active w a x Hact Hx Hce) as (w' & c & Hrun & Hc & Hall & _ & _ & Hheap).
    exists w', c. split; [done|]. split; [done|].
    intros name n Hn. destruct (Hall name n Hn) as [-> Hhid].
    destruct (Hheap a x Hx) as (y & Hy & _ & Hfl).
    exists y. split; [done|]. split; [by rewrite Hfl|done].
  - destruct (decide (widgetgroups (st w) = [])) as [Hgs|Hgs].
    + exists (World (set_draw_widgets (Some ∅) (st w)) (trace w)), ∅.
      split; [by apply update_idle|]. split; [done|].
      intros name n Hn. by rewrite lookup_empty in Hn.
    + destruct (update_regenerated w Hwf Hact Hgs)
        as (w' & c & Hrun & Hc & _ & [_ _ [_ Hcache]] & _).
      exists w', c. split; [done|]. split; [done|].
      intros name n Hn. destruct (Hcache name n Hn) as (y & Hy & _ & Hhid & Hreg).
      exists y. split; [done|]. split; [done|]. by apply elem_of_polled_widgets.
Qed.

(** C2 (as amended): the pass leaves the count of the selection and the
    length of its array as they were, and a selected widget whose name is
    not in the hash after the regeneration stays in its slot, live and with
    its selected flag. *)
Theorem update_keeps_unmatched_selected (w : world) :
  update_wf (st w) ->
  exists w' c,
    WM_widgetmap_widgets_update E w = Some (tt, w') /\
    draw_widgets (st w') = Some c /\
    tot_selected (st w') = tot_selected (st w) /\
    length (default [] (selected_widgets (st w'))) =
      length (default [] (selected_widgets (st w))) /\
    forall (i : nat) p x,
      (i < Z.to_nat (tot_selected (st w)))%nat ->
      default [] (selected_widgets (st w)) !! i = Some (Some p) ->
      heap (st w) !! p = Some x -> c !! idname x = None ->
      default [] (selected_widgets (st w')) !! i = Some (Some p) /\
      exists x', heap (st w') !! p = Some x' /\ idname x' = idname x /\
        has_flag (flag x') WM_WIDGET_SELECTED = true.
Proof.
  intros Hwf. pose proof Hwf as (_ & _ & _ & Hflagged & Hal & Hce).
  assert (Hsel : forall (i : nat) p x,
    (i < Z.to_nat (tot_selected (st w)))%nat ->
    default [] (selected_widgets (st w)) !! i = Some (Some p) ->
    heap (st w) !! p = Some x -> has_flag (flag x) WM_WIDGET_SELECTED = true).
  { intros i p x Hi Hp Hx. destruct (Hflagged (Some p)) as (p' & x' & Heq & Hx' & Hs).
    - unfold selection. apply elem_of_take. eauto.
    - inversion Heq; subst p'. congruence. }
  destruct (active_widget (st w)) as [a|] eqn:Hact.
  - destruct (Hal a eq_refl) as [xa Hxa].
    destruct (update_active w a xa Hact Hxa Hce) as (w' & c & Hrun & Hc & _ & Hs' & Ht' & Hheap).
    exists w', c. split; [done|]. split; [done|]. split; [done|].
    rewrite Hs'. split; [done|]. intros i p x Hi Hp Hx _. split; [done|].
    destruct (Hheap p x Hx) as (y & Hy & Hn & Hf). exists y.
    split; [done|]. split; [done|]. rewrite Hf. by eapply Hsel.
  - destruct (decide (widgetgroups (st w) = [])) as [Hgs|Hgs].
    + exists (World (set_draw_widgets (Some ∅) (st w)) (trace w)), ∅.
      split; [by apply update_idle|]. cbn [st]. split; [done|]. split; [done|].
      split; [done|]. intros i p x Hi Hp Hx _. split; [done|].
      exists x. split; [done|]. split; [done|]. by eapply Hsel.
    + destruct (update_regenerated_full w Hwf Hact Hgs)
        as (w' & c & Hrun & Hc & _ & _ & Htot & _ & Harr & _ & Hkeep).
      exists w', c. split; [done|]. split; [done|]. split; [done|].
      destruct (selected_widgets (st w)) as [arr0|] eqn:Harr0.
      * destruct Harr as (arr' & -> & Hlen & Hall). simpl. split; [done|].
        intros i p x Hi Hp Hx Hnone. specialize (Hall i p x Hi Hp Hx).
        rewrite Hnone in Hall. split; [done|]. exists x.
        assert (Hs : has_flag (flag x) WM_WIDGET_SELECTED = true) by (by eapply Hsel).
        destruct (Hkeep p x Hx Hs) as [_ Hsame].
        destruct Hsame as [Hsame _].
        { intros [_ Hin]. rewrite Hnone in Hin. by destruct Hin. }
        done.
      * rewrite Harr. simpl. split; [done|]. intros i p x _ Hp. by destruct i.
Qed.


End Update.
(** *** Highlight and activation *)

Import Scenarios.

Section Active.
Context (E : externals).

(** C9: [wm_widgetmap_set_highlighted_widget] with the highlighted widget
    and its sub-part code changes nothing: state and trace (no flag, slot,
    sub-part or active-group change, no cursor call, no redraw tag) are
    the ones before the call. *)
Theorem set_highlighted_same_noop (C : bool) (w : world) (widget : option ptr)
    (part : Z) :
  highlighted_widget (st w) = widget ->
  (forall p, widget = Some p ->
     exists x, heap (st w) !! p = Some x /\ highlighted_part x = part) ->
  wm_widgetmap_set_highlighted_widget E C widget part w = Some (tt, w).
Proof.
  intros Hhl Hpart. unfold wm_widgetmap_set_highlighted_widget.
  erewrite bind_eq by reflexivity. rewrite Hhl.
  rewrite bool_decide_eq_false_2 by (by intros H; apply H).
  destruct widget as [p|]; [|done].
  destruct (Hpart p eq_refl) as (x & Hx & Hp).
  rewrite bind_assoc. erewrite bind_eq by (by apply load_Some).
  erewrite bind_eq by reflexivity. by rewrite Hp, Z.eqb_refl.
Qed.

(** C6 (as amended): for a widget with a bound command that is found, the
    command is called with the widget's parameter block; the widget's own
    invoke runs before, and the active flag is set, only when the widget
    has both invoke and handler; the active slot holds the widget when the
    dispatcher is entered, pair or no pair, and after the call it holds
    what the dispatcher left. *)
Theorem set_active_operator_widget (w : world) (p : ptr) (x : wmWidget)
    (name : string) (ot : wmOperatorType) :
  heap (st w) !! p = Some x -> opname x = Some name ->
  operatortype_find E name = Some ot ->
  is_Some (heap (dispatcher_entry E p x (st w)) !! p) ->
  (active_widget (dispatcher_exit E ot p x (st w)) = None ->
   is_Some (heap (dispatcher_exit E ot p x (st w)) !! p)) ->
  exists w' x1 tail,
    wm_widgetmap_set_active_widget E (Some p) w = Some (tt, w') /\
    heap (dispatcher_entry E p x (st w)) !! p = Some x1 /\
    (has_pair x = false -> x1 = x) /\
    trace w' = trace w ++ (if has_pair x then [EvInvoke p] else []) ++
               [EvOperatorCall ot (opptr x1)] ++ tail /\
    active_widget (dispatcher_entry E p x (st w)) = Some p /\
    active_widget (st w') = active_widget (dispatcher_exit E ot p x (st w)).
Proof.
  intros Hx Hop Hot Hentry Hexit.
  destruct (set_active_operator_run E w p x name ot Hx Hop Hot Hentry Hexit)
    as (w' & x1 & tail & Hrun & Hx1 & Htr & Hact & _).
  exists w', x1, tail. split; [done|]. split; [done|]. split; [|done].
  intros Hpair. unfold dispatcher_entry, has_pair in *.
  destruct (invoke x); [destruct (handler x); [done|]|]; simpl in Hx1; congruence.
Qed.

(** C7: an activation of a widget with a bound command, the widget not
    being active when the call comes (no active flag, no interaction data),
    that yields no running command: the command is not found, or the active
    slot is empty after the dispatcher call. Afterwards the active slot is
    empty and the widget has neither the active flag nor interaction data.
    The data that the widget held when the dispatcher returned has been
    freed, the free being the last event of the run; when the command is
    not found the widget never got any, and it is as it was. *)
Theorem set_active_failed_command (w : world) (p : ptr) (x : wmWidget)
    (name : string) :
  heap (st w) !! p = Some x -> opname x = Some name ->
  has_flag (flag x) WM_WIDGET_ACTIVE = false -> interaction_data x = None ->
  (forall ot, operatortype_find E name = Some ot ->
     is_Some (heap (dispatcher_entry E p x (st w)) !! p) /\
     is_Some (heap (dispatcher_exit E ot p x (st w)) !! p) /\
     active_widget (dispatcher_exit E ot p x (st w)) = None) ->
  exists w' x',
    wm_widgetmap_set_active_widget E (Some p) w = Some (tt, w') /\
    active_widget (st w') = None /\
    heap (st w') !! p = Some x' /\
    has_flag (flag x') WM_WIDGET_ACTIVE = false /\
    interaction_data x' = None /\
    match operatortype_find E name with
    | Some ot =>
        forall x2, heap (dispatcher_exit E ot p x (st w)) !! p = Some x2 ->
          is_Some (interaction_data x2) ->
          last (trace w') = Some (EvFreeInteraction p)
    | None => x' = x
    end.
Proof.
  intros Hx Hop Hflag Hdata Hfail.
  destruct (operatortype_find E name) as [ot|] eqn:Hot.
  - destruct (Hfail ot eq_refl) as (Hentry & Hexit & Hnone).
    destruct (set_active_operator_run E w p x name ot Hx Hop Hot Hentry (fun _ => Hexit))
      as (w' & x1 & tail & Hrun & Hx1 & Htr & Hact & Hroll).
    destruct (Hroll Hnone) as (x2 & x' & Hx2 & Htail & Hx' & Hfl' & Hdata').
    exists w', x'. split; [exact Hrun|]. split; [by rewrite Hact|].
    split; [exact Hx'|]. split; [exact Hfl'|]. split; [exact Hdata'|].
    intros y2 Hy2 [d Hd]. assert (y2 = x2) by congruence. subst y2.
    rewrite Htr, Htail, Hd, !app_assoc. apply last_snoc.
  - exists (World (set_active_widget None (st w)) (trace w ++ [EvPrint])), x.
    split.
    { unfold wm_widgetmap_set_active_widget.
      erewrite bind_eq by (by apply load_Some). by rewrite Hop, Hot. }
    done.
Qed.

End Active.

(** *** The scenarios are well-formed *)

Lemma selected_unmatched_wf : update_wf (st selected_unmatched).
Proof.
  split; [|split; [|split; [|split; [|split]]]].
  - split; [apply NoDup_singleton|].
    intros p Hp. apply list_elem_of_singleton in Hp as ->. by eexists.
  - split; [simpl; lia|]. split; [simpl; lia|].
    intros q Hq. apply list_elem_of_singleton in Hq as ->.
    exists 1%positive. split; [done|]. by eexists.
  - apply NoDup_singleton.
  - intros q Hq. apply list_elem_of_singleton in Hq as ->.
    by exists 1%positive, (widget "X" 4 0).
  - intros a Ha. discriminate.
  - done.
Qed.

Lemma active_unpolled_wf : update_wf (st active_unpolled).
Proof.
  split; [|split; [|split; [|split; [|split]]]].
  - split; [apply NoDup_singleton|].
    intros p Hp. apply list_elem_of_singleton in Hp as ->. by eexists.
  - split; [simpl; lia|]. split; [simpl; lia|].
    intros q Hq. by apply elem_of_nil in Hq.
  - apply NoDup_nil_2.
  - intros q Hq. by apply elem_of_nil in Hq.
  - intros a [= <-]. by eexists.
  - done.
Qed.

Lemma highlighted_plain_wf : update_wf (st highlighted_plain).
Proof.
  split; [|split; [|split; [|split; [|split]]]].
  - split; [apply NoDup_singleton|].
    intros p Hp. apply list_elem_of_singleton in Hp as ->. by eexists.
  - split; [simpl; lia|]. split; [simpl; lia|].
    intros q Hq. by apply elem_of_nil in Hq.
  - apply NoDup_nil_2.
  - intros q Hq. by apply elem_of_nil in Hq.
  - intros a Ha. discriminate.
  - done.
Qed.


Lemma quiet_select_cb_frame : select_cb_frame quiet.
Proof.
  intros c p s. split; [|done]. split; [done|]. split; [done|]. apply heap_frame_refl.
Qed.

Lemma one_selected_wf other : selection_wf (st (one_selected other)).
Proof.
  split; [simpl; lia|]. split; [simpl; lia|].
  intros q Hq. apply list_elem_of_singleton in Hq as ->.
  exists 1%positive. split; [done|]. by eexists.
Qed.

Lemma one_selected_highlight_wf other : highlight_wf (st (one_selected other)).
Proof. intros h Hh. discriminate. Qed.

(** *** The theorems at work *)

Lemma set_highlighted_same_noop_witness :
  wm_widgetmap_set_highlighted_widget quiet true (Some 1%positive) 3
    highlighted_plain = Some (tt, highlighted_plain).
Proof.
  apply (set_highlighted_same_noop quiet true highlighted_plain (Some 1%positive) 3).
  - reflexivity.
  - intros p [= <-]. exists (widget "X" 1 3). split; reflexivity.
Defined.

Lemma one_selected_inv : selection_inv (st (one_selected "Y")).
Proof.
  split; [apply one_selected_wf|]. split; [apply NoDup_singleton|].
  intros p x Hp. simpl in Hp.
  apply lookup_insert_Some in Hp as [[<- <-]|[Hne Hp]].
  - split; [done|]. intros _. by apply list_elem_of_singleton.
  - apply lookup_singleton_Some in Hp as [<- <-]. split; [|done].
    intros Hin. apply list_elem_of_singleton in Hin. by inversion Hin.
Qed.

Lemma select_guard_keeps_selection_witness :
  selection_inv (st (one_selected "Y")) /\
  exists w', wm_widget_select quiet (Some 2%positive) (one_selected "Y") = Some (tt, w') /\
    selection_inv (st w').
Proof.
  split; [apply one_selected_inv|].
  apply (select_guard_keeps_selection quiet (one_selected "Y")).
  - apply quiet_select_cb_frame.
  - apply one_selected_inv.
  - apply one_selected_highlight_wf.
  - simpl. lia.
  - by eexists.
Defined.

Lemma select_deselect_roundtrip_witness :
  exists w1 w2,
    wm_widget_select quiet (Some 2%positive) (one_selected "Y") = Some (tt, w1) /\
    wm_widget_deselect 2%positive w1 = Some (tt, w2) /\
    tot_selected (st w2) = 1 /\ selection (st w2) = [Some 1%positive].
Proof.
  destruct (select_deselect_roundtrip quiet (one_selected "Y") 2%positive (widget "Y" 0 0))
    as (w1 & w2 & H1 & H2 & H3 & H4 & _).
  - apply quiet_select_cb_frame.
  - apply one_selected_wf.
  - apply one_selected_highlight_wf.
  - simpl. lia.
  - reflexivity.
  - reflexivity.
  - intros q y Hq Hy. apply list_elem_of_singleton in Hq. inversion Hq; subst q.
    simpl in Hy. rewrite lookup_insert_eq in Hy. inversion Hy; subst y. discriminate.
  - exists w1, w2. split; [exact H1|]. split; [exact H2|]. split; [exact H3|exact H4].
Defined.

Lemma update_keeps_unmatched_selected_witness :
  update_wf (st selected_unmatched) /\
  exists w' c,
    WM_widgetmap_widgets_update quiet selected_unmatched = Some (tt, w') /\
    draw_widgets (st w') = Some c /\ tot_selected (st w') = 1.
Proof.
  split; [apply selected_unmatched_wf|].
  destruct (update_keeps_unmatched_selected quiet selected_unmatched selected_unmatched_wf)
    as (w' & c & H1 & H2 & H3 & _).
  exists w', c. split; [exact H1|]. split; [exact H2|exact H3].
Defined.

Lemma update_cache_visible_witness :
  update_wf (st highlighted_plain) /\
  exists w' c,
    WM_widgetmap_widgets_update quiet highlighted_plain = Some (tt, w') /\
    draw_widgets (st w') = Some c.
Proof.
  split; [apply highlighted_plain_wf|].
  destruct (update_cache_visible quiet highlighted_plain highlighted_plain_wf)
    as (w' & c & H1 & H2 & _).
  exists w', c. split; [exact H1|exact H2].
Defined.


Lemma set_active_operator_widget_witness :
  exists w',
    wm_widgetmap_set_active_widget quiet (Some 1%positive) (operator_idle false)
      = Some (tt, w') /\
    active_widget (st w') = Some 1%positive.
Proof.
  destruct (set_active_operator_widget quiet (operator_idle false) 1%positive
              (operator_widget false 0 None) "op" (OperatorType "op"))
    as (w' & x1 & tail & H1 & _ & _ & _ & _ & H6).
  - reflexivity.
  - reflexivity.
  - reflexivity.
  - by eexists.
  - intros _. by eexists.
  - exists w'. split; [exact H1|exact H6].
Defined.

Lemma set_active_failed_command_witness :
  (exists w',
     wm_widgetmap_set_active_widget cancelling_after_invoke (Some 1%positive)
       (operator_idle true) = Some (tt, w') /\
     active_widget (st w') = None /\
     heap (st w') !! 1%positive = Some (operator_widget true 0 None) /\
     last (trace w') = Some (EvFreeInteraction 1%positive)) /\
  (exists w',
     wm_widgetmap_set_active_widget unregistered (Some 1%positive)
       (operator_idle true) = Some (tt, w') /\
     active_widget (st w') = None /\
     heap (st w') !! 1%positive = Some (operator_widget true 0 None)).
Proof.
  split.
  - destruct (set_active_failed_command cancelling_after_invoke (operator_idle true)
                1%positive (operator_widget true 0 None) "op")
      as (w' & x' & H1 & H2 & H3 & H4 & H5 & H6).
    + reflexivity.
    + reflexivity.
    + reflexivity.
    + reflexivity.
    + intros ot [= <-]. split; [by eexists|]. split; [by eexists|reflexivity].
    + exists w'. split; [exact H1|]. split; [exact H2|].
      simpl operatortype_find in H6.
      split; [|apply (H6 (set_interaction_data (Some 7)
                            (operator_widget true 2 None))); [reflexivity|by eexists]].
      assert (Hw := H1). vm_compute in Hw. inversion Hw. reflexivity.
  - destruct (set_active_failed_command unregistered (operator_idle true)
                1%positive (operator_widget true 0 None) "op")
      as (w' & x' & H1 & H2 & H3 & _ & _ & H6).
    + reflexivity.
    + reflexivity.
    + reflexivity.
    + reflexivity.
    + intros ot Hot. discriminate Hot.
    + simpl in H6. subst x'. exists w'. split; [exact H1|]. split; [exact H2|exact H3].
Defined.

(** *** Where the code differs from the wording *)

(** C2 (as stated) fails: the loop skips a selected widget without
    replacement, count and array stay as they are. *)
Lemma update_unmatched_selected_stays : ~ Stated.unmatched_selection_dropped.
Proof.
  intros H.
  destruct (H quiet selected_unmatched
              (outcome selected_unmatched
                 (WM_widgetmap_widgets_update quiet selected_unmatched))
              ∅ 0%nat 1%positive (widget "X" 4 0)) as [Htot _].
  - apply selected_unmatched_wf.
  - by vm_compute.
  - by vm_compute.
  - simpl. lia.
  - reflexivity.
  - reflexivity.
  - reflexivity.
  - vm_compute in Htot. discriminate.
Qed.

(** C3 (as stated) fails: the active widget is cached without a look at
    its group's predicate. *)
Lemma update_caches_active_unpolled : ~ Stated.cache_only_polled.
Proof.
  intros H.
  destruct (H unpolled active_unpolled
              (outcome active_unpolled
                 (WM_widgetmap_widgets_update unpolled active_unpolled))
              {[ "X" := 1%positive ]} "X" 1%positive)
    as (y & _ & _ & g & Hg & Hpoll & _).
  - apply active_unpolled_wf.
  - by vm_compute.
  - by vm_compute.
  - reflexivity.
  - vm_compute in Hg. apply list_elem_of_singleton in Hg. subst g. discriminate.
Qed.


(** C6 (as stated) fails: the active slot is set for a widget that has a
    bound command and neither invoke nor handler. *)
Lemma set_active_without_pair : ~ Stated.active_needs_pair.
Proof.
  intros H.
  enough (has_pair (operator_widget false 0 None) = true) by discriminate.
  apply (H quiet (operator_idle false)
           (outcome (operator_idle false)
              (wm_widgetmap_set_active_widget quiet (Some 1%positive) (operator_idle false)))
           1%positive (operator_widget false 0 None) "op" (OperatorType "op")).
  - reflexivity.
  - reflexivity.
  - reflexivity.
  - reflexivity.
  - by vm_compute.
  - by vm_compute.
Qed.

(** C8 (as stated) fails when a selected widget has the name of the widget:
    the deselect removes the first widget of that name from the array. *)
Lemma select_deselect_same_name : ~ Stated.roundtrip_restores.
Proof.
  intros H.
  set (w1 := outcome (one_selected "X")
               (wm_widget_select quiet (Some 2%positive) (one_selected "X"))).
  set (w2 := outcome w1 (wm_widget_deselect 2%positive w1)).
  destruct (H quiet (one_selected "X") w1 w2 2%positive (widget "X" 0 0)) as [_ Hsel].
  - apply quiet_select_cb_frame.
  - apply one_selected_wf.
  - apply one_selected_highlight_wf.
  - simpl. lia.
  - reflexivity.
  - reflexivity.
  - by vm_compute.
  - by vm_compute.
  - vm_compute in Hsel. discriminate.
Qed.

(** *** Moving the highlight *)

Import Operators.

Lemma alter_lookup_insert {A} (f : A -> A) (m : gmap ptr A) k x :
  m !! k = Some x -> alter f k m = <[k := f x]> m.
Proof.
  intros Hx. apply map_eq. intros j. destruct (decide (j = k)) as [->|Hne].
  - by rewrite lookup_alter_eq, lookup_insert_eq, Hx.
  - by rewrite lookup_alter_ne, lookup_insert_ne.
Qed.

Section Highlight.
Context (E : externals).

Lemma set_highlighted_full (C : bool) (w : world) (widget : option ptr) (part : Z) :
  highlight_wf (st w) ->
  (forall p, widget = Some p -> is_Some (heap (st w) !! p)) ->
  exists s' evs,
    wm_widgetmap_set_highlighted_widget E C widget part w =
      Some (tt, World s' (trace w ++ evs)) /\
    highlighted_widget s' = widget /\
    (highlight_changes (st w) widget part ->
       heap s' = highlight_moved (highlighted_widget (st w)) widget part (heap (st w)) /\
       activegroup s' =
         (p ← widget; x ← heap (st w) !! p; Some (wgroup x)) /\
       (C = true -> last evs = Some EvTagRedraw)) /\
    (~ highlight_changes (st w) widget part -> s' = st w /\ evs = []) /\
    (C = false -> evs = []) /\
    (forall e, e ∈ evs -> e = EvTagRedraw \/ e = EvCursorStd \/ exists c, e = EvCursorSet c) /\
    widgetgroups s' = widgetgroups (st w) /\
    active_widget s' = active_widget (st w) /\
    selected_widgets s' = selected_widgets (st w) /\
    tot_selected s' = tot_selected (st w) /\
    draw_widgets s' = draw_widgets (st w).
Proof.
  destruct w as [s t]. cbn [st trace]. intros Hwf Hlive.
  unfold wm_widgetmap_set_highlighted_widget.
  erewrite bind_eq by reflexivity. cbn [st trace].
  assert (Hch : exists b, (if bool_decide (widget <> highlighted_widget s) then ret true
     else match widget with
          | Some p => do w <- load p; ret (negb (part =? highlighted_part w))
          | None => ret false
          end) (World s t) = Some (b, World s t) /\
     (b = true <-> highlight_changes s widget part)).
  { case_bool_decide as Hne.
    { exists true. split; [done|]. split; [by left|done]. }
    destruct widget as [p|].
    - destruct (Hlive p eq_refl) as [x Hx].
      erewrite bind_eq by (by apply load_Some). eexists. split; [reflexivity|].
      rewrite negb_true_iff, Z.eqb_neq. split.
      + intros Hp. right. exists p, x. done.
      + intros [?|(p' & x' & [= <-] & Hx' & Hp)]; [done|]. congruence.
    - exists false. split; [done|]. split; [done|].
      intros [?|(p' & x' & ? & _)]; done. }
  destruct Hch as (b & Hch & Hb). erewrite bind_eq by exact Hch.
  destruct b.
  2:{ exists s, []. rewrite app_nil_r. split; [done|].
      assert (Hnc : ~ highlight_changes s widget part) by (rewrite <- Hb; done).
      split.
      { destruct (decide (widget = highlighted_widget s)) as [?|Hne]; [done|].
        exfalso. apply Hnc. by left. }
      split; [done|]. split; [done|]. split; [done|]. split; [|done].
      intros e He. by apply elem_of_nil in He. }
  assert (Hyes : highlight_changes s widget part) by (by apply Hb).
  set (h1 := match highlighted_widget s with
             | Some o => alter highlight_off o (heap s) | None => heap s end).
  assert (Hold : match highlighted_widget s with
     | Some h => do wh <- load h;
        store h (set_flag (flag_disable (flag wh) WM_WIDGET_HIGHLIGHT) wh) ;;
        do wh' <- load h; store h (set_highlighted_part 0 wh')
     | None => ret tt end (World s t) = Some (tt, World (set_heap h1 s) t)).
  { subst h1. destruct (highlighted_widget s) as [h|] eqn:Hh.
    - destruct (Hwf h Hh) as [xh Hxh].
      erewrite bind_eq by (by apply load_Some).
      erewrite bind_eq by (by eapply store_Some).
      erewrite bind_eq by (apply load_Some; simpl; apply lookup_insert_eq).
      erewrite store_Some by (simpl; apply lookup_insert_eq).
      simpl. rewrite insert_insert_eq. by erewrite alter_lookup_insert.
    - by destruct s. }
  erewrite bind_eq by exact Hold.
  erewrite bind_eq by reflexivity. cbn [st trace].
  assert (Hdom1 : forall q, is_Some (h1 !! q) <-> is_Some (heap s !! q)).
  { intros q. subst h1. destruct (highlighted_widget s) as [o|]; [|done].
    destruct (decide (q = o)) as [->|Hne].
    - rewrite lookup_alter_eq. by rewrite fmap_is_Some.
    - by rewrite lookup_alter_ne. }
  destruct widget as [p|].
  - destruct (Hlive p eq_refl) as [x Hx].
    assert (Hx1 : is_Some (h1 !! p)) by (apply Hdom1; by eexists).
    destruct Hx1 as [x1 Hx1].
    assert (Hgrp : wgroup x1 = wgroup x).
    { subst h1. destruct (highlighted_widget s) as [o|]; [|congruence].
      destruct (decide (p = o)) as [->|Hne].
      - rewrite lookup_alter_eq, Hx in Hx1. simpl in Hx1. by inversion Hx1.
      - rewrite lookup_alter_ne in Hx1 by done. congruence. }
    rewrite bind_assoc.
    erewrite bind_eq by (apply load_Some; simpl; exact Hx1).
    rewrite bind_assoc.
    erewrite bind_eq by (eapply store_Some; simpl; exact Hx1).
    rewrite bind_assoc.
    erewrite bind_eq by reflexivity. cbn [st trace]. simpl heap.
    assert (Hheap : <[p := set_highlighted_part part
                       (set_flag (flag_enable (flag x1) WM_WIDGET_HIGHLIGHT) x1)]> h1 =
                    highlight_moved (highlighted_widget s) (Some p) part (heap s)).
    { unfold highlight_moved. fold h1. by erewrite alter_lookup_insert. }
    rewrite Hheap.
    assert (Hfin : forall evs s', 
      heap s' = highlight_moved (highlighted_widget s) (Some p) part (heap s) ->
      highlighted_widget s' = Some p -> activegroup s' = Some (wgroup x1) ->
      widgetgroups s' = widgetgroups s -> active_widget s' = active_widget s ->
      selected_widgets s' = selected_widgets s -> tot_selected s' = tot_selected s ->
      draw_widgets s' = draw_widgets s ->
      (C = true -> last evs = Some EvTagRedraw) -> (C = false -> evs = []) ->
      (forall e, e ∈ evs -> e = EvTagRedraw \/ e = EvCursorStd \/ exists c, e = EvCursorSet c) ->
      highlighted_widget s' = Some p /\
      (highlight_changes s (Some p) part ->
         heap s' = highlight_moved (highlighted_widget s) (Some p) part (heap s) /\
         activegroup s' = (p0 ← Some p; x0 ← heap s !! p0; Some (wgroup x0)) /\
         (C = true -> last evs = Some EvTagRedraw)) /\
      (~ highlight_changes s (Some p) part -> s' = s /\ evs = []) /\
      (C = false -> evs = []) /\
      (forall e, e ∈ evs -> e = EvTagRedraw \/ e = EvCursorStd \/ exists c, e = EvCursorSet c) /\
      widgetgroups s' = widgetgroups s /\ active_widget s' = active_widget s /\
      selected_widgets s' = selected_widgets s /\ tot_selected s' = tot_selected s /\
      draw_widgets s' = draw_widgets s).
    { intros evs s' H1 H2 H3 H4 H5 H6 H7 H8 H9 H10 H11.
      split; [done|]. split.
      { intros _. split; [done|]. split; [|done]. simpl. rewrite Hx. simpl. by rewrite <- Hgrp. }
      split; [done|]. done. }
    destruct (get_cursor x1) as [c|]; destruct C; cbn [when bind emit ret st trace].
    + unfold emit. cbn [st trace]. rewrite <- app_assoc.
      eexists _, _. split; [reflexivity|]. apply Hfin; try done.
      intros e He. repeat (apply elem_of_cons in He as [->|He]; [eauto|]).
      by apply elem_of_nil in He.
    + exists (set_activegroup (Some (wgroup x1))
                (set_heap (highlight_moved (highlighted_widget s) (Some p) part (heap s))
                   (set_highlighted_widget (Some p) (set_heap h1 s)))), [].
      rewrite app_nil_r. split; [done|]. apply Hfin; try done.
      intros e He. by apply elem_of_nil in He.
    + unfold emit. cbn [st trace].
      eexists _, [EvTagRedraw]. split; [reflexivity|]. apply Hfin; try done.
      intros e He. apply list_elem_of_singleton in He. by left.
    + exists (set_activegroup (Some (wgroup x1))
                (set_heap (highlight_moved (highlighted_widget s) (Some p) part (heap s))
                   (set_highlighted_widget (Some p) (set_heap h1 s)))), [].
      rewrite app_nil_r. split; [done|]. apply Hfin; try done.
      intros e He. by apply elem_of_nil in He.
  - rewrite bind_assoc. erewrite bind_eq by reflexivity. cbn [st trace].
    assert (Hheap : h1 = highlight_moved (highlighted_widget s) None part (heap s)) by done.
    destruct C; cbn [when bind emit ret st trace].
    + unfold emit. cbn [st trace]. rewrite <- app_assoc.
      eexists _, _. split; [reflexivity|]. simpl.
      split; [done|]. split; [done|]. split; [done|]. split; [done|]. split; [|done].
      intros e He. repeat (apply elem_of_cons in He as [->|He]; [eauto|]).
      by apply elem_of_nil in He.
    + exists (set_activegroup None (set_highlighted_widget None (set_heap h1 s))), [].
      rewrite app_nil_r. split; [done|]. simpl.
      split; [done|]. split; [done|]. split; [done|]. split; [done|]. split; [|done].
      intros e He. by apply elem_of_nil in He.
Qed.

End Highlight.

Lemma highlight_changes_dec (s : wm_state) (widget : option ptr) (part : Z) :
  highlight_changes s widget part \/ ~ highlight_changes s widget part.
Proof.
  unfold highlight_changes.
  destruct (decide (widget = highlighted_widget s)) as [Heq|Hne]; [|by left; left].
  destruct widget as [p|].
  - destruct (heap s !! p) as [x|] eqn:Hx.
    + destruct (decide (highlighted_part x = part)) as [Hp|Hp].
      * right. intros [?|(p' & x' & [= <-] & Hx' & Hp')]; [done|]. congruence.
      * left. right. by exists p, x.
    + right. intros [?|(p' & x' & [= <-] & Hx' & _)]; [done|]. congruence.
  - right. intros [?|(p' & x' & ? & _)]; done.
Qed.

Lemma highlight_moved_lookup (old new : option ptr) (part : Z)
    (h : gmap ptr wmWidget) (q : ptr) :
  highlight_moved old new part h !! q =
  (fun y =>
     let y1 := if bool_decide (old = Some q) then highlight_off y else y in
     if bool_decide (new = Some q) then highlight_on part y1 else y1) <$> h !! q.
Proof.
  unfold highlight_moved.
  assert (H1 : match old with Some o => alter highlight_off o h | None => h end !! q =
               (fun y => if bool_decide (old = Some q) then highlight_off y else y) <$> h !! q).
  { destruct old as [o|].
    - destruct (decide (o = q)) as [->|Hne].
      + rewrite lookup_alter_eq. by rewrite bool_decide_eq_true_2.
      + rewrite lookup_alter_ne by done.
        rewrite bool_decide_eq_false_2 by congruence. by destruct (h !! q).
    - rewrite bool_decide_eq_false_2 by done. by destruct (h !! q). }
  destruct new as [n|].
  - destruct (decide (n = q)) as [->|Hne].
    + rewrite lookup_alter_eq, H1. rewrite (bool_decide_eq_true_2 (Some q = Some q)) by done.
      by destruct (h !! q).
    + rewrite lookup_alter_ne by done. rewrite H1.
      rewrite (bool_decide_eq_false_2 (Some n = Some q)) by congruence.
      by destruct (h !! q).
  - rewrite H1. rewrite (bool_decide_eq_false_2 (None = Some q)) by done.
    by destruct (h !! q).
Qed.

Lemma highlight_off_flags (y : wmWidget) (j : Z) :
  0 <= j ->
  idname (highlight_off y) = idname y /\
  has_flag (flag (highlight_off y)) (2 ^ j) =
    has_flag (flag y) (2 ^ j) && negb (bool_decide (j = 0)) /\
  highlighted_part (highlight_off y) = 0.
Proof.
  intros Hj. unfold highlight_off. cbn [idname flag highlighted_part set_flag set_highlighted_part].
  split; [done|]. split; [|done]. unfold WM_WIDGET_HIGHLIGHT.
  rewrite has_flag_disable by lia. done.
Qed.

Lemma highlight_on_flags (part : Z) (y : wmWidget) (j : Z) :
  0 <= j ->
  idname (highlight_on part y) = idname y /\
  has_flag (flag (highlight_on part y)) (2 ^ j) =
    has_flag (flag y) (2 ^ j) || bool_decide (j = 0) /\
  highlighted_part (highlight_on part y) = part.
Proof.
  intros Hj. unfold highlight_on. cbn [idname flag highlighted_part set_flag set_highlighted_part].
  split; [done|]. split; [|done]. unfold WM_WIDGET_HIGHLIGHT.
  rewrite has_flag_enable by lia. done.
Qed.

(** What a moved highlight does to one widget: the name and every flag but
    the highlight flag stay. *)
Lemma highlight_moved_widget old new part h q y' (j : Z) :
  highlight_moved old new part h !! q = Some y' -> 0 < j ->
  exists y, h !! q = Some y /\ idname y' = idname y /\
    has_flag (flag y') (2 ^ j) = has_flag (flag y) (2 ^ j) /\
    has_flag (flag y') WM_WIDGET_HIGHLIGHT =
      (if bool_decide (new = Some q) then true
       else if bool_decide (old = Some q) then false
       else has_flag (flag y) WM_WIDGET_HIGHLIGHT) /\
    highlighted_part y' =
      (if bool_decide (new = Some q) then part
       else if bool_decide (old = Some q) then 0
       else highlighted_part y).
Proof.
  intros Hy' Hj. rewrite highlight_moved_lookup in Hy'.
  destruct (h !! q) as [y|]; [|done]. simpl in Hy'. exists y. split; [done|].
  inversion Hy'; subst y'; clear Hy'.
  change WM_WIDGET_HIGHLIGHT with (2 ^ 0).
  destruct (bool_decide (new = Some q)); destruct (bool_decide (old = Some q)).
  - destruct (highlight_on_flags part (highlight_off y) j) as (-> & -> & _); [lia|].
    destruct (highlight_on_flags part (highlight_off y) 0) as (_ & -> & ->); [lia|].
    destruct (highlight_off_flags y j) as (-> & -> & _); [lia|].
    rewrite !bool_decide_eq_false_2 by lia. rewrite bool_decide_eq_true_2 by done.
    by rewrite orb_false_r, andb_true_r, orb_true_r.
  - destruct (highlight_on_flags part y j) as (-> & -> & _); [lia|].
    destruct (highlight_on_flags part y 0) as (_ & -> & ->); [lia|].
    rewrite !bool_decide_eq_false_2 by lia. rewrite bool_decide_eq_true_2 by done.
    by rewrite orb_false_r, orb_true_r.
  - destruct (highlight_off_flags y j) as (-> & -> & _); [lia|].
    destruct (highlight_off_flags y 0) as (_ & -> & ->); [lia|].
    rewrite !bool_decide_eq_false_2 by lia. rewrite bool_decide_eq_true_2 by done.
    by rewrite andb_true_r, andb_false_r.
  - done.
Qed.

Section HighlightInv.
Context (E : externals).

(** [wm_widgetmap_set_highlighted_widget], lines 1130-1164, for any widget
    of the map or NULL: afterwards the highlighted slot holds the widget,
    the widget has the sub-part code [part], and the highlighted widget is
    still the one widget with the highlight flag. Every widget keeps
    its name and its other flags, none is freed or allocated, and without a
    context nothing is sent to the window. *)
Theorem set_highlighted_moves_flag (C : bool) (w : world) (widget : option ptr)
    (part : Z) :
  highlight_wf (st w) -> highlight_inv (st w) ->
  (forall p, widget = Some p -> is_Some (heap (st w) !! p)) ->
  exists s' evs,
    wm_widgetmap_set_highlighted_widget E C widget part w =
      Some (tt, World s' (trace w ++ evs)) /\
    highlighted_widget s' = widget /\
    highlight_wf s' /\ highlight_inv s' /\
    (forall p, widget = Some p ->
       exists y, heap s' !! p = Some y /\ highlighted_part y = part) /\
    (forall q, heap (st w) !! q = None -> heap s' !! q = None) /\
    (forall q x, heap (st w) !! q = Some x ->
       exists y, heap s' !! q = Some y /\ idname y = idname x /\
         forall j, 0 < j -> has_flag (flag y) (2 ^ j) = has_flag (flag x) (2 ^ j)) /\
    (C = false -> evs = []).
Proof.
  intros Hwf Hinv Hlive.
  destruct (set_highlighted_full E C w widget part Hwf Hlive)
    as (s' & evs & Hrun & Hslot & Hyes & Hno & HC & _).
  exists s', evs. split; [exact Hrun|]. split; [exact Hslot|].
  destruct (highlight_changes_dec (st w) widget part) as [Hch|Hch].
  - destruct (Hyes Hch) as (Hheap & _ & _).
    assert (Hlook : forall q x, heap (st w) !! q = Some x ->
              exists y, heap s' !! q = Some y).
    { intros q x Hx. rewrite Hheap, highlight_moved_lookup, Hx. by eexists. }
    split.
    { intros h Hh. rewrite Hslot in Hh. destruct (Hlive h Hh) as [x Hx].
      destruct (Hlook h x Hx) as [y Hy]. by eexists. }
    split.
    { intros q y Hy. rewrite Hheap in Hy.
      destruct (highlight_moved_widget _ _ _ _ _ _ 1 Hy) as (x & Hx & _ & _ & Hfl & _); [lia|].
      rewrite Hfl, Hslot. case_bool_decide as Hn; [done|].
      case_bool_decide as Ho.
      - split; [done|]. intros. congruence.
      - rewrite (Hinv q x Hx). split; intros; congruence. }
    split.
    { intros p ->. destruct (Hlive p eq_refl) as [x Hx].
      destruct (Hlook p x Hx) as [y Hy]. exists y. split; [done|].
      rewrite Hheap in Hy.
      destruct (highlight_moved_widget _ _ _ _ _ _ 1 Hy) as (x' & _ & _ & _ & _ & Hpt); [lia|].
      rewrite Hpt. by rewrite bool_decide_eq_true_2. }
    split.
    { intros q Hq. by rewrite Hheap, highlight_moved_lookup, Hq. }
    split; [|exact HC].
    intros q x Hx. destruct (Hlook q x Hx) as [y Hy]. exists y. split; [done|].
    rewrite Hheap in Hy. split.
    + destruct (highlight_moved_widget _ _ _ _ _ _ 1 Hy) as (x' & Hx' & Hn & _); [lia|].
      congruence.
    + intros j Hj.
      destruct (highlight_moved_widget _ _ _ _ _ _ j Hy) as (x' & Hx' & _ & Hf & _); [lia|].
      congruence.
  - destruct (Hno Hch) as [-> ->].
    split; [done|]. split; [done|]. split.
    { intros p ->. destruct (Hlive p eq_refl) as [x Hx]. exists x. split; [done|].
      destruct (decide (highlighted_part x = part)) as [?|Hne]; [done|].
      exfalso. apply Hch. right. by exists p, x. }
    split; [done|]. split; [|exact HC].
    intros q x Hx. by exists x.
Qed.

End HighlightInv.

(** *** Activation without a bound command, and deactivation *)

Section Activation.
Context (E : externals).

Lemma set_active_none_spec (w : world) :
  (forall a, active_widget (st w) = Some a -> is_Some (heap (st w) !! a)) ->
  exists w',
    wm_widgetmap_set_active_widget E None w = Some (tt, w') /\
    active_widget (st w') = None /\
    (forall a x, active_widget (st w) = Some a -> heap (st w) !! a = Some x ->
       heap (st w') !! a =
         Some (set_interaction_data None
                 (set_flag (flag_disable (flag x) WM_WIDGET_ACTIVE) x)) /\
       trace w' = trace w ++
         (if interaction_data x is Some _ then [EvFreeInteraction a] else []) ++
         [EvTagRedraw; EvAddMousemove]) /\
    (active_widget (st w) = None ->
       heap (st w') = heap (st w) /\
       trace w' = trace w ++ [EvTagRedraw; EvAddMousemove]) /\
    (forall q, active_widget (st w) <> Some q ->
       heap (st w') !! q = heap (st w) !! q) /\
    widgetgroups (st w') = widgetgroups (st w) /\
    highlighted_widget (st w') = highlighted_widget (st w) /\
    selected_widgets (st w') = selected_widgets (st w) /\
    tot_selected (st w') = tot_selected (st w) /\
    activegroup (st w') = activegroup (st w) /\
    draw_widgets (st w') = draw_widgets (st w).
Proof.
  intros Hlive. destruct w as [s t]. cbn [st trace] in *.
  unfold wm_widgetmap_set_active_widget.
  erewrite bind_eq by reflexivity. cbn [st trace].
  destruct (active_widget s) as [a|] eqn:Ha.
  - destruct (Hlive a eq_refl) as [x Hx].
    unfold widget_deactivate. rewrite !bind_assoc.
    erewrite bind_eq by (by apply load_Some).
    rewrite !bind_assoc. erewrite bind_eq by (by eapply store_Some).
    cbn [st trace]. rewrite !bind_assoc.
    erewrite bind_eq
      by (apply load_Some; cbn [st heap set_heap]; apply lookup_insert_eq).
    cbn [interaction_data set_flag].
    destruct (interaction_data x) as [d|] eqn:Hd.
    + rewrite !bind_assoc. erewrite bind_eq by reflexivity. cbn [st trace].
      erewrite bind_eq
        by (eapply store_Some; cbn [st heap set_heap]; apply lookup_insert_eq).
      cbn [st trace heap set_heap]. rewrite insert_insert_eq.
      eexists. split; [reflexivity|]. cbn [st trace]. simpl.
      split; [done|]. split.
      { intros a' x' [= <-] Hx'. assert (x' = x) by congruence. subst x'.
        rewrite lookup_insert_eq, Hd. split; [|by rewrite <- !app_assoc].
        done. }
      split; [done|]. split; [|done].
      intros q Hq. rewrite lookup_insert_ne; [done|congruence].
    + erewrite bind_eq by reflexivity. cbn [st trace].
      eexists. split; [reflexivity|]. cbn [st trace]. simpl.
      split; [done|]. split.
      { intros a' x' [= <-] Hx'. assert (x' = x) by congruence. subst x'.
        rewrite lookup_insert_eq, Hd. split; [|by rewrite <- !app_assoc].
        f_equal. destruct x; simpl in *. by subst. }
      split; [done|]. split; [|done].
      intros q Hq. rewrite lookup_insert_ne; [done|congruence].
  - erewrite bind_eq by reflexivity. cbn [st trace].
    eexists. split; [reflexivity|]. cbn [st trace]. simpl.
    split; [done|]. split; [done|]. split; [by rewrite <- !app_assoc|]. done.
Qed.

(** [wm_widgetmap_set_active_widget] with a NULL widget, lines 1216-1230:
    the map has no active widget afterwards; the widget that was active
    loses its active flag and its interaction data, which is freed when
    there is some; no other widget and no other field of the map changes;
    the region is tagged for redraw and a mouse move is queued, also when
    no widget was active. *)
Theorem set_active_none_deactivates (w : world) :
  (forall a, active_widget (st w) = Some a -> is_Some (heap (st w) !! a)) ->
  exists w',
    wm_widgetmap_set_active_widget E None w = Some (tt, w') /\
    active_widget (st w') = None /\
    (forall a x, active_widget (st w) = Some a -> heap (st w) !! a = Some x ->
       heap (st w') !! a =
         Some (set_interaction_data None
                 (set_flag (flag_disable (flag x) WM_WIDGET_ACTIVE) x)) /\
       trace w' = trace w ++
         (if interaction_data x is Some _ then [EvFreeInteraction a] else []) ++
         [EvTagRedraw; EvAddMousemove]) /\
    (active_widget (st w) = None ->
       heap (st w') = heap (st w) /\
       trace w' = trace w ++ [EvTagRedraw; EvAddMousemove]) /\
    (forall q, active_widget (st w) <> Some q ->
       heap (st w') !! q = heap (st w) !! q) /\
    widgetgroups (st w') = widgetgroups (st w) /\
    highlighted_widget (st w') = highlighted_widget (st w) /\
    selected_widgets (st w') = selected_widgets (st w) /\
    tot_selected (st w') = tot_selected (st w) /\
    activegroup (st w') = activegroup (st w) /\
    draw_widgets (st w') = draw_widgets (st w).
Proof. apply set_active_none_spec. Qed.

(** [wm_widgetmap_set_active_widget] for a widget without a bound command,
    lines 1206-1212: a widget with both invoke and handler gets the active
    flag, its invoke runs, and the widget is the active one afterwards,
    whatever the invoke did to the slot; no operator is called. A widget
    that lacks invoke or handler is not activated: state and trace stay as
    they are. *)
Theorem set_active_direct (w : world) (p : ptr) (x : wmWidget) :
  heap (st w) !! p = Some x -> opname x = None ->
  exists w',
    wm_widgetmap_set_active_widget E (Some p) w = Some (tt, w') /\
    if has_pair x then
      st w' = dispatcher_entry E p x (st w) /\
      active_widget (st w') = Some p /\
      trace w' = trace w ++ [EvInvoke p]
    else w' = w.
Proof.
  intros Hx Hop. destruct w as [s t]. cbn [st trace] in *.
  unfold wm_widgetmap_set_active_widget.
  erewrite bind_eq by (by apply load_Some). rewrite Hop.
  unfold has_pair, dispatcher_entry.
  destruct (invoke x) as [c|]; [destruct (handler x) as [hd|]|].
  - unfold widget_invoke. rewrite !bind_assoc.
    erewrite bind_eq by (by apply load_Some).
    rewrite !bind_assoc. erewrite bind_eq by (by eapply store_Some).
    cbn [st trace]. rewrite !bind_assoc. erewrite bind_eq by reflexivity.
    cbn [st trace]. erewrite bind_eq by reflexivity. cbn [st trace].
    eexists. split; [reflexivity|]. cbn [st trace]. done.
  - by exists (World s t).
  - by exists (World s t).
Qed.

End Activation.

(** *** Deselecting everything *)



Lemma flag_disable_idemp (f m : Z) :
  flag_disable (flag_disable f m) m = flag_disable f m.
Proof.
  unfold flag_disable. by rewrite <- Z.land_assoc, Z.land_diag.
Qed.

Lemma unselected_nil h : unselected [] h h.
Proof.
  intros q. destruct (h !! q) as [y|]; cbn; [|done].
  rewrite bool_decide_eq_false_2; [done|]. apply not_elem_of_nil.
Qed.

Lemma unselected_step p x ps h h' :
  h !! p = Some x ->
  unselected ps (<[p := set_flag (flag_disable (flag x) WM_WIDGET_SELECTED) x]> h) h' ->
  unselected (p :: ps) h h'.
Proof.
  intros Hx Hu q. rewrite (Hu q). destruct (decide (q = p)) as [->|Hne].
  - rewrite lookup_insert_eq, Hx. simpl.
    rewrite (bool_decide_eq_true_2 (p ∈ p :: ps)) by apply list_elem_of_here.
    destruct (bool_decide (p ∈ ps)); [|done].
    cbn [flag set_flag]. rewrite flag_disable_idemp. done.
  - rewrite lookup_insert_ne by done. destruct (h !! q) as [y|]; simpl; [|done].
    destruct (decide (q ∈ ps)) as [Hin|Hin].
    + rewrite !bool_decide_eq_true_2; [done| |done]. by apply list_elem_of_further.
    + rewrite !bool_decide_eq_false_2; [done| |done].
      intros [?|?]%elem_of_cons; done.
Qed.

Lemma deselect_loop_spec (n : nat) : forall (i : nat) (w : world) arr ps,
  selected_widgets (st w) = Some arr ->
  Forall2 (fun q p => q = Some p /\ is_Some (heap (st w) !! p))
          (take n (drop i arr)) ps ->
  length ps = n ->
  exists s',
    for_each_ deselect_slot (seq i n) w = Some (tt, World s' (trace w)) /\
    is_Some (selected_widgets s') /\
    unselected ps (heap (st w)) (heap s') /\
    widgetgroups s' = widgetgroups (st w) /\
    highlighted_widget s' = highlighted_widget (st w) /\
    active_widget s' = active_widget (st w) /\
    tot_selected s' = tot_selected (st w) /\
    activegroup s' = activegroup (st w) /\
    draw_widgets s' = draw_widgets (st w).
Proof.
  induction n as [|n IH]; intros i w arr ps Harr Hall Hlen.
  { destruct ps; [|done]. destruct w as [s t]. cbn [st trace] in *. exists s.
    split; [done|]. split; [by rewrite Harr|]. split; [apply unselected_nil|]. done. }
  destruct ps as [|p ps]; [done|].
  destruct (drop i arr) as [|q rest] eqn:Hdrop; [by inversion Hall|].
  cbn [take] in Hall. apply Forall2_cons in Hall as [[-> [x Hx]] Hrest].
  assert (Hi : arr !! i = Some (Some p)).
  { rewrite <- (Nat.add_0_r i), <- lookup_drop, Hdrop. done. }
  assert (Hlt : (i < length arr)%nat) by (by eapply lookup_lt_Some).
  destruct w as [s t]. cbn [st trace] in *.
  cbn [seq for_each_]. unfold deselect_slot at 1. rewrite !bind_assoc.
  erewrite bind_eq
    by (eapply selected_at_Some; [exact Harr|lia|by rewrite Nat2Z.id]).
  rewrite !bind_assoc. erewrite bind_eq by (by apply load_Some).
  rewrite !bind_assoc. erewrite bind_eq by (by eapply store_Some).
  cbn [st trace].
  erewrite bind_eq
    by (eapply selected_write_Some; [cbn [st]; simpl; exact Harr|lia]).
  cbn [st trace]. rewrite Nat2Z.id.
  set (s1 := set_selected_widgets _ _).
  destruct (IH (S i) (World s1 t) (<[i := None]> arr) ps) as (s' & Hrun & Hsel & Hun & Hfr).
  - done.
  - cbn [st]. subst s1. cbn [heap set_selected_widgets set_heap].
    rewrite drop_insert_lt by lia.
    replace (drop (S i) arr) with rest.
    2:{ replace (S i) with (i + 1)%nat by lia. rewrite <- drop_drop, Hdrop. done. }
    eapply Forall2_impl; [exact Hrest|]. intros q' p' [-> [y Hy]]. split; [done|].
    destruct (decide (p' = p)) as [->|Hne].
    + rewrite lookup_insert_eq. by eexists.
    + rewrite lookup_insert_ne by done. by eexists.
  - simpl in Hlen. lia.
  - exists s'. split; [exact Hrun|]. split; [done|]. split; [|exact Hfr].
    eapply unselected_step; [exact Hx|exact Hun].
Qed.

Lemma selection_ptrs (s : wm_state) :
  selection_wf s ->
  Forall2 (fun q p => q = Some p /\ is_Some (heap s !! p))
          (selection s) (selected_ptrs s).
Proof.
  intros (_ & _ & Hlive). unfold selected_ptrs.
  induction (selection s) as [|q l IH]; [constructor|].
  destruct (Hlive q) as (p & -> & Hp); [apply list_elem_of_here|].
  cbn [omap]. simpl. constructor; [done|]. apply IH.
  intros q' Hq'. apply Hlive. by apply list_elem_of_further.
Qed.

Lemma selected_ptrs_elem (s : wm_state) (p : ptr) :
  p ∈ selected_ptrs s <-> Some p ∈ selection s.
Proof.
  unfold selected_ptrs. rewrite list_elem_of_omap. split.
  - intros (q & Hq & Hid). simpl in Hid. by subst q.
  - intros Hp. by exists (Some p).
Qed.

Lemma deselect_all_spec (w : world) :
  selection_wf (st w) ->
  exists s',
    wm_widgetmap_deselect_all w =
      Some (bool_decide (selected_widgets (st w) <> None /\ tot_selected (st w) <> 0),
            World s' (trace w)) /\
    (selected_widgets (st w) = None \/ tot_selected (st w) = 0 -> s' = st w) /\
    (selected_widgets (st w) <> None -> tot_selected (st w) <> 0 ->
       selected_widgets s' = None /\ tot_selected s' = 0) /\
    unselected (selected_ptrs (st w)) (heap (st w)) (heap s') /\
    widgetgroups s' = widgetgroups (st w) /\
    highlighted_widget s' = highlighted_widget (st w) /\
    active_widget s' = active_widget (st w) /\
    activegroup s' = activegroup (st w) /\
    draw_widgets s' = draw_widgets (st w).
Proof.
  intros Hwf. pose proof (selection_ptrs _ Hwf) as Hptrs.
  destruct Hwf as ((Hge & Hlt) & Hlen & Hlive).
  destruct w as [s t]. cbn [st trace] in *.
  unfold wm_widgetmap_deselect_all.
  erewrite bind_eq by reflexivity. erewrite bind_eq by reflexivity. cbn [st trace].
  destruct (selected_widgets s) as [arr|] eqn:Harr.
  2:{ exists s. rewrite bool_decide_eq_false_2 by (by intros [? _]).
      split; [done|]. split; [done|]. split; [done|]. split; [|done].
      unfold selected_ptrs, selection. rewrite Harr. simpl. rewrite take_nil.
      apply unselected_nil. }
  destruct (tot_selected s =? 0) eqn:Htot.
  { apply Z.eqb_eq in Htot. exists s.
    rewrite bool_decide_eq_false_2 by (by intros [_ ?]).
    split; [done|]. split; [done|]. split; [done|]. split; [|done].
    unfold selected_ptrs, selection. rewrite Htot. simpl. apply unselected_nil. }
  apply Z.eqb_neq in Htot.
  rewrite bool_decide_eq_true_2 by done.
  destruct (deselect_loop_spec (Z.to_nat (tot_selected s)) 0 (World s t) arr
              (selected_ptrs s)) as (s1 & Hrun & _ & Hun & F1 & F2 & F3 & F4 & F5 & F6).
  - done.
  - cbn [st]. rewrite drop_0. unfold selection in Hptrs. rewrite Harr in Hptrs. exact Hptrs.
  - apply Forall2_length in Hptrs. rewrite <- Hptrs. unfold selection.
    rewrite length_take, Harr. simpl in *. lia.
  - erewrite bind_eq by exact Hrun.
    erewrite bind_eq by reflexivity. erewrite bind_eq by reflexivity. cbn [st trace].
    eexists. split; [reflexivity|]. simpl.
    split; [intros [?|?]; done|]. split; [done|]. done.
Qed.

(** [wm_widgetmap_deselect_all]: with no array or a count of zero nothing
    changes and the result is false; otherwise every widget of the
    selection loses its selected flag, the array is freed, the count is
    zero and the result is true. No other widget, no other field of the
    map and nothing of the trace changes. *)
Theorem deselect_all_clears (w : world) :
  selection_wf (st w) ->
  exists s',
    wm_widgetmap_deselect_all w =
      Some (bool_decide (selected_widgets (st w) <> None /\ tot_selected (st w) <> 0),
            World s' (trace w)) /\
    (selected_widgets (st w) = None \/ tot_selected (st w) = 0 -> s' = st w) /\
    (selected_widgets (st w) <> None -> tot_selected (st w) <> 0 ->
       selected_widgets s' = None /\ tot_selected s' = 0) /\
    unselected (selected_ptrs (st w)) (heap (st w)) (heap s') /\
    widgetgroups s' = widgetgroups (st w) /\
    highlighted_widget s' = highlighted_widget (st w) /\
    active_widget s' = active_widget (st w) /\
    activegroup s' = activegroup (st w) /\
    draw_widgets s' = draw_widgets (st w).
Proof. apply deselect_all_spec. Qed.

(** *** The select operator *)

Lemma unselected_lookup ps h h' q y :
  unselected ps h h' -> h' !! q = Some y ->
  exists x, h !! q = Some x /\ idname y = idname x /\
    has_flag (flag y) WM_WIDGET_SELECTED =
      has_flag (flag x) WM_WIDGET_SELECTED && negb (bool_decide (q ∈ ps)).
Proof.
  intros Hu Hy. rewrite (Hu q) in Hy. destruct (h !! q) as [x|]; [|done].
  simpl in Hy. exists x. split; [done|]. inversion Hy; subst y; clear Hy.
  destruct (bool_decide (q ∈ ps)); cbn [negb].
  - cbn [idname flag set_flag]. split; [done|]. rewrite andb_false_r. by flag_simpl.
  - by rewrite andb_true_r.
Qed.

Lemma unselected_is_Some ps h h' q :
  unselected ps h h' -> is_Some (h' !! q) <-> is_Some (h !! q).
Proof.
  intros Hu. rewrite (Hu q). by rewrite fmap_is_Some.
Qed.

Section SelectInvoke.
Context (E : externals) (K : retcodes).

Lemma deselect_all_inv (w : world) :
  selection_inv (st w) ->
  exists s' b,
    wm_widgetmap_deselect_all w = Some (b, World s' (trace w)) /\
    tot_selected s' = 0 /\
    (forall q, is_Some (heap s' !! q) <-> is_Some (heap (st w) !! q)) /\
    (forall q y, heap s' !! q = Some y ->
       has_flag (flag y) WM_WIDGET_SELECTED = false) /\
    highlighted_widget s' = highlighted_widget (st w).
Proof.
  intros (Hwf & Hnd & Hiff).
  destruct (deselect_all_spec w Hwf) as (s' & Hrun & Hsame & Hfree & Hun & _ & Hhl & _).
  eexists s', _. split; [exact Hrun|].
  destruct Hwf as ((Hge & Hlt) & Hlen & Hlive).
  split.
  { destruct (selected_widgets (st w)) as [arr|] eqn:Harr.
    - destruct (decide (tot_selected (st w) = 0)) as [H0|H0].
      + rewrite Hsame by (by right). done.
      + by destruct Hfree.
    - rewrite Hsame by (by left). simpl in Hlen. lia. }
  split; [intros q; by eapply unselected_is_Some|].
  split; [|done].
  intros q y Hy. destruct (unselected_lookup _ _ _ _ _ Hun Hy) as (x & Hx & _ & ->).
  destruct (has_flag (flag x) WM_WIDGET_SELECTED) eqn:Hs; [|done].
  apply (Hiff q x Hx) in Hs. apply selected_ptrs_elem in Hs.
  by rewrite bool_decide_eq_true_2.
Qed.

(** [widget_select_invoke] for a plain click (no extend, deselect or toggle)
    with a highlighted widget in the first map: the operator finishes, the
    selection of that map is the highlighted widget alone, it is the one
    widget with the selected flag, no widget is freed or allocated, and the
    other maps of the region are left alone. *)
Theorem select_invoke_click (wmap : wm_state) (rest : list wm_state)
    (t : list event) (h : ptr) :
  select_cb_frame E -> selection_inv wmap -> highlight_wf wmap ->
  highlighted_widget wmap = Some h ->
  exists s' t',
    widget_select_invoke E K false false false (wmap :: rest) t =
      Some (OPERATOR_FINISHED K, s' :: rest, t') /\
    tot_selected s' = 1 /\ selection s' = [Some h] /\
    (forall q y, heap s' !! q = Some y ->
       has_flag (flag y) WM_WIDGET_SELECTED = true <-> q = h) /\
    (forall q, is_Some (heap s' !! q) <-> is_Some (heap wmap !! q)).
Proof.
  intros Hcb Hinv Hhl Hslot.
  destruct (deselect_all_inv (World wmap t) Hinv) as (s1 & b & Hrun & Htot & Hdom & Hflags & Hhl1).
  cbn [st trace] in *.
  destruct (Hhl h Hslot) as [x0 Hx0].
  assert (Hx1 : is_Some (heap s1 !! h)) by (apply Hdom; by eexists).
  destruct Hx1 as [x1 Hx1].
  destruct (select_spec E (World s1 t) h x1) as (w2 & Hrun2 & Htot2 & Hsel2 & Hrel).
  - done.
  - cbn [st]. split; [lia|]. split; [rewrite Htot; simpl; lia|].
    unfold selection. rewrite Htot. simpl. intros q Hq. by apply elem_of_nil in Hq.
  - cbn [st]. lia.
  - intros h' Hh'. cbn [st] in *. apply Hdom. apply Hhl. by rewrite <- Hhl1.
  - done.
  - by eapply Hflags.
  - cbn [st] in *. exists (st w2), (trace w2).
    unfold widget_select_invoke, widget_select_invoke_map.
    erewrite bind_eq by reflexivity. cbn [st trace]. rewrite Hslot.
    cbn [negb andb]. rewrite !bind_assoc. erewrite bind_eq by exact Hrun.
    erewrite bind_eq by reflexivity.
    erewrite bind_eq by (by apply load_Some).
    cbv beta zeta. cbn iota.
    erewrite bind_eq by exact Hrun2. destruct w2 as [s2 t2]. cbn [st trace ret] in *.
    split; [done|]. rewrite Htot in Htot2, Hsel2. simpl in Hsel2.
    split; [done|]. split.
    { unfold selection. rewrite Htot2, Hsel2. simpl.
      by destruct (default [] (selected_widgets s1)). }
    destruct Hrel as [Hnone Hsome]. split.
    + intros q y Hy. destruct (heap s1 !! q) as [y1|] eqn:Hy1.
      * destruct (Hsome q y1 Hy1) as (y' & Hy' & _ & Hf).
        assert (y' = y) by congruence. subst y'. rewrite Hf.
        destruct (decide (q = h)) as [->|Hne]; [done|].
        rewrite (Hflags q y1 Hy1). split; [done|]. intros ->. done.
      * rewrite (Hnone q Hy1) in Hy. done.
    + intros q. rewrite <- Hdom. split.
      * intros [y Hy]. destruct (heap s1 !! q) as [y1|] eqn:Hy1; [by eexists|].
        rewrite (Hnone q Hy1) in Hy. done.
      * intros [y1 Hy1]. destruct (Hsome q y1 Hy1) as (y' & Hy' & _). by eexists.
Qed.

(** [widget_select_invoke] with no highlighted widget in the first map: the
    result is cancelled and pass-through, and the maps and the trace are
    as before, except that a plain click has deselected everything in the
    first map by then. Without any map the result is pass-through. *)
Theorem select_invoke_nothing_highlighted (extend deselect toggle : bool)
    (wmap : wm_state) (rest : list wm_state) (t : list event) :
  selection_wf wmap -> highlighted_widget wmap = None ->
  widget_select_invoke E K extend deselect toggle [] t =
    Some (OPERATOR_PASS_THROUGH K, [], t) /\
  exists s',
    widget_select_invoke E K extend deselect toggle (wmap :: rest) t =
      Some (Z.lor (OPERATOR_CANCELLED K) (OPERATOR_PASS_THROUGH K), s' :: rest, t) /\
    if negb extend && negb deselect && negb toggle then
      selection s' = [] /\
      unselected (selected_ptrs wmap) (heap wmap) (heap s') /\
      highlighted_widget s' = None
    else s' = wmap.
Proof.
  intros Hwf Hslot. split; [done|].
  unfold widget_select_invoke, widget_select_invoke_map.
  erewrite bind_eq by reflexivity. cbn [st trace]. rewrite Hslot.
  destruct (negb extend && negb deselect && negb toggle) eqn:Hplain.
  - destruct (deselect_all_spec (World wmap t) Hwf)
      as (s' & Hrun & Hsame & Hfree & Hun & _ & Hhl & _).
    cbn [st trace] in *.
    rewrite !bind_assoc. erewrite bind_eq by exact Hrun.
    erewrite bind_eq by reflexivity. cbn [ret].
    exists s'. split; [done|]. split; [|split; [done|congruence]].
    destruct Hwf as ((Hge & Hlt) & Hlen & Hlive).
    destruct (selected_widgets wmap) as [arr|] eqn:Harr.
    + destruct (decide (tot_selected wmap = 0)) as [H0|H0].
      * rewrite Hsame by (by right). unfold selection. by rewrite H0.
      * destruct Hfree as [Hs' Ht']; [done..|]. unfold selection. by rewrite Ht'.
    + rewrite Hsame by (by left). unfold selection. rewrite Harr. simpl. apply take_nil.
  - erewrite bind_eq by reflexivity. cbn [ret]. by exists wmap.
Qed.

End SelectInvoke.

(** *** Taking one widget out of the selection *)

Lemma selected_slot_Some i arr x w :
  selected_widgets (st w) = Some arr -> 0 <= i ->
  arr !! Z.to_nat i = Some x ->
  selected_slot i w = Some (x, w).
Proof.
  intros Hs Hi Hx. unfold selected_slot.
  erewrite bind_eq by reflexivity. rewrite Hs.
  destruct (i <? 0) eqn:Hlt; [apply Z.ltb_lt in Hlt; lia|]. by rewrite Hx.
Qed.

Lemma set_selected_widgets_same s arr :
  selected_widgets s = Some arr -> set_selected_widgets (Some arr) s = s.
Proof. destruct s. simpl. by intros ->. Qed.

(** The shift of lines 705-707 moves the slots after [j] down by one. *)
Lemma deselect_shift_spec (n : nat) : forall (j : nat) (w : world) arr,
  selected_widgets (st w) = Some arr ->
  (j + n < length arr)%nat ->
  exists arr',
    deselect_shift n (Z.of_nat j) w =
      Some (tt, World (set_selected_widgets (Some arr') (st w)) (trace w)) /\
    length arr' = length arr /\
    forall i, arr' !! i =
      if decide (j <= i < j + n)%nat then arr !! S i else arr !! i.
Proof.
  induction n as [|n IH]; intros j w arr Harr Hlen.
  { exists arr. cbn [deselect_shift]. rewrite set_selected_widgets_same by done.
    destruct w. split; [done|]. split; [done|]. intros i.
    destruct (decide _); [lia|done]. }
  cbn [deselect_shift].
  destruct (lookup_lt_is_Some_2 arr (S j)) as [x Hx]; [lia|].
  erewrite bind_eq
    by (eapply selected_slot_Some; [done|lia|];
        replace (Z.to_nat (Z.of_nat j + 1)) with (S j) by lia; done).
  erewrite bind_eq by (eapply selected_write_Some; [done|lia]).
  rewrite Nat2Z.id.
  replace (Z.of_nat j + 1) with (Z.of_nat (S j)) by lia.
  destruct (IH (S j) (World (set_selected_widgets (Some (<[j := x]> arr)) (st w)) (trace w))
              (<[j := x]> arr)) as (arr' & Hrun & Hlen' & Hlook).
  - by destruct (st w).
  - rewrite length_insert. lia.
  - exists arr'. rewrite Hrun. cbn [st trace]. split.
    { by destruct (st w). }
    split; [by rewrite Hlen', length_insert|].
    intros i. rewrite Hlook.
    destruct (decide (S j <= i < S j + n)%nat) as [Hi|Hi].
    + rewrite list_lookup_insert_ne by lia. destruct (decide _); [done|lia].
    + destruct (decide (i = j)) as [->|Hne].
      * rewrite list_lookup_insert_eq by lia. destruct (decide _); [done|lia].
      * rewrite list_lookup_insert_ne by lia. destruct (decide _); [lia|done].
Qed.

(** The search of lines 703-710 stops at the first slot that holds a widget
    of the name of [widget]. *)
Lemma deselect_find_first widget xw tot arr w (k : nat) :
  selected_widgets (st w) = Some arr ->
  heap (st w) !! widget = Some xw ->
  arr !! k = Some (Some widget) ->
  (forall (j : nat) q, (j < k)%nat -> arr !! j = Some q ->
     exists q' y, q = Some q' /\ heap (st w) !! q' = Some y /\ idname y <> idname xw) ->
  forall (n i : nat), (i <= k < i + n)%nat ->
    deselect_find widget tot n (Z.of_nat i) w =
    deselect_shift (Z.to_nat (tot - 1 - Z.of_nat k)) (Z.of_nat k) w.
Proof.
  intros Hs Hw Hk Hpre n. induction n as [|n IH]; intros i Hi; [lia|].
  cbn [deselect_find].
  destruct (decide (i = k)) as [->|Hne].
  - erewrite bind_eq by (eapply selected_at_Some; [done|lia|by rewrite Nat2Z.id]).
    erewrite bind_eq by (by eapply widget_compare_Some).
    by rewrite String.eqb_refl.
  - assert (Hlt : (i < k)%nat) by lia.
    destruct (lookup_lt_is_Some_2 arr i) as [q Hq].
    { apply lookup_lt_Some in Hk. lia. }
    destruct (Hpre i q Hlt Hq) as (q' & y & -> & Hy & Hny).
    erewrite bind_eq by (eapply selected_at_Some; [done|lia|by rewrite Nat2Z.id]).
    erewrite bind_eq by (by eapply widget_compare_Some).
    apply String.eqb_neq in Hny. rewrite Hny.
    replace (Z.of_nat i + 1) with (Z.of_nat (S i)) by lia. apply IH. lia.
Qed.

Lemma shifted_selection (arr arr' : list (option ptr)) (k tot : nat) :
  (k < tot <= length arr)%nat -> length arr' = length arr ->
  (forall i, arr' !! i =
     if decide (k <= i < k + (tot - 1 - k))%nat then arr !! S i else arr !! i) ->
  take (tot - 1) arr' = delete k (take tot arr).
Proof.
  intros Hk Hlen Hlook. apply list_eq. intros i.
  destruct (decide (i < tot - 1)%nat) as [Hi|Hi].
  - rewrite lookup_take_lt by lia. rewrite Hlook.
    destruct (decide (i < k)%nat) as [Hik|Hik].
    + rewrite list_lookup_delete_lt by lia. rewrite lookup_take_lt by lia.
      destruct (decide _); [lia|done].
    + rewrite list_lookup_delete_ge by lia. rewrite lookup_take_lt by lia.
      destruct (decide _); [done|lia].
  - rewrite lookup_take_ge by lia. symmetry. apply lookup_ge_None.
    rewrite length_delete.
    + rewrite length_take. lia.
    + apply lookup_lt_is_Some. rewrite length_take. lia.
Qed.

Lemma deselect_spec (w : world) (p : ptr) (x : wmWidget) (k : nat) :
  selection_wf (st w) ->
  selection (st w) !! k = Some (Some p) ->
  heap (st w) !! p = Some x ->
  (forall (j : nat) q y, (j < k)%nat -> selection (st w) !! j = Some (Some q) ->
     heap (st w) !! q = Some y -> idname y <> idname x) ->
  exists s',
    wm_widget_deselect p w = Some (tt, World s' (trace w ++ [EvTagRedraw])) /\
    tot_selected s' = tot_selected (st w) - 1 /\
    selection s' = delete k (selection (st w)) /\
    heap s' = <[p := set_flag (flag_disable (flag x) WM_WIDGET_SELECTED) x]> (heap (st w)) /\
    selection_frame (st w) s'.
Proof.
  intros ((Hge & Hlt) & Hlen & Hlive) Hk Hx Hnames.
  destruct w as [s t]. cbn [st trace] in *.
  unfold selection in Hk, Hnames, Hlive.
  assert (Hkt : (k < Z.to_nat (tot_selected s))%nat).
  { apply lookup_lt_Some in Hk. rewrite length_take in Hk. lia. }
  rewrite lookup_take_lt in Hk by done.
  destruct (selected_widgets s) as [arr|] eqn:Harr; [|done].
  simpl in Hk, Hlen, Hnames, Hlive.
  unfold wm_widget_deselect.
  erewrite bind_eq by reflexivity. cbn [st trace].
  assert (Hfind : deselect_find p (tot_selected s) (Z.to_nat (tot_selected s)) 0 (World s t) =
                  deselect_shift (Z.to_nat (tot_selected s - 1 - Z.of_nat k)) (Z.of_nat k) (World s t)).
  { change 0 with (Z.of_nat 0).
    apply (deselect_find_first p x (tot_selected s) arr (World s t) k Harr Hx Hk); [|lia].
    intros j q Hj Hq.
    assert (Hq' : take (Z.to_nat (tot_selected s)) arr !! j = Some q)
      by (rewrite lookup_take_lt by lia; done).
    destruct (Hlive q) as (q' & -> & [y Hy]); [by eapply list_elem_of_lookup_2|].
    exists q', y. split; [done|]. split; [done|]. eapply Hnames; [exact Hj| |exact Hy].
    rewrite lookup_take_lt by lia. done. }
  destruct (deselect_shift_spec (Z.to_nat (tot_selected s - 1 - Z.of_nat k)) k (World s t) arr Harr)
    as (arr' & Hshift & Hlen' & Hlook); [lia|].
  erewrite bind_eq by (rewrite Hfind; exact Hshift). cbn [st trace].
  assert (Hsel' : take (Z.to_nat (tot_selected s) - 1) arr' =
                  delete k (take (Z.to_nat (tot_selected s)) arr)).
  { apply shifted_selection; [lia|done|].
    intros i. rewrite Hlook.
    replace (Z.to_nat (tot_selected s - 1 - Z.of_nat k))
      with (Z.to_nat (tot_selected s) - 1 - k)%nat by lia. done. }
  destruct (tot_selected s <=? 1) eqn:Hone.
  - apply Z.leb_le in Hone. assert (Htot : tot_selected s = 1) by lia.
    rewrite !bind_assoc. erewrite bind_eq by reflexivity.
    erewrite bind_eq by reflexivity. cbn [st trace].
    erewrite bind_eq by (apply load_Some; cbn [st]; simpl; exact Hx).
    erewrite bind_eq by (eapply store_Some; cbn [st]; simpl; exact Hx).
    cbn [st trace].
    eexists. split; [reflexivity|]. simpl. split; [lia|].
    split; [|done]. unfold selection. simpl. rewrite Harr, Htot. simpl.
    assert (k = 0)%nat by lia. subst k.
    destruct arr as [|a arr0]; [done|]. simpl. by rewrite take_0.
  - apply Z.leb_gt in Hone.
    rewrite !bind_assoc. erewrite bind_eq by (apply realloc_selected_Some; lia).
    erewrite bind_eq by reflexivity. cbn [st trace].
    erewrite bind_eq by (apply load_Some; cbn [st]; simpl; exact Hx).
    erewrite bind_eq by (eapply store_Some; cbn [st]; simpl; exact Hx).
    cbn [st trace].
    eexists. split; [reflexivity|]. simpl.
    rewrite to_int_small by lia. split; [done|].
    split; [|done]. unfold selection. simpl. rewrite Harr. simpl.
    rewrite resize_le by lia. rewrite take_take.
    replace (Z.to_nat (tot_selected s - 1) `min` Z.to_nat (tot_selected s))%nat
      with (Z.to_nat (tot_selected s) - 1)%nat by lia.
    done.
Qed.

(** [wm_widget_deselect] for a widget of the selection that no earlier slot
    shadows by name: the widget leaves the array, the widgets after it move
    down by one and keep their order, the count goes down by one, the
    widget loses its selected flag and the region is tagged for redraw.
    Nothing else of the map changes. *)
Theorem deselect_removes (w : world) (p : ptr) (x : wmWidget) (k : nat) :
  selection_wf (st w) ->
  selection (st w) !! k = Some (Some p) ->
  heap (st w) !! p = Some x ->
  (forall (j : nat) q y, (j < k)%nat -> selection (st w) !! j = Some (Some q) ->
     heap (st w) !! q = Some y -> idname y <> idname x) ->
  exists s',
    wm_widget_deselect p w = Some (tt, World s' (trace w ++ [EvTagRedraw])) /\
    tot_selected s' = tot_selected (st w) - 1 /\
    selection s' = delete k (selection (st w)) /\
    heap s' = <[p := set_flag (flag_disable (flag x) WM_WIDGET_SELECTED) x]> (heap (st w)) /\
    selection_frame (st w) s'.
Proof. apply deselect_spec. Qed.

(** *** The select operator keeps the context consistent *)

Section SelectFull.
Context (E : externals).

(** [wm_widget_select] on a widget that is not selected: as [select_spec],
    and the widget is the highlighted one afterwards. *)
Lemma select_full w p x :
  select_cb_frame E -> selection_wf (st w) -> tot_selected (st w) < 2 ^ 31 - 1 ->
  highlight_wf (st w) ->
  heap (st w) !! p = Some x -> has_flag (flag x) WM_WIDGET_SELECTED = false ->
  exists w', wm_widget_select E (Some p) w = Some (tt, w') /\
    tot_selected (st w') = tot_selected (st w) + 1 /\
    selection (st w') = selection (st w) ++ [Some p] /\
    (Z.to_nat (tot_selected (st w')) <= length (default [] (selected_widgets (st w'))))%nat /\
    select_heap_rel p (heap (st w)) (heap (st w')) /\
    highlighted_widget (st w') = Some p.
Proof.
  intros Hcb Hwf Hmax Hhl Hx Hf.
  destruct (select_spec E w p x Hcb Hwf Hmax Hhl Hx Hf) as (w' & Hrun & Htot' & Hsel' & Hrel').
  exists w'. split; [exact Hrun|]. split; [exact Htot'|].
  pose proof Hwf as (Htot & Hlen & Hlive).
  split; [apply selection_after_select; [done|lia|done|done]|].
  split; [rewrite Hsel'; simpl; rewrite length_insert, length_resize; lia|].
  split; [exact Hrel'|].
  (* the run once more, for the highlighted slot *)
  revert Hrun. destruct w as [s t]. cbn [st trace] in *. unfold wm_widget_select.
  erewrite bind_eq by (by apply load_Some). rewrite Hf.
  erewrite bind_eq by reflexivity. cbn [st trace].
  erewrite bind_eq by reflexivity. cbn [st trace].
  rewrite to_int_small by lia.
  erewrite bind_eq by (apply realloc_selected_Some; lia). cbn [st trace].
  replace (Z.to_nat (tot_selected s + 1)) with (S (Z.to_nat (tot_selected s))) by lia.
  simpl selected_widgets.
  erewrite bind_eq by (eapply selected_write_Some; [reflexivity|rewrite length_resize; lia]).
  cbn [st trace]. replace (tot_selected s + 1 - 1) with (tot_selected s) by lia.
  erewrite bind_eq by (eapply store_Some; simpl; exact Hx). cbn [st trace]. simpl heap.
  set (x2 := set_flag _ x).
  set (s2 := set_heap _ _).
  assert (Hcall : exists s3 t3, match select x with
     | Some c => emit (EvSelect p);; modify (select_cb E c p)
     | None => ret tt end (World s2 t) = Some (tt, World s3 t3) /\ sel_frame s2 s3 /\
     highlighted_widget s3 = highlighted_widget s2).
  { destruct (select x) as [c|].
    - eexists _, _. split; [reflexivity|]. apply Hcb.
    - exists s2, t. split; [done|]. split; [apply sel_frame_refl|done]. }
  destruct Hcall as (s3 & t3 & Hcall & Hfr3 & Hhl3).
  erewrite bind_eq by exact Hcall.
  assert (Hp2 : heap s2 !! p = Some x2) by (subst s2; simpl; apply lookup_insert_eq).
  destruct Hfr3 as (Hsel3 & Htot3 & Hh3).
  destruct (proj2 Hh3 p x2 Hp2) as (x3 & Hx3 & Hn3 & Hf3).
  erewrite bind_eq by (by apply load_Some).
  destruct (set_highlighted_full E true (World s3 t3) (Some p) (highlighted_part x3))
    as (s4 & evs & Hrun4 & Hslot4 & _).
  { intros h Hh. cbn [st] in *. rewrite Hhl3 in Hh. subst s2. simpl in Hh.
    destruct (Hhl h Hh) as [xh Hxh].
    destruct (decide (h = p)) as [->|Hne]; [by eexists|].
    destruct (proj2 Hh3 h xh) as (? & ? & _); [|by eexists].
    simpl. by rewrite lookup_insert_ne. }
  { intros ? [= <-]. by eexists. }
  erewrite bind_eq by exact Hrun4. cbn [emit st trace].
  intros [= <-]. done.
Qed.

End SelectFull.

Section SelectInv.
Context (E : externals) (K : retcodes).

Lemma select_keeps_inv (w : world) (p : ptr) (x : wmWidget) :
  select_cb_frame E -> context_inv (st w) -> tot_selected (st w) < 2 ^ 31 - 1 ->
  heap (st w) !! p = Some x -> has_flag (flag x) WM_WIDGET_SELECTED = false ->
  exists w', wm_widget_select E (Some p) w = Some (tt, w') /\
    context_inv (st w') /\
    selection (st w') = selection (st w) ++ [Some p] /\
    highlighted_widget (st w') = Some p.
Proof.
  intros Hcb ((Hwf & Hnd & Hiff) & Hhl & Hnames) Hmax Hx Hf.
  destruct (select_full E w p x Hcb Hwf Hmax Hhl Hx Hf)
    as (w' & Hrun & Htot & Hs' & Hlen' & (Hnone & Hsome) & Hslot).
  exists w'. split; [exact Hrun|]. split; [|done].
  destruct Hwf as (Hrange & Hlen & Hlive).
  split; [split; [|split]|split].
  - split; [lia|]. split; [done|].
    rewrite Hs'. intros q Hq. apply elem_of_app in Hq as [Hq|Hq];
      [|apply list_elem_of_singleton in Hq as ->].
    + destruct (Hlive q Hq) as (q' & -> & [y Hy]). exists q'. split; [done|].
      destruct (Hsome q' y Hy) as (y' & Hy' & _). by eexists.
    + exists p. split; [done|]. destruct (Hsome p x Hx) as (y' & Hy' & _). by eexists.
  - rewrite Hs'. apply NoDup_app. split; [done|]. split; [|apply NoDup_singleton].
    intros q Hq Hq'. apply list_elem_of_singleton in Hq' as ->.
    apply (Hiff p x Hx) in Hq. congruence.
  - intros q y' Hq. rewrite Hs'.
    destruct (heap (st w) !! q) as [y|] eqn:Hy; [|rewrite (Hnone q Hy) in Hq; done].
    destruct (Hsome q y Hy) as (y'' & Hy'' & _ & Hfl).
    assert (y'' = y') by congruence. subst y''. rewrite Hfl.
    destruct (decide (q = p)) as [->|Hne].
    + split; [done|]. intros _. apply elem_of_app. right. by apply list_elem_of_singleton.
    + rewrite <- (Hiff q y Hy). rewrite elem_of_app, list_elem_of_singleton.
      split; [intros [?|[= ?]]; done|by left].
  - intros h Hh. rewrite Hslot in Hh. inversion Hh; subst h.
    destruct (Hsome p x Hx) as (y' & Hy' & _). by eexists.
  - intros a b xa xb Ha Hb Hn.
    destruct (heap (st w) !! a) as [ya|] eqn:Hya; [|rewrite (Hnone a Hya) in Ha; done].
    destruct (heap (st w) !! b) as [yb|] eqn:Hyb; [|rewrite (Hnone b Hyb) in Hb; done].
    destruct (Hsome a ya Hya) as (ya' & Ha' & Hna & _).
    destruct (Hsome b yb Hyb) as (yb' & Hb' & Hnb & _).
    eapply Hnames; [exact Hya|exact Hyb|]. congruence.
Qed.

Lemma deselect_keeps_inv (w : world) (p : ptr) (x : wmWidget) :
  context_inv (st w) ->
  heap (st w) !! p = Some x -> has_flag (flag x) WM_WIDGET_SELECTED = true ->
  exists s', wm_widget_deselect p w = Some (tt, World s' (trace w ++ [EvTagRedraw])) /\
    context_inv s' /\
    (forall q, q ∈ selection s' <-> q <> Some p /\ q ∈ selection (st w)) /\
    highlighted_widget s' = highlighted_widget (st w).
Proof.
  intros ((Hwf & Hnd & Hiff) & Hhl & Hnames) Hx Hf.
  assert (Hin : Some p ∈ selection (st w)) by (by apply (Hiff p x Hx)).
  apply list_elem_of_lookup_1 in Hin as [k Hk].
  destruct (deselect_spec w p x k Hwf Hk Hx) as (s' & Hrun & Htot & Hs' & Hheap & Hfr).
  { intros j q y Hj Hq Hy Hn.
    assert (q = p) by (eapply Hnames; [exact Hy|exact Hx|exact Hn]). subst q.
    assert (j = k) by (eapply NoDup_lookup; [exact Hnd|exact Hq|exact Hk]). lia. }
  exists s'. split; [exact Hrun|].
  pose proof (delete_Permutation _ _ _ Hk) as Hperm.
  assert (Hnd' : NoDup (Some p :: delete k (selection (st w)))) by (by rewrite <- Hperm).
  apply NoDup_cons in Hnd' as [Hnotin Hnd'].
  assert (Hmem : forall q, q ∈ selection s' <-> q <> Some p /\ q ∈ selection (st w)).
  { intros q. rewrite Hs'. rewrite (Hperm : selection (st w) ≡ₚ _) at 2.
    rewrite elem_of_cons. split.
    - intros Hq. split; [|by right]. intros ->. done.
    - intros [Hne [?|?]]; done. }
  destruct Hwf as (Hrange & Hlen & Hlive).
  assert (Hkt : (k < Z.to_nat (tot_selected (st w)))%nat).
  { apply lookup_lt_Some in Hk. unfold selection in Hk. rewrite length_take in Hk. lia. }
  destruct Hfr as (F1 & F2 & F3 & F4 & F5).
  split; [|split; [exact Hmem|exact F2]].
  split; [split; [|split]|split].
  - split; [lia|]. split.
    + assert (Hl : length (selection s') = (Z.to_nat (tot_selected (st w)) - 1)%nat).
      { rewrite Hs', length_delete; [|by eexists].
        unfold selection. rewrite length_take. lia. }
      unfold selection in Hl at 1. rewrite length_take, Htot in Hl. lia.
    + intros q Hq. apply Hmem in Hq as [_ Hq].
      destruct (Hlive q Hq) as (q' & -> & [y Hy]). exists q'. split; [done|].
      rewrite Hheap. destruct (decide (q' = p)) as [->|Hne].
      * rewrite lookup_insert_eq. by eexists.
      * rewrite lookup_insert_ne by done. by eexists.
  - by rewrite Hs'.
  - intros q y Hy. rewrite Hheap in Hy. rewrite Hmem.
    destruct (decide (q = p)) as [->|Hne].
    + rewrite lookup_insert_eq in Hy. inversion Hy; subst y. cbn [flag set_flag].
      flag_simpl. split; [intros [? _]; done|done].
    + rewrite lookup_insert_ne in Hy by done. rewrite <- (Hiff q y Hy).
      split; [by intros [_ ?]|]. intros ?. split; [congruence|done].
  - intros h Hh. rewrite F2 in Hh. destruct (Hhl h Hh) as [y Hy].
    rewrite Hheap. destruct (decide (h = p)) as [->|Hne].
    + rewrite lookup_insert_eq. by eexists.
    + rewrite lookup_insert_ne by done. by eexists.
  - intros a b xa xb Ha Hb Hn. rewrite Hheap in Ha, Hb.
    assert (Hold : forall q y, <[p := set_flag (flag_disable (flag x) WM_WIDGET_SELECTED) x]>
                     (heap (st w)) !! q = Some y ->
              exists y0, heap (st w) !! q = Some y0 /\ idname y0 = idname y).
    { intros q y Hq. destruct (decide (q = p)) as [->|Hne].
      - rewrite lookup_insert_eq in Hq. inversion Hq; subst y. by exists x.
      - rewrite lookup_insert_ne in Hq by done. by exists y. }
    destruct (Hold a xa Ha) as (ya & Hya & Hna).
    destruct (Hold b xb Hb) as (yb & Hyb & Hnb).
    eapply Hnames; [exact Hya|exact Hyb|]. congruence.
Qed.

Lemma deselect_all_keeps_inv (w : world) :
  context_inv (st w) ->
  exists s' b,
    wm_widgetmap_deselect_all w = Some (b, World s' (trace w)) /\
    context_inv s' /\ selection s' = [] /\ tot_selected s' = 0 /\
    highlighted_widget s' = highlighted_widget (st w) /\
    (forall q, is_Some (heap s' !! q) <-> is_Some (heap (st w) !! q)).
Proof.
  intros (Hsel & Hhl & Hnames). pose proof Hsel as (Hwf & Hnd & Hiff).
  destruct (deselect_all_spec w Hwf) as (s' & Hrun & Hsame & Hfree & Hun & _ & Hslot & _).
  eexists s', _. split; [exact Hrun|].
  destruct Hwf as ((Hge & Hlt) & Hlen & Hlive).
  assert (Htot : tot_selected s' = 0).
  { destruct (selected_widgets (st w)) as [arr|] eqn:Harr.
    - destruct (decide (tot_selected (st w) = 0)) as [H0|H0].
      + rewrite Hsame by (by right). done.
      + by destruct Hfree.
    - rewrite Hsame by (by left). simpl in Hlen. lia. }
  assert (Hempty : selection s' = []) by (unfold selection; by rewrite Htot).
  assert (Hdom : forall q, is_Some (heap s' !! q) <-> is_Some (heap (st w) !! q))
    by (intros q; by eapply unselected_is_Some).
  split; [|done].
  split; [split; [|split]|split].
  - split; [lia|]. split; [rewrite Htot; simpl; lia|].
    rewrite Hempty. intros q Hq. by apply elem_of_nil in Hq.
  - rewrite Hempty. apply NoDup_nil_2.
  - intros q y Hy. rewrite Hempty.
    destruct (unselected_lookup _ _ _ _ _ Hun Hy) as (x & Hx & _ & ->).
    split; [intros Hq; by apply elem_of_nil in Hq|].
    destruct (has_flag (flag x) WM_WIDGET_SELECTED) eqn:Hs; [|done].
    apply (Hiff q x Hx) in Hs. apply selected_ptrs_elem in Hs.
    by rewrite bool_decide_eq_true_2.
  - intros h Hh. rewrite Hslot in Hh. apply Hdom. by apply Hhl.
  - intros a b xa xb Ha Hb Hn.
    destruct (unselected_lookup _ _ _ _ _ Hun Ha) as (ya & Hya & Hna & _).
    destruct (unselected_lookup _ _ _ _ _ Hun Hb) as (yb & Hyb & Hnb & _).
    eapply Hnames; [exact Hya|exact Hyb|]. congruence.
Qed.

(** [widget_select_invoke] for every combination of extend, deselect and
    toggle, on a consistent context with a highlighted widget [h]: the
    operator finishes and the context is consistent again. A plain click
    leaves [h] as the whole selection; toggle flips whether [h] is
    selected; deselect takes [h] out; extend adds [h]; and in the last
    three cases the other widgets of the selection stay selected. *)
Theorem select_invoke_keeps_context (extend deselect toggle : bool)
    (wmap : wm_state) (rest : list wm_state) (t : list event) (h : ptr) :
  select_cb_frame E -> context_inv wmap -> tot_selected wmap < 2 ^ 31 - 1 ->
  highlighted_widget wmap = Some h ->
  exists s' t',
    widget_select_invoke E K extend deselect toggle (wmap :: rest) t =
      Some (OPERATOR_FINISHED K, s' :: rest, t') /\
    context_inv s' /\
    highlighted_widget s' = Some h /\
    (Some h ∈ selection s' <->
       if toggle then Some h ∉ selection wmap else deselect = false) /\
    (forall q, q <> h ->
       Some q ∈ selection s' <->
       Some q ∈ selection wmap /\ (extend = true \/ deselect = true \/ toggle = true)).
Proof.
  intros Hcb Hinv Hmax Hslot.
  unfold widget_select_invoke, widget_select_invoke_map.
  erewrite bind_eq by reflexivity. cbn [st trace]. rewrite Hslot.
  (* the state after the optional deselect-all *)
  assert (Hpre : exists s1,
    (if negb extend && negb deselect && negb toggle
     then do _changed <- wm_widgetmap_deselect_all; ret tt
     else ret tt) (World wmap t) = Some (tt, World s1 t) /\
    context_inv s1 /\ highlighted_widget s1 = Some h /\
    tot_selected s1 < 2 ^ 31 - 1 /\
    (forall q, q ∈ selection s1 <->
       q ∈ selection wmap /\ (extend = true \/ deselect = true \/ toggle = true))).
  { destruct extend, deselect, toggle; cbn [negb andb];
      try (exists wmap; split; [done|]; split; [done|]; split; [done|]; split; [done|];
           intros q; split; [intros ?; split; [done|]; auto|by intros [? _]]).
    destruct (deselect_all_keeps_inv (World wmap t) Hinv)
      as (s1 & b & Hrun & Hinv1 & Hempty & Htot & Hhl1 & _).
    cbn [st trace] in *. exists s1. erewrite bind_eq by exact Hrun.
    split; [done|]. split; [done|]. split; [congruence|]. split; [lia|].
    intros q. rewrite Hempty. split; [intros Hq; by apply elem_of_nil in Hq|].
    intros [_ [?|[?|?]]]; done. }
  destruct Hpre as (s1 & Hpre & Hinv1 & Hslot1 & Hmax1 & Hmem1).
  erewrite bind_eq by exact Hpre.
  pose proof Hinv1 as ((Hwf1 & Hnd1 & Hiff1) & Hhl1 & Hnames1).
  destruct (Hhl1 h Hslot1) as [x Hx].
  erewrite bind_eq by (by apply load_Some). cbv beta zeta.
  assert (Hsel_h : has_flag (flag x) WM_WIDGET_SELECTED = true <-> Some h ∈ selection s1)
    by (by rewrite (Hiff1 h x Hx)).
  assert (Hplain : toggle = true -> forall q, q ∈ selection s1 <-> q ∈ selection wmap).
  { intros -> q. rewrite Hmem1. split; [by intros [? _]|]. intros ?. split; [done|]. auto. }
  set (des := if toggle then has_flag (flag x) WM_WIDGET_SELECTED else deselect).
  destruct des eqn:Hdes; subst des.
  - (* deselect *)
    destruct (has_flag (flag x) WM_WIDGET_SELECTED) eqn:Hf; cbn [when].
    + destruct (deselect_keeps_inv (World s1 t) h x Hinv1 Hx Hf)
        as (s2 & Hrun2 & Hinv2 & Hmem2 & Hhl2).
      cbn [st trace] in *. erewrite bind_eq by exact Hrun2. cbn [ret].
      exists s2, (t ++ [EvTagRedraw]). split; [done|]. split; [done|].
      split; [congruence|]. split.
      * rewrite Hmem2. destruct toggle.
        -- rewrite <- (Hplain eq_refl). rewrite <- Hsel_h.
           split; [intros [? _]; done|]. intros Hn. by exfalso.
        -- split; [intros [? _]; done|]. intros ->. done.
      * intros q Hq. rewrite Hmem2, Hmem1. split.
        -- intros [_ ?]. done.
        -- intros ?. split; [congruence|done].
    + erewrite bind_eq by reflexivity. cbn [ret].
      exists s1, t. split; [done|]. split; [done|]. split; [done|]. split.
      * destruct toggle; [done|].
        rewrite <- Hsel_h. split; [done|]. intros ->. done.
      * intros q Hq. apply Hmem1.
  - (* select *)
    destruct (has_flag (flag x) WM_WIDGET_SELECTED) eqn:Hf.
    + (* already selected: nothing happens *)
      assert (Hnop : wm_widget_select E (Some h) (World s1 t) = Some (tt, World s1 t)).
      { unfold wm_widget_select. erewrite bind_eq by (by apply load_Some). by rewrite Hf. }
      erewrite bind_eq by exact Hnop. cbn [ret].
      exists s1, t. split; [done|]. split; [done|]. split; [done|]. split.
      * destruct toggle; [done|]. split; [done|]. intros _. by apply Hsel_h.
      * intros q Hq. apply Hmem1.
    + destruct (select_keeps_inv (World s1 t) h x Hcb Hinv1 Hmax1 Hx Hf)
        as ([s2 t2] & Hrun2 & Hinv2 & Hs2 & Hhl2).
      cbn [st trace] in *. erewrite bind_eq by exact Hrun2. cbn [ret].
      exists s2, t2. split; [done|]. split; [done|]. split; [done|]. split.
      * rewrite Hs2. rewrite elem_of_app, list_elem_of_singleton.
        destruct toggle.
        -- rewrite <- (Hplain eq_refl). split; [|by right].
           intros _ Hin. apply Hsel_h in Hin. congruence.
        -- split; [done|by right].
      * intros q Hq. rewrite Hs2, elem_of_app, list_elem_of_singleton, Hmem1.
        split; [intros [?|[= ?]]; done|by left].
Qed.

End SelectInv.

(** *** Finding the widget under the cursor *)

Import Picking.
Import Finding.

Lemma visible_add_fold (h : gmap ptr wmWidget) (ws : list ptr) : forall l,
  (forall p, p ∈ ws -> is_Some (h !! p)) ->
  foldl (visible_add h) (Some l) ws =
  Some (rev (filter (fun p => pickable h p = true) ws) ++ l).
Proof.
  induction ws as [|p ws IH]; intros l Hlive; [done|].
  destruct (Hlive p) as [x Hx]; [apply list_elem_of_here|].
  assert (Hpk : pickable h p = bool_decide (render_3d_intersection x <> None) &&
                                  negb (has_flag (flag x) WM_WIDGET_HIDDEN))
    by (unfold pickable; by rewrite Hx).
  cbn [foldl]. unfold visible_add at 2. rewrite Hx, <- Hpk.
  rewrite filter_cons.
  destruct (pickable h p) eqn:Hb.
  - rewrite decide_True by done. rewrite IH.
    + cbn [rev]. by rewrite <- app_assoc.
    + intros q Hq. apply Hlive. by apply list_elem_of_further.
  - rewrite decide_False by done. apply IH.
    intros q Hq. apply Hlive. by apply list_elem_of_further.
Qed.

Section Finding3D.
Context (E : externals).

Lemma prepare_visible_fold (h : gmap ptr wmWidget) (gs : list wmWidgetGroup) : forall l,
  (forall p, p ∈ polled_widgets E gs -> is_Some (h !! p)) ->
  foldl (fun acc g =>
           if group_poll E g then foldl (visible_add h) acc (wg_widgets g) else acc)
        (Some l) gs =
  Some (rev (filter (fun p => pickable h p = true) (polled_widgets E gs)) ++ l).
Proof.
  induction gs as [|g gs IH]; intros l Hlive; [done|].
  rewrite polled_widgets_cons in Hlive |- *. unfold group_old in *. cbn [foldl].
  destruct (group_poll E g).
  - rewrite visible_add_fold.
    + rewrite IH.
      * by rewrite filter_app, rev_app_distr, <- app_assoc.
      * intros p Hp. apply Hlive. apply elem_of_app. by right.
    + intros p Hp. apply Hlive. apply elem_of_app. by left.
  - apply IH. intros p Hp. apply Hlive. by apply elem_of_app; right.
Qed.

Lemma prepare_visible_spec (s : wm_state) :
  (forall p, p ∈ polled_widgets E (widgetgroups s) -> is_Some (heap s !! p)) ->
  wm_prepare_visible_widgets_3D E s =
  Some (rev (filter (fun p => pickable (heap s) p = true)
               (polled_widgets E (widgetgroups s)))).
Proof.
  intros Hlive. unfold wm_prepare_visible_widgets_3D.
  rewrite prepare_visible_fold by done. by rewrite app_nil_r.
Qed.

(** [wm_prepare_visible_widgets_3D]: the list holds the widgets of the
    groups whose predicate holds that have a render callback and are not
    hidden, in the reverse of the order of the groups' lists: the widget
    found last is number 0. *)
Theorem prepare_visible_reversed (s : wm_state) :
  (forall p, p ∈ polled_widgets E (widgetgroups s) -> is_Some (heap s !! p)) ->
  wm_prepare_visible_widgets_3D E s =
  Some (rev (filter (fun p => pickable (heap s) p = true)
               (polled_widgets E (widgetgroups s)))).
Proof.
  apply prepare_visible_spec.
Qed.

End Finding3D.

Lemma testbit_small (part n : Z) :
  0 <= part < 2 ^ 8 -> 8 <= n -> Z.testbit part n = false.
Proof.
  intros [Hp0 Hp1] Hn. destruct (decide (part = 0)) as [->|Hne]; [apply Z.bits_0|].
  apply Z.bits_above_log2; [lia|].
  assert (Hpos : 0 < part) by lia.
  pose proof (proj1 (Z.log2_lt_pow2 part 8 Hpos) Hp1) as Hlog. lia.
Qed.

Lemma selection_id_high (i part : Z) :
  0 <= i -> 0 <= part < 2 ^ 8 ->
  Z.shiftr (Z.lor (Z.shiftl i 8) part) 8 = i.
Proof.
  intros Hi Hp. apply Z.bits_inj'. intros n Hn.
  rewrite Z.shiftr_spec, Z.lor_spec by lia.
  rewrite Z.shiftl_spec by lia. rewrite (testbit_small part) by lia.
  rewrite orb_false_r. f_equal. lia.
Qed.

Lemma selection_id_low (i part : Z) :
  0 <= i -> 0 <= part < 2 ^ 8 ->
  Z.land (Z.lor (Z.shiftl i 8) part) 255 = part.
Proof.
  intros Hi Hp. apply Z.bits_inj'. intros n Hn.
  change 255 with (Z.ones 8).
  rewrite Z.land_spec, Z.lor_spec.
  destruct (decide (n < 8)) as [Hlt|Hge].
  - rewrite Z.ones_spec_low by lia. rewrite Z.shiftl_spec_low by lia.
    by rewrite andb_true_r.
  - rewrite Z.ones_spec_high by lia. rewrite (testbit_small part) by lia.
    by rewrite andb_false_r.
Qed.

(** The id that [widget_find_active_3D_loop] hands out and the decoding in
    [wm_widget_find_highlighted_3D] fit: for fewer than 2^23 widgets, the
    id of the widget drawn as number [i], combined with a sub-part code
    below 256 in its low 8 bits, decodes to that widget and that code. *)
Theorem selection_id_roundtrip (visible_widgets : list positive) (i : nat)
    (widget : positive) (id part : Z) :
  Z.of_nat (length visible_widgets) <= 2 ^ 23 -> 0 <= part < 2 ^ 8 ->
  widget_find_active_3D_loop visible_widgets !! i = Some (widget, id) ->
  visible_widgets !! i = Some widget /\
  decode_hit visible_widgets (Z.lor id part) = Some (Some widget, part).
Proof.
  intros Hlen Hpart Hi. unfold widget_find_active_3D_loop in Hi.
  rewrite list_lookup_imap in Hi.
  destruct (visible_widgets !! i) as [w|] eqn:Hw; [|done].
  simpl in Hi. inversion Hi; subst; clear Hi. split; [done|].
  assert (Hlt : (i < length visible_widgets)%nat) by (by eapply lookup_lt_Some).
  assert (Hsh : to_int (Z.shiftl (Z.of_nat i) 8) = Z.shiftl (Z.of_nat i) 8).
  { apply to_int_small. rewrite Z.shiftl_mul_pow2 by lia. lia. }
  rewrite Hsh. unfold decode_hit, findlink_data.
  rewrite selection_id_high by lia.
  destruct (Z.of_nat i <? 0) eqn:Hneg; [apply Z.ltb_lt in Hneg; lia|].
  rewrite Nat2Z.id, Hw. rewrite selection_id_low by lia.
  unfold to_uchar. rewrite Z.mod_small by lia. done.
Qed.

Lemma decode_hit_sound (visible_widgets : list positive) (ret : Z)
    (p : positive) (part : Z) :
  decode_hit visible_widgets ret = Some (Some p, part) ->
  p ∈ visible_widgets /\ 0 <= part < 2 ^ 8.
Proof.
  unfold decode_hit, findlink_data.
  destruct (Z.shiftr ret 8 <? 0); [done|].
  destruct (visible_widgets !! Z.to_nat (Z.shiftr ret 8)) as [q|] eqn:Hq; [|done].
  intros [= -> <-]. split; [by eapply list_elem_of_lookup_2|].
  unfold to_uchar. apply Z.mod_pos_bound. lia.
Qed.

Section Finding3DSound.
Context (E : externals) (G : gpu).

(** [wm_widget_find_highlighted_3D] on a map whose groups list allocated
    widgets: the widget it returns is on the list of a group whose
    predicate holds, has a render callback and is not hidden, and the
    sub-part code is below 256. *)
Theorem find_highlighted_3D_sound (s : wm_state) (ev : cursor) (p : ptr) (part : Z) :
  (forall q, q ∈ polled_widgets E (widgetgroups s) -> is_Some (heap s !! q)) ->
  (wm_widget_find_highlighted_3D_map E G s ev).1 = Some (Some p, part) ->
  p ∈ polled_widgets E (widgetgroups s) /\ pickable (heap s) p = true /\
  0 <= part < 2 ^ 8.
Proof.
  intros Hlive. unfold wm_widget_find_highlighted_3D_map.
  rewrite prepare_visible_spec by done.
  set (vis := rev (filter (fun p => pickable (heap s) p = true)
                     (polled_widgets E (widgetgroups s)))).
  unfold wm_widget_find_highlighted_3D.
  destruct ((wm_widget_find_highlighted_3D_intern G vis ev hotspot_first).1 =? -1)%Z;
    [done|].
  cbn [fst]. intros Hdec. apply decode_hit_sound in Hdec as [Hq Hpart].
  subst vis. apply list_elem_of_In, in_rev, list_elem_of_In in Hq.
  apply list_elem_of_filter in Hq as [Hp Hin]. done.
Qed.

End Finding3DSound.

(** *** The 2D search *)

Section Finding2D.
Context (E : externals) (intersect : ptr -> option Z).

Lemma intersect_any (ws : list ptr) :
  (exists q, q ∈ ws /\ intersect q <> None) \/
  (forall q, q ∈ ws -> intersect q = None).
Proof.
  induction ws as [|p ws [(q & Hq & Hne)|Hall]].
  - right. intros q Hq. by apply elem_of_nil in Hq.
  - left. exists q. split; [by apply list_elem_of_further|done].
  - destruct (intersect p) eqn:Hp.
    + left. exists p. split; [apply list_elem_of_here|by rewrite Hp].
    + right. intros q [->|Hq]%elem_of_cons; [done|by apply Hall].
Qed.

Lemma find_in_widgets_spec (h : gmap ptr wmWidget) (ws : list ptr) : forall part,
  (forall p, p ∈ ws -> is_Some (h !! p)) ->
  exists r, find_in_widgets h intersect ws part = Some r /\
    match r with
    | (Some p, part') =>
        exists l1 l2, ws = l1 ++ p :: l2 /\
          (forall q, q ∈ l1 -> missed_2d intersect q) /\ hit_2d intersect p part'
    | (None, part') =>
        (forall q, q ∈ ws -> missed_2d intersect q) /\
        ((forall q, q ∈ ws -> intersect q = None) -> part' = part) /\
        ((exists q, q ∈ ws /\ intersect q <> None) -> part' = 0)
    end.
Proof.
  induction ws as [|p ws IH]; intros part Hlive.
  { exists (None, part). split; [done|]. split; [|split; [done|]].
    - intros q Hq. by apply elem_of_nil in Hq.
    - intros (q & Hq & _). by apply elem_of_nil in Hq. }
  destruct (Hlive p) as [x Hx]; [apply list_elem_of_here|].
  assert (Hlive' : forall q, q ∈ ws -> is_Some (h !! q))
    by (intros q Hq; apply Hlive; by apply list_elem_of_further).
  cbn [find_in_widgets]. rewrite Hx.
  destruct (intersect p) as [r|] eqn:Hr.
  - destruct (to_uchar r =? 0) eqn:Hz.
    + apply Z.eqb_eq in Hz. destruct (IH (to_uchar r) Hlive') as ([[q|] part'] & Hrun & Hpost).
      * exists (Some q, part'). split; [done|].
        destruct Hpost as (l1 & l2 & -> & Hmiss & Hhit).
        exists (p :: l1), l2. split; [done|]. split; [|done].
        intros q' [->|Hq']%elem_of_cons; [|by apply Hmiss]. right. by exists r.
      * exists (None, part'). split; [done|].
        destruct Hpost as (Hmiss & Hkeep & Hzero). split; [|split].
        -- intros q' [->|Hq']%elem_of_cons; [|by apply Hmiss]. right. by exists r.
        -- intros Hnone. rewrite Hnone in Hr by apply list_elem_of_here. done.
        -- intros _. destruct (intersect_any ws) as [He|He].
           ++ by apply Hzero.
           ++ by rewrite Hkeep.
    + apply Z.eqb_neq in Hz. exists (Some p, to_uchar r). split; [done|].
      exists [], ws. split; [done|]. split.
      * intros q Hq. by apply elem_of_nil in Hq.
      * by exists r.
  - destruct (IH part Hlive') as ([[q|] part'] & Hrun & Hpost).
    + exists (Some q, part'). split; [done|].
      destruct Hpost as (l1 & l2 & -> & Hmiss & Hhit).
      exists (p :: l1), l2. split; [done|]. split; [|done].
      intros q' [->|Hq']%elem_of_cons; [by left|by apply Hmiss].
    + exists (None, part'). split; [done|].
      destruct Hpost as (Hmiss & Hkeep & Hzero). split; [|split].
      * intros q' [->|Hq']%elem_of_cons; [by left|by apply Hmiss].
      * intros Hnone. apply Hkeep. intros q Hq. apply Hnone. by apply list_elem_of_further.
      * intros (q & [->|Hq]%elem_of_cons & Hne); [done|]. apply Hzero. by exists q.
Qed.

(** [wm_widget_find_highlighted], lines 1099-1115: the widget returned is
    the first one, in the order of the lists of the groups whose predicate
    holds, whose intersect callback gives a value that is not zero as an
    [unsigned char], and that value is the sub-part code; NULL is returned
    when every widget misses, and the code is then zero, or untouched when
    no widget has an intersect callback. *)
Theorem find_highlighted_first_hit (s : wm_state) (part : Z) :
  (forall p, p ∈ polled_widgets E (widgetgroups s) -> is_Some (heap s !! p)) ->
  exists r, wm_widget_find_highlighted E intersect s part = Some r /\
    match r with
    | (Some p, part') =>
        exists l1 l2, polled_widgets E (widgetgroups s) = l1 ++ p :: l2 /\
          (forall q, q ∈ l1 -> missed_2d intersect q) /\ hit_2d intersect p part'
    | (None, part') =>
        (forall q, q ∈ polled_widgets E (widgetgroups s) -> missed_2d intersect q) /\
        ((forall q, q ∈ polled_widgets E (widgetgroups s) -> intersect q = None) ->
           part' = part) /\
        ((exists q, q ∈ polled_widgets E (widgetgroups s) /\ intersect q <> None) ->
           part' = 0)
    end.
Proof.
  unfold wm_widget_find_highlighted. generalize (heap s) as h.
  intros h. revert part. induction (widgetgroups s) as [|g gs IH]; intros part Hlive.
  { exists (None, part). split; [done|]. split; [|split; [done|]].
    - intros q Hq. by apply elem_of_nil in Hq.
    - intros (q & Hq & _). by apply elem_of_nil in Hq. }
  rewrite polled_widgets_cons in Hlive |- *. unfold group_old in *.
  cbn [find_in_groups]. destruct (group_poll E g).
  - destruct (find_in_widgets_spec h (wg_widgets g) part) as ([[p|] part1] & Hrun & Hpost).
    { intros p Hp. apply Hlive. apply elem_of_app. by left. }
    + rewrite Hrun. exists (Some p, part1). split; [done|].
      destruct Hpost as (l1 & l2 & -> & Hmiss & Hhit).
      exists l1, (l2 ++ polled_widgets E gs). split; [by rewrite <- app_assoc|done].
    + rewrite Hrun. destruct Hpost as (Hmiss1 & Hkeep1 & Hzero1).
      destruct (IH part1) as ([[p|] part2] & Hrun2 & Hpost2).
      { intros p Hp. apply Hlive. apply elem_of_app. by right. }
      * exists (Some p, part2). split; [done|].
        destruct Hpost2 as (l1 & l2 & -> & Hmiss & Hhit).
        exists (wg_widgets g ++ l1), l2. split; [by rewrite <- app_assoc|]. split; [|done].
        intros q [Hq|Hq]%elem_of_app; [by apply Hmiss1|by apply Hmiss].
      * exists (None, part2). split; [done|].
        destruct Hpost2 as (Hmiss2 & Hkeep2 & Hzero2). split; [|split].
        -- intros q [Hq|Hq]%elem_of_app; [by apply Hmiss1|by apply Hmiss2].
        -- intros Hnone. rewrite Hkeep2.
           ++ apply Hkeep1. intros q Hq. apply Hnone. apply elem_of_app. by left.
           ++ intros q Hq. apply Hnone. apply elem_of_app. by right.
        -- intros (q & [Hq|Hq]%elem_of_app & Hne).
           ++ destruct (intersect_any (polled_widgets E gs)) as [He|He];
                [by apply Hzero2|].
              rewrite Hkeep2; [apply Hzero1; by exists q|done].
           ++ apply Hzero2. by exists q.
  - apply IH. intros p Hp. by apply Hlive.
Qed.

End Finding2D.

(** [WM_widgetmap_cursor_set]: the cursor is set once, to what the first
    map of the chain whose highlighted widget has a cursor callback asks
    for, and the result is true; when no map has such a widget the result
    is false and the cursor is left alone. *)
Theorem cursor_set_first_map (E : externals) (wmaps : list wm_state)
    (t : list event) :
  Forall highlight_wf wmaps ->
  WM_widgetmap_cursor_set E wmaps t =
  Some (match head (omap (map_cursor E) wmaps) with
        | Some c => (true, t ++ [EvCursorSet c])
        | None => (false, t)
        end).
Proof.
  induction 1 as [|wmap rest Hwf _ IH]; [done|].
  cbn [WM_widgetmap_cursor_set omap list_omap]. unfold map_cursor at 1.
  destruct (highlighted_widget wmap) as [p|] eqn:Hp; [|exact IH].
  destruct (Hwf p Hp) as [x Hx]. cbn. rewrite Hx. cbn.
  destruct (get_cursor x) as [c|]; cbn; [done|exact IH].
Qed.

(** *** Freeing groups and maps *)

Import Lifecycle.

Lemma times_freed_only (p : ptr) (evs : list event) :
  (forall e, e ∈ evs -> forall q, e <> EvFreeWidget q) -> times_freed p evs = 0%nat.
Proof.
  intros Hev. apply times_freed_none. intros Hin. by apply (Hev _ Hin p).
Qed.

Lemma times_freed_delete_events (p q : ptr) :
  times_freed q [EvFreeData p; EvFreeWidget p] = if bool_decide (q = p) then 1%nat else 0%nat.
Proof.
  unfold times_freed. rewrite filter_cons_False by done.
  case_bool_decide as Hq.
  - subst q. rewrite filter_cons_True; [done|]. simpl. by rewrite bool_decide_eq_true_2.
  - rewrite filter_cons_False; [done|]. simpl. rewrite bool_decide_eq_false_2; [done|congruence].
Qed.

Section GroupFree.
Context (E : externals).

Lemma group_free_widget_spec (C : bool) (w : world) (p : ptr) (x : wmWidget) :
  slots_consistent (st w) -> heap (st w) !! p = Some x ->
  exists s' evs,
    group_free_widget E C p w = Some (tt, World s' (trace w ++ evs)) /\
    heap s' = delete p (heap (st w)) /\
    highlighted_widget s' = slot_without [p] (highlighted_widget (st w)) /\
    active_widget s' = slot_without [p] (active_widget (st w)) /\
    slots_consistent s' /\
    (forall q, times_freed q evs = if bool_decide (q = p) then 1%nat else 0%nat) /\
    widgetgroups s' = widgetgroups (st w) /\
    selected_widgets s' = selected_widgets (st w) /\
    tot_selected s' = tot_selected (st w) /\
    draw_widgets s' = draw_widgets (st w).
Proof.
  intros (Hhwf & Hhinv & Hawf & Hainv) Hx.
  destruct w as [s t]. cbn [st trace] in *.
  unfold group_free_widget. erewrite bind_eq by (by apply load_Some).
  (* the highlight *)
  assert (Hstep1 : exists s1 evs1,
    when (has_flag (flag x) WM_WIDGET_HIGHLIGHT)
      (wm_widgetmap_set_highlighted_widget E C None 0) (World s t)
      = Some (tt, World s1 (t ++ evs1)) /\
    (exists x1, heap s1 !! p = Some x1 /\
       has_flag (flag x1) WM_WIDGET_ACTIVE = has_flag (flag x) WM_WIDGET_ACTIVE) /\
    (forall q, q <> p -> heap s1 !! q = heap s !! q) /\
    highlighted_widget s1 = slot_without [p] (highlighted_widget s) /\
    active_widget s1 = active_widget s /\
    (forall e, e ∈ evs1 -> forall q, e <> EvFreeWidget q) /\
    widgetgroups s1 = widgetgroups s /\ selected_widgets s1 = selected_widgets s /\
    tot_selected s1 = tot_selected s /\ draw_widgets s1 = draw_widgets s).
  { destruct (has_flag (flag x) WM_WIDGET_HIGHLIGHT) eqn:Hh; cbn [when].
    - assert (Hslot : highlighted_widget s = Some p) by (by apply (Hhinv p x Hx)).
      destruct (set_highlighted_full E C (World s t) None 0 Hhwf)
        as (s1 & evs1 & Hrun & Hs1 & Hyes & _ & _ & Hev & F1 & F2 & F3 & F4 & F5); [done|].
      cbn [st trace] in *.
      destruct Hyes as (Hheap & _ & _); [left; by rewrite Hslot|].
      rewrite Hslot in Hheap. unfold highlight_moved in Hheap.
      exists s1, evs1. split; [exact Hrun|]. split.
      { exists (highlight_off x). rewrite Hheap, lookup_alter_eq, Hx. split; [done|].
        change WM_WIDGET_ACTIVE with (2 ^ 1).
        destruct (highlight_off_flags x 1) as (_ & -> & _); [lia|].
        rewrite bool_decide_eq_false_2 by lia. by rewrite andb_true_r. }
      split; [intros q Hq; by rewrite Hheap, lookup_alter_ne|].
      split.
      { rewrite Hs1, Hslot. simpl. rewrite bool_decide_eq_true_2; [done|].
        apply list_elem_of_here. }
      split; [done|]. split; [|done].
      intros e He q. destruct (Hev e He) as [->|[->|[c ->]]]; done.
    - exists s, []. rewrite app_nil_r. split; [done|].
      split; [by exists x|]. split; [done|]. split.
      { destruct (highlighted_widget s) as [h|] eqn:Hslot; [|done]. simpl.
        rewrite bool_decide_eq_false_2; [done|]. intros Hin.
        apply list_elem_of_singleton in Hin. subst h.
        apply (Hhinv p x Hx) in Hslot. congruence. }
      split; [done|]. split; [|done]. intros e He. by apply elem_of_nil in He. }
  destruct Hstep1 as (s1 & evs1 & Hrun1 & (x1 & Hx1 & Hact1) & Hoth1 & Hhl1 & Hac1 & Hev1 & F1).
  erewrite bind_eq by exact Hrun1.
  erewrite bind_eq by (by apply load_Some).
  (* the active slot *)
  assert (Hstep2 : exists s2 evs2,
    when (has_flag (flag x1) WM_WIDGET_ACTIVE)
      (wm_widgetmap_set_active_widget E None) (World s1 (t ++ evs1))
      = Some (tt, World s2 ((t ++ evs1) ++ evs2)) /\
    is_Some (heap s2 !! p) /\
    (forall q, q <> p -> heap s2 !! q = heap s !! q) /\
    highlighted_widget s2 = slot_without [p] (highlighted_widget s) /\
    active_widget s2 = slot_without [p] (active_widget s) /\
    (forall e, e ∈ evs2 -> forall q, e <> EvFreeWidget q) /\
    widgetgroups s2 = widgetgroups s /\ selected_widgets s2 = selected_widgets s /\
    tot_selected s2 = tot_selected s /\ draw_widgets s2 = draw_widgets s).
  { destruct F1 as (G1 & G2 & G3 & G4).
    rewrite Hact1. destruct (has_flag (flag x) WM_WIDGET_ACTIVE) eqn:Ha; cbn [when].
    - assert (Hslot : active_widget s = Some p) by (by apply (Hainv p x Hx)).
      destruct (set_active_none_spec E (World s1 (t ++ evs1)))
        as ([s2 t2] & Hrun & Hnone & Hsome & _ & Hoth & H1 & H2 & H3 & H4 & H5 & H6).
      { intros a Ha'. cbn [st] in *. rewrite Hac1, Hslot in Ha'. inversion Ha'; subst a.
        by eexists. }
      cbn [st trace] in *.
      destruct (Hsome p x1) as [Hp2 Htr2]; [by rewrite Hac1|done|].
      exists s2, (drop (length (t ++ evs1)) t2).
      assert (Ht2 : t2 = (t ++ evs1) ++ drop (length (t ++ evs1)) t2).
      { rewrite Htr2. by rewrite drop_app_length. }
      split; [by rewrite <- Ht2|]. split; [by eexists|].
      split.
      { intros q Hq. rewrite Hoth; [by apply Hoth1|]. rewrite Hac1, Hslot. congruence. }
      split; [by rewrite H2|]. split.
      { rewrite Hnone, Hslot. simpl. rewrite bool_decide_eq_true_2; [done|].
        apply list_elem_of_here. }
      split; [|by rewrite H1, H3, H4, H6].
      rewrite Htr2, drop_app_length. intros e He q.
      apply elem_of_app in He as [He|He].
      + destruct (interaction_data x1); [|by apply elem_of_nil in He].
        apply list_elem_of_singleton in He. by subst e.
      + repeat (apply elem_of_cons in He as [->|He]; [done|]). by apply elem_of_nil in He.
    - exists s1, []. rewrite app_nil_r. split; [done|].
      split; [by eexists|]. split; [done|]. split; [done|]. split.
      { rewrite Hac1. destruct (active_widget s) as [a|] eqn:Hslot; [|done]. simpl.
        rewrite bool_decide_eq_false_2; [done|]. intros Hin.
        apply list_elem_of_singleton in Hin. subst a.
        apply (Hainv p x Hx) in Hslot. congruence. }
      split; [|done]. intros e He. by apply elem_of_nil in He. }
  destruct Hstep2 as (s2 & evs2 & Hrun2 & [x2 Hx2] & Hoth2 & Hhl2 & Hac2 & Hev2 & G1 & G2 & G3 & G4).
  erewrite bind_eq by exact Hrun2.
  rewrite (wm_widget_delete_spec _ p x2) by done. cbn [st trace].
  exists (set_heap (delete p (heap s2)) s2), (evs1 ++ evs2 ++ [EvFreeData p; EvFreeWidget p]).
  split; [by rewrite <- !app_assoc|]. cbn [heap set_heap]. simpl.
  assert (Hheap : delete p (heap s2) = delete p (heap s)).
  { apply map_eq. intros q. destruct (decide (q = p)) as [->|Hne].
    - by rewrite !lookup_delete_eq.
    - rewrite !lookup_delete_ne by done. by apply Hoth2. }
  split; [done|]. split; [done|]. split; [done|]. split.
  { unfold slots_consistent, highlight_wf, highlight_inv, active_wf, active_inv.
    cbn [heap highlighted_widget active_widget set_heap]. rewrite Hheap.
    split; [|split; [|split]].
    - intros h Hh. simpl in Hh. rewrite Hhl2 in Hh.
      destruct (highlighted_widget s) as [h0|] eqn:Hslot; [|done]. simpl in Hh.
      case_bool_decide as Hin; [done|]. inversion Hh; subst h0.
      rewrite lookup_delete_ne by (intros ->; apply Hin, list_elem_of_here).
      by apply Hhwf.
    - intros q y Hy. simpl in Hy |- *. destruct (decide (q = p)) as [->|Hne];
        [by rewrite lookup_delete_eq in Hy|].
      rewrite lookup_delete_ne in Hy by done. rewrite (Hhinv q y Hy), Hhl2.
      destruct (highlighted_widget s) as [h0|]; [|done]. simpl.
      case_bool_decide as Hin.
      + apply list_elem_of_singleton in Hin. subst h0. split; [congruence|done].
      + done.
    - intros a Ha. simpl in Ha. rewrite Hac2 in Ha.
      destruct (active_widget s) as [a0|] eqn:Hslot; [|done]. simpl in Ha.
      case_bool_decide as Hin; [done|]. inversion Ha; subst a0.
      rewrite lookup_delete_ne by (intros ->; apply Hin, list_elem_of_here).
      by apply Hawf.
    - intros q y Hy. simpl in Hy |- *. destruct (decide (q = p)) as [->|Hne];
        [by rewrite lookup_delete_eq in Hy|].
      rewrite lookup_delete_ne in Hy by done. rewrite (Hainv q y Hy), Hac2.
      destruct (active_widget s) as [a0|]; [|done]. simpl.
      case_bool_decide as Hin.
      + apply list_elem_of_singleton in Hin. subst a0. split; [congruence|done].
      + done. }
  split; [|done].
  intros q. rewrite !times_freed_app, (times_freed_only q evs1), (times_freed_only q evs2) by done.
  by rewrite times_freed_delete_events.
Qed.

End GroupFree.

Lemma slot_without_cons (p : ptr) (ps : list ptr) (slot : option ptr) :
  slot_without ps (slot_without [p] slot) = slot_without (p :: ps) slot.
Proof.
  destruct slot as [a|]; [|done]. simpl.
  destruct (decide (a = p)) as [->|Hne].
  - rewrite !bool_decide_eq_true_2; [done|apply list_elem_of_here|apply list_elem_of_here].
  - rewrite (bool_decide_eq_false_2 (a ∈ [p])) by (by intros ?%list_elem_of_singleton).
    simpl. destruct (decide (a ∈ ps)) as [Hin|Hin].
    + rewrite !bool_decide_eq_true_2; [done|by apply list_elem_of_further|done].
    + rewrite !bool_decide_eq_false_2; [done| |done].
      intros [?|?]%elem_of_cons; done.
Qed.

Section GroupFreeLoop.
Context (E : externals).

Lemma group_free_loop (C : bool) (ws : list ptr) : forall (w : world),
  slots_consistent (st w) -> NoDup ws ->
  (forall p, p ∈ ws -> is_Some (heap (st w) !! p)) ->
  exists s' evs,
    for_each_ (group_free_widget E C) ws w = Some (tt, World s' (trace w ++ evs)) /\
    (forall q, heap s' !! q = if bool_decide (q ∈ ws) then None else heap (st w) !! q) /\
    highlighted_widget s' = slot_without ws (highlighted_widget (st w)) /\
    active_widget s' = slot_without ws (active_widget (st w)) /\
    slots_consistent s' /\
    (forall q, times_freed q evs = if bool_decide (q ∈ ws) then 1%nat else 0%nat) /\
    widgetgroups s' = widgetgroups (st w) /\
    selected_widgets s' = selected_widgets (st w) /\
    tot_selected s' = tot_selected (st w) /\
    draw_widgets s' = draw_widgets (st w).
Proof.
  induction ws as [|p ws IH]; intros w Hcons Hnd Hlive.
  { destruct w as [s t]. exists s, []. cbn [for_each_ st trace]. rewrite app_nil_r.
    split; [done|]. split; [done|]. split; [by destruct (highlighted_widget s)|].
    split; [by destruct (active_widget s)|]. done. }
  apply NoDup_cons in Hnd as [Hnotin Hnd].
  destruct (Hlive p) as [x Hx]; [apply list_elem_of_here|].
  destruct (group_free_widget_spec E C w p x Hcons Hx)
    as (s1 & evs1 & Hrun1 & Hheap1 & Hhl1 & Hac1 & Hcons1 & Hfr1 & F1 & F2 & F3 & F4).
  cbn [for_each_]. erewrite bind_eq by exact Hrun1.
  destruct (IH (World s1 (trace w ++ evs1)) Hcons1 Hnd)
    as (s' & evs & Hrun & Hheap & Hhl & Hac & Hcons' & Hfr & G1 & G2 & G3 & G4).
  { intros q Hq. cbn [st]. rewrite Hheap1.
    rewrite lookup_delete_ne by (intros ->; done).
    apply Hlive. by apply list_elem_of_further. }
  cbn [st trace] in *. exists s', (evs1 ++ evs).
  split; [by rewrite app_assoc|]. split.
  { intros q. rewrite Hheap, Hheap1. destruct (decide (q = p)) as [->|Hne].
    - rewrite lookup_delete_eq.
      rewrite (bool_decide_eq_true_2 (p ∈ p :: ws)) by apply list_elem_of_here.
      by destruct (bool_decide (p ∈ ws)).
    - rewrite lookup_delete_ne by done.
      destruct (decide (q ∈ ws)) as [Hin|Hin].
      + rewrite !bool_decide_eq_true_2; [done|by apply list_elem_of_further|done].
      + rewrite !bool_decide_eq_false_2; [done| |done].
        intros [?|?]%elem_of_cons; done. }
  split; [by rewrite Hhl, Hhl1, slot_without_cons|].
  split; [by rewrite Hac, Hac1, slot_without_cons|].
  split; [done|]. split; [|by rewrite G1, G2, G3, G4].
  intros q. rewrite times_freed_app, Hfr1, Hfr.
  destruct (decide (q = p)) as [->|Hne].
  - rewrite (bool_decide_eq_true_2 (p = p)) by done.
    rewrite (bool_decide_eq_false_2 (p ∈ ws)) by done.
    by rewrite (bool_decide_eq_true_2 (p ∈ p :: ws)) by apply list_elem_of_here.
  - rewrite (bool_decide_eq_false_2 (q = p)) by done.
    destruct (decide (q ∈ ws)) as [Hin|Hin].
    + rewrite !bool_decide_eq_true_2; [done|by apply list_elem_of_further|done].
    + rewrite !bool_decide_eq_false_2; [done| |done].
      intros [?|?]%elem_of_cons; done.
Qed.

(** [wm_widgetgroup_free] on a map whose slots agree with the flags: every
    widget of the group is freed exactly once and no other widget is freed
    or changed; the highlighted and the active slot are emptied when they
    pointed into the group and are untouched otherwise, so that neither
    points to a freed widget; the group leaves the map's list. The
    selection array and its count are not changed. *)
Theorem group_free_clears_slots (C : bool) (w : world) (g : wmWidgetGroup) :
  slots_consistent (st w) -> NoDup (wg_widgets g) ->
  (forall p, p ∈ wg_widgets g -> is_Some (heap (st w) !! p)) ->
  exists s' evs,
    wm_widgetgroup_free E C g w = Some (tt, World s' (trace w ++ evs)) /\
    (forall q, heap s' !! q =
       if bool_decide (q ∈ wg_widgets g) then None else heap (st w) !! q) /\
    (forall q, times_freed q evs =
       if bool_decide (q ∈ wg_widgets g) then 1%nat else 0%nat) /\
    highlighted_widget s' = slot_without (wg_widgets g) (highlighted_widget (st w)) /\
    active_widget s' = slot_without (wg_widgets g) (active_widget (st w)) /\
    slots_consistent s' /\
    widgetgroups s' =
      filter (fun g' => wg_addr g' <> wg_addr g) (widgetgroups (st w)) /\
    selected_widgets s' = selected_widgets (st w) /\
    tot_selected s' = tot_selected (st w).
Proof.
  intros Hcons Hnd Hlive.
  destruct (group_free_loop C (wg_widgets g) w Hcons Hnd Hlive)
    as (s1 & evs & Hrun & Hheap & Hhl & Hac & Hcons1 & Hfr & G1 & G2 & G3 & G4).
  unfold wm_widgetgroup_free. erewrite bind_eq by exact Hrun.
  eexists _, evs. split; [reflexivity|]. cbn [st].
  split; [exact Hheap|]. split; [exact Hfr|]. split; [exact Hhl|]. split; [exact Hac|].
  split; [exact Hcons1|]. split; [by rewrite <- G1|]. split; [exact G2|exact G3].
Qed.

End GroupFreeLoop.

Lemma delete_list_spec (ws : list ptr) : forall (w : world),
  NoDup ws -> (forall p, p ∈ ws -> is_Some (heap (st w) !! p)) ->
  exists h' evs,
    for_each_ wm_widget_delete ws w =
      Some (tt, World (set_heap h' (st w)) (trace w ++ evs)) /\
    (forall q, h' !! q = if bool_decide (q ∈ ws) then None else heap (st w) !! q) /\
    (forall q, times_freed q evs = if bool_decide (q ∈ ws) then 1%nat else 0%nat).
Proof.
  induction ws as [|p ws IH]; intros w Hnd Hlive.
  { exists (heap (st w)), []. cbn [for_each_]. rewrite app_nil_r.
    destruct w as [[] t]. done. }
  apply NoDup_cons in Hnd as [Hnotin Hnd].
  destruct (Hlive p) as [x Hx]; [apply list_elem_of_here|].
  cbn [for_each_]. erewrite bind_eq by (by eapply wm_widget_delete_spec).
  destruct (IH (World (set_heap (delete p (heap (st w))) (st w))
                  (trace w ++ [EvFreeData p; EvFreeWidget p])) Hnd)
    as (h' & evs & Hrun & Hheap & Hfr).
  { intros q Hq. cbn [st heap set_heap].
    rewrite lookup_delete_ne by (intros ->; done).
    apply Hlive. by apply list_elem_of_further. }
  cbn [st trace heap set_heap] in *.
  exists h', ([EvFreeData p; EvFreeWidget p] ++ evs).
  split; [rewrite Hrun, app_assoc; by destruct (st w)|]. split.
  - intros q. rewrite Hheap. destruct (decide (q = p)) as [->|Hne].
    + rewrite lookup_delete_eq.
      rewrite (bool_decide_eq_true_2 (p ∈ p :: ws)) by apply list_elem_of_here.
      by destruct (bool_decide (p ∈ ws)).
    + rewrite lookup_delete_ne by done.
      destruct (decide (q ∈ ws)) as [Hin|Hin].
      * rewrite !bool_decide_eq_true_2; [done|by apply list_elem_of_further|done].
      * rewrite !bool_decide_eq_false_2; [done| |done].
        intros [?|?]%elem_of_cons; done.
  - intros q. rewrite times_freed_app, times_freed_delete_events, Hfr.
    destruct (decide (q = p)) as [->|Hne].
    + rewrite (bool_decide_eq_true_2 (p = p)) by done.
      rewrite (bool_decide_eq_false_2 (p ∈ ws)) by done.
      by rewrite (bool_decide_eq_true_2 (p ∈ p :: ws)) by apply list_elem_of_here.
    + rewrite (bool_decide_eq_false_2 (q = p)) by done.
      destruct (decide (q ∈ ws)) as [Hin|Hin].
      * rewrite !bool_decide_eq_true_2; [done|by apply list_elem_of_further|done].
      * rewrite !bool_decide_eq_false_2; [done| |done].
        intros [?|?]%elem_of_cons; done.
Qed.

Lemma delete_groups_spec (gs : list wmWidgetGroup) : forall (w : world),
  NoDup (listed_widgets gs) ->
  (forall p, p ∈ listed_widgets gs -> is_Some (heap (st w) !! p)) ->
  exists h' evs,
    for_each_ (fun g => for_each_ wm_widget_delete (wg_widgets g)) gs w =
      Some (tt, World (set_heap h' (st w)) (trace w ++ evs)) /\
    (forall q, h' !! q =
       if bool_decide (q ∈ listed_widgets gs) then None else heap (st w) !! q) /\
    (forall q, times_freed q evs =
       if bool_decide (q ∈ listed_widgets gs) then 1%nat else 0%nat).
Proof.
  induction gs as [|g gs IH]; intros w Hnd Hlive.
  { exists (heap (st w)), []. cbn [for_each_]. rewrite app_nil_r.
    destruct w as [[] t]. done. }
  change (listed_widgets (g :: gs)) with (wg_widgets g ++ listed_widgets gs) in *.
  apply NoDup_app in Hnd as (Hnd1 & Hdisj & Hnd2).
  destruct (delete_list_spec (wg_widgets g) w Hnd1) as (h1 & evs1 & Hrun1 & Hheap1 & Hfr1).
  { intros p Hp. apply Hlive. apply elem_of_app. by left. }
  cbn [for_each_]. erewrite bind_eq by exact Hrun1.
  destruct (IH (World (set_heap h1 (st w)) (trace w ++ evs1)) Hnd2)
    as (h' & evs & Hrun & Hheap & Hfr).
  { intros q Hq. cbn [st heap set_heap]. rewrite Hheap1.
    rewrite bool_decide_eq_false_2 by (intros Hin; by apply (Hdisj q)).
    apply Hlive. apply elem_of_app. by right. }
  cbn [st trace heap set_heap] in *.
  exists h', (evs1 ++ evs). split; [rewrite Hrun, app_assoc; by destruct (st w)|].
  split.
  - intros q. rewrite Hheap, Hheap1.
    destruct (decide (q ∈ wg_widgets g)) as [H1|H1];
      destruct (decide (q ∈ listed_widgets gs)) as [H2|H2].
    + by apply Hdisj in H1.
    + rewrite (bool_decide_eq_false_2 (q ∈ listed_widgets gs)) by done.
      rewrite !bool_decide_eq_true_2; [done|apply elem_of_app; by left|done].
    + rewrite (bool_decide_eq_true_2 (q ∈ listed_widgets gs)) by done.
      rewrite bool_decide_eq_true_2; [done|apply elem_of_app; by right].
    + rewrite !bool_decide_eq_false_2; [done| |done|done].
      intros [?|?]%elem_of_app; done.
  - intros q. rewrite times_freed_app, Hfr1, Hfr.
    destruct (decide (q ∈ wg_widgets g)) as [H1|H1];
      destruct (decide (q ∈ listed_widgets gs)) as [H2|H2].
    + by apply Hdisj in H1.
    + rewrite (bool_decide_eq_false_2 (q ∈ listed_widgets gs)) by done.
      rewrite !bool_decide_eq_true_2; [done|apply elem_of_app; by left|done].
    + rewrite (bool_decide_eq_true_2 (q ∈ listed_widgets gs)) by done.
      rewrite (bool_decide_eq_false_2 (q ∈ wg_widgets g)) by done.
      rewrite bool_decide_eq_true_2; [done|apply elem_of_app; by right].
    + rewrite !bool_decide_eq_false_2; [done| |done|done].
      intros [?|?]%elem_of_app; done.
Qed.

(** [WM_widgetmap_delete]: every widget on a group's list is freed exactly
    once; a widget that is on no list, such as an old instance that only
    the selection array or the highlighted slot still points to, is not
    freed. The groups and the selection array are gone afterwards. *)
Theorem widgetmap_delete_frees_listed (w : world) :
  groups_wf (st w) ->
  exists s' evs,
    WM_widgetmap_delete w = Some (tt, World s' (trace w ++ evs)) /\
    (forall q, heap s' !! q =
       if bool_decide (q ∈ listed_widgets (widgetgroups (st w))) then None
       else heap (st w) !! q) /\
    (forall q, times_freed q evs =
       if bool_decide (q ∈ listed_widgets (widgetgroups (st w))) then 1%nat
       else 0%nat) /\
    widgetgroups s' = [] /\ selected_widgets s' = None.
Proof.
  intros [Hnd Hlive]. unfold WM_widgetmap_delete.
  erewrite bind_eq by reflexivity.
  destruct (delete_groups_spec (widgetgroups (st w)) w Hnd Hlive)
    as (h' & evs & Hrun & Hheap & Hfr).
  erewrite bind_eq by exact Hrun.
  erewrite bind_eq by reflexivity. cbn [st trace].
  eexists _, evs. split; [reflexivity|]. cbn [st]. simpl. done.
Qed.

(** *** The tweak operator *)

Import Tweak.

Section TweakFacts.
Context (E : externals) (K : retcodes) (V : evcodes) (B : callbacks).

(** [widget_tweak_modal] on the release of the initiating event or on the
    modal CONFIRM: the operator finishes, the tweak data is freed, the
    event is left as it is, and the map is deactivated: no active widget,
    the region tagged for redraw and a mouse move queued. On the modal
    CANCEL the operator is cancelled in the same way, after the widget's
    cancel hook, when it has one, has run. *)
Theorem tweak_modal_ends_inactive (wtweak : WidgetTweakData) (event : wmEvent)
    (w : world) (widget : ptr) :
  tw_active wtweak = Some widget ->
  active_wf (st w) ->
  let release :=
    (ev_type event =? tw_init_event wtweak) && (ev_val event =? KM_RELEASE V) in
  let modal_map v :=
    negb release && (ev_type event =? EVT_MODAL_MAP V) && (ev_val event =? v) in
  (release || modal_map TWEAK_MODAL_CONFIRM = true ->
     exists w',
       wm_widgetmap_set_active_widget E None w = Some (tt, w') /\
       widget_tweak_modal E K V B wtweak event w =
         Some ((OPERATOR_FINISHED K, None, event), w') /\
       active_widget (st w') = None) /\
  (modal_map TWEAK_MODAL_CANCEL = true ->
   is_Some (heap (st w) !! widget) ->
   forall hooked,
     hooked = match cancel_cb B widget with Some f => f (st w) | None => st w end ->
     active_wf hooked ->
     exists w',
       wm_widgetmap_set_active_widget E None (World hooked (trace w)) = Some (tt, w') /\
       widget_tweak_modal E K V B wtweak event w =
         Some ((OPERATOR_CANCELLED K, None, event), w') /\
       active_widget (st w') = None).
Proof.
  intros Hact Hwf. cbv zeta.
  set (release := (ev_type event =? tw_init_event wtweak) && (ev_val event =? KM_RELEASE V)).
  split.
  - intros Hfin.
    destruct (set_active_none_spec E w Hwf) as (w' & Hrun & Hnone & _).
    exists w'. split; [exact Hrun|]. split; [|exact Hnone].
    unfold widget_tweak_modal, widget_tweak_finish. rewrite Hact. fold release.
    destruct release eqn:Hrel.
    + by erewrite bind_eq by exact Hrun.
    + cbn [negb andb orb] in Hfin.
      apply andb_true_iff in Hfin as [Hmap Hval]. rewrite Hmap.
      change TWEAK_MODAL_CANCEL with 1. change TWEAK_MODAL_CONFIRM with 2 in *.
      apply Z.eqb_eq in Hval. rewrite Hval. cbn [Z.eqb Pos.eqb].
      by erewrite bind_eq by exact Hrun.
  - intros Hcan [x Hx] hooked -> Hwf'.
    destruct (set_active_none_spec E (World _ (trace w)) Hwf') as (w' & Hrun & Hnone & _).
    exists w'. split; [exact Hrun|]. split; [|exact Hnone].
    unfold widget_tweak_modal. rewrite Hact. fold release.
    destruct release eqn:Hrel; [done|]. cbn [negb andb] in Hcan.
    apply andb_true_iff in Hcan as [Hmap Hval]. rewrite Hmap, Hval.
    unfold widget_tweak_cancel, widget_tweak_finish. rewrite Hact.
    rewrite !bind_assoc. erewrite bind_eq by (by apply load_Some).
    rewrite !bind_assoc.
    destruct w as [s t]. cbn [st trace] in *.
    destruct (cancel_cb B widget) as [f|].
    + erewrite bind_eq by reflexivity. cbn [st trace].
      by erewrite bind_eq by exact Hrun.
    + erewrite bind_eq by reflexivity.
      by erewrite bind_eq by exact Hrun.
Qed.

(** [widget_tweak_modal] on any other event: the result is pass-through and
    the tweak goes on. The event is retyped to [EVT_WIDGET_UPDATE]; the
    modal PRECISION_ON and PRECISION_OFF set and clear the precise bit of
    the tweak flag, other events leave the flag alone; the widget's
    handler, when it has one, gets the event with the flag as it is then,
    and nothing else touches the map or the trace. *)
Theorem tweak_modal_passes_on (wtweak : WidgetTweakData) (event : wmEvent)
    (w : world) (widget : ptr) (x : wmWidget) :
  tw_active wtweak = Some widget ->
  heap (st w) !! widget = Some x ->
  (ev_type event =? tw_init_event wtweak) && (ev_val event =? KM_RELEASE V) = false ->
  (ev_type event =? EVT_MODAL_MAP V) &&
    ((ev_val event =? TWEAK_MODAL_CANCEL) || (ev_val event =? TWEAK_MODAL_CONFIRM)) = false ->
  let flag' :=
    if (ev_type event =? EVT_MODAL_MAP V) && (ev_val event =? TWEAK_MODAL_PRECISION_ON)
    then Z.lor (tw_flag wtweak) (WM_WIDGET_TWEAK_PRECISE V)
    else if (ev_type event =? EVT_MODAL_MAP V) && (ev_val event =? TWEAK_MODAL_PRECISION_OFF)
    then Z.land (tw_flag wtweak) (Z.lnot (WM_WIDGET_TWEAK_PRECISE V))
    else tw_flag wtweak in
  widget_tweak_modal E K V B wtweak event w =
    Some ((OPERATOR_PASS_THROUGH K,
           Some (TweakData (Some widget) (tw_init_event wtweak) flag'),
           Event (EVT_WIDGET_UPDATE V) (ev_val event)),
          World (match handler x with
                 | Some c => handler_cb B c widget event flag' (st w)
                 | None => st w
                 end) (trace w)).
Proof.
  intros Hact Hx Hrel Hterm flag'.
  assert (Hhandle : forall data, tw_active data = Some widget ->
    tw_init_event data = tw_init_event wtweak ->
    tweak_handle K V B widget data event w =
    Some ((OPERATOR_PASS_THROUGH K,
           Some (TweakData (Some widget) (tw_init_event wtweak) (tw_flag data)),
           Event (EVT_WIDGET_UPDATE V) (ev_val event)),
          World (match handler x with
                 | Some c => handler_cb B c widget event (tw_flag data) (st w)
                 | None => st w
                 end) (trace w))).
  { intros [a i f] Ha Hi. simpl in Ha, Hi. subst a i. unfold tweak_handle.
    erewrite bind_eq by (by apply load_Some). cbn [tw_flag].
    destruct (handler x) as [c|].
    - by erewrite bind_eq by reflexivity.
    - erewrite bind_eq by reflexivity. by destruct w. }
  unfold widget_tweak_modal. rewrite Hact, Hrel. subst flag'.
  destruct (ev_type event =? EVT_MODAL_MAP V) eqn:Hmap; cbn [andb] in *.
  - apply orb_false_iff in Hterm as [Hc1 Hc2]. rewrite Hc1, Hc2.
    destruct (ev_val event =? TWEAK_MODAL_PRECISION_ON) eqn:Hon.
    { by rewrite Hhandle. }
    destruct (ev_val event =? TWEAK_MODAL_PRECISION_OFF) eqn:Hoff.
    { by rewrite Hhandle. }
    by rewrite Hhandle.
  - by rewrite Hhandle.
Qed.

Lemma tweak_find_map_none (widgetmaps : list wm_state) : forall i,
  widgetmaps <> [] ->
  Forall (fun wmap => highlighted_widget wmap = None) widgetmaps ->
  tweak_find_map widgetmaps i = Some ((i + length widgetmaps)%nat, None).
Proof.
  induction widgetmaps as [|wmap rest IH]; intros i Hne Hall; [done|].
  apply Forall_cons in Hall as [Hnone Hall]. cbn [tweak_find_map]. rewrite Hnone.
  destruct rest as [|wmap' rest'].
  - simpl. f_equal. f_equal. lia.
  - rewrite IH by done. simpl. f_equal. f_equal. lia.
Qed.

Lemma tweak_find_map_first (pre : list wm_state) : forall i wmap post widget,
  Forall (fun wmap => highlighted_widget wmap = None) pre ->
  highlighted_widget wmap = Some widget ->
  tweak_find_map (pre ++ wmap :: post) i = Some ((i + length pre)%nat, Some widget).
Proof.
  induction pre as [|m pre IH]; intros i wmap post widget Hall Hhl.
  - simpl. rewrite Hhl. f_equal. f_equal. lia.
  - apply Forall_cons in Hall as [Hnone Hall]. cbn [app tweak_find_map]. rewrite Hnone.
    destruct (pre ++ wmap :: post) as [|m' l] eqn:Hl; [by destruct pre|].
    rewrite <- Hl. rewrite (IH (S i) wmap post widget) by done.
    simpl. f_equal. f_equal. lia.
Qed.

(** [widget_tweak_invoke] picks the first map of the region that has a
    highlighted widget and activates that widget there; the maps before and
    after it are untouched. When the widget has no bound command after the
    activation, the operator runs modal, with tweak data that names the
    widget highlighted in that map then, the type of the initiating event
    and no flags. When no map of the region has a highlighted widget, the
    result is cancelled and pass-through and nothing changes. *)
Theorem tweak_invoke_first_highlighted (event : wmEvent)
    (pre post : list wm_state) (wmap wmap' : wm_state) (t t' : list WM.event)
    (widget : ptr) (x' : wmWidget) :
  Forall (fun wmap => highlighted_widget wmap = None) pre ->
  highlighted_widget wmap = Some widget ->
  wm_widgetmap_set_active_widget E (Some widget) (World wmap t) =
    Some (tt, World wmap' t') ->
  heap wmap' !! widget = Some x' -> opname x' = None ->
  (pre <> [] ->
   widget_tweak_invoke E K B event pre t =
     Some (Z.lor (OPERATOR_CANCELLED K) (OPERATOR_PASS_THROUGH K), None, pre, t)) /\
  widget_tweak_invoke E K B event (pre ++ wmap :: post) t =
    Some (OPERATOR_RUNNING_MODAL K,
          Some (TweakData (highlighted_widget wmap') (ev_type event) 0),
          pre ++ wmap' :: post, t').
Proof.
  intros Hpre Hhl Hrun Hx Hop. split.
  { intros Hne. unfold widget_tweak_invoke. by rewrite tweak_find_map_none. }
  unfold widget_tweak_invoke. rewrite (tweak_find_map_first pre 0 wmap post widget) by done.
  cbn [Nat.add]. rewrite list_lookup_middle by done.
  assert (Hact : tweak_activate E K B widget event (World wmap t) =
    Some ((OPERATOR_RUNNING_MODAL K,
           Some (TweakData (highlighted_widget wmap') (ev_type event) 0)),
          World wmap' t')).
  { unfold tweak_activate. erewrite bind_eq by exact Hrun.
    erewrite bind_eq by (by apply load_Some). rewrite Hop.
    reflexivity. }
  rewrite Hact. cbn [st trace]. f_equal. f_equal.
  rewrite <- (Nat.add_0_r (length pre)). by rewrite insert_app_r.
Qed.

Lemma modal_update_maps_gone (event : wmEvent) (widgetmaps : list wm_state) :
  forall (t : list WM.event),
  Forall active_wf widgetmaps ->
  exists maps' t',
    modal_update_maps E B None event widgetmaps t = Some (maps', t') /\
    Forall (fun wmap => active_widget wmap = None) maps' /\
    Forall2 (fun wmap wmap' =>
               (active_widget wmap = None -> wmap' = wmap) /\
               highlighted_widget wmap' = highlighted_widget wmap /\
               selected_widgets wmap' = selected_widgets wmap /\
               tot_selected wmap' = tot_selected wmap /\
               widgetgroups wmap' = widgetgroups wmap /\
               forall q, is_Some (heap wmap' !! q) <-> is_Some (heap wmap !! q))
            widgetmaps maps'.
Proof.
  induction widgetmaps as [|wmap rest IH]; intros t Hall.
  { exists [], t. split; [done|]. split; constructor. }
  apply Forall_cons in Hall as [Hwf Hall]. cbn [modal_update_maps].
  assert (Hstep : exists s' t1,
    modal_update_map E B None event (World wmap t) = Some (tt, World s' t1) /\
    active_widget s' = None /\
    (active_widget wmap = None -> s' = wmap) /\
    highlighted_widget s' = highlighted_widget wmap /\
    selected_widgets s' = selected_widgets wmap /\
    tot_selected s' = tot_selected wmap /\
    widgetgroups s' = widgetgroups wmap /\
    forall q, is_Some (heap s' !! q) <-> is_Some (heap wmap !! q)).
  { unfold modal_update_map. erewrite bind_eq by reflexivity. cbn [st trace].
    destruct (active_widget wmap) as [a|] eqn:Ha.
    - destruct (set_active_none_spec E (World wmap t) Hwf)
        as ([s' t1] & Hrun & Hnone & Hsome & _ & Hoth & G1 & G2 & G3 & G4 & _).
      cbn [st trace] in *. exists s', t1. split; [exact Hrun|]. split; [done|].
      split; [done|]. split; [done|]. split; [done|]. split; [done|].
      split; [done|]. intros q. destruct (decide (q = a)) as [->|Hne].
      + destruct (Hwf a Ha) as [x Hx]. destruct (Hsome a x Ha Hx) as [Hx' _].
        rewrite Hx', Hx. split; by eexists.
      + rewrite Hoth; [done|]. rewrite Ha. congruence.
    - exists wmap, t. done. }
  destruct Hstep as (s' & t1 & Hrun & Hnone & Hsame & G).
  rewrite Hrun. cbn [st trace].
  destruct (IH t1 Hall) as (maps' & t' & Hrest & Hall' & Hrel).
  rewrite Hrest. exists (s' :: maps'), t'. split; [done|].
  split; constructor; done.
Qed.

(** [wm_widget_handler_modal_update] once the handler's operator no longer
    runs: every map of the region ends up without an active widget; a map
    that had none is untouched, and in the others the highlighted widget,
    the selection and the groups are as before and no widget is freed or
    allocated. Without a region nothing happens. *)
Theorem modal_update_deactivates (event : wmEvent) (widgetmaps : list wm_state)
    (t : list WM.event) :
  Forall active_wf widgetmaps ->
  wm_widget_handler_modal_update E B None event None t = Some (None, t) /\
  exists maps' t',
    wm_widget_handler_modal_update E B None event (Some widgetmaps) t =
      Some (Some maps', t') /\
    Forall (fun wmap => active_widget wmap = None) maps' /\
    Forall2 (fun wmap wmap' =>
               (active_widget wmap = None -> wmap' = wmap) /\
               highlighted_widget wmap' = highlighted_widget wmap /\
               selected_widgets wmap' = selected_widgets wmap /\
               tot_selected wmap' = tot_selected wmap /\
               widgetgroups wmap' = widgetgroups wmap /\
               forall q, is_Some (heap wmap' !! q) <-> is_Some (heap wmap !! q))
            widgetmaps maps'.
Proof.
  intros Hall. split; [done|].
  destruct (modal_update_maps_gone event widgetmaps t Hall) as (maps' & t' & Hrun & H1 & H2).
  exists maps', t'. unfold wm_widget_handler_modal_update. rewrite Hrun. done.
Qed.

End TweakFacts.
(** *** The update pass while a widget is active *)

Section UpdateActive.
Context (E : externals).

(** [WM_widgetmap_widgets_update] while a widget is active regenerates
    nothing: no widget is made or freed (every other address of the heap is
    as before and the trace is the one before), and the groups with their
    lists, the highlighted and the active widget and the selection are
    untouched. The active widget, unless hidden, gets its scale recomputed
    and is entered in the cache under its name; the cache is created when
    there was none. *)
Theorem update_active_regenerates_nothing (w : world) (p : ptr) (x : wmWidget) :
  active_widget (st w) = Some p -> heap (st w) !! p = Some x ->
  exists s',
    WM_widgetmap_widgets_update E w = Some (tt, World s' (trace w)) /\
    widgetgroups s' = widgetgroups (st w) /\
    highlighted_widget s' = highlighted_widget (st w) /\
    active_widget s' = Some p /\
    selected_widgets s' = selected_widgets (st w) /\
    tot_selected s' = tot_selected (st w) /\
    activegroup s' = activegroup (st w) /\
    (forall q, q <> p -> heap s' !! q = heap (st w) !! q) /\
    (if has_flag (flag x) WM_WIDGET_HIDDEN
     then heap s' = heap (st w) /\
          draw_widgets s' = Some (default ∅ (draw_widgets (st w)))
     else heap s' !! p = Some (set_scale (scale_of E x) x) /\
          draw_widgets s' =
            Some (<[idname x := p]> (default ∅ (draw_widgets (st w))))).
Proof.
  intros Ha Hx. destruct w as [s t]. cbn [st trace] in *.
  unfold WM_widgetmap_widgets_update.
  erewrite bind_eq by reflexivity. cbn [st trace]. rewrite Ha.
  erewrite bind_eq by reflexivity. cbn [st trace].
  set (s1 := set_draw_widgets (Some (default ∅ (draw_widgets s))) s).
  assert (Hd : match draw_widgets s with
               | Some _ => ret tt
               | None => modify (set_draw_widgets (Some ∅))
               end (World s t) = Some (tt, World s1 t)).
  { subst s1. destruct s as [h gs hl a sel tot ag [d|]]; reflexivity. }
  erewrite bind_eq by exact Hd.
  erewrite bind_eq by (apply load_Some; exact Hx).
  destruct (has_flag (flag x) WM_WIDGET_HIDDEN) eqn:Hh; simpl negb; unfold when.
  - exists s1. done.
  - unfold widget_calculate_scale. rewrite !bind_assoc.
    erewrite bind_eq by (apply load_Some; exact Hx).
    erewrite bind_eq by (eapply store_Some; exact Hx). cbn [st trace].
    unfold ghash_reinsert. erewrite bind_eq by reflexivity. cbn [st trace].
    simpl draw_widgets. unfold modify. cbn [st trace].
    eexists. split; [reflexivity|]. simpl.
    repeat (split; [done|]). split.
    + intros q Hq. by rewrite lookup_insert_ne.
    + split; [apply lookup_insert_eq|done].
Qed.

End UpdateActive.
(** *** Selecting all widgets *)

Import SelectAll.

Lemma hash_add_fold (S : selenv) (h : gmap ptr wmWidget) : forall ws l,
  (forall p, p ∈ ws -> is_Some (h !! p)) ->
  exists es,
    foldl (hash_add h (Some (widget_selectable_poll S)) true) (Some l) ws =
      Some (l ++ es) /\
    es.*2 = filter (fun p => selectable S h p = true) ws.
Proof.
  induction ws as [|p ws IH]; intros l Hlive.
  { exists []. by rewrite app_nil_r. }
  destruct (Hlive p) as [x Hx]; [apply list_elem_of_here|].
  cbn [foldl]. unfold hash_add at 2. rewrite Hx. rewrite orb_true_l, andb_true_l.
  assert (Hsel : selectable S h p = widget_selectable_poll S x)
    by (unfold selectable; by rewrite Hx).
  rewrite filter_cons.
  destruct (widget_selectable_poll S x) eqn:Hs.
  - destruct (IH (l ++ [(idname x, p)])) as (es & Hrun & Hes).
    { intros q Hq. apply Hlive. by apply list_elem_of_further. }
    exists ((idname x, p) :: es). rewrite Hrun, <- app_assoc. split; [done|].
    rewrite decide_True by done. rewrite fmap_cons, Hes. done.
  - destruct (IH l) as (es & Hrun & Hes).
    { intros q Hq. apply Hlive. by apply list_elem_of_further. }
    exists es. rewrite Hrun. split; [done|]. rewrite decide_False by (by rewrite Hsel). done.
Qed.

Lemma hash_new_fold (E : externals) (S : selenv) (h : gmap ptr wmWidget) :
  forall gs l,
  (forall p, p ∈ polled_widgets E gs -> is_Some (h !! p)) ->
  exists es,
    foldl (fun acc g =>
             if group_poll E g
             then foldl (hash_add h (Some (widget_selectable_poll S)) true) acc
                        (wg_widgets g)
             else acc) (Some l) gs = Some (l ++ es) /\
    es.*2 = filter (fun p => selectable S h p = true) (polled_widgets E gs).
Proof.
  induction gs as [|g gs IH]; intros l Hlive.
  { exists []. by rewrite app_nil_r. }
  rewrite polled_widgets_cons in Hlive |- *. unfold group_old in *. cbn [foldl].
  destruct (group_poll E g).
  - destruct (hash_add_fold S h (wg_widgets g) l) as (es1 & Hrun1 & Hes1).
    { intros p Hp. apply Hlive. apply elem_of_app. by left. }
    rewrite Hrun1.
    destruct (IH (l ++ es1)) as (es2 & Hrun2 & Hes2).
    { intros p Hp. apply Hlive. apply elem_of_app. by right. }
    exists (es1 ++ es2). rewrite Hrun2, <- app_assoc. split; [done|].
    by rewrite fmap_app, filter_app, Hes1, Hes2.
  - apply IH. intros p Hp. apply Hlive. by apply elem_of_app; right.
Qed.

Lemma selected_flag_set (x : wmWidget) :
  has_flag (flag (set_flag (flag_enable (flag x) WM_WIDGET_SELECTED) x))
    WM_WIDGET_SELECTED = true.
Proof.
  cbn [flag set_flag]. unfold WM_WIDGET_SELECTED.
  rewrite has_flag_enable by lia. rewrite bool_decide_eq_true_2 by done.
  apply orb_true_r.
Qed.

Section SelectAllFacts.
Context (E : externals) (S : selenv).

Lemma select_all_loop (Hcb : select_cb_frame E) : forall l k s t changed arr,
  selected_widgets s = Some arr -> length arr = (k + length l)%nat ->
  (forall p, p ∈ l -> is_Some (heap s !! p)) ->
  exists s' t' changed',
    for_each (select_all_slot E) (zip (seq k (length l)) l) changed (World s t) =
      Some (changed', World s' t') /\
    selected_widgets s' = Some (take k arr ++ (Some <$> l)) /\
    tot_selected s' = tot_selected s /\
    highlighted_widget s' = highlighted_widget s /\
    selected_more l (heap s) (heap s') /\
    (changed' = true <-> changed = true \/
       exists p x, p ∈ l /\ heap s !! p = Some x /\
         has_flag (flag x) WM_WIDGET_SELECTED = false).
Proof.
  induction l as [|p l IH]; intros k s t changed arr Harr Hlen Hlive.
  { exists s, t, changed. split; [done|].
    split. { simpl in Hlen. rewrite fmap_nil, app_nil_r, take_ge by lia. done. }
    split; [done|]. split; [done|]. split.
    - split; [done|]. intros q x Hx. exists x.
      rewrite bool_decide_eq_false_2 by apply not_elem_of_nil.
      by rewrite orb_false_r.
    - split; [by left|]. intros [?|(p & x & Hp & _)]; [done|].
      by apply elem_of_nil in Hp. }
  destruct (Hlive p) as [x Hx]; [apply list_elem_of_here|].
  cbn [length seq zip_with for_each].
  unfold select_all_slot at 1. cbn [fst snd].
  rewrite !bind_assoc.
  erewrite bind_eq by (by apply load_Some).
  rewrite !bind_assoc.
  erewrite bind_eq by (eapply store_Some; exact Hx). cbn [st trace].
  set (x1 := set_flag _ x). set (s1 := set_heap _ s).
  assert (Hcall : exists s2 t2, match select x with
     | Some c => emit (EvSelect p) ;; modify (select_cb E c p)
     | None => ret tt end (World s1 t) = Some (tt, World s2 t2) /\ sel_frame s1 s2 /\
     highlighted_widget s2 = highlighted_widget s1).
  { destruct (select x) as [c|].
    - eexists _, _. split; [reflexivity|]. apply Hcb.
    - exists s1, t. split; [done|]. split; [apply sel_frame_refl|done]. }
  destruct Hcall as (s2 & t2 & Hcall & (Hsel2 & Htot2 & Hnone2 & Hsome2) & Hhl2).
  rewrite !bind_assoc. erewrite bind_eq by exact Hcall.
  assert (Harr2 : selected_widgets s2 = Some arr) by (rewrite Hsel2; exact Harr).
  rewrite !bind_assoc.
  erewrite bind_eq by (eapply (selected_write_Some _ _ arr); [exact Harr2|simpl in Hlen; lia]).
  cbn [st trace]. rewrite Nat2Z.id.
  set (s3 := set_selected_widgets _ s2).
  erewrite bind_eq by reflexivity.
  assert (Hh1 : forall q y, heap s !! q = Some y ->
            exists y3, heap s3 !! q = Some y3 /\ idname y3 = idname y /\
              has_flag (flag y3) WM_WIDGET_SELECTED =
                has_flag (flag y) WM_WIDGET_SELECTED || bool_decide (q = p)).
  { intros q y Hy. destruct (decide (q = p)) as [->|Hne].
    - destruct (Hsome2 p x1) as (y3 & Hy3 & Hn3 & Hf3);
        [subst s1; simpl; apply lookup_insert_eq|].
      exists y3. split; [exact Hy3|]. rewrite Hn3, Hf3.
      assert (y = x) by congruence. subst y. split; [done|].
      subst x1. rewrite selected_flag_set, bool_decide_eq_true_2 by done.
      by rewrite orb_true_r.
    - destruct (Hsome2 q y) as (y3 & Hy3 & Hn3 & Hf3);
        [subst s1; simpl; by rewrite lookup_insert_ne|].
      exists y3. split; [exact Hy3|]. rewrite Hn3, Hf3. split; [done|].
      rewrite bool_decide_eq_false_2 by done. by rewrite orb_false_r. }
  assert (Hn1 : forall q, heap s !! q = None -> heap s3 !! q = None).
  { intros q Hq. apply Hnone2. subst s1. simpl.
    rewrite lookup_insert_ne; [done|]. intros ->. congruence. }
  destruct (IH (Datatypes.S k) s3 t2
              (changed || negb (has_flag (flag x) WM_WIDGET_SELECTED))
              (<[k := Some p]> arr))
    as (s' & t' & changed' & Hrun & Harr' & Htot' & Hhl' & (Hnone' & Hsome') & Hch').
  { done. }
  { rewrite length_insert. simpl in Hlen. lia. }
  { intros q Hq. destruct (Hlive q) as [y Hy]; [by apply list_elem_of_further|].
    destruct (Hh1 q y Hy) as (y3 & Hy3 & _). by eexists. }
  exists s', t', changed'. split; [exact Hrun|].
  split.
  { rewrite Harr'. f_equal.
    rewrite (take_S_r _ _ (Some p)).
    - rewrite take_insert_ge by lia. rewrite fmap_cons, <- app_assoc. done.
    - apply list_lookup_insert_eq. simpl in Hlen. lia. }
  split; [rewrite Htot'; exact Htot2|].
  split; [rewrite Hhl'; subst s3; simpl; rewrite Hhl2; done|].
  split.
  { split.
    - intros q Hq. apply Hnone'. by apply Hn1.
    - intros q y Hy. destruct (Hh1 q y Hy) as (y3 & Hy3 & Hn3 & Hf3).
      destruct (Hsome' q y3 Hy3) as (y' & Hy' & Hn' & Hf').
      exists y'. split; [exact Hy'|]. split; [congruence|].
      rewrite Hf', Hf3, <- orb_assoc. f_equal.
      apply eq_true_iff_eq. rewrite orb_true_iff, !bool_decide_eq_true.
      rewrite elem_of_cons. done. }
  rewrite Hch'. rewrite orb_true_iff, negb_true_iff. split.
  - intros [[?|Hf]|(q & y3 & Hq & Hy3 & Hf3)].
    + by left.
    + right. exists p, x. split; [apply list_elem_of_here|done].
    + right. destruct (heap s !! q) as [y|] eqn:Hy.
      * destruct (Hh1 q y Hy) as (y3' & Hy3' & _ & Hf).
        assert (y3' = y3) by congruence. subst y3'.
        rewrite Hf3 in Hf. symmetry in Hf. apply orb_false_iff in Hf as [Hf _].
        exists q, y. split; [by apply list_elem_of_further|done].
      * rewrite (Hn1 q Hy) in Hy3. done.
  - intros [?|(q & y & Hq & Hy & Hf)]; [by left; left|].
    apply elem_of_cons in Hq as [->|Hq].
    + left. right. congruence.
    + destruct (decide (q = p)) as [->|Hne]; [left; right; congruence|].
      right. destruct (Hh1 q y Hy) as (y3 & Hy3 & _ & Hf3).
      exists q, y3. split; [done|]. split; [done|].
      rewrite Hf3, Hf. by rewrite bool_decide_eq_false_2.
Qed.

End SelectAllFacts.

Lemma selected_more_equiv (l l' : list ptr) (h h' : gmap ptr wmWidget) :
  (forall q, q ∈ l <-> q ∈ l') -> selected_more l h h' -> selected_more l' h h'.
Proof.
  intros Heq [Hnone Hsome]. split; [done|]. intros q x Hx.
  destruct (Hsome q x Hx) as (x' & Hx' & Hn & Hf). exists x'.
  split; [done|]. split; [done|]. rewrite Hf. f_equal.
  apply eq_true_iff_eq. rewrite !bool_decide_eq_true. apply Heq.
Qed.

Lemma selected_more_nil_r (l : list ptr) (h h1 h2 : gmap ptr wmWidget) :
  selected_more l h h1 -> selected_more [] h1 h2 -> selected_more l h h2.
Proof.
  intros [Hnone Hsome] [Hnone' Hsome']. split; [auto|]. intros q x Hx.
  destruct (Hsome q x Hx) as (x1 & Hx1 & Hn1 & Hf1).
  destruct (Hsome' q x1 Hx1) as (x2 & Hx2 & Hn2 & Hf2).
  exists x2. split; [done|]. split; [congruence|].
  rewrite Hf2, Hf1. rewrite (bool_decide_eq_false_2 (q ∈ [])) by apply not_elem_of_nil.
  by rewrite orb_false_r.
Qed.

Section SelectAllRun.
Context (E : externals) (S : selenv).

Lemma set_highlighted_keeps (C : bool) (w : world) (widget : option ptr) (part : Z) :
  highlight_wf (st w) ->
  (forall p, widget = Some p -> is_Some (heap (st w) !! p)) ->
  exists s' evs,
    wm_widgetmap_set_highlighted_widget E C widget part w =
      Some (tt, World s' (trace w ++ evs)) /\
    highlighted_widget s' = widget /\
    selected_widgets s' = selected_widgets (st w) /\
    tot_selected s' = tot_selected (st w) /\
    selected_more [] (heap (st w)) (heap s').
Proof.
  intros Hwf Hlive.
  destruct (set_highlighted_full E C w widget part Hwf Hlive)
    as (s' & evs & Hrun & Hslot & Hyes & Hno & _ & _ & _ & _ & Hsel & Htot & _).
  exists s', evs. split; [exact Hrun|]. split; [exact Hslot|].
  split; [exact Hsel|]. split; [exact Htot|].
  destruct (highlight_changes_dec (st w) widget part) as [Hch|Hch].
  - destruct (Hyes Hch) as (Hheap & _). rewrite Hheap. split.
    + intros q Hq. rewrite highlight_moved_lookup, Hq. done.
    + intros q x Hx.
      destruct (highlight_moved (highlighted_widget (st w)) widget part (heap (st w)) !! q)
        as [y'|] eqn:Hy'.
      * destruct (highlight_moved_widget _ _ _ _ _ _ 2 Hy') as (y & Hy & Hn & Hf & _); [lia|].
        assert (y = x) by congruence. subst y.
        exists y'. split; [done|]. split; [done|].
        rewrite (bool_decide_eq_false_2 (q ∈ [])) by apply not_elem_of_nil.
        rewrite orb_false_r. exact Hf.
      * rewrite highlight_moved_lookup, Hx in Hy'. done.
  - destruct (Hno Hch) as [-> _]. split; [done|]. intros q x Hx. exists x.
    rewrite (bool_decide_eq_false_2 (q ∈ [])) by apply not_elem_of_nil.
    by rewrite orb_false_r.
Qed.

Lemma select_all_spec (s : wm_state) (t : list event) :
  (forall l, ghash_iter S l ≡ₚ l) -> select_cb_frame E ->
  (forall p, p ∈ polled_widgets E (widgetgroups s) -> is_Some (heap s !! p)) ->
  highlight_wf s ->
  selectable_widgets E S s <> [] ->
  Z.of_nat (length (selectable_widgets E S s)) < 2 ^ 31 ->
  exists s' t' changed arr,
    wm_widgetmap_select_all_intern E S (World s t) = Some (changed, World s' t') /\
    tot_selected s' = Z.of_nat (length (selectable_widgets E S s)) /\
    selected_widgets s' = Some arr /\
    arr ≡ₚ Some <$> selectable_widgets E S s /\
    arr !! 0%nat = Some (highlighted_widget s') /\
    selected_more (selectable_widgets E S s) (heap s) (heap s') /\
    (changed = true <->
       exists p x, p ∈ selectable_widgets E S s /\ heap s !! p = Some x /\
         has_flag (flag x) WM_WIDGET_SELECTED = false).
Proof.
  intros Hperm Hcb Hlive Hhl Hne Hmax.
  unfold wm_widgetmap_select_all_intern.
  erewrite bind_eq by reflexivity. cbn [st trace]. unfold id at 1.
  unfold wm_widgetmap_widget_hash_new.
  destruct (hash_new_fold E S (heap s) (widgetgroups s) [] Hlive) as (es & Hhash & Hes).
  rewrite Hhash. rewrite app_nil_l.
  fold (selectable_widgets E S s) in Hes.
  assert (Hlen : length es = length (selectable_widgets E S s))
    by (by rewrite <- Hes, length_fmap).
  assert (Hpos : (0 < length (selectable_widgets E S s))%nat)
    by (destruct (selectable_widgets E S s); [done|simpl; lia]).
  cbv zeta. rewrite Hlen. rewrite to_int_small by lia.
  erewrite bind_eq by reflexivity. cbn [st trace].
  erewrite bind_eq by (apply realloc_selected_Some; lia). cbn [st trace].
  rewrite Nat2Z.id.
  set (l := (ghash_iter S es).*2).
  assert (Hl : l ≡ₚ selectable_widgets E S s).
  { subst l. rewrite <- Hes. apply fmap_Permutation, Hperm. }
  assert (Hll : length (ghash_iter S es) = length l) by (subst l; by rewrite length_fmap).
  rewrite Hll.
  set (arr0 := resize _ None _). set (s0 := set_selected_widgets _ _).
  destruct (select_all_loop E Hcb l 0 s0 t false arr0)
    as (s1 & t1 & changed & Hrun & Harr1 & Htot1 & Hhl1 & Hmore1 & Hch).
  { done. }
  { subst arr0. rewrite length_resize. by rewrite Hl. }
  { intros p Hp. subst s0. simpl. apply Hlive.
    rewrite Hl in Hp. unfold selectable_widgets in Hp.
    apply list_elem_of_filter in Hp as [_ Hp]. exact Hp. }
  erewrite bind_eq by exact Hrun. cbn [st trace].
  rewrite take_0, app_nil_l in Harr1.
  destruct l as [|p0 l'] eqn:Hl0.
  { apply Permutation_length in Hl. simpl in Hl. lia. }
  destruct Hmore1 as [Hnone1 Hsome1].
  assert (Hp0 : is_Some (heap s !! p0)).
  { apply Hlive. assert (Hin : p0 ∈ selectable_widgets E S s)
      by (rewrite <- Hl; apply list_elem_of_here).
    apply list_elem_of_filter in Hin as [_ Hin]. exact Hin. }
  destruct Hp0 as [x0 Hx0].
  destruct (Hsome1 p0 x0) as (x1 & Hx1 & _); [subst s0; exact Hx0|].
  erewrite bind_eq by (eapply (selected_at_Some 0 _ p0); [exact Harr1|lia|done]).
  erewrite bind_eq by (by apply load_Some).
  destruct (set_highlighted_keeps true (World s1 t1) (Some p0) (highlighted_part x1))
    as (s2 & evs & Hrun2 & Hslot2 & Hsel2 & Htot2 & Hmore2).
  { intros h Hh. cbn [st] in *. rewrite Hhl1 in Hh. subst s0. simpl in Hh.
    destruct (Hhl h Hh) as [xh Hxh].
    destruct (Hsome1 h xh Hxh) as (? & ? & _). by eexists. }
  { intros p [= <-]. by eexists. }
  erewrite bind_eq by exact Hrun2. cbn [st trace] in *.
  exists s2, (t1 ++ evs), changed, (Some <$> p0 :: l').
  split; [done|].
  split; [rewrite Htot2, Htot1; subst s0; done|].
  split; [rewrite Hsel2; exact Harr1|].
  split; [by rewrite Hl|].
  split; [by rewrite Hslot2|].
  split.
  { eapply selected_more_nil_r; [|exact Hmore2].
    eapply selected_more_equiv; [|split; [exact Hnone1|exact Hsome1]].
    intros q. by rewrite Hl. }
  rewrite Hch. split.
  - intros [?|(p & x & Hp & Hx & Hf)]; [done|].
    exists p, x. split; [by rewrite <- Hl|done].
  - intros (p & x & Hp & Hx & Hf). right. exists p, x.
    split; [by rewrite Hl|done].
Qed.

End SelectAllRun.

Section SelectAllTheorems.
Context (E : externals) (S : selenv).

(** [WM_widgetmap_select_all] with the action select, on a map with at
    least one selectable widget in a group whose predicate holds, when the
    select callbacks leave the selection state alone: the selection array
    is replaced by an array that holds exactly these widgets (in the order
    of the hash iterator), the count is their number, each of them carries
    the selected flag, and the first slot's widget is the highlighted one.
    No other widget's selected flag changes, no name changes, nothing is
    allocated or freed. The result tells whether one of them was not
    selected before, and then a mouse move is queued. *)
Theorem select_all_selects_selectable (s : wm_state) (t : list event) :
  (forall l, ghash_iter S l ≡ₚ l) -> select_cb_frame E ->
  (forall p, p ∈ polled_widgets E (widgetgroups s) -> is_Some (heap s !! p)) ->
  highlight_wf s ->
  selectable_widgets E S s <> [] ->
  Z.of_nat (length (selectable_widgets E S s)) < 2 ^ 31 ->
  exists s' t' changed arr,
    WM_widgetmap_select_all E S (SEL_SELECT S) (World s t) =
      Some (changed, World s' t') /\
    tot_selected s' = Z.of_nat (length (selectable_widgets E S s)) /\
    selected_widgets s' = Some arr /\
    arr ≡ₚ Some <$> selectable_widgets E S s /\
    arr !! 0%nat = Some (highlighted_widget s') /\
    selected_more (selectable_widgets E S s) (heap s) (heap s') /\
    (changed = true <->
       exists p x, p ∈ selectable_widgets E S s /\ heap s !! p = Some x /\
         has_flag (flag x) WM_WIDGET_SELECTED = false) /\
    (changed = true -> last t' = Some EvAddMousemove).
Proof.
  intros Hperm Hcb Hlive Hhl Hne Hmax.
  destruct (select_all_spec E S s t Hperm Hcb Hlive Hhl Hne Hmax)
    as (s' & t' & changed & arr & Hrun & Htot & Harr & Hp & Hfirst & Hmore & Hch).
  unfold WM_widgetmap_select_all. rewrite Z.eqb_refl.
  erewrite bind_eq by exact Hrun.
  exists s', (if changed then t' ++ [EvAddMousemove] else t'), changed, arr.
  split; [by destruct changed|].
  repeat (split; [done|]).
  intros ->. by rewrite last_snoc.
Qed.

(** Select-all followed by deselect-all, both through
    [WM_widgetmap_select_all]: the second call reports a change and queues
    a mouse move, the selection array is freed and the count is zero, and
    the selected flag is clear on every widget that select-all had
    collected; the other widgets have the flag they had at the start. *)
Theorem select_all_then_deselect_all (s : wm_state) (t : list event) :
  SEL_SELECT S <> SEL_DESELECT S ->
  (forall l, ghash_iter S l ≡ₚ l) -> select_cb_frame E ->
  (forall p, p ∈ polled_widgets E (widgetgroups s) -> is_Some (heap s !! p)) ->
  highlight_wf s ->
  selectable_widgets E S s <> [] ->
  Z.of_nat (length (selectable_widgets E S s)) < 2 ^ 31 ->
  exists changed w1 s2,
    WM_widgetmap_select_all E S (SEL_SELECT S) (World s t) = Some (changed, w1) /\
    WM_widgetmap_select_all E S (SEL_DESELECT S) w1 =
      Some (true, World s2 (trace w1 ++ [EvAddMousemove])) /\
    selected_widgets s2 = None /\ tot_selected s2 = 0 /\
    highlighted_widget s2 = highlighted_widget (st w1) /\
    (forall q, heap s !! q = None -> heap s2 !! q = None) /\
    (forall q x, heap s !! q = Some x ->
       exists x2, heap s2 !! q = Some x2 /\ idname x2 = idname x /\
         has_flag (flag x2) WM_WIDGET_SELECTED =
           has_flag (flag x) WM_WIDGET_SELECTED &&
           negb (bool_decide (q ∈ selectable_widgets E S s))).
Proof.
  intros Hdiff Hperm Hcb Hlive Hhl Hne Hmax.
  destruct (select_all_spec E S s t Hperm Hcb Hlive Hhl Hne Hmax)
    as (s1 & t1 & changed & arr & Hrun & Htot & Harr & Hp & _ & [Hnone Hsome] & _).
  set (w1 := World s1 (if changed then t1 ++ [EvAddMousemove] else t1)).
  assert (Hlen : length arr = length (selectable_widgets E S s))
    by (by rewrite Hp, length_fmap).
  assert (Hpos : (0 < length (selectable_widgets E S s))%nat)
    by (destruct (selectable_widgets E S s); [done|simpl; lia]).
  assert (Hselection : selection s1 = arr).
  { unfold selection. rewrite Harr, Htot, Nat2Z.id. simpl. rewrite take_ge; [done|lia]. }
  assert (Hlive1 : forall q, q ∈ selectable_widgets E S s -> is_Some (heap s1 !! q)).
  { intros q Hq. apply list_elem_of_filter in Hq as [_ Hq].
    destruct (Hlive q Hq) as [x Hx]. destruct (Hsome q x Hx) as (? & ? & _). by eexists. }
  assert (Hwf : selection_wf (st w1)).
  { subst w1. cbn [st]. split; [lia|]. split.
    - rewrite Harr, Htot, Nat2Z.id. simpl. lia.
    - intros q Hq. rewrite Hselection, Hp in Hq.
      apply list_elem_of_fmap in Hq as (p & -> & Hin). exists p. split; [done|].
      by apply Hlive1. }
  destruct (deselect_all_spec w1 Hwf) as (s2 & Hrun2 & _ & Hfree & Hun & _ & Hhl2 & _).
  exists changed, w1, s2.
  split.
  { unfold WM_widgetmap_select_all. rewrite Z.eqb_refl.
    erewrite bind_eq by exact Hrun. subst w1. by destruct changed. }
  split.
  { unfold WM_widgetmap_select_all.
    rewrite (proj2 (Z.eqb_neq _ _)) by congruence. rewrite Z.eqb_refl.
    erewrite bind_eq by exact Hrun2.
    rewrite bool_decide_eq_true_2; [done|].
    subst w1. cbn [st]. rewrite Harr, Htot. split; [done|lia]. }
  destruct Hfree as [Hs2 Ht2].
  { subst w1. cbn [st]. by rewrite Harr. }
  { subst w1. cbn [st]. lia. }
  split; [done|]. split; [done|]. split; [done|].
  assert (Hmem : forall q, q ∈ selected_ptrs (st w1) <-> q ∈ selectable_widgets E S s).
  { intros q. unfold selected_ptrs. subst w1. cbn [st]. rewrite Hselection.
    rewrite list_elem_of_omap. split.
    - intros (o & Ho & Hq). simpl in Hq. subst o. rewrite Hp in Ho.
      apply list_elem_of_fmap in Ho as (p & [= ->] & Hin). done.
    - intros Hq. exists (Some q). split; [|done]. rewrite Hp.
      by apply list_elem_of_fmap_2. }
  subst w1. cbn [st] in *. split.
  - intros q Hq. rewrite Hun, (Hnone q Hq). done.
  - intros q x Hx. destruct (Hsome q x Hx) as (x1 & Hx1 & Hn1 & Hf1).
    pose proof (Hun q) as Hq2. rewrite Hx1 in Hq2.
    destruct (decide (q ∈ selectable_widgets E S s)) as [Hin|Hnin].
    + rewrite (bool_decide_eq_true_2 (q ∈ selected_ptrs s1)) in Hq2 by (by apply Hmem).
      rewrite Hq2. eexists. split; [reflexivity|].
      rewrite (bool_decide_eq_true_2 _ Hin).
      cbn [idname flag set_flag]. split; [done|].
      unfold WM_WIDGET_SELECTED. rewrite has_flag_disable by lia.
      rewrite bool_decide_eq_true_2 by done. by rewrite !andb_false_r.
    + rewrite (bool_decide_eq_false_2 (q ∈ selected_ptrs s1)) in Hq2 by (by rewrite Hmem).
      rewrite Hq2. eexists. split; [reflexivity|]. split; [done|].
      rewrite (bool_decide_eq_false_2 _ Hnin) in *.
      rewrite Hf1. by rewrite orb_false_r, andb_true_r.
Qed.

End SelectAllTheorems.
(** *** The selection across an update pass *)

Section UpdateSelection.
Context (E : externals).

(** [WM_widgetmap_widgets_update] with no widget active and at least one
    group, from a well-formed state with an empty cache: the selection
    keeps its length, and each slot holds afterwards the cached widget that
    has the name of the slot's old widget, or the old widget when the
    cache has none of that name. A widget that carried the selected flag
    is not deallocated by the pass. If it is in the selection and the cache
    has a widget of its name, so that its slot goes to the new instance,
    the data of the old instance is freed exactly once (line 315) and the
    record left in memory is the old one with its operator properties
    gone; if not, the widget stays as it was and its data is not freed. *)
Theorem update_selection_follows_names (w : world) :
  update_wf (st w) -> active_widget (st w) = None ->
  widgetgroups (st w) <> [] ->
  exists w' c,
    WM_widgetmap_widgets_update E w = Some (tt, w') /\
    draw_widgets (st w') = Some c /\
    length (selection (st w')) = length (selection (st w)) /\
    (forall (j : nat) p x,
       selection (st w) !! j = Some (Some p) -> heap (st w) !! p = Some x ->
       selection (st w') !! j = Some (Some (default p (c !! idname x)))) /\
    (forall p x, heap (st w) !! p = Some x ->
       has_flag (flag x) WM_WIDGET_SELECTED = true ->
       (Some p ∈ selection (st w) /\ is_Some (c !! idname x) ->
          heap (st w') !! p = Some (data_freed x) /\
          times_data_freed p (new_events w w') = 1%nat) /\
       (~ (Some p ∈ selection (st w) /\ is_Some (c !! idname x)) ->
          heap (st w') !! p = Some x /\
          times_data_freed p (new_events w w') = 0%nat)).
Proof.
  intros Hwf Hact Hgs.
  destruct (update_regenerated_full E w Hwf Hact Hgs)
    as (w' & c & Hrun & Hc & _ & _ & Htot & _ & Hsel & _ & Hrecon).
  exists w', c. split; [exact Hrun|]. split; [exact Hc|].
  destruct Hwf as (_ & (Hrange & Hlen & _) & _).
  split; [|split; [|exact Hrecon]]; unfold selection; rewrite Htot.
  - destruct (selected_widgets (st w)) as [arr0|] eqn:Harr0.
    + destruct Hsel as (arr' & Harr' & Hlen' & Hslots). rewrite Harr'. simpl in *.
      by rewrite !length_take, Hlen'.
    + rewrite Hsel. simpl. by rewrite !take_nil.
  - destruct (selected_widgets (st w)) as [arr0|] eqn:Harr0.
    + destruct Hsel as (arr' & Harr' & Hlen' & Hslots). rewrite Harr'. simpl in *.
      intros j p x Hj Hx.
      assert (Hjt : (j < Z.to_nat (tot_selected (st w)))%nat).
      { apply lookup_lt_Some in Hj. rewrite length_take in Hj. lia. }
      rewrite lookup_take_lt in Hj |- * by done.
      by eapply Hslots.
    + simpl. rewrite take_nil. intros j p x Hj. by rewrite lookup_nil in Hj.
Qed.

End UpdateSelection.
(** *** The further properties at work *)

Import Cases.

Ltac heap2 H :=
  apply lookup_insert_Some in H as [[<- <-]|[_ H]];
  [|apply lookup_singleton_Some in H as [<- <-]].

Lemma picked_selection_wf : selection_wf picked.
Proof.
  split; [simpl; lia|]. split; [simpl; lia|].
  intros q Hq. apply list_elem_of_singleton in Hq as ->.
  exists 1%positive. split; [done|]. by eexists.
Qed.

Lemma picked_highlight_wf : highlight_wf picked.
Proof. intros h [= <-]. by eexists. Qed.

Lemma picked_highlight_inv : highlight_inv picked.
Proof.
  intros p x Hp. unfold picked in Hp. cbn [heap] in Hp. heap2 Hp; done.
Qed.

Lemma picked_context_inv : context_inv picked.
Proof.
  split; [|split; [apply picked_highlight_wf|]].
  - split; [apply picked_selection_wf|]. split; [apply NoDup_singleton|].
    intros p x Hp. unfold picked in Hp. cbn [heap] in Hp. heap2 Hp.
    + split; [done|]. intros _. by apply list_elem_of_singleton.
    + split; [|done]. intros Hin. apply list_elem_of_singleton in Hin. by inversion Hin.
  - intros p q x y Hp Hq. unfold picked in Hp, Hq. cbn [heap] in Hp, Hq.
    heap2 Hp; heap2 Hq; done.
Qed.

Lemma picked_slots_consistent : slots_consistent picked.
Proof.
  split; [apply picked_highlight_wf|]. split; [apply picked_highlight_inv|].
  split; [intros a Ha; discriminate|].
  intros p x Hp. unfold picked in Hp. cbn [heap] in Hp. heap2 Hp; done.
Qed.

Lemma picked_live (p : ptr) :
  p ∈ [1%positive; 2%positive] -> is_Some (heap picked !! p).
Proof.
  intros Hp. apply elem_of_cons in Hp as [->|Hp]; [by eexists|].
  apply list_elem_of_singleton in Hp as ->. by eexists.
Qed.

Lemma picked_groups_wf : groups_wf picked.
Proof.
  split; [|exact picked_live].
  apply NoDup_cons. split; [|apply NoDup_singleton].
  intros Hin. apply list_elem_of_singleton in Hin. discriminate.
Qed.

Lemma set_highlighted_moves_flag_witness :
  exists s' evs,
    wm_widgetmap_set_highlighted_widget quiet true (Some 1%positive) 5
      (World picked []) = Some (tt, World s' evs) /\
    highlighted_widget s' = Some 1%positive /\ highlight_inv s'.
Proof.
  destruct (set_highlighted_moves_flag quiet true (World picked []) (Some 1%positive) 5)
    as (s' & evs & H1 & H2 & _ & H3 & _).
  - exact picked_highlight_wf.
  - exact picked_highlight_inv.
  - intros p [= <-]. by eexists.
  - exists s', evs. split; [exact H1|]. split; [exact H2|exact H3].
Defined.

Lemma set_active_none_deactivates_witness :
  exists w',
    wm_widgetmap_set_active_widget quiet None operator_active = Some (tt, w') /\
    active_widget (st w') = None.
Proof.
  destruct (set_active_none_deactivates quiet operator_active) as (w' & H1 & H2 & _).
  - intros a [= <-]. by eexists.
  - exists w'. split; [exact H1|exact H2].
Defined.

Lemma set_active_direct_witness :
  exists w',
    wm_widgetmap_set_active_widget quiet (Some 1%positive) (direct_idle true) =
      Some (tt, w') /\
    active_widget (st w') = Some 1%positive /\
    trace w' = [EvInvoke 1%positive].
Proof.
  destruct (set_active_direct quiet (direct_idle true) 1%positive (direct_widget true))
    as (w' & H1 & H2).
  - reflexivity.
  - reflexivity.
  - exists w'. split; [exact H1|]. simpl in H2. destruct H2 as (_ & H2 & H3).
    split; [exact H2|exact H3].
Defined.

Lemma deselect_all_clears_witness :
  exists s',
    wm_widgetmap_deselect_all (one_selected "Y") = Some (true, World s' []) /\
    selected_widgets s' = None /\ tot_selected s' = 0.
Proof.
  destruct (deselect_all_clears (one_selected "Y")) as (s' & H1 & _ & H2 & _).
  - apply one_selected_wf.
  - exists s'. split; [exact H1|]. by apply H2.
Defined.

Lemma select_invoke_click_witness :
  exists s' t',
    widget_select_invoke quiet ret_codes false false false [picked] [] =
      Some (4, [s'], t') /\
    selection s' = [Some 2%positive].
Proof.
  destruct (select_invoke_click quiet ret_codes picked [] [] 2%positive)
    as (s' & t' & H1 & _ & H2 & _).
  - apply quiet_select_cb_frame.
  - apply picked_context_inv.
  - apply picked_highlight_wf.
  - reflexivity.
  - exists s', t'. split; [exact H1|exact H2].
Defined.

Lemma select_invoke_nothing_highlighted_witness :
  exists s',
    widget_select_invoke quiet ret_codes false false false
      [st (one_selected "Y")] [] = Some (10, [s'], []) /\
    selection s' = [].
Proof.
  destruct (select_invoke_nothing_highlighted quiet ret_codes false false false
              (st (one_selected "Y")) [] []) as (_ & s' & H1 & H2).
  - apply one_selected_wf.
  - reflexivity.
  - exists s'. split; [exact H1|]. simpl in H2. apply H2.
Defined.

Lemma deselect_removes_witness :
  exists s',
    wm_widget_deselect 1%positive (one_selected "Y") =
      Some (tt, World s' [EvTagRedraw]) /\
    tot_selected s' = 0 /\ selection s' = [].
Proof.
  destruct (deselect_removes (one_selected "Y") 1%positive (widget "X" 4 0) 0)
    as (s' & H1 & H2 & H3 & _).
  - apply one_selected_wf.
  - reflexivity.
  - reflexivity.
  - intros j q y Hj. lia.
  - exists s'. split; [exact H1|]. split; [exact H2|exact H3].
Defined.

Lemma select_invoke_keeps_context_witness :
  exists s' t',
    widget_select_invoke quiet ret_codes false false true [picked] [] =
      Some (4, [s'], t') /\
    context_inv s' /\ Some 2%positive ∈ selection s' /\ Some 1%positive ∈ selection s'.
Proof.
  destruct (select_invoke_keeps_context quiet ret_codes false false true picked [] [] 2%positive)
    as (s' & t' & H1 & H2 & _ & H3 & H4).
  - apply quiet_select_cb_frame.
  - apply picked_context_inv.
  - simpl. lia.
  - reflexivity.
  - exists s', t'. split; [exact H1|]. split; [exact H2|]. split.
    + apply H3. intros Hin. apply list_elem_of_singleton in Hin. discriminate.
    + apply H4; [done|]. split; [by apply list_elem_of_singleton|]. right. by right.
Defined.

Lemma scene_live (p : ptr) :
  p ∈ polled_widgets quiet (widgetgroups scene) -> is_Some (heap scene !! p).
Proof.
  intros Hp. change (p ∈ [1%positive; 2%positive]) in Hp.
  apply elem_of_cons in Hp as [->|Hp]; [by eexists|].
  apply list_elem_of_singleton in Hp as ->. by eexists.
Qed.

Lemma scene_highlight_wf : highlight_wf scene.
Proof. intros h [= <-]. by eexists. Qed.

Lemma prepare_visible_reversed_witness :
  wm_prepare_visible_widgets_3D quiet scene = Some [1%positive].
Proof.
  rewrite (prepare_visible_reversed quiet scene); [reflexivity|].
  exact scene_live.
Defined.

Lemma selection_id_roundtrip_witness :
  decode_hit [1%positive; 2%positive] (Z.lor 256 3) = Some (Some 2%positive, 3).
Proof.
  apply (selection_id_roundtrip [1%positive; 2%positive] 1 2%positive 256 3).
  - simpl. lia.
  - lia.
  - reflexivity.
Defined.

Lemma find_highlighted_3D_sound_witness :
  1%positive ∈ polled_widgets quiet (widgetgroups scene) /\
  pickable (heap scene) 1%positive = true.
Proof.
  destruct (find_highlighted_3D_sound quiet one_hit scene (Cursor 100 100) 1%positive 0)
    as (H1 & H2 & _).
  - exact scene_live.
  - vm_compute. reflexivity.
  - split; [exact H1|exact H2].
Defined.

Lemma find_highlighted_first_hit_witness :
  exists r, wm_widget_find_highlighted quiet hits_second scene 0 = Some r /\
    r.1 <> Some 1%positive.
Proof.
  destruct (find_highlighted_first_hit quiet hits_second scene 0) as (r & H1 & H2).
  - exact scene_live.
  - exists r. split; [exact H1|].
    destruct r as [[p|] part']; [|done].
    destruct H2 as (l1 & l2 & _ & _ & (r0 & Hr & Hpart & Hne)). simpl. intros [= ->].
    vm_compute in Hr. inversion Hr; subst r0. apply Hne. rewrite Hpart. reflexivity.
Defined.

Lemma cursor_set_first_map_witness :
  WM_widgetmap_cursor_set quiet [picked; scene] [] = Some (true, [EvCursorSet 0]).
Proof.
  rewrite (cursor_set_first_map quiet [picked; scene] []); [reflexivity|].
  repeat constructor; [exact picked_highlight_wf|exact scene_highlight_wf].
Defined.

Lemma group_free_clears_slots_witness :
  exists s' evs,
    wm_widgetgroup_free quiet true
      (group_of None None [1%positive; 2%positive]) (World picked []) =
      Some (tt, World s' evs) /\
    heap s' !! 2%positive = None /\ highlighted_widget s' = None /\
    widgetgroups s' = [].
Proof.
  destruct (group_free_clears_slots quiet true (World picked [])
              (group_of None None [1%positive; 2%positive]))
    as (s' & evs & H1 & H2 & _ & H3 & _ & _ & H4 & _).
  - exact picked_slots_consistent.
  - apply picked_groups_wf.
  - exact picked_live.
  - exists s', evs. split; [exact H1|]. split; [by rewrite H2|].
    split; [by rewrite H3|by rewrite H4].
Defined.

Lemma widgetmap_delete_frees_listed_witness :
  exists s' evs,
    WM_widgetmap_delete (World picked []) = Some (tt, World s' evs) /\
    heap s' !! 1%positive = None /\ times_freed 1%positive evs = 1%nat.
Proof.
  destruct (widgetmap_delete_frees_listed (World picked []))
    as (s' & evs & H1 & H2 & H3 & _).
  - exact picked_groups_wf.
  - exists s', evs. split; [exact H1|]. split; [by rewrite H2|by rewrite H3].
Defined.

Lemma operator_active_wf : active_wf (st operator_active).
Proof. intros a [= <-]. by eexists. Qed.

Lemma tweak_modal_ends_inactive_witness :
  exists w',
    widget_tweak_modal quiet ret_codes event_codes still tweaking release
      operator_active = Some ((4, None, release), w') /\
    active_widget (st w') = None.
Proof.
  destruct (tweak_modal_ends_inactive quiet ret_codes event_codes still tweaking
              release operator_active 1%positive) as [H _].
  - reflexivity.
  - exact operator_active_wf.
  - destruct H as (w' & _ & H1 & H2); [reflexivity|].
    exists w'. split; [exact H1|exact H2].
Defined.

Lemma tweak_modal_passes_on_witness :
  widget_tweak_modal quiet ret_codes event_codes still tweaking mousemove
    operator_active =
  Some ((8, Some tweaking, Event 21 0), operator_active).
Proof.
  apply (tweak_modal_passes_on quiet ret_codes event_codes still tweaking mousemove
           operator_active 1%positive (operator_widget true 2 (Some 7))).
  - reflexivity.
  - reflexivity.
  - reflexivity.
  - reflexivity.
Defined.

Lemma tweak_invoke_first_highlighted_witness :
  widget_tweak_invoke quiet ret_codes still release [empty_map] [] =
    Some (10, None, [empty_map], []) /\
  widget_tweak_invoke quiet ret_codes still release
    [empty_map; direct_highlighted; empty_map] [] =
    Some (1, Some tweaking,
          [empty_map;
           dispatcher_entry quiet 1%positive (direct_widget true) direct_highlighted;
           empty_map],
          [EvInvoke 1%positive]).
Proof.
  destruct (tweak_invoke_first_highlighted quiet ret_codes still release
              [empty_map] [empty_map] direct_highlighted
              (dispatcher_entry quiet 1%positive (direct_widget true) direct_highlighted)
              [] [EvInvoke 1%positive] 1%positive
              (set_flag (flag_enable 0 WM_WIDGET_ACTIVE) (direct_widget true)))
    as [H1 H2].
  - repeat constructor.
  - reflexivity.
  - reflexivity.
  - reflexivity.
  - reflexivity.
  - split; [by apply H1|exact H2].
Defined.

Lemma modal_update_deactivates_witness :
  exists maps' t',
    wm_widget_handler_modal_update quiet still None release
      (Some [st operator_active; empty_map]) [] = Some (Some maps', t') /\
    Forall (fun wmap => active_widget wmap = None) maps'.
Proof.
  destruct (modal_update_deactivates quiet still release
              [st operator_active; empty_map] []) as (_ & maps' & t' & H1 & H2 & _).
  - repeat constructor; [exact operator_active_wf|intros a Ha; discriminate].
  - exists maps', t'. split; [exact H1|exact H2].
Defined.

Lemma update_active_regenerates_nothing_witness :
  exists s',
    WM_widgetmap_widgets_update quiet active_unpolled = Some (tt, World s' []) /\
    widgetgroups s' = widgetgroups (st active_unpolled) /\
    draw_widgets s' = Some {[ "X" := 1%positive ]}.
Proof.
  destruct (update_active_regenerates_nothing quiet active_unpolled 1%positive
              (widget "X" 0 0)) as (s' & H1 & H2 & _ & _ & _ & _ & _ & _ & H3).
  - reflexivity.
  - reflexivity.
  - exists s'. split; [exact H1|]. split; [exact H2|]. simpl in H3. apply H3.
Defined.

Lemma selectables_live (p : ptr) :
  p ∈ polled_widgets quiet (widgetgroups selectables) -> is_Some (heap selectables !! p).
Proof.
  intros Hp. change (p ∈ [1%positive; 2%positive; 3%positive]) in Hp.
  apply elem_of_cons in Hp as [->|Hp]; [by eexists|].
  apply elem_of_cons in Hp as [->|Hp]; [by eexists|].
  apply list_elem_of_singleton in Hp as ->. by eexists.
Qed.

Lemma selectables_collected :
  selectable_widgets quiet sels selectables = [1%positive; 3%positive].
Proof. reflexivity. Qed.

Lemma sels_iter_permutation (l : list (string * ptr)) : ghash_iter sels l ≡ₚ l.
Proof. apply reverse_Permutation. Qed.

Lemma select_all_selects_selectable_witness :
  exists s' t',
    WM_widgetmap_select_all quiet sels 1 (World selectables []) =
      Some (true, World s' t') /\
    tot_selected s' = 2 /\ last t' = Some EvAddMousemove.
Proof.
  destruct (select_all_selects_selectable quiet sels selectables [])
    as (s' & t' & changed & arr & H1 & H2 & _ & _ & _ & _ & H3 & H4).
  - exact sels_iter_permutation.
  - exact quiet_select_cb_frame.
  - exact selectables_live.
  - intros h Hh. discriminate.
  - rewrite selectables_collected. discriminate.
  - rewrite selectables_collected. simpl. lia.
  - assert (Hc : changed = true).
    { apply H3. exists 1%positive, (widget "X" 256 0).
      rewrite selectables_collected. split; [apply list_elem_of_here|]. split; reflexivity. }
    subst changed. exists s', t'. split; [exact H1|]. split; [|by apply H4].
    rewrite H2, selectables_collected. reflexivity.
Defined.

Lemma select_all_then_deselect_all_witness :
  exists changed w1 s2,
    WM_widgetmap_select_all quiet sels 1 (World selectables []) = Some (changed, w1) /\
    WM_widgetmap_select_all quiet sels 2 w1 =
      Some (true, World s2 (trace w1 ++ [EvAddMousemove])) /\
    selected_widgets s2 = None /\ tot_selected s2 = 0.
Proof.
  destruct (select_all_then_deselect_all quiet sels selectables [])
    as (changed & w1 & s2 & H1 & H2 & H3 & H4 & _).
  - discriminate.
  - exact sels_iter_permutation.
  - exact quiet_select_cb_frame.
  - exact selectables_live.
  - intros h Hh. discriminate.
  - rewrite selectables_collected. discriminate.
  - rewrite selectables_collected. simpl. lia.
  - exists changed, w1, s2. split; [exact H1|]. split; [exact H2|].
    split; [exact H3|exact H4].
Defined.

Lemma selected_matched_wf : update_wf (st selected_matched).
Proof.
  split; [|split; [|split; [|split; [|split]]]].
  - split; [apply NoDup_singleton|].
    intros p Hp. apply list_elem_of_singleton in Hp as ->. by eexists.
  - split; [simpl; lia|]. split; [simpl; lia|].
    intros q Hq. apply list_elem_of_singleton in Hq as ->.
    exists 1%positive. split; [done|]. by eexists.
  - apply NoDup_singleton.
  - intros q Hq. apply list_elem_of_singleton in Hq as ->.
    by exists 1%positive, (set_opptr (Some 9) (widget "X" 4 0)).
  - intros a Ha. discriminate.
  - done.
Qed.

Lemma update_selection_follows_names_witness :
  exists w' c,
    WM_widgetmap_widgets_update quiet selected_matched = Some (tt, w') /\
    draw_widgets (st w') = Some c /\
    is_Some (c !! "X") /\
    selection (st w') !! 0%nat = Some (Some (default 1%positive (c !! "X"))) /\
    heap (st w') !! 1%positive = Some (widget "X" 4 0) /\
    times_data_freed 1%positive (new_events selected_matched w') = 1%nat.
Proof.
  destruct (update_selection_follows_names quiet selected_matched)
    as (w' & c & H1 & H2 & _ & H3 & H4).
  - exact selected_matched_wf.
  - reflexivity.
  - discriminate.
  - assert (Hc : is_Some (c !! "X")).
    { assert (Hw := H1). vm_compute in Hw. inversion Hw as [Hw']. clear Hw.
      rewrite <- Hw' in H2. vm_compute in H2. inversion H2. by eexists. }
    exists w', c. split; [exact H1|]. split; [exact H2|]. split; [exact Hc|]. split.
    + apply (H3 0%nat 1%positive (set_opptr (Some 9) (widget "X" 4 0))); reflexivity.
    + apply (H4 1%positive (set_opptr (Some 9) (widget "X" 4 0)));
        [reflexivity|reflexivity|].
      split; [|exact Hc]. apply list_elem_of_here.
Defined.
End WMFacts.
